(* ===== verification/_CoqProject ===== *)
-Q . S2P
Prelude.v
PyJson.v
Signals.v
Reversion.v
RateLimiter.v
Venue.v
Poller.v
Clock.v
Legacy.v
BinStats.v
Simulator.v
Storage.v
Fanout.v
Panel.v
Runner.v
Depth.v
Iteration.v
Session.v
Config.v
Main.v
