(* ===== verification/Prelude.v ===== *)
(** * Verification development of the cross-venue spread monitor ([src/arb])

    ** The program

    [runner_reminder.py] runs one long-lived task per configured pair
    ([main]).  Each task ([poll_pair_with_store]) loops: it reads both
    legs' mid-prices through the venue connectors ([connectors/]), whose
    calls are shaped by a per-venue token-bucket limiter
    ([rate_limiter.py]); it feeds the spread to a rolling z-score and an
    EMA ([signal/zscore.py]); it decides an action, flags stale samples,
    enriches the sample with order-book, volume, fee and funding data and
    an AR(1) reversion estimate ([estimate_reversion_times]); it writes
    the row to SQLite ([storage/sqlite.py]) and optionally posts it to the
    panel ([panel/server.py]), which stores it again and broadcasts it to
    the pair's WebSocket subscribers.  The panel also answers queries:
    bin statistics of reversion times, an execution-cost simulator, the
    latest rows, and the admin rate-limit configuration.

    ** Files, in dependency order

    - [Prelude]: Python's exceptions ([PyExc]) and the result monad [res]
      with [let*]; floats as exact rationals [Q] (rounding is not
      modelled), [round], [int], slicing; [math.sqrt] / [math.log] as the
      interface [PyMath] with law classes [SqrtLaws], [LogProper] and two
      executable instances; shared lemmas, the [qcase] tactics, hint
      databases [py] and [py_rw].
    - [PyJson]: decoded JSON documents and the Python operations the
      code applies to them ([dict.get], [items()], indexing, slicing,
      iteration, truthiness, [int()] and [float()] of numbers and decimal
      strings, [str()] of strings, [None], booleans and integers).  Objects are association lists with distinct keys, as a
      decoded [dict] has.
    - [Signals]: [ZScore] ([RollingZScore]: [init], [update] with the
      deque of [maxlen = window]) and [Ema] ([EMA]: [init], [update]).
      [ZScoreTheory]: well-formedness, the window equals the last [w]
      inputs, the z/mean/std relations, the Samuelson bound
      [|z| <= (n-1)/sqrt n] and its consequence for windows <= 5, spec
      example 4.  [EmaTheory]: convexity of the EMA, the exact W=4 run.
    - [Reversion]: [estimate_reversion_times] with every [return None],
      the [ZeroDivisionError] paths and the catch-all [except];
      theorems: the result on every branch (when it gives up, the
      half-life and the time to exit otherwise), scenario S3, zero poll
      period.
    - [RateLimiter]: [Bucket] ([TokenBucket]; [consume] takes the clock
      reading at entry and the readings after each sleep, so the wait
      loop is structural on that list, [None] meaning that the coroutine
      is still waiting when the readings run out; the lock is modelled by
      serialised requests in [run]).  [Limiter] ([RateLimiter]: a heap of
      bucket objects and a dict of references, so that a waiter keeps the
      object [update] replaced; [update] reads the decoded JSON config
      with [items()], [get], [int()] and [float()]).  Theorems: tokens
      stay in [[0, C]], at most [C + R * elapsed] weight is granted, one
      sleep suffices, a weight above capacity never returns, the limiter
      invariant, waiters on replaced buckets, partial updates on
      conversion errors, and the refinement of [update] against its
      contract: the view (key to bucket) overridden by the parsed
      entries, or the first conversion error.  [run_allow] serves a
      sequence of [allow] calls from any tasks; projected on one bucket
      object it is a run of that bucket, which bounds the weight granted
      from each bucket under every interleaving.
    - [Venue]: the result records the poller consumes, and every read
      method of [LighterConnector] and [AsterConnector] on the decoded
      answer, with the rate-limiter token it takes first ([Limiter.allow]
      on the shared limiter; the methods that skip the limiter take
      none).  [VenueTheory]: both adapters meet the spec's order-book
      summary contract on two-sided books, Lighter's mid-price contract,
      their divergence on an empty book, and the bounds of Lighter's
      approximated next funding time.
    - [Poller]: [tick] is one iteration of the loop of
      [poll_pair_with_store] on the state [{zs; ema_st}], with the
      connector answers and clock readings of the iteration as input
      [TickIO] and the logged action (printed after the enrichment, so
      none when the enrichment raises), stored row, posted payload and
      caught exception as output; [poll_loop] runs ticks in sequence.
      Theorems: sample invariants (spec 1-3), action rule, timestamp
      ordering under a monotonic clock, error paths (mid-price failure,
      enrichment failure), funding advice and its truncation, S1 and S2.
    - [Clock]: [now_ms] of [models.py] on a wall-clock reading in
      seconds, and the readings the [timed] wrappers of an iteration
      take from the stream of wall-clock readings, [t0] before and [t1]
      after each call, in each order [asyncio.gather] can run them
      ([Schedule], [gather_readings]).  Theorems: [now_ms] is monotone
      and within a millisecond of [1000 t]; a wall clock that never
      steps back yields the [clock_monotone] readings the poller's
      ordering theorem assumes.
    - [Legacy]: the legacy loop [poll_pair], which [main] no longer
      starts, over its mid-price reads.  Theorem: [poll_pair_with_store]
      refines it (the same z-score windows; the same logged action, or
      [hold] on a stale sample, at the iterations whose enrichment
      returns, and none at the others).
    - [BinStats]: [_parse_edges] and [api_stats_bins]; the [while i < n]
      loop is [bin_step] iterated by [bin_loop] with fuel.  Theorems: the
      loop never finishes when an entry is already within the exit band
      (for every fuel), it finishes within [length rows] iterations when
      every lower edge is above [exit_z], percentile index bounds and
      rounding, spec example 10.
    - [Simulator]: [_avg_exec_price] and [api_simulate]; fill quantity,
      average-price bounds, scenario S4, invalid pattern.
    - [Storage]: the [spreads] table as its column list and rows, the
      admin row, [open_db], [ensure_schema], [insert_spread],
      [get_spreads], [get_latest_all], admin get/set with [json] as the
      interface [JsonCodec].  Theorems: self-migration (spec 9), inserted
      values, newest-first answers, the write/read round trip of a
      sample, reads failing after any sequence of calls on a new file
      exactly until the first insert ([DbCall], [db_calls]), duplicate
      latest rows, the admin round trip.
    - [Fanout]: [WSManager] over stdpp's [gmap string (gset nat)];
      [broadcast] iterates a snapshot and runs, before each send, the
      connect/disconnect events of the interleaved tasks; [ingest_spread]
      validates, converts ([float()] and [int()] of numbers and numeric
      strings), calls [Store.insert_spread] and broadcasts.
      Theorems: snapshot semantics under interleaving, spec property 8,
      dropping failed subscribers, ingest as insert-then-broadcast, and
      its validation errors.
    - [Panel]: [app.state] as the record [App]; [on_startup] (the
      [ValueError] of [load_config], the limiter built from the admin
      row, the market-map prefetch waiting on the limiter), the admin [GET]/[POST] over [Storage]'s admin row and
      [Limiter.update], [api_spreads], [get_pairs] (SQLite's
      [DISTINCT ... ORDER BY] on column values), [api_pairs],
      [api_latest] and [health].
      Theorems: a stored payload that does not convert makes every later
      startup fail, the running and the restarted limiters differ on keys
      the payload omits, scenario S6, the [/api/spreads] answer (clamped
      limit, oldest first) and the order and content of [get_pairs].
    - [Runner]: [main]'s shared limiter, tuned from the panel's admin
      answer with the update's exception swallowed ([main_limiter]), and
      the Lighter market-id resolution ([resolve_pairs]).  Theorems: the
      runner and the panel run different limits without a stored row; on
      a stored row they agree when it converts, and otherwise the panel
      cannot start while the runner runs half-configured; a Lighter leg
      left unresolved makes every iteration of its task fail without
      effect.
    - [Depth]: [api_depth] on the panel state, with the market-id
      resolution that writes into the dictionaries of [app.state.cfg]
      (modelled as the configuration after the write, the legs being
      distinct objects of the tree [load_config] builds), the venues'
      level answers as functions of the requested market id or symbol
      ([BookService]), and the same writes at the start of
      [api_simulate] ([simulate_resolve]).
      Theorems: a repeated depth request changes nothing more and
      answers the same; an unresolved second leg answers 400 but keeps
      the first leg's write; a depth request answers the same after a
      simulate request wrote into the configuration.
    - [Iteration]: one iteration of [poll_pair_with_store] making its
      connector calls: each method of [Venue] runs on the limiter and
      Lighter's [_books_cache], shared by every pair task in the record
      [Env], and each call that takes a token is recorded; [tick] then
      runs on the results.  [run_iterations] interleaves iterations of
      any tasks in any order.  Theorems: every run of iterations is a run
      of [allow] calls, so the number of iterations of pairs polling a
      venue is bounded by that venue's global bucket (end to end), and
      the Lighter extras take one token for two requests while the
      Lighter funding read takes none.
    - [Session]: [Connector.session]/[Connector.close] of
      [connectors/base.py] and the [async with] sessions of the level
      and stats methods, on a store of the sessions' [closed] flags and
      each connector's [_session], as the step relation [step] with
      [reachable] states; the panel's [on_shutdown].  Theorems:
      [session()] returns an open session, no reachable state has an
      open session outside a connector's [_session] (rule induction),
      and [on_shutdown] closes every session.
    - [Config]: [load_config] over an explicit environment ([Env], an
      association list), [_to_int], the credential getters of
      [credentials.py] (with [MissingCredentials]), [build_pairs], the
      settings [main] reads and the locals [poll_pair_with_store] sets
      before and reads in its loop.  [ConfigSpec] states what the getters
      promise.  Theorems: [load_config] raises only [ValueError] on a
      malformed [DEPTH_LEVELS]; [_to_int]'s empty-string guard is
      redundant; the getters refine their specifications (and raise
      [ValueError] with every credential set when [DEPTH_LEVELS] is
      malformed); the configured pair and its market-id resolution; the
      panel's startup raising the same [ValueError].
    - [Main]: the composition root as a whole.  [build_connectors] over
      [Connector.__init__] and the two constructors; [main_start] is
      [main] up to [asyncio.gather] (configuration, the tuned limiter,
      connectors, pairs, settings, the market-map discovery [discover]
      taking one token on the shared limiter and filling Lighter's
      cache, the resolution of the pairs, [open_db], one window per
      pair); [run_tasks] runs the gathered tasks, each with its own
      [PollState], one iteration per turn of the event loop on the shared
      [Iteration.Env]; [run_tasks_db] is the same run threading the
      database: each stored sample is written by [store_sample]
      ([insert_spread] with the keyword values [sample_extras] collects),
      and an insert that raises is the iteration's exception
      ([iterate_db]); [main] composes them.  Theorems: what [main] holds
      at [gather] on every configuration [load_config] accepts (the pair
      resolved from the discovered map, the hosts, the Aster host
      without its trailing slashes, stated independently of
      [rstrip_slash]), and its [ValueError] otherwise; the discovery's
      answer serves the tasks' fee lookups; one malformed
      order book leaves every Lighter leg unresolved; and the whole
      program's Lighter requests, the discovery's included, are bounded
      by the bucket the panel configured; the database [main] leaves
      holds the rows it opened with followed by one row per stored
      sample, in the order of the iterations ([main_stores_samples]).

    ** Bounds and fuel

    The only fuel is [bin_loop]'s: the termination theorem of
    [BinsTheory] shows that [length rows] iterations per bin are enough
    when every lower edge is above [exit_z], and the non-termination
    theorem that no fuel is enough otherwise.  The token bucket's wait
    loop consumes clock readings instead of fuel; [BucketTheory] shows
    that one reading is enough when the clock honours the sleep.  Python integers are unbounded
    ([Z]); floats are exact rationals, so results that depend on
    floating-point rounding are outside the model.

    ** Not modelled

    The HTTP exchanges of the connectors (their decoded answers and the
    clock readings are inputs of [Iteration], [Depth] and [Venue]), the
    lighter SDK clients the Lighter constructor builds (objects of an
    external library), the path of the database file and the closing of
    its connection (the database is the [Store.Db] value [open_db]
    changes), the console log, the JSON text of
    the admin row ([json.dumps]/[json.loads] are the interface
    [JsonCodec]; the theorems assume only the round trip of the stored
    payload), the wall clock itself ([time.time()] readings are inputs
    of [Clock]), and the scheduler beyond the interleavings written out
    in [Fanout], [Session], [RateLimiter.run_allow],
    [Iteration.run_iterations] and [Main.run_tasks]: each iteration of a
    task is one atomic turn there, while the real tasks interleave at
    every [await]; the bounds proved count tokens per [allow] call and
    hold under any order of those calls.  Likewise [Session]'s
    [with_session] opens and closes its session in one step.  [int()]
    of a string accepts a sign and decimal digits within blanks; its
    underscores, and the strings [inf] and [nan] of [float()], are
    outside the model.  [str()] of a float, a list or a dict (Python's
    [repr]) is not modelled: an integral JSON number stands for an
    integer.
    The abstract [Connector.get_mid_price] and the trading placeholders
    [create_order]/[cancel_order] of [connectors/base.py] have no body
    to model; the dataclasses [SpreadSample] and [ZScoreSignal] of
    [models.py] are imported but never used. *)

From Stdlib Require Import QArith Qminmax Qabs Qround Lqa ZArith Lia List Bool.
Import ListNotations.

Declare Scope py_scope.
Delimit Scope py_scope with py.

(** ** Python exceptions and the result monad

    The modelled code raises and catches a handful of exception classes;
    a fallible Python expression is a value of [res A]. *)

Inductive PyExc : Type :=
| ZeroDivisionError
| ValueError
| KeyError
| RuntimeError
| TypeError
| AttributeError
| IndexError
| OperationalError
| HTTPError
| MissingCredentials.

Inductive res (A : Type) : Type :=
| Ok (a : A)
| Err (e : PyExc).
Arguments Ok {A} a.
Arguments Err {A} e.

Definition res_bind {A B} (m : res A) (k : A -> res B) : res B :=
  match m with
  | Ok a => k a
  | Err e => Err e
  end.

Notation "'let*' x ':=' m 'in' k" := (res_bind m (fun x => k))
  (at level 66, x name, m at next level, right associativity) : py_scope.

(** [[f(x) for x in xs]] with the first exception propagated. *)
Fixpoint map_res {A B} (f : A -> res B) (xs : list A) : res (list B) :=
  match xs with
  | [] => Ok []
  | x :: r => res_bind (f x) (fun y => res_bind (map_res f r) (fun ys => Ok (y :: ys)))
  end.

(** [try: m except Exception: h] *)
Definition try_except {A} (m : res A) (h : PyExc -> A) : A :=
  match m with
  | Ok a => a
  | Err e => h e
  end.

(** ** Python floats as exact rationals

    A Python [float] is modelled by an exact rational [Q]: rounding of
    IEEE-754 doubles is not modelled.  Division raises
    [ZeroDivisionError] on a zero divisor, as Python does. *)

Open Scope Q_scope.

Definition qdiv (x y : Q) : res Q :=
  if Qeq_bool y 0 then Err ZeroDivisionError else Ok (x / y).

(** [x <= y] and [x < y] on floats. *)
Definition qleb (x y : Q) : bool := Qle_bool x y.
Definition qltb (x y : Q) : bool := negb (Qle_bool y x).

(** [abs(x)] on a float. *)
Definition qabs (x : Q) : Q := Qabs x.

(** [sum(xs)] *)
Definition qsum (xs : list Q) : Q := fold_right Qplus 0 xs.

(** [round(x)] of Python 3: round half to even. *)
Definition py_round (x : Q) : Z :=
  let f := Qfloor x in
  let r := x - inject_Z f in
  if qltb r (1 # 2) then f
  else if qltb (1 # 2) r then (f + 1)%Z
  else if Z.even f then f else (f + 1)%Z.

(** [int(x)] of Python on a float: truncation toward zero. *)
Definition py_int (x : Q) : Z :=
  if qleb 0 x then Qfloor x else (- Qfloor (- x))%Z.

Close Scope Q_scope.

(** ** Python list slicing

    [l[:n]] keeps the first [n] items for [n >= 0] and drops the last
    [-n] items for [n < 0]. *)
Definition py_prefix {A} (n : Z) (l : list A) : list A :=
  if (0 <=? n)%Z then firstn (Z.to_nat n) l
  else firstn (length l - Z.to_nat (- n)) l.

(** The last [n] items of a list ([l[-n:]] for [n > 0]). *)
Definition lastn {A} (n : nat) (l : list A) : list A :=
  skipn (length l - n) l.

(** ** Python's [math] module

    [math.sqrt] and [math.log] are library functions the sources only
    call.  They are an interface: the components are defined against any
    implementation, and the theorems that depend on their behaviour
    assume the laws below (which the real functions satisfy on the
    arguments used).  [qmath] is an executable rational implementation
    used to run the models on concrete inputs. *)

Open Scope Q_scope.

Class PyMath : Type := {
  py_sqrt : Q -> Q;
  py_log : Q -> Q
}.

Class SqrtLaws (M : PyMath) : Prop := {
  sqrt_proper : forall x y, x == y -> py_sqrt x == py_sqrt y;
  sqrt_nonneg : forall x, 0 <= py_sqrt x;
  sqrt_pos : forall x, 0 < x -> 0 < py_sqrt x;
  sqrt_zero : py_sqrt 0 == 0
}.

(** Floor square root on rationals: exact on squares of rationals. *)
Definition qsqrt (x : Q) : Q :=
  let r := Qred x in
  Z.sqrt (Qnum r * Zpos (Qden r)) # Qden r.

(** [ln x = 2 atanh((x-1)/(x+1))], first six odd terms. *)
Definition qlog (x : Q) : Q :=
  let t := (x - 1) / (x + 1) in
  let t2 := t * t in
  2 * t * (1 + t2 * ((1 # 3) + t2 * ((1 # 5) + t2 * ((1 # 7) + t2 * ((1 # 9) + t2 * (1 # 11)))))).

Definition qmath : PyMath := {| py_sqrt := qsqrt; py_log := qlog |}.

(** [math.log] respects equality of its argument. *)
Class LogProper (M : PyMath) : Prop :=
  log_proper : forall x y, x == y -> py_log x == py_log y.

(** Logarithm in base 2, exact on dyadic rationals [2^k]: the formulas of
    the reversion estimator are ratios of logarithms, so they do not
    depend on the base, and this instance runs them exactly. *)
Definition qlog2 (x : Q) : Q :=
  let r := Qred x in inject_Z (Z.log2 (Qnum r)) - inject_Z (Z.log2 (Zpos (Qden r))).

Definition dyadic_math : PyMath := {| py_sqrt := qsqrt; py_log := qlog2 |}.

Close Scope Q_scope.

(** ** Lemmas on the Python primitives *)

Lemma res_bind_Ok {A B} (a : A) (k : A -> res B) : res_bind (Ok a) k = k a.
Proof. reflexivity. Qed.

Lemma res_bind_Err {A B} (e : PyExc) (k : A -> res B) : res_bind (Err e) k = Err e.
Proof. reflexivity. Qed.

Lemma res_bind_eq_Ok {A B} (m : res A) (k : A -> res B) b :
  res_bind m k = Ok b -> exists a, m = Ok a /\ k a = Ok b.
Proof. destruct m; simpl; [eauto | discriminate]. Qed.

Open Scope Q_scope.

Lemma qleb_iff x y : qleb x y = true <-> x <= y.
Proof. apply Qle_bool_iff. Qed.

Lemma qleb_false x y : qleb x y = false <-> y < x.
Proof.
  unfold qleb. split; intros H.
  - apply Qnot_le_lt. intros H'. apply Qle_bool_iff in H'. congruence.
  - destruct (Qle_bool x y) eqn:E; [|reflexivity].
    apply Qle_bool_iff in E. exfalso. apply (Qlt_not_le y x); assumption.
Qed.

Lemma qltb_iff x y : qltb x y = true <-> x < y.
Proof. unfold qltb. rewrite negb_true_iff. apply qleb_false. Qed.

Lemma qltb_false x y : qltb x y = false <-> y <= x.
Proof. unfold qltb. rewrite negb_false_iff. apply qleb_iff. Qed.

Lemma Qeq_bool_false x y : ~ x == y -> Qeq_bool x y = false.
Proof. intros H. destruct (Qeq_bool x y) eqn:E; [|reflexivity]. apply Qeq_bool_iff in E. contradiction. Qed.

Lemma qdiv_nonzero x y : ~ y == 0 -> qdiv x y = Ok (x / y).
Proof.
  intros H. unfold qdiv. destruct (Qeq_bool y 0) eqn:E; [|reflexivity].
  apply Qeq_bool_iff in E. contradiction.
Qed.

Lemma qdiv_zero x y : y == 0 -> qdiv x y = Err ZeroDivisionError.
Proof.
  intros H. unfold qdiv. destruct (Qeq_bool y 0) eqn:E; [reflexivity|].
  apply Qeq_bool_neq in E. contradiction.
Qed.

Lemma qsum_app xs ys : qsum (xs ++ ys) == qsum xs + qsum ys.
Proof.
  induction xs as [|x xs IH]; simpl.
  - lra.
  - rewrite IH. lra.
Qed.

Lemma qsum_map_nonneg {A} (f : A -> Q) (b : list A) :
  (forall x, In x b -> 0 <= f x) -> 0 <= qsum (map f b).
Proof.
  induction b as [|a b IH]; simpl; intros H; [lra|].
  assert (0 <= f a) by auto. assert (0 <= qsum (map f b)) by auto. lra.
Qed.

Lemma qsum_map_zero {A} (f : A -> Q) (b : list A) :
  (forall x, In x b -> f x == 0) -> qsum (map f b) == 0.
Proof.
  induction b as [|a b IH]; simpl; intros H; [reflexivity|].
  rewrite (H a (or_introl eq_refl)), IH by auto. reflexivity.
Qed.

(** A sum of non-negative terms is zero only if every term is. *)
Lemma qsum_map_zero_inv {A} (f : A -> Q) (b : list A) :
  (forall x, In x b -> 0 <= f x) -> qsum (map f b) == 0 ->
  forall x, In x b -> f x == 0.
Proof.
  induction b as [|a b IH]; simpl; intros Hnn Hs x Hx; [contradiction|].
  assert (0 <= f a) by auto.
  assert (0 <= qsum (map f b)) by (apply qsum_map_nonneg; auto).
  destruct Hx as [<-|Hx]; [lra|].
  apply IH; auto. lra.
Qed.

Lemma inject_Z_S n : inject_Z (Z.of_nat (S n)) == inject_Z (Z.of_nat n) + 1.
Proof. rewrite Nat2Z.inj_succ, <- Z.add_1_r, inject_Z_plus. reflexivity. Qed.

Lemma qsum_const (b : list Q) c :
  (forall x, In x b -> x == c) -> qsum b == inject_Z (Z.of_nat (length b)) * c.
Proof.
  induction b as [|a b IH]; intros H; [reflexivity|].
  change (qsum (a :: b)) with (a + qsum b).
  change (length (a :: b)) with (S (length b)).
  rewrite inject_Z_S, (H a (or_introl eq_refl)), IH by (intros; apply H; right; auto).
  ring.
Qed.

(** [nra] over [Q] does not find square terms on its own. *)
Lemma qsq_nonneg (y : Q) : 0 <= y * y.
Proof.
  destruct (Qlt_le_dec y 0) as [H|H].
  - setoid_replace (y * y) with ((- y) * (- y)) by ring.
    apply Qmult_le_0_compat; lra.
  - apply Qmult_le_0_compat; lra.
Qed.

Lemma Qdiv_zero_r x : x / 0 == 0.
Proof. unfold Qdiv. change (/ 0) with 0. ring. Qed.

Lemma qdiv_pos a c : 0 < a -> 0 < c -> 0 < a / c.
Proof. intros Ha Hc. apply Qlt_shift_div_l; [assumption|]. lra. Qed.

Lemma qdiv_nonneg a c : 0 <= a -> 0 < c -> 0 <= a / c.
Proof. intros Ha Hc. apply Qle_shift_div_l; [assumption|]. lra. Qed.

Lemma qdiv_eq_zero a c : 0 < c -> a / c == 0 -> a == 0.
Proof.
  intros Hc H. rewrite <- (Qmult_div_r a c) by (intro; lra).
  rewrite H. ring.
Qed.

Lemma inject_Z_pos z : (0 < z)%Z -> 0 < inject_Z z.
Proof. intros H. rewrite Zlt_Qlt in H. exact H. Qed.

Lemma qsum_map_sub (t : list Q) c :
  qsum (map (fun x => x - c) t) == qsum t - inject_Z (Z.of_nat (length t)) * c.
Proof.
  induction t as [|a t IH]; [simpl; ring|].
  change (qsum (map (fun x => x - c) (a :: t))) with ((a - c) + qsum (map (fun x => x - c) t)).
  change (qsum (a :: t)) with (a + qsum t).
  change (length (a :: t)) with (S (length t)).
  rewrite IH, inject_Z_S. ring.
Qed.

Lemma qsum_map_sq_shift (t : list Q) a :
  qsum (map (fun x => (a - x) * (a - x)) t) ==
  inject_Z (Z.of_nat (length t)) * (a * a) - 2 * a * qsum t + qsum (map (fun x => x * x) t).
Proof.
  induction t as [|c t IH]; [simpl; ring|].
  change (length (c :: t)) with (S (length t)). rewrite inject_Z_S. simpl.
  rewrite IH. ring.
Qed.

(** Cauchy-Schwarz for a sum: [(sum l)^2 <= len(l) * sum(x^2 for x in l)]. *)
Lemma qsum_sq_le (l : list Q) :
  qsum l * qsum l <= inject_Z (Z.of_nat (length l)) * qsum (map (fun x => x * x) l).
Proof.
  induction l as [|a t IH]; [simpl; lra|].
  change (length (a :: t)) with (S (length t)). rewrite inject_Z_S. simpl.
  pose proof (qsum_map_nonneg (fun x => (a - x) * (a - x)) t (fun x _ => qsq_nonneg (a - x))) as Hp.
  rewrite qsum_map_sq_shift in Hp.
  nra.
Qed.

Lemma qsqrt_nonneg x : 0 <= qsqrt x.
Proof.
  unfold qsqrt, Qle. simpl. rewrite Z.mul_1_r.
  apply Z.sqrt_nonneg.
Qed.

Lemma qsqrt_pos x : 0 < x -> 0 < qsqrt x.
Proof.
  intros H. rewrite <- (Qred_correct x) in H.
  unfold qsqrt, Qlt in *. simpl in *. rewrite Z.mul_1_r in *.
  apply Z.sqrt_pos. lia.
Qed.

(** [int(x)] of a non-negative float is its floor. *)
Lemma py_int_nonneg x :
  0 <= x -> (0 <= py_int x)%Z /\ inject_Z (py_int x) <= x /\ x < inject_Z (py_int x) + 1.
Proof.
  intros Hx. unfold py_int. rewrite (proj2 (qleb_iff 0 x) Hx).
  pose proof (Qfloor_le x) as A. pose proof (Qlt_floor x) as B.
  rewrite inject_Z_plus in B. change (inject_Z 1) with 1 in B.
  split; [|split; [exact A | exact B]].
  assert (C : (0 < Qfloor x + 1)%Z).
  { rewrite Zlt_Qlt, inject_Z_plus. change (inject_Z 1) with 1. change (inject_Z 0) with 0. lra. }
  lia.
Qed.

(** [int(x)] of an integral float is that integer. *)
Lemma py_int_inject_Z z : py_int (inject_Z z) = z.
Proof.
  unfold py_int. destruct (qleb 0 (inject_Z z)); [apply Qfloor_Z|].
  change (- inject_Z z) with (inject_Z (- z)). rewrite Qfloor_Z. lia.
Qed.

Close Scope Q_scope.

Lemma lastn_all {A} n (l : list A) : length l <= n -> lastn n l = l.
Proof.
  intros H. unfold lastn. replace (length l - n) with 0 by lia. reflexivity.
Qed.

Lemma lastn_length {A} n (l : list A) : length (lastn n l) = Nat.min n (length l).
Proof. unfold lastn. rewrite length_skipn. lia. Qed.

Lemma lastn_snoc_full {A} n (l : list A) x :
  length (lastn n l) = n -> lastn n (l ++ [x]) = skipn 1 (lastn n l ++ [x]).
Proof.
  intros H. rewrite lastn_length in H. unfold lastn.
  rewrite length_app. simpl.
  replace (length l + 1 - n) with (1 + (length l - n)) by lia.
  rewrite <- skipn_skipn. f_equal.
  rewrite skipn_app. replace (length l - n - length l) with 0 by lia.
  reflexivity.
Qed.

Lemma lastn_snoc_notfull {A} n (l : list A) x :
  length (lastn n l) < n -> lastn n (l ++ [x]) = lastn n l ++ [x].
Proof.
  intros H. rewrite lastn_length in H. unfold lastn.
  rewrite length_app. simpl.
  replace (length l + 1 - n) with 0 by lia.
  replace (length l - n) with 0 by lia. reflexivity.
Qed.

(** ** Tactics *)

(** Case analysis on a Python comparison, leaving the arithmetic fact. *)
Ltac qcase_on t :=
  let E := fresh "Hc" in
  lazymatch t with
  | qleb ?a ?b =>
      destruct (qleb a b) eqn:E;
      [apply qleb_iff in E | apply qleb_false in E]
  | qltb ?a ?b =>
      destruct (qltb a b) eqn:E;
      [apply qltb_iff in E | apply qltb_false in E]
  end.

Ltac qcase :=
  match goal with
  | |- context [qleb ?a ?b] => qcase_on (qleb a b)
  | |- context [qltb ?a ?b] => qcase_on (qltb a b)
  end.

#[export] Instance qmath_sqrt_laws : SqrtLaws qmath.
Proof.
  constructor; simpl.
  - intros x y Hxy. unfold qsqrt. rewrite (Qred_complete x y Hxy). reflexivity.
  - apply qsqrt_nonneg.
  - apply qsqrt_pos.
  - reflexivity.
Qed.

#[export] Instance dyadic_math_log_proper : LogProper dyadic_math.
Proof.
  intros x y Hxy. simpl. unfold qlog2. rewrite (Qred_complete x y Hxy). reflexivity.
Qed.

Create HintDb py.
Create Rewrite HintDb py_rw.
#[export] Hint Rewrite qleb_iff qltb_iff qleb_false qltb_false : py_rw.
#[export] Hint Rewrite @res_bind_Ok @res_bind_Err : py_rw.
#[export] Hint Resolve lastn_all qsum_map_nonneg qsq_nonneg : py.
