(* ===== verification/PyJson.v ===== *)
(** * Decoded JSON values and the Python operations the code applies
    to them

    A decoded JSON document ([await resp.json()], a request body, the
    admin row) is a [Json] value; objects are association lists with
    distinct keys, as a decoded [dict] has.  The code reads it with
    [dict.get], [items()], [x[k]], [x[i]], slicing, iteration,
    truthiness, [int()] and [float()]; each is a function here, raising
    the exception Python raises.  [float()] of a string accepts an optional
    sign, digits with an optional fraction and an optional exponent,
    surrounded by blanks, and [int()] a sign and digits; the spellings
    [inf], [nan] and digit underscores, which Python also accepts, are
    outside the model (they raise [ValueError] here). *)

From Stdlib Require Import DecimalString String Ascii QArith ZArith Lia List Bool.
From S2P Require Import Prelude.
Import ListNotations.

Open Scope py_scope.
Open Scope Z_scope.

Module PyJson.

Inductive Json : Type :=
| JNull
| JBool (b : bool)
| JNum (q : Q)
| JStr (s : string)
| JArr (l : list Json)
| JObj (kv : list (string * Json)).

(** [bool(x)] *)
Definition truthy (j : Json) : bool :=
  match j with
  | JNull => false
  | JBool b => b
  | JNum q => negb (Qeq_bool q 0%Q)
  | JStr s => negb (String.eqb s "")
  | JArr l => negb (match l with [] => true | _ => false end)
  | JObj kv => negb (match kv with [] => true | _ => false end)
  end.

Definition assoc (k : string) (kv : list (string * Json)) : option Json :=
  match find (fun p => String.eqb (fst p) k) kv with
  | Some (_, v) => Some v
  | None => None
  end.

(** [x.get(k, d)] *)
Definition dict_get (j : Json) (k : string) (d : Json) : res Json :=
  match j with
  | JObj kv => Ok (match assoc k kv with Some v => v | None => d end)
  | _ => Err AttributeError
  end.

(** [x[k]] with a string key *)
Definition get_key (j : Json) (k : string) : res Json :=
  match j with
  | JObj kv => match assoc k kv with Some v => Ok v | None => Err KeyError end
  | _ => Err TypeError
  end.

(** [x[i]] with a non-negative index *)
Definition get_idx (j : Json) (i : nat) : res Json :=
  match j with
  | JArr l => match nth_error l i with Some v => Ok v | None => Err IndexError end
  | JStr s => match String.get i s with Some c => Ok (JStr (String c EmptyString)) | None => Err IndexError end
  | JObj _ => Err KeyError
  | _ => Err TypeError
  end.

(** [x[:n]] of a list, [n >= 0] *)
Definition take (j : Json) (n : Z) : res (list Json) :=
  match j with
  | JArr l => Ok (py_prefix n l)
  | _ => Err TypeError
  end.

(** ** [float()] of a string *)

Definition is_blank (c : ascii) : bool :=
  existsb (Nat.eqb (nat_of_ascii c)) [9; 10; 11; 12; 13; 32]%nat.

Definition digit (c : ascii) : option Z :=
  let n := nat_of_ascii c in
  if (48 <=? n)%nat && (n <=? 57)%nat then Some (Z.of_nat (n - 48)) else None.

(** The longest run of digits: its value, its length and the rest. *)
Fixpoint digits (l : list ascii) (acc : Z) (k : nat) : Z * nat * list ascii :=
  match l with
  | c :: r => match digit c with Some d => digits r (acc * 10 + d) (S k) | None => (acc, k, l) end
  | [] => (acc, k, [])
  end.

Definition sign (l : list ascii) : Z * list ascii :=
  match l with
  | "-"%char :: r => (-1, r)
  | "+"%char :: r => (1, r)
  | _ => (1, l)
  end.

(** The exponent part: absent, or [e]/[E], an optional sign and at least
    one digit. *)
Definition exponent (l : list ascii) : option (Z * list ascii) :=
  match l with
  | c :: r =>
      if (Ascii.eqb c "e" || Ascii.eqb c "E")%char then
        let '(s, r1) := sign r in
        let '(e, k, r2) := digits r1 0 0 in
        if (k =? 0)%nat then None else Some (s * e, r2)
      else Some (0, l)
  | [] => Some (0, [])
  end.

Fixpoint drop_blanks (l : list ascii) : list ascii :=
  match l with
  | c :: r => if is_blank c then drop_blanks r else l
  | [] => []
  end.

(** [str.strip()] of the blanks [float()] ignores. *)
Definition strip (l : list ascii) : list ascii := rev (drop_blanks (rev (drop_blanks l))).

(** [10 ** e] for an integer exponent. *)
Definition pow10 (e : Z) : Q :=
  if 0 <=? e then inject_Z (10 ^ e) else Qinv (inject_Z (10 ^ (- e))).

(** [float(s)] for a string [s]. *)
Definition parse_float (s : string) : option Q :=
  let l := strip (list_ascii_of_string s) in
  let '(sg, l1) := sign l in
  let '(m, k1, l2) := digits l1 0 0 in
  let '(f, k2, l3) :=
    match l2 with
    | "."%char :: r => digits r 0 0
    | _ => (0, O, l2)
    end in
  if (k1 + k2 =? 0)%nat then None else
  match exponent l3 with
  | Some (e, []) => Some (inject_Z sg * ((inject_Z m + inject_Z f / inject_Z (10 ^ Z.of_nat k2)) * pow10 e))%Q
  | _ => None
  end.

(** [int(s)] for a string [s]: an optional sign and at least one digit,
    surrounded by blanks. *)
Definition parse_int (s : string) : option Z :=
  let l := strip (list_ascii_of_string s) in
  let '(sg, l1) := sign l in
  let '(m, k, l2) := digits l1 0 0 in
  match k, l2 with
  | O, _ => None
  | _, [] => Some (sg * m)
  | _, _ => None
  end.

(** [int(x)] of a JSON value. *)
Definition to_int (j : Json) : res Z :=
  match j with
  | JNum q => Ok (py_int q)
  | JBool b => Ok (if b then 1 else 0)
  | JStr s => match parse_int s with Some z => Ok z | None => Err ValueError end
  | _ => Err TypeError
  end.

(** [d.items()] *)
Definition items (j : Json) : res (list (string * Json)) :=
  match j with
  | JObj kv => Ok kv
  | _ => Err AttributeError
  end.

(** [for x in j]: a list yields its elements, a dict its keys, a
    string its characters; [None], numbers and booleans are not
    iterable. *)
Definition py_iter (j : Json) : res (list Json) :=
  match j with
  | JArr l => Ok l
  | JObj kv => Ok (map (fun p => JStr (fst p)) kv)
  | JStr s => Ok (map (fun c => JStr (String c EmptyString)) (list_ascii_of_string s))
  | _ => Err TypeError
  end.

(** [str(x)] of a JSON value where Python's printing is plain: a
    string is itself, [None], [True] and [False] their names, an
    integral number (a JSON integer) its decimal digits.  The [repr] of
    a float, a list or a dict is not modelled ([None]). *)
Definition py_str_json (j : Json) : option string :=
  match j with
  | JStr s => Some s
  | JNull => Some "None"%string
  | JBool b => Some (if b then "True" else "False")%string
  | JNum q => if (Qden q =? 1)%positive then Some (NilZero.string_of_int (Z.to_int (Qnum q))) else None
  | _ => None
  end.

(** [float(x)] of a JSON value. *)
Definition to_float (j : Json) : res Q :=
  match j with
  | JNum q => Ok q
  | JBool b => Ok (if b then 1%Q else 0%Q)
  | JStr s => match parse_float s with Some q => Ok q | None => Err ValueError end
  | _ => Err TypeError
  end.

End PyJson.
