(* ===== verification/Signals.v ===== *)
(** * Statistical signals: [src/arb/signal/zscore.py]

    [Module ZScore] models [RollingZScore]: a deque of maximum length
    [window] and [update] returning [(z, mean, std)].  [Module Ema]
    models [EMA].  Each Python object is a record; each method is a
    function from the old object to its result and the new object. *)

From Stdlib Require Import QArith Qminmax Qabs Lqa ZArith Lia List Bool Morphisms.
From S2P Require Import Prelude.
Import ListNotations.

Open Scope Q_scope.

Module ZScore.

(** [self.window], [self.buf = deque(maxlen=window)] *)
Record RollingZScore := mkRolling {
  window : Z;
  buf : list Q
}.

(** [RollingZScore.__init__] *)
Definition init (w : Z) : res RollingZScore :=
  if (w <=? 1)%Z then Err ValueError else Ok (mkRolling w []).

(** [deque.append] on a deque with [maxlen]: when full, the oldest
    item is discarded. *)
Definition deque_append (maxlen : nat) (d : list Q) (x : Q) : list Q :=
  if (length d <? maxlen)%nat then d ++ [x] else skipn 1 (d ++ [x]).

Definition sq (x : Q) : Q := x * x.

(** [RollingZScore.update]: lines 20-36. *)
Definition update `{PyMath} (s : RollingZScore) (value : Q)
    : (Q * Q * Q) * RollingZScore :=
  let b := deque_append (Z.to_nat (window s)) (buf s) value in
  let n := length b in
  let mean := qsum b / inject_Z (Z.of_nat n) in
  let std :=
    if (1 <? n)%nat then
      let var := qsum (map (fun x => sq (x - mean)) b) / inject_Z (Z.of_nat n - 1) in
      py_sqrt (Qmax var 0)
    else 0 in
  let z := if qltb 0 std then (value - mean) / std else 0 in
  ((z, mean, std), mkRolling (window s) b).

(** Feeding a sequence of values, collecting the outputs. *)
Fixpoint feed `{PyMath} (s : RollingZScore) (xs : list Q)
    : list (Q * Q * Q) * RollingZScore :=
  match xs with
  | [] => ([], s)
  | x :: xs' =>
      let '(o, s1) := update s x in
      let '(os, s2) := feed s1 xs' in
      (o :: os, s2)
  end.

(** Window statistics as functions of the buffer, used to state the
    theorems. *)
Definition mean_of (b : list Q) : Q := qsum b / inject_Z (Z.of_nat (length b)).

Definition ssd (b : list Q) : Q := qsum (map (fun x => sq (x - mean_of b)) b).

Definition std_of `{PyMath} (b : list Q) : Q :=
  if (1 <? length b)%nat then py_sqrt (Qmax (ssd b / inject_Z (Z.of_nat (length b) - 1)) 0)
  else 0.

(** Well-formedness of a [RollingZScore] object: the constructor's
    guard holds and the deque respects its [maxlen]. *)
Definition wf (s : RollingZScore) : Prop :=
  (2 <= window s)%Z /\ (length (buf s) <= Z.to_nat (window s))%nat.

(** All values of the window are equal. *)
Definition constant (b : list Q) : Prop := forall x y, In x b -> In y b -> x == y.

End ZScore.

Module Ema.

(** [self.window], [self.alpha], [self.value] *)
Record EMA := mkEma {
  ema_window : Z;
  alpha : Q;
  value : option Q
}.

(** [EMA.__init__] *)
Definition init (w : Z) : res EMA :=
  if (w <=? 0)%Z then Err ValueError
  else Ok (mkEma w (2 / (inject_Z w + 1)) None).

(** [EMA.update] *)
Definition update (e : EMA) (x : Q) : Q * EMA :=
  let v :=
    match value e with
    | None => x
    | Some v => alpha e * x + (1 - alpha e) * v
    end in
  (v, mkEma (ema_window e) (alpha e) (Some v)).

Fixpoint feed (e : EMA) (xs : list Q) : list Q * EMA :=
  match xs with
  | [] => ([], e)
  | x :: xs' =>
      let '(v, e1) := update e x in
      let '(vs, e2) := feed e1 xs' in
      (v :: vs, e2)
  end.

(** Every value the average has taken lies in [[lo, hi]]. *)
Definition within (lo hi : Q) (e : EMA) : Prop :=
  forall v, value e = Some v -> lo <= v <= hi.

End Ema.

Module ZScoreTheory.
Import ZScore.

#[export] Instance sq_proper : Proper (Qeq ==> Qeq) sq.
Proof. intros x y E. unfold sq. rewrite E. reflexivity. Qed.

Lemma deque_append_lastn (W : nat) h x :
  deque_append W (lastn W h) x = lastn W (h ++ [x]).
Proof.
  unfold deque_append. pose proof (lastn_length W h).
  destruct (Nat.ltb_spec (length (lastn W h)) W).
  - symmetry. apply lastn_snoc_notfull. assumption.
  - symmetry. apply lastn_snoc_full. lia.
Qed.

Lemma update_eq `{PyMath} s v :
  update s v =
    (let b := deque_append (Z.to_nat (window s)) (buf s) v in
     ((if qltb 0 (std_of b) then (v - mean_of b) / std_of b else 0, mean_of b, std_of b),
      mkRolling (window s) b)).
Proof. reflexivity. Qed.

Lemma feed_cons `{PyMath} s x xs :
  snd (feed s (x :: xs)) = snd (feed (snd (update s x)) xs).
Proof.
  change (feed s (x :: xs)) with
    (let '(o, s1) := update s x in let '(os, s2) := feed s1 xs in (o :: os, s2)).
  destruct (update s x) as [o s1]. cbn [snd]. destruct (feed s1 xs). reflexivity.
Qed.

Lemma ssd_nonneg b : 0 <= ssd b.
Proof. unfold ssd, sq. apply qsum_map_nonneg. intros x _. apply qsq_nonneg. Qed.

Lemma ssd_zero_constant b : ssd b == 0 -> constant b.
Proof.
  intros Hz x y Hx Hy.
  assert (Hsq : forall u, In u b -> sq (u - mean_of b) == 0).
  { apply qsum_map_zero_inv; [intros; apply qsq_nonneg | exact Hz]. }
  pose proof (Hsq x Hx) as Ex. pose proof (Hsq y Hy) as Ey. unfold sq in *.
  apply Qmult_integral in Ex. apply Qmult_integral in Ey.
  destruct Ex, Ey; lra.
Qed.

Lemma constant_mean b a : In a b -> constant b -> mean_of b == a.
Proof.
  intros Ha Hc. unfold mean_of.
  rewrite (qsum_const b a) by (intros; apply Hc; auto).
  assert (0 < inject_Z (Z.of_nat (length b))).
  { apply inject_Z_pos. destruct b; [contradiction | simpl; lia]. }
  field. lra.
Qed.

Lemma constant_ssd_zero b : constant b -> ssd b == 0.
Proof.
  intros Hc. destruct b as [|a t]; [reflexivity|].
  unfold ssd. apply qsum_map_zero. intros x Hx. cbv beta.
  rewrite (constant_mean (a :: t) a) by (simpl; auto).
  rewrite (Hc x a Hx (or_introl eq_refl)). unfold sq. ring.
Qed.

(** The standard deviation is zero exactly when the window is constant
    or holds a single value; the [max(var, 0.0)] guard never fires. *)
Lemma std_of_pos_iff `{SqrtLaws} b :
  0 < std_of b <-> (1 < length b)%nat /\ ~ constant b.
Proof.
  unfold std_of. destruct (Nat.ltb_spec 1 (length b)) as [Hn|Hn].
  - assert (Hk : 0 < inject_Z (Z.of_nat (length b) - 1)) by (apply inject_Z_pos; lia).
    pose proof (ssd_nonneg b) as Hs.
    pose proof (qdiv_nonneg _ _ Hs Hk) as Hd.
    rewrite (sqrt_proper _ _ (Q.max_l _ _ Hd)).
    split.
    + intros Hpos. split; [assumption|]. intros Hc.
      apply constant_ssd_zero in Hc.
      assert (E : ssd b / inject_Z (Z.of_nat (length b) - 1) == 0).
      { rewrite Hc. reflexivity. }
      rewrite (sqrt_proper _ _ E), sqrt_zero in Hpos. lra.
    + intros [_ Hnc]. apply sqrt_pos, qdiv_pos; [|assumption].
      destruct (Qlt_le_dec 0 (ssd b)) as [|Hle]; [assumption|].
      exfalso. apply Hnc, ssd_zero_constant. lra.
  - split; [intros; lra | intros [? _]; lia].
Qed.

Lemma std_of_nonneg `{SqrtLaws} b : 0 <= std_of b.
Proof. unfold std_of. destruct (1 <? length b)%nat; [apply sqrt_nonneg | lra]. Qed.


Lemma deque_append_length W d x :
  (length d <= W)%nat -> (1 <= W)%nat ->
  length (deque_append W d x) = Nat.min W (S (length d)).
Proof.
  intros H1 H2. unfold deque_append.
  destruct (Nat.ltb_spec (length d) W).
  - rewrite length_app. simpl. lia.
  - rewrite length_skipn, length_app. simpl. lia.
Qed.

Lemma deque_append_last W d x :
  (1 <= W)%nat -> exists t, deque_append W d x = t ++ [x].
Proof.
  intros HW. unfold deque_append. destruct (Nat.ltb_spec (length d) W).
  - eauto.
  - destruct d as [|y d]; simpl in *; [lia | eauto].
Qed.

(** [update] preserves well-formedness, and the window it returns
    is never empty (so [sum(buf) / n] never divides by zero). *)
Theorem update_wf `{PyMath} s v :
  wf s ->
  wf (snd (update s v)) /\ (1 <= length (buf (snd (update s v))))%nat.
Proof.
  intros [Hw Hl]. unfold wf; simpl.
  assert (HW : (2 <= Z.to_nat (window s))%nat) by lia.
  rewrite deque_append_length by lia. lia.
Qed.

Lemma init_wf w s : init w = Ok s -> wf s /\ buf s = [] /\ window s = w.
Proof.
  unfold init. destruct (Z.leb_spec w 1); intros E; inversion E; subst.
  unfold wf; simpl. repeat split; lia.
Qed.

Lemma feed_window `{PyMath} s h xs :
  buf s = lastn (Z.to_nat (window s)) h ->
  buf (snd (feed s xs)) = lastn (Z.to_nat (window s)) (h ++ xs) /\
  window (snd (feed s xs)) = window s.
Proof.
  revert s h. induction xs as [|x xs IH]; intros s h Hb.
  - rewrite app_nil_r. auto.
  - rewrite feed_cons.
    destruct (IH (snd (update s x)) (h ++ [x])) as [IH1 IH2].
    + simpl. rewrite Hb. apply deque_append_lastn.
    + rewrite IH1, IH2, <- app_assoc. simpl. auto.
Qed.


Lemma constant_short b : (length b <= 1)%nat -> constant b.
Proof.
  intros Hl x y Hx Hy. destruct b as [|a [|c t]]; simpl in *; try lia; try contradiction.
  destruct Hx as [<-|[]], Hy as [<-|[]]. reflexivity.
Qed.

Lemma std_of_zero_constant `{SqrtLaws} b : std_of b <= 0 -> constant b.
Proof.
  intros Hs. destruct (Nat.lt_ge_cases 1 (length b)) as [Hn|Hn].
  - destruct (Qlt_le_dec 0 (ssd b)) as [Hp|Hp].
    + exfalso. assert (0 < std_of b); [|lra].
      apply std_of_pos_iff. split; [exact Hn|].
      intros Hc. apply constant_ssd_zero in Hc. lra.
    + apply ssd_zero_constant. pose proof (ssd_nonneg b). lra.
  - apply constant_short. exact Hn.
Qed.

(** The window reached by feeding [xs] to a fresh [RollingZScore(w)]
    is [xs[-w:]]: the deque with [maxlen] refines "the last [w]
    samples". *)
Theorem init_feed_window `{PyMath} w s xs :
  init w = Ok s -> buf (snd (feed s xs)) = lastn (Z.to_nat w) xs.
Proof.
  intros Hi. destruct (init_wf w s Hi) as [_ [Hb Hw]].
  destruct (feed_window s [] xs) as [E _]; [rewrite Hb; reflexivity|].
  rewrite E, Hw. reflexivity.
Qed.

(** The standard deviation returned by [update] is positive exactly
    when the updated window has two or more values that are not all
    equal. *)
(** Spec example 4: a window of 3 fed 1, 2, 3, 4, 5 gives the means
    1, 1.5, 2, 3, 4 and the sample variances 0, 0.5, 1, 1, 1 (the
    standard deviations are [math.sqrt] of those). *)
Theorem rolling_w3_example `{SqrtLaws} :
  let outs := fst (feed (mkRolling 3 []) [1; 2; 3; 4; 5]) in
  Forall2 Qeq (map (fun o => snd (fst o)) outs) [1; 3 # 2; 2; 3; 4] /\
  Forall2 Qeq (map snd outs) [0; py_sqrt (1 # 2); py_sqrt 1; py_sqrt 1; py_sqrt 1].
Proof.
  vm_compute. split; repeat constructor; apply sqrt_proper; reflexivity.
Qed.

Theorem update_std_pos_iff `{SqrtLaws} s v :
  let '((_, _, std), s') := update s v in
  0 < std <-> (1 < length (buf s'))%nat /\ ~ constant (buf s').
Proof. rewrite update_eq. apply std_of_pos_iff. Qed.

(** C2: Invariant 2 of the spec for the signal: [std >= 0]; if [std > 0]
    then [z = (x - mean) / std]; if [std = 0] then [z = 0]; and [z]
    is zero exactly when the window is constant or [x] is the mean. *)
Theorem update_z_spec `{SqrtLaws} s v :
  wf s ->
  let '((z, mean, std), s') := update s v in
  0 <= std /\ (0 < std -> z * std == v - mean) /\ (std == 0 -> z == 0) /\
  (z == 0 <-> constant (buf s') \/ v == mean).
Proof.
  intros [Hw _]. rewrite update_eq. cbv zeta.
  set (b := deque_append (Z.to_nat (window s)) (buf s) v).
  pose proof (std_of_nonneg b) as Hnn.
  destruct (deque_append_last (Z.to_nat (window s)) (buf s) v) as [t Ht]; [lia|].
  fold b in Ht.
  qcase_on (qltb 0 (std_of b)).
  - assert (Hnc : ~ constant b) by (apply std_of_pos_iff; assumption).
    split; [lra|]. split; [intros; field; lra|]. split; [intros; lra|].
    split.
    + intros Hz. right. apply (qdiv_eq_zero _ (std_of b)) in Hz; [lra | assumption].
    + intros [Hc'|He]; [contradiction|]. rewrite He. field. lra.
  - assert (Hcst : constant b) by (apply std_of_zero_constant; assumption).
    repeat split; intros; try lra. left. exact Hcst.
Qed.


Lemma len_snoc_Q (t : list Q) v :
  inject_Z (Z.of_nat (length (t ++ [v]))) == inject_Z (Z.of_nat (length t)) + 1.
Proof. rewrite length_app, Nat.add_comm. apply inject_Z_S. Qed.

(** Samuelson's inequality for the newest value of the window:
    [n * (x - mean)^2 <= (n - 1) * sum((xi - mean)^2)]. *)
Lemma ssd_snoc_bound t v :
  inject_Z (Z.of_nat (length (t ++ [v]))) * sq (v - mean_of (t ++ [v])) <=
  (inject_Z (Z.of_nat (length (t ++ [v]))) - 1) * ssd (t ++ [v]).
Proof.
  set (m := mean_of (t ++ [v])). set (k := inject_Z (Z.of_nat (length t))).
  assert (Hk : 0 <= k) by (unfold k; change 0 with (inject_Z 0); rewrite <- Zle_Qle; lia).
  rewrite len_snoc_Q. fold k.
  assert (Hsum : qsum t + v == (k + 1) * m).
  { unfold m, mean_of. rewrite len_snoc_Q. fold k.
    rewrite qsum_app. simpl. field. lra. }
  assert (Hssd : ssd (t ++ [v]) == qsum (map (fun x => (x - m) * (x - m)) t) + sq (v - m)).
  { unfold ssd. fold m. rewrite map_app, qsum_app. simpl. unfold sq. ring. }
  pose proof (qsum_sq_le (map (fun x => x - m) t)) as HCS.
  rewrite map_map, length_map, qsum_map_sub in HCS. fold k in HCS.
  setoid_replace (qsum t - k * m) with (m - v) in HCS by lra.
  rewrite Hssd. unfold sq. nra.
Qed.


Lemma inject_Z_nat_le (n m : nat) : (n <= m)%nat -> inject_Z (Z.of_nat n) <= inject_Z (Z.of_nat m).
Proof. intros H. rewrite <- Zle_Qle. lia. Qed.

(** Bound on the z-score (Samuelson): when [math.sqrt] returns the
    exact root of the variance, the z-score of a window of [n] values
    satisfies [z^2 * n <= (n - 1)^2], i.e. [|z| <= (n-1)/sqrt(n)]. *)
Theorem update_z_bound `{SqrtLaws} s v :
  wf s ->
  let '((z, mean, std), s') := update s v in
  let N := inject_Z (Z.of_nat (length (buf s'))) in
  std * std == ssd (buf s') / (N - 1) ->
  z * z * N <= (N - 1) * (N - 1).
Proof.
  intros [Hw _]. rewrite update_eq. cbv zeta. simpl buf.
  set (b := deque_append (Z.to_nat (window s)) (buf s) v).
  destruct (deque_append_last (Z.to_nat (window s)) (buf s) v) as [t Ht]; [lia|].
  fold b in Ht. clearbody b. subst b.
  pose proof (ssd_snoc_bound t v) as HS. unfold sq in HS.
  set (N := inject_Z (Z.of_nat (length (t ++ [v])))) in *.
  set (m := mean_of (t ++ [v])) in *.
  set (sd := std_of (t ++ [v])).
  intros Hsd. cbn [buf] in Hsd. fold N in Hsd. qcase_on (qltb 0 sd).
  - assert (Hn : (1 < length (t ++ [v]))%nat) by (apply (std_of_pos_iff (t ++ [v])); exact Hc).
    assert (HN : 1 < N) by (unfold N; change 1 with (inject_Z (Z.of_nat 1)); rewrite <- Zlt_Qlt; lia).
    assert (Hss : ssd (t ++ [v]) == sd * sd * (N - 1)) by (rewrite Hsd; field; lra).
    rewrite Hss in HS.
    assert (Hd : v - m == (v - m) / sd * sd) by (field; lra).
    set (z := (v - m) / sd) in *. rewrite Hd in HS.
    assert (Hsq : 0 < sd * sd) by (apply Qmult_lt_0_compat; assumption).
    assert (E : sd * sd * (z * z * N - (N - 1) * (N - 1)) <= 0).
    { setoid_replace (sd * sd * (z * z * N - (N - 1) * (N - 1)))
        with (N * (z * sd * (z * sd)) - (N - 1) * (sd * sd * (N - 1))) by ring.
      lra. }
    destruct (Qlt_le_dec ((N - 1) * (N - 1)) (z * z * N)) as [Hlt|]; [|assumption].
    exfalso. assert (0 < sd * sd * (z * z * N - (N - 1) * (N - 1))); [|lra].
    apply Qmult_lt_0_compat; lra.
  - cbn [buf]. fold N. pose proof (qsq_nonneg (N - 1)). lra.
Qed.

(** With a window of at most five samples the z-score always lies
    strictly between -2 and 2: a configuration [lookback <= 5] with the
    default [enter_z = 2.0] can never produce an entry signal. *)
Theorem small_window_z_lt_2 `{SqrtLaws} s v :
  wf s -> (window s <= 5)%Z ->
  let '((z, mean, std), s') := update s v in
  let N := inject_Z (Z.of_nat (length (buf s'))) in
  std * std == ssd (buf s') / (N - 1) ->
  -2 < z < 2.
Proof.
  intros Hwf H5. pose proof (update_z_bound s v Hwf) as HB.
  destruct (update_wf s v Hwf) as [[_ Hl] Hl1].
  assert (Hws : window (snd (update s v)) = window s) by reflexivity.
  destruct (update s v) as [[[z m] sd] s'].
  cbv zeta in *. simpl fst in *. simpl snd in *.
  intros Hsd. specialize (HB Hsd).
  set (N := inject_Z (Z.of_nat (length (buf s')))) in *.
  simpl snd in Hws.
  pose proof (inject_Z_nat_le 1 _ Hl1) as HN1.
  assert (H5' : (length (buf s') <= 5)%nat) by lia.
  pose proof (inject_Z_nat_le _ 5 H5') as HN5.
  change (inject_Z (Z.of_nat 1)) with 1 in HN1.
  change (inject_Z (Z.of_nat 5)) with 5 in HN5. fold N in HN1, HN5.
  assert (Hz : z * z < 4) by nra.
  split; nra.
Qed.


(** Witnesses: the theorems above at concrete windows, with [qmath]. *)

Lemma update_wf_witness :
  wf (mkRolling 3 [1; 2]) /\
  wf (snd (@update qmath (mkRolling 3 [1; 2]) 7)) /\
  le 1 (length (buf (snd (@update qmath (mkRolling 3 [1; 2]) 7)))).
Proof.
  assert (H : wf (mkRolling 3 [1; 2])) by (unfold wf; simpl; lia).
  split; [exact H | exact (@update_wf qmath _ 7 H)].
Defined.

Lemma init_feed_window_witness :
  init 3 = Ok (mkRolling 3 []) /\
  buf (snd (@feed qmath (mkRolling 3 []) [1; 2; 3; 4; 5])) = [3; 4; 5].
Proof.
  split; [reflexivity|].
  exact (@init_feed_window qmath 3 (mkRolling 3 []) [1; 2; 3; 4; 5] eq_refl).
Defined.

Lemma update_std_pos_iff_witness :
  let '((_, _, std), s') := @update qmath (mkRolling 3 [1; 2]) 2 in
  0 < std <-> (1 < length (buf s'))%nat /\ ~ constant (buf s').
Proof. exact (@update_std_pos_iff qmath qmath_sqrt_laws (mkRolling 3 [1; 2]) 2). Defined.

Lemma update_z_spec_witness :
  wf (mkRolling 4 [0; 0; 0]) /\
  let '((z, mean, std), s') := @update qmath (mkRolling 4 [0; 0; 0]) 4 in
  0 <= std /\ (0 < std -> z * std == 4 - mean) /\ (std == 0 -> z == 0) /\
  (z == 0 <-> constant (buf s') \/ 4 == mean).
Proof.
  assert (H : wf (mkRolling 4 [0; 0; 0])) by (unfold wf; simpl; lia).
  split; [exact H | exact (@update_z_spec qmath qmath_sqrt_laws _ 4 H)].
Defined.

(** Window [0, 0, 0, 4]: mean 1, variance 4, std 2, z = 1.5, and the
    bound [z^2 * 4 <= 9] is attained. *)
Lemma update_z_bound_witness :
  wf (mkRolling 4 [0; 0; 0]) /\
  (let '((z, mean, std), s') := @update qmath (mkRolling 4 [0; 0; 0]) 4 in
   std * std == ssd (buf s') / (inject_Z (Z.of_nat (length (buf s'))) - 1) /\
   z * z * inject_Z (Z.of_nat (length (buf s'))) <=
     (inject_Z (Z.of_nat (length (buf s'))) - 1) * (inject_Z (Z.of_nat (length (buf s'))) - 1)).
Proof.
  assert (H : wf (mkRolling 4 [0; 0; 0])) by (unfold wf; simpl; lia).
  split; [exact H|].
  pose proof (@update_z_bound qmath qmath_sqrt_laws _ 4 H) as B.
  revert B. vm_compute. intros B. split; [reflexivity | apply B; reflexivity].
Defined.

Lemma small_window_z_lt_2_witness :
  wf (mkRolling 4 [0; 0; 0]) /\ Z.le (window (mkRolling 4 [0; 0; 0])) 5 /\
  (let '((z, mean, std), s') := @update qmath (mkRolling 4 [0; 0; 0]) 4 in -2 < z < 2).
Proof.
  assert (H : wf (mkRolling 4 [0; 0; 0])) by (unfold wf; simpl; lia).
  assert (H5 : Z.le (window (mkRolling 4 [0; 0; 0])) 5) by (simpl; lia).
  split; [exact H|]. split; [exact H5|].
  pose proof (@small_window_z_lt_2 qmath qmath_sqrt_laws _ 4 H H5) as B.
  revert B. vm_compute. intros B. apply B. reflexivity.
Defined.

Lemma rolling_w3_example_witness :
  let outs := fst (@feed qmath (mkRolling 3 []) [1; 2; 3; 4; 5]) in
  Forall2 Qeq (map (fun o => snd (fst o)) outs) [1; 3 # 2; 2; 3; 4] /\
  Forall2 Qeq (map snd outs) [0; qsqrt (1 # 2); qsqrt 1; qsqrt 1; qsqrt 1].
Proof. exact (@rolling_w3_example qmath qmath_sqrt_laws). Defined.

End ZScoreTheory.

Module EmaTheory.
Import Ema.

Lemma init_spec w e :
  init w = Ok e -> (1 <= w)%Z /\ alpha e = 2 / (inject_Z w + 1) /\ value e = None.
Proof.
  unfold init. destruct (Z.leb_spec w 0); intros E; inversion E; subst; simpl.
  repeat split; lia.
Qed.

Lemma alpha_range w : (1 <= w)%Z -> 0 < 2 / (inject_Z w + 1) <= 1.
Proof.
  intros Hw. assert (H1 : 1 <= inject_Z w) by (change 1 with (inject_Z 1); rewrite <- Zle_Qle; lia).
  split.
  - apply qdiv_pos; lra.
  - apply Qle_shift_div_r; lra.
Qed.

Lemma update_within e x lo hi :
  0 <= alpha e <= 1 -> lo <= x <= hi -> within lo hi e ->
  lo <= fst (update e x) <= hi /\ within lo hi (snd (update e x)) /\
  alpha (snd (update e x)) = alpha e.
Proof.
  intros Ha Hx Hw. unfold update, within in *; simpl.
  assert (Hv : lo <= match value e with
                     | Some v => alpha e * x + (1 - alpha e) * v
                     | None => x end <= hi).
  { destruct (value e) as [v|]; [|assumption].
    destruct (Hw v eq_refl). split; nra. }
  split; [exact Hv|]. split; [intros u Eu; inversion Eu; subst; exact Hv | reflexivity].
Qed.

Lemma ema_feed_cons e x xs :
  feed e (x :: xs) = (fst (update e x) :: fst (feed (snd (update e x)) xs),
                      snd (feed (snd (update e x)) xs)).
Proof.
  change (feed e (x :: xs)) with
    (let '(v, e1) := update e x in let '(vs, e2) := feed e1 xs in (v :: vs, e2)).
  destruct (update e x) as [v e1]. cbn [fst snd]. destruct (feed e1 xs). reflexivity.
Qed.

Lemma feed_within e xs lo hi :
  0 <= alpha e <= 1 -> within lo hi e -> (forall x, In x xs -> lo <= x <= hi) ->
  Forall (fun v => lo <= v <= hi) (fst (feed e xs)) /\ within lo hi (snd (feed e xs)).
Proof.
  revert e. induction xs as [|x xs IH]; intros e Ha Hw Hxs; [split; [constructor | assumption]|].
  rewrite ema_feed_cons. cbn [fst snd].
  destruct (update_within e x lo hi Ha (Hxs x (or_introl eq_refl)) Hw) as (H1 & H2 & H3).
  destruct (IH (snd (update e x))) as [IH1 IH2]; [rewrite H3; assumption | assumption | intros; apply Hxs; right; assumption |].
  split; [constructor|]; assumption.
Qed.

Lemma feed_value_some e xs : xs <> [] -> exists v, value (snd (feed e xs)) = Some v.
Proof.
  revert e. induction xs as [|x xs IH]; intros e Hne; [congruence|].
  rewrite ema_feed_cons. cbn [snd].
  destruct xs as [|y ys].
  - simpl. eauto.
  - apply IH. discriminate.
Qed.

(** The EMA is a convex average: every value it emits, and its final
    state, lie between the smallest and the largest input; after the
    first update its value is always defined (spec invariant 4). *)
Theorem init_feed_bounds w e xs lo hi :
  init w = Ok e -> xs <> [] -> (forall x, In x xs -> lo <= x <= hi) ->
  Forall (fun v => lo <= v <= hi) (fst (feed e xs)) /\
  exists v, value (snd (feed e xs)) = Some v /\ lo <= v <= hi.
Proof.
  intros Hi Hne Hxs. destruct (init_spec w e Hi) as (Hw & Ha & Hv).
  pose proof (alpha_range w Hw) as Hr. rewrite <- Ha in Hr.
  destruct (feed_within e xs lo hi) as [H1 H2];
    [lra | intros u; rewrite Hv; discriminate | assumption |].
  split; [assumption|].
  destruct (feed_value_some e xs Hne) as [v Ev]. eauto.
Qed.

(** [EMA(4)] fed 10, 11, 12, 13 emits 10, 10.4, 11.04, 11.824
    (alpha = 0.4). *)
Theorem ema_w4_example :
  match init 4 with
  | Ok e => map Qred (fst (feed e [10; 11; 12; 13]))
  | Err _ => []
  end = [10; 52 # 5; 276 # 25; 1478 # 125].
Proof. vm_compute. reflexivity. Qed.


Lemma init_feed_bounds_witness :
  init 4 = Ok (mkEma 4 (2 / (inject_Z 4 + 1)) None) /\ [10; 11; 12; 13] <> [] /\
  Forall (fun v => 10 <= v <= 13) (fst (feed (mkEma 4 (2 / (inject_Z 4 + 1)) None) [10; 11; 12; 13])) /\
  exists v, value (snd (feed (mkEma 4 (2 / (inject_Z 4 + 1)) None) [10; 11; 12; 13])) = Some v /\
            10 <= v <= 13.
Proof.
  assert (Hi : init 4 = Ok (mkEma 4 (2 / (inject_Z 4 + 1)) None)) by reflexivity.
  assert (Hne : [10; 11; 12; 13] <> []) by discriminate.
  split; [exact Hi|]. split; [exact Hne|].
  apply (init_feed_bounds 4 _ [10; 11; 12; 13] 10 13 Hi Hne).
  intros x Hx. simpl in Hx.
  destruct Hx as [<-|[<-|[<-|[<-|[]]]]]; split; vm_compute; discriminate.
Defined.

End EmaTheory.
