(* ===== verification/Reversion.v ===== *)
(** * AR(1) reversion estimator: [estimate_reversion_times] in
    [src/arb/runner_reminder.py] (lines 331-362)

    The estimator reads the z-score's window ([z.buf]), regresses each
    value on the previous one, and turns the coefficient into a half-life
    and a time to reach the exit threshold.  Its body raises on a zero
    divisor; the [try]/[except] around it turns any exception into
    [(None, None)]. *)

From Stdlib Require Import QArith Qminmax Qabs Lqa ZArith Lia List Bool.
From S2P Require Import Prelude Signals.
Import ListNotations.

Open Scope Q_scope.
Open Scope py_scope.

Module Reversion.
Import ZScore.

(** [mean_x], [num] and [den] of the ordinary least squares fit of
    [y = series[1:]] on [x = series[:-1]]. *)
Definition ols_parts (series : list Q) : Q * Q :=
  let x := removelast series in
  let y := tl series in
  let mean_x := qsum x / inject_Z (Z.of_nat (length x)) in
  let mean_y := qsum y / inject_Z (Z.of_nat (length y)) in
  let num := qsum (map (fun '(xi, yi) => (xi - mean_x) * (yi - mean_y)) (combine x y)) in
  let den := qsum (map (fun xi => sq (xi - mean_x)) x) in
  (num, den).

(** The body of the [try] block. *)
Definition estimate_body `{PyMath} (series : list Q) (current_z exit_z : Q) (poll_ms : Z)
    : res (option Q * option Q) :=
  if (length series <? 10)%nat then Ok (None, None) else
  let '(num, den) := ols_parts series in
  if Qeq_bool den 0 then Ok (None, None) else
  let phi := num / den in
  if qleb phi 0 || qleb (9999 # 10000) phi then Ok (None, None) else
  let* half_life_samples := qdiv (py_log 2) (- py_log phi) in
  let half_life_s := half_life_samples * (inject_Z poll_ms / 1000) in
  if qleb exit_z 0 || qleb (qabs current_z) exit_z then Ok (Some half_life_s, Some 0) else
  let* k := qdiv (py_log 2) half_life_s in
  let* t_exit_s := qdiv (py_log (qabs current_z / exit_z)) k in
  Ok (Some half_life_s, Some t_exit_s).

(** [estimate_reversion_times(z, current_z, exit_z, poll_ms)] *)
Definition estimate_reversion_times `{PyMath} (z : RollingZScore) (current_z exit_z : Q) (poll_ms : Z)
    : option Q * option Q :=
  try_except (estimate_body (buf z) current_z exit_z poll_ms) (fun _ => (None, None)).

(** The ten-point geometric window of scenario S3. *)
Definition geometric_window : list Q :=
  [1; 1 # 2; 1 # 4; 1 # 8; 1 # 16; 1 # 32; 1 # 64; 1 # 128; 1 # 256; 1 # 512].

End Reversion.

Module ReversionTheory.
Import ZScore Reversion.

Lemma qdiv_Ok x y r : qdiv x y = Ok r -> ~ y == 0 /\ r == x / y.
Proof.
  unfold qdiv. destruct (Qeq_bool y 0) eqn:E; [discriminate|].
  intros H. injection H as <-. split; [apply Qeq_bool_neq; assumption | reflexivity].
Qed.

Lemma qdiv_Err x y e : qdiv x y = Err e -> y == 0.
Proof. unfold qdiv. destruct (Qeq_bool y 0) eqn:E; [intros _; apply Qeq_bool_iff; exact E | discriminate]. Qed.

Lemma Qdiv_zero_iff x y : ~ y == 0 -> (x / y == 0 <-> x == 0).
Proof.
  intros Hy. split; [|intros Hx; rewrite Hx; unfold Qdiv; ring].
  intros H. rewrite <- (Qmult_div_r x y Hy), H. ring.
Qed.

Lemma Qmult_zero_iff x y : x * y == 0 <-> x == 0 \/ y == 0.
Proof. split; [apply Qmult_integral | intros [H|H]; rewrite H; ring]. Qed.

Lemma inject_Z_div1000_zero pm : inject_Z pm / 1000 == 0 <-> pm = 0%Z.
Proof.
  rewrite Qdiv_zero_iff by discriminate. split; [|intros ->; reflexivity].
  intros H. unfold Qeq in H. cbn in H. lia.
Qed.

(** C36: The estimator on every branch: it gives up ([None, None])
    exactly when the window has fewer than ten points, the fit is
    degenerate ([den = 0]), the coefficient [phi] is outside
    (0, 0.9999), [log phi = 0], or [|z|] is above a positive exit
    threshold while the half-life is zero ([poll_ms = 0] or
    [log 2 = 0]), a [ZeroDivisionError] the [except] swallows.
    Otherwise it returns the half-life [ln 2 / -ln(phi) * poll_ms / 1000]
    and a time to exit that is zero inside the exit band
    ([exit_z <= 0] or [|z| <= exit_z]) and the spec's
    [ln(|z| / exit_z) * half_life_s / ln 2] outside it (the code divides
    by [k = ln 2 / half_life_s] instead); it never returns one value
    without the other. *)
Theorem estimate_spec `{PyMath} z cz ez pm :
  let '(num, den) := ols_parts (buf z) in
  match estimate_reversion_times z cz ez pm with
  | (Some hl, Some te) =>
      (10 <= length (buf z))%nat /\ ~ den == 0 /\ 0 < num / den < 9999 # 10000 /\ ~ py_log (num / den) == 0 /\
      hl == py_log 2 / (- py_log (num / den)) * (inject_Z pm / 1000) /\
      (((ez <= 0 \/ qabs cz <= ez) /\ te == 0) \/
       (0 < ez < qabs cz /\ pm <> 0%Z /\ ~ py_log 2 == 0 /\ te == py_log (qabs cz / ez) * hl / py_log 2))
  | (None, None) =>
      (length (buf z) < 10)%nat \/ den == 0 \/ num / den <= 0 \/ 9999 # 10000 <= num / den \/
      py_log (num / den) == 0 \/ (0 < ez < qabs cz /\ (pm = 0%Z \/ py_log 2 == 0))
  | _ => False
  end.
Proof.
  unfold estimate_reversion_times, estimate_body.
  destruct (ols_parts (buf z)) as [num den].
  destruct (Nat.ltb_spec (length (buf z)) 10) as [Hn|Hn]; [left; exact Hn|].
  destruct (Qeq_bool den 0) eqn:Ed; [right; left; apply Qeq_bool_iff; exact Ed|].
  apply Qeq_bool_neq in Ed.
  qcase_on (qleb (num / den) 0); [do 2 right; left; assumption|]. simpl.
  qcase_on (qleb (9999 # 10000) (num / den)); [do 3 right; left; assumption|]. simpl.
  destruct (qdiv (py_log 2) (- py_log (num / den))) as [hs|e] eqn:E1;
    [|do 4 right; left; apply qdiv_Err in E1; lra]. simpl.
  apply qdiv_Ok in E1. destruct E1 as [Hl E1].
  assert (Hphi : ~ py_log (num / den) == 0) by (intros Z0; apply Hl; rewrite Z0; reflexivity).
  assert (Hg : (10 <= length (buf z))%nat /\ ~ den == 0 /\ 0 < num / den < 9999 # 10000 /\
               ~ py_log (num / den) == 0 /\
               hs * (inject_Z pm / 1000) == py_log 2 / (- py_log (num / den)) * (inject_Z pm / 1000))
    by (repeat split; try assumption; try lra; rewrite E1; reflexivity).
  destruct Hg as (G1 & G2 & G3 & G4 & G5).
  qcase_on (qleb ez 0); simpl.
  { do 5 (split; [assumption|]). left. split; [left; assumption | reflexivity]. }
  qcase_on (qleb (qabs cz) ez); simpl.
  { do 5 (split; [assumption|]). left. split; [right; assumption | reflexivity]. }
  destruct (qdiv (py_log 2) (hs * (inject_Z pm / 1000))) as [k|e] eqn:E2; simpl.
  2: { apply qdiv_Err in E2. do 5 right. split; [lra|].
       apply Qmult_zero_iff in E2 as [E2|E2]; [right | left; apply inject_Z_div1000_zero; exact E2].
       rewrite E1 in E2. exact (proj1 (Qdiv_zero_iff _ _ Hl) E2). }
  apply qdiv_Ok in E2. destruct E2 as [Hhl E2].
  assert (Hln2 : ~ py_log 2 == 0) by (intros Z0; apply Hhl; rewrite E1, Z0; unfold Qdiv; ring).
  assert (Hpm : pm <> 0%Z) by (intros ->; apply Hhl; reflexivity || (unfold Qdiv; ring)).
  assert (Hk : ~ k == 0) by (rewrite E2; intros Z0; exact (Hln2 (proj1 (Qdiv_zero_iff _ _ Hhl) Z0))).
  rewrite (qdiv_nonzero _ _ Hk). simpl.
  split; [exact G1|]. split; [exact G2|]. split; [exact G3|]. split; [exact G4|].
  split; [exact G5|]. right. split; [lra|]. split; [exact Hpm|]. split; [exact Hln2|].
  rewrite E2. field. split; [exact Hln2|]. split; intros Z0; apply Hhl; rewrite Z0; unfold Qdiv; ring.
Qed.

Lemma ols_geometric :
  let '(num, den) := ols_parts geometric_window in num / den == 1 # 2 /\ ~ den == 0.
Proof. vm_compute. split; [reflexivity | discriminate]. Qed.

(** Scenario S3: on the geometric window 1, 1/2, ..., 1/512 the fitted
    coefficient is exactly 1/2, so with [poll_ms = 1000], [exit_z = 0.5]
    and [z = 2] the half-life is one second and the time to exit is two
    seconds, for any logarithm (any base) with the two laws used. *)
Theorem estimate_geometric `{LogProper} :
  0 < py_log 2 -> py_log (1 # 2) == - py_log 2 -> py_log 4 == 2 * py_log 2 ->
  match estimate_reversion_times (mkRolling 60 geometric_window) 2 (1 # 2) 1000 with
  | (Some hl, Some te) => hl == 1 /\ te == 2
  | _ => False
  end.
Proof.
  intros H2 Hhalf H4. unfold estimate_reversion_times, estimate_body. cbn [buf].
  change (length geometric_window <? 10)%nat with false. cbv iota.
  pose proof ols_geometric as G. destruct (ols_parts geometric_window) as [num den].
  destruct G as [Hphi Hden]. rewrite (Qeq_bool_false den 0 Hden).
  assert (E1 : qleb (num / den) 0 = false) by (apply qleb_false; rewrite Hphi; reflexivity).
  assert (E2 : qleb (9999 # 10000) (num / den) = false) by (apply qleb_false; rewrite Hphi; reflexivity).
  rewrite E1, E2. simpl orb. cbv iota.
  assert (Hl : - py_log (num / den) == py_log 2) by (rewrite (log_proper _ _ Hphi), Hhalf; ring).
  rewrite (qdiv_nonzero (py_log 2) (- py_log (num / den))) by (rewrite Hl; lra).
  cbn [res_bind].
  set (hs := py_log 2 / - py_log (num / den) * (inject_Z 1000 / 1000)).
  assert (Hs : hs == 1) by (unfold hs; rewrite Hl; field; lra).
  assert (E4 : qleb 2 (1 # 2) = false) by reflexivity.
  rewrite E4. cbv iota.
  rewrite (qdiv_nonzero (py_log 2) hs) by (rewrite Hs; discriminate).
  cbn [res_bind].
  assert (Hk : py_log 2 / hs == py_log 2) by (rewrite Hs; field).
  rewrite (qdiv_nonzero (py_log (qabs 2 / (1 # 2))) (py_log 2 / hs)) by (rewrite Hk; lra).
  cbn [res_bind try_except]. split; [exact Hs|].
  assert (Hq : qabs 2 / (1 # 2) == 4) by reflexivity.
  rewrite (log_proper _ _ Hq), Hk, H4. field. lra.
Qed.

(** Error path: with [poll_ms = 0] the half-life is zero, [k = ln 2 /
    half_life_s] raises [ZeroDivisionError], and the [except] turns it
    into [(None, None)] whenever [|z|] is above a positive exit
    threshold. *)
Theorem estimate_zero_poll `{PyMath} z cz ez :
  0 < ez -> ez < qabs cz -> estimate_reversion_times z cz ez 0 = (None, None).
Proof.
  intros Hez Hcz. unfold estimate_reversion_times, estimate_body.
  destruct (length (buf z) <? 10)%nat; [reflexivity|].
  destruct (ols_parts (buf z)) as [num den].
  destruct (Qeq_bool den 0); [reflexivity|].
  destruct (qleb (num / den) 0 || qleb (9999 # 10000) (num / den)); [reflexivity|].
  destruct (qdiv (py_log 2) (- py_log (num / den))) as [hs|e]; [|reflexivity]. cbn [res_bind].
  assert (E1 : qleb ez 0 = false) by (apply qleb_false; exact Hez).
  assert (E2 : qleb (qabs cz) ez = false) by (apply qleb_false; exact Hcz).
  rewrite E1, E2. simpl orb. cbv iota.
  rewrite qdiv_zero by (unfold Qdiv; simpl; ring). reflexivity.
Qed.

(** Witnesses. *)

Lemma estimate_geometric_witness :
  0 < qlog2 2 /\ qlog2 (1 # 2) == - qlog2 2 /\ qlog2 4 == 2 * qlog2 2 /\
  match @estimate_reversion_times dyadic_math (mkRolling 60 geometric_window) 2 (1 # 2) 1000 with
  | (Some hl, Some te) => hl == 1 /\ te == 2
  | _ => False
  end.
Proof.
  assert (A : 0 < qlog2 2) by reflexivity.
  assert (B : qlog2 (1 # 2) == - qlog2 2) by reflexivity.
  assert (C : qlog2 4 == 2 * qlog2 2) by reflexivity.
  split; [exact A|]. split; [exact B|]. split; [exact C|].
  exact (@estimate_geometric dyadic_math dyadic_math_log_proper A B C).
Defined.

Lemma estimate_zero_poll_witness :
  0 < 1 # 2 /\ 1 # 2 < qabs 2 /\
  @estimate_reversion_times dyadic_math (mkRolling 60 geometric_window) 2 (1 # 2) 0 = (None, None).
Proof.
  assert (A : 0 < 1 # 2) by reflexivity. assert (B : 1 # 2 < qabs 2) by reflexivity.
  split; [exact A|]. split; [exact B|].
  exact (@estimate_zero_poll dyadic_math _ 2 (1 # 2) A B).
Defined.

End ReversionTheory.
