(* ===== verification/RateLimiter.v ===== *)
(** * Rate limiter: [src/arb/rate_limiter.py]

    [TokenBucket] keeps [capacity], [refill_rate], [_tokens] and [_last];
    its coroutine [consume] refills from the monotonic clock, sleeps
    while tokens are short, and deducts the weight.  The clock is the
    environment: [consume] takes the reading at entry and the list of
    readings taken after each [asyncio.sleep].  [RateLimiter] keeps a
    dict from ["exchange:endpoint"] to bucket objects; since a waiter
    keeps a reference to the object it started on, the buckets live in a
    heap of objects and the dict maps keys to object ids.  [update] and
    the constructor read the decoded JSON configuration; their contract
    is stated on the view from keys to buckets. *)

From Stdlib Require Import QArith Qminmax Lqa ZArith Lia List.
From stdpp Require Import gmap strings.
From S2P Require Import Prelude PyJson.
Import ListNotations.

Open Scope Q_scope.

Module Bucket.

(** [TokenBucket] *)
Record TokenBucket := mkBucket {
  capacity : Z;
  refill_rate : Q;
  tokens : Q;
  last : Q
}.

(** [TokenBucket.__init__(capacity, refill_rate)] at clock [now]. *)
Definition new_bucket (cap : Z) (rate : Q) (now : Q) : TokenBucket :=
  mkBucket cap rate (inject_Z cap) now.

(** [elapsed = now - self._last; self._last = now;
     self._tokens = min(self.capacity, self._tokens + elapsed * self.refill_rate)] *)
Definition refill (b : TokenBucket) (now : Q) : TokenBucket :=
  mkBucket (capacity b) (refill_rate b)
    (Qmin (inject_Z (capacity b)) (tokens b + (now - last b) * refill_rate b)) now.

(** [to_wait = (need - self._tokens) / self.refill_rate if self.refill_rate > 0 else 0.05] *)
Definition to_wait (b : TokenBucket) (need : Q) : Q :=
  if qltb 0 (refill_rate b) then (need - tokens b) / refill_rate b else 5 # 100.

(** [await asyncio.sleep(max(to_wait, 0.01))] *)
Definition sleep_for (b : TokenBucket) (need : Q) : Q := Qmax (to_wait b need) (1 # 100).

(** The [while self._tokens < need] loop; [wakes] are the clock readings
    after each sleep.  [None]: the readings ran out while the coroutine
    was still waiting.  On exit, the deduction and the number of sleeps. *)
Fixpoint wait_loop (b : TokenBucket) (need : Q) (wakes : list Q) : option (TokenBucket * nat) :=
  if qltb (tokens b) need then
    match wakes with
    | [] => None
    | t :: ws =>
        match wait_loop (refill b t) need ws with
        | Some (b', n) => Some (b', S n)
        | None => None
        end
    end
  else Some (mkBucket (capacity b) (refill_rate b) (tokens b - need) (last b), O).

(** [TokenBucket.consume(weight)] entered at clock [now]. *)
Definition consume (b : TokenBucket) (weight : Z) (now : Q) (wakes : list Q)
    : option (TokenBucket * nat) :=
  wait_loop (refill b now) (inject_Z weight) wakes.

(** The clock readings honour the sleeps: [asyncio.sleep(d)] resumes no
    earlier than [d] seconds later. *)
Fixpoint honest (b : TokenBucket) (need : Q) (wakes : list Q) : Prop :=
  match wakes with
  | [] => True
  | t :: ws => last b + sleep_for b need <= t /\ honest (refill b t) need ws
  end.

(** Readings of a monotonic clock. *)
Fixpoint monotone (from : Q) (wakes : list Q) : Prop :=
  match wakes with
  | [] => True
  | t :: ws => from <= t /\ monotone t ws
  end.

(** The bucket's invariant: tokens between zero and the capacity. *)
Definition bucket_ok (b : TokenBucket) : Prop :=
  0 <= tokens b <= inject_Z (capacity b) /\ 0 <= refill_rate b.

(** Requests served one after the other, as the bucket's [asyncio.Lock]
    serialises them: each is [(weight, clock at entry, clock readings
    after its sleeps)].  The total weight granted is returned. *)
Fixpoint run (b : TokenBucket) (reqs : list (Z * Q * list Q)) : option (TokenBucket * Q) :=
  match reqs with
  | [] => Some (b, 0)
  | (w, now, wakes) :: rs =>
      match consume b w now wakes with
      | Some (b1, _) =>
          match run b1 rs with
          | Some (b2, tot) => Some (b2, inject_Z w + tot)
          | None => None
          end
      | None => None
      end
  end.

End Bucket.

Module Limiter.
Import Bucket PyJson.

(** [RateLimiter._buckets] as a dict of references to bucket objects. *)
Record RateLimiter := mkLimiter {
  heap : gmap positive TokenBucket;
  next_id : positive;
  dict : gmap string positive
}.

Definition empty_limiter : RateLimiter := mkLimiter ∅ 1%positive ∅.

(** [RateLimiter._key]: [f"{exchange}:{endpoint}"] *)
Definition key (exchange endpoint : string) : string :=
  String.append exchange (String.append ":" endpoint).

(** [self._buckets[k] = TokenBucket(...)]: a new object under [k]. *)
Definition alloc (l : RateLimiter) (k : string) (b : TokenBucket) : RateLimiter :=
  mkLimiter (<[next_id l := b]> (heap l)) (Pos.succ (next_id l)) (<[k := next_id l]> (dict l)).

(** [int(conf.get("capacity", 10))] *)
Definition read_capacity (c : Json) : res Z :=
  let* v := dict_get c "capacity" (JNum 10) in to_int v.

(** [float(conf.get("refill", 5.0))] *)
Definition read_refill (c : Json) : res Q :=
  let* v := dict_get c "refill" (JNum 5) in to_float v.

(** The inner loop of [RateLimiter.update]: the dict is mutated in
    place, so when a value raises, the entries before it stay updated. *)
Fixpoint update_eps (l : RateLimiter) (exch : string) (eps : list (string * Json)) (now : Q)
    : RateLimiter * option PyExc :=
  match eps with
  | [] => (l, None)
  | (ep, c) :: rest =>
      match read_capacity c with
      | Err e => (l, Some e)
      | Ok cap =>
          match read_refill c with
          | Err e => (l, Some e)
          | Ok rf => update_eps (alloc l (key exch ep) (new_bucket cap rf now)) exch rest now
          end
      end
  end.

(** The outer loop [for exch, cfg in config.items()]. *)
Fixpoint update_items (l : RateLimiter) (kv : list (string * Json)) (now : Q)
    : RateLimiter * option PyExc :=
  match kv with
  | [] => (l, None)
  | (exch, cfg) :: rest =>
      match items cfg with
      | Err e => (l, Some e)
      | Ok eps =>
          match update_eps l exch eps now with
          | (l1, None) => update_items l1 rest now
          | (l1, Some e) => (l1, Some e)
          end
      end
  end.

(** [RateLimiter.update(config)] at clock [now] (lines 58-63), on the
    decoded JSON configuration. *)
Definition update (l : RateLimiter) (config : Json) (now : Q) : RateLimiter * option PyExc :=
  match items config with
  | Err e => (l, Some e)
  | Ok kv => update_items l kv now
  end.

(** [RateLimiter(config)] (lines 50-53): [if config: self.update(config)]. *)
Definition init (config : Json) (now : Q) : RateLimiter * option PyExc :=
  if truthy config then update empty_limiter config now else (empty_limiter, None).

(** ** What [update] promises

    The abstract view of a limiter: the bucket each key refers to.
    [update] at clock [now] promises to parse the whole configuration, in
    dict order, into entries [("exchange:endpoint", (capacity, refill))]
    and to override the view with a full bucket of those parameters for
    each, later entries winning; or to raise the first conversion error. *)
Definition view (l : RateLimiter) (k : string) : option TokenBucket :=
  match dict l !! k with
  | Some id => heap l !! id
  | None => None
  end.

Definition conf_entry (exch ep : string) (c : Json) : res (string * (Z * Q)) :=
  let* cap := read_capacity c in
  let* rf := read_refill c in
  Ok (key exch ep, (cap, rf)).

Definition conf_entries (config : Json) : res (list (string * (Z * Q))) :=
  let* kv := items config in
  let* ess := map_res (fun '(exch, cfg) =>
                let* eps := items cfg in map_res (fun '(ep, c) => conf_entry exch ep c) eps) kv in
  Ok (concat ess).

Fixpoint override (now : Q) (f : string -> option TokenBucket) (es : list (string * (Z * Q)))
    : string -> option TokenBucket :=
  match es with
  | [] => f
  | (k, (cap, rf)) :: r => override now (fun k' => if String.eqb k k' then Some (new_bucket cap rf now) else f k') r
  end.

(** The bucket [allow] picks: the endpoint's, else the exchange's
    ["global"] one, else a permissive [TokenBucket(1000, 1000.0)] stored
    under ["global"] by [setdefault]. *)
Definition select (l : RateLimiter) (exchange endpoint : string) (now : Q) : positive * RateLimiter :=
  match dict l !! key exchange endpoint with
  | Some id => (id, l)
  | None =>
      match dict l !! key exchange "global" with
      | Some id => (id, l)
      | None => (next_id l, alloc l (key exchange "global") (new_bucket 1000 1000 now))
      end
  end.

(** [bucket.consume(weight)] on the object [id], written back to the heap. *)
Definition consume_at (l : RateLimiter) (id : positive) (weight : Z) (now : Q) (wakes : list Q)
    : option RateLimiter :=
  match heap l !! id with
  | Some b =>
      match consume b weight now wakes with
      | Some (b', _) => Some (mkLimiter (<[id := b']> (heap l)) (next_id l) (dict l))
      | None => None
      end
  | None => None
  end.

(** [RateLimiter.allow(exchange, endpoint, weight)] *)
Definition allow (l : RateLimiter) (exchange endpoint : string) (weight : Z) (now : Q) (wakes : list Q)
    : option RateLimiter :=
  let '(id, l1) := select l exchange endpoint now in
  consume_at l1 id weight now wakes.

(** A call [allow(exchange, endpoint, weight)] made at clock [now],
    with the clock readings after its sleeps. *)
Definition Req : Type := (string * string * Z * Q * list Q)%type.

(** Calls served one after the other, as they reach the buckets: the
    bucket's lock serialises the calls on one object, and calls on
    different objects touch disjoint state.  Also returns the object
    each call drew from; [None]: a call still waiting. *)
Fixpoint run_allow (l : RateLimiter) (reqs : list Req) : option (RateLimiter * list positive) :=
  match reqs with
  | [] => Some (l, [])
  | (ex, ep, w, now, wakes) :: rs =>
      let '(id, l1) := select l ex ep now in
      match consume_at l1 id w now wakes with
      | None => None
      | Some l2 =>
          match run_allow l2 rs with
          | Some (l3, ids) => Some (l3, id :: ids)
          | None => None
          end
      end
  end.

(** The calls of a run that drew from the object [id], as bucket
    requests. *)
Fixpoint bucket_reqs (id : positive) (reqs : list Req) (ids : list positive) : list (Z * Q * list Q) :=
  match reqs, ids with
  | (_, _, w, now, wakes) :: rs, id1 :: ids' =>
      if Pos.eqb id1 id then (w, now, wakes) :: bucket_reqs id rs ids' else bucket_reqs id rs ids'
  | _, _ => []
  end.

(** The weight a run granted from the object [id]. *)
Definition granted (id : positive) (reqs : list Req) (ids : list positive) : Q :=
  qsum (map (fun r => inject_Z (fst (fst r))) (bucket_reqs id reqs ids)).

(** The fields of a call. *)
Definition req_key (r : Req) : string := let '(ex, ep, _, _, _) := r in key ex ep.
Definition req_weight (r : Req) : Z := let '(_, _, w, _, _) := r in w.

(** The number of calls of a run on the key [k]. *)
Definition count_key (k : string) (reqs : list Req) : nat :=
  length (List.filter (fun r => String.eqb (req_key r) k) reqs).

(** Every key of the dict refers to an allocated object, and ids at or
    past [next_id] are fresh. *)
Definition limiter_wf (l : RateLimiter) : Prop :=
  (forall k id, dict l !! k = Some id -> is_Some (heap l !! id)) /\
  (forall id, (next_id l <= id)%positive -> heap l !! id = None).

(** Configurations and states used to run the model. *)

Definition conf_of (c : Z) (r : Q) : Json :=
  JObj [("capacity"%string, JNum (inject_Z c)); ("refill"%string, JNum r)].

Definition admin_cfg : Json := JObj [("aster"%string, JObj [("global"%string, conf_of 2 1)])].

Definition l_after_allow : RateLimiter :=
  let l := snd (select empty_limiter "aster" "depth" 0) in
  match consume_at l 1%positive 1 0 [] with Some l' => l' | None => l end.

(** A coroutine waiting on the "aster:global" object (tokens 0, rate 1)
    while the admin posts a new config at clock 0: it finishes on the
    old object at 1 s, and the new object keeps its two tokens. *)
Definition l_before : RateLimiter :=
  mkLimiter {[1%positive := mkBucket 2 1 0 0]} 2%positive {[key "aster" "global" := 1%positive]}.

End Limiter.

Module BucketTheory.
Import Bucket.

Lemma refill_le b t : tokens (refill b t) <= tokens b + (t - last b) * refill_rate b.
Proof. apply Q.le_min_r. Qed.

Lemma refill_le_cap b t : tokens (refill b t) <= inject_Z (capacity b).
Proof. apply Q.le_min_l. Qed.

Lemma refill_ok b now :
  bucket_ok b -> last b <= now ->
  bucket_ok (refill b now) /\ tokens b <= tokens (refill b now).
Proof.
  intros [[H0 Hc] Hr] Hn. unfold bucket_ok.
  assert (0 <= (now - last b) * refill_rate b) by (apply Qmult_le_0_compat; lra).
  assert (tokens b <= tokens (refill b now)) by (apply Q.min_glb; lra).
  pose proof (refill_le_cap b now).
  change (capacity (refill b now)) with (capacity b).
  change (refill_rate (refill b now)) with (refill_rate b).
  repeat split; lra.
Qed.

(** What the waiting loop does to the bucket: the deduction is paid for
    by the tokens held plus the refill over the time it waited. *)
Lemma wait_loop_budget b need wakes b' n :
  wait_loop b need wakes = Some (b', n) ->
  tokens b' + need <= tokens b + (last b' - last b) * refill_rate b /\
  0 <= tokens b' /\ capacity b' = capacity b /\ refill_rate b' = refill_rate b.
Proof.
  revert b n. induction wakes as [|t ws IH]; intros b n E; simpl in E;
    qcase_on (qltb (tokens b) need); try discriminate.
  - inversion E; subst; simpl. repeat split; lra.
  - destruct (wait_loop (refill b t) need ws) as [[b1 n1]|] eqn:E1; [|discriminate].
    injection E as <- <-.
    destruct (IH (refill b t) n1 E1) as (H1 & H2 & H3 & H4).
    change (capacity (refill b t)) with (capacity b) in H3.
    change (refill_rate (refill b t)) with (refill_rate b) in H1, H4.
    change (last (refill b t)) with t in H1.
    pose proof (refill_le b t). repeat split; try assumption.
    assert (E2 : (last b1 - t) * refill_rate b + (t - last b) * refill_rate b
                 == (last b1 - last b) * refill_rate b) by ring.
    lra.
  - inversion E; subst; simpl. repeat split; lra.
Qed.

Lemma consume_budget b w now wakes b' n :
  consume b w now wakes = Some (b', n) ->
  tokens b' + inject_Z w <= tokens b + (last b' - last b) * refill_rate b /\
  0 <= tokens b' /\ capacity b' = capacity b /\ refill_rate b' = refill_rate b.
Proof.
  unfold consume. intros E.
  destruct (wait_loop_budget _ _ _ _ _ E) as (H1 & H2 & H3 & H4).
  change (capacity (refill b now)) with (capacity b) in H3.
  change (refill_rate (refill b now)) with (refill_rate b) in H1, H4.
  change (last (refill b now)) with now in H1.
  pose proof (refill_le b now). repeat split; try assumption.
  assert (E2 : (last b' - now) * refill_rate b + (now - last b) * refill_rate b
               == (last b' - last b) * refill_rate b) by ring.
  lra.
Qed.

Lemma run_budget b reqs b' tot :
  run b reqs = Some (b', tot) ->
  tokens b' + tot <= tokens b + (last b' - last b) * refill_rate b /\
  (reqs <> [] -> 0 <= tokens b') /\ refill_rate b' = refill_rate b.
Proof.
  revert b b' tot. induction reqs as [|[[w now] wakes] rs IH]; intros b b' tot E; simpl in E.
  - inversion E; subst. repeat split; try lra. congruence.
  - destruct (consume b w now wakes) as [[b1 n1]|] eqn:E1; [|discriminate].
    destruct (run b1 rs) as [[b2 t2]|] eqn:E2; [|discriminate].
    inversion E; subst.
    destruct (consume_budget _ _ _ _ _ _ E1) as (H1 & H2 & H3 & H4).
    destruct (IH _ _ _ E2) as (G1 & G2 & G3).
    rewrite H4 in G1, G3. split; [|split; [|assumption]].
    + assert (E3 : (last b' - last b1) * refill_rate b + (last b1 - last b) * refill_rate b
                   == (last b' - last b) * refill_rate b) by ring.
      lra.
    + intros _. destruct rs; [simpl in E2; inversion E2; subst; assumption|].
      apply G2. discriminate.
Qed.

Lemma wait_loop_le_cap b need wakes b' n :
  0 <= need -> tokens b <= inject_Z (capacity b) ->
  wait_loop b need wakes = Some (b', n) -> tokens b' <= inject_Z (capacity b').
Proof.
  revert b n. induction wakes as [|t ws IH]; intros b n Hn Hc E; simpl in E;
    qcase_on (qltb (tokens b) need); try discriminate.
  - inversion E; subst; simpl. lra.
  - destruct (wait_loop (refill b t) need ws) as [[b1 n1]|] eqn:E1; [|discriminate].
    injection E as <- <-. apply (IH (refill b t) n1); [assumption | exact (refill_le_cap b t) | exact E1].
  - inversion E; subst; simpl. lra.
Qed.

Lemma wait_loop_stuck b need wakes :
  inject_Z (capacity b) < need -> tokens b <= inject_Z (capacity b) ->
  wait_loop b need wakes = None.
Proof.
  revert b. induction wakes as [|t ws IH]; intros b Hn Hc; simpl;
    qcase_on (qltb (tokens b) need); try lra; try reflexivity.
  rewrite IH; [reflexivity | exact Hn | exact (refill_le_cap b t)].
Qed.

(** Refilling at the instant of the last refill adds nothing. *)
Lemma refill_same_instant b :
  tokens b <= inject_Z (capacity b) -> tokens (refill b (last b)) == tokens b.
Proof.
  intros Hc. cbn [refill tokens]. rewrite Q.min_r; [ring | lra].
Qed.

(** Requests at the instant of the last refill: served at once while
    tokens last; otherwise the first clock reading decides. *)
Lemma consume_no_wait b w ws :
  inject_Z w <= tokens b -> tokens b <= inject_Z (capacity b) ->
  exists b', consume b w (last b) ws = Some (b', O) /\ tokens b' == tokens b - inject_Z w /\
             last b' = last b /\ capacity b' = capacity b /\ refill_rate b' = refill_rate b.
Proof.
  intros Hw Hc. pose proof (refill_same_instant b Hc). unfold consume.
  destruct ws; cbn [wait_loop]; (qcase_on (qltb (tokens (refill b (last b))) (inject_Z w)); [lra|]);
  eexists; (split; [reflexivity|]); cbn [tokens last capacity refill_rate]; repeat split; try reflexivity; lra.
Qed.

Lemma consume_wait_one b w t' :
  tokens b < inject_Z w -> tokens b <= inject_Z (capacity b) ->
  consume b w (last b) [] = None /\
  (consume b w (last b) [t'] <> None <->
   inject_Z w <= Qmin (inject_Z (capacity b)) (tokens b + (t' - last b) * refill_rate b)).
Proof.
  intros Hw Hc. pose proof (refill_same_instant b Hc) as Hs. unfold consume. cbn [wait_loop].
  qcase_on (qltb (tokens (refill b (last b))) (inject_Z w)); [|lra].
  split; [reflexivity|]. cbn [refill tokens capacity refill_rate last] in *.
  set (m := Qmin _ (tokens b + (t' - last b) * refill_rate b)).
  assert (Hm : Qmin (inject_Z (capacity b))
                 (Qmin (inject_Z (capacity b)) (tokens b + (last b - last b) * refill_rate b) +
                  (t' - last b) * refill_rate b) == m).
  { unfold m. apply Q.min_compat; [reflexivity|]. rewrite Hs. reflexivity. }
  qcase_on (qltb (Qmin (inject_Z (capacity b))
                 (Qmin (inject_Z (capacity b)) (tokens b + (last b - last b) * refill_rate b) +
                  (t' - last b) * refill_rate b)) (inject_Z w));
    split; intros H; try congruence; try lra; discriminate.
Qed.

(** C3: Invariant: a served request leaves the bucket with tokens between
    zero and its capacity (for a non-negative weight and refill rate). *)
Theorem consume_ok b w now wakes b' n :
  0 <= refill_rate b -> (0 <= w)%Z ->
  consume b w now wakes = Some (b', n) -> bucket_ok b'.
Proof.
  intros Hr Hw E.
  destruct (consume_budget _ _ _ _ _ _ E) as (_ & H2 & H3 & H4).
  assert (0 <= inject_Z w) by (change 0 with (inject_Z 0); rewrite <- Zle_Qle; lia).
  pose proof (wait_loop_le_cap _ _ _ _ _ H (refill_le_cap b now) E).
  unfold bucket_ok. rewrite H4. repeat split; assumption.
Qed.

(** C4: Safety (the rate limit): whatever the clock readings, the total
    weight granted by a fresh bucket of capacity [C] and rate [R] created
    at [t0] is at most [C + R * (T - t0)], [T] the clock at the last
    refill. *)
Theorem run_rate_bound cap rate t0 reqs b' tot :
  (0 <= cap)%Z ->
  run (new_bucket cap rate t0) reqs = Some (b', tot) ->
  tot <= inject_Z cap + rate * (last b' - t0).
Proof.
  intros Hc E. destruct (run_budget _ _ _ _ E) as (H1 & H2 & H3).
  simpl in H1. destruct reqs as [|r rs].
  - simpl in E. inversion E; subst. simpl. ring_simplify.
    change 0 with (inject_Z 0). rewrite <- Zle_Qle. exact Hc.
  - assert (0 <= tokens b') by (apply H2; discriminate).
    assert (E2 : (last b' - t0) * rate == rate * (last b' - t0)) by ring. lra.
Qed.

(** Liveness: with a positive refill rate and [0 <= weight <= capacity],
    a request is granted after at most one sleep, provided the clock
    reading after that sleep honours the requested duration. *)
Theorem consume_one_sleep b w now t ws :
  bucket_ok b -> 0 < refill_rate b -> (0 <= w <= capacity b)%Z -> last b <= now ->
  now + sleep_for (refill b now) (inject_Z w) <= t ->
  exists b' n, consume b w now (t :: ws) = Some (b', n) /\ (n <= 1)%nat.
Proof.
  intros Hok Hr Hw Hn Ht. unfold consume.
  set (b1 := refill b now) in *. set (need := inject_Z w) in *.
  assert (Hneed : need <= inject_Z (capacity b)) by (unfold need; rewrite <- Zle_Qle; lia).
  cbn [wait_loop]. qcase_on (qltb (tokens b1) need); [|eauto].
  assert (Hr1 : refill_rate b1 = refill_rate b) by reflexivity.
  assert (Hw1 : to_wait b1 need == (need - tokens b1) / refill_rate b).
  { unfold to_wait. rewrite Hr1. qcase_on (qltb 0 (refill_rate b)); [reflexivity | lra]. }
  assert (Hs : (need - tokens b1) / refill_rate b <= t - now).
  { unfold sleep_for in Ht. pose proof (Q.le_max_l (to_wait b1 need) (1 # 100)). lra. }
  assert (Hfill : need <= tokens (refill b1 t)).
  { apply Q.min_glb; [exact Hneed|].
    change (last b1) with now. rewrite Hr1.
    apply Qmult_le_compat_r with (z := refill_rate b) in Hs; [|lra].
    assert (E : (need - tokens b1) / refill_rate b * refill_rate b == need - tokens b1)
      by (field; lra).
    rewrite E in Hs.
    lra. }
  destruct ws; cbn [wait_loop]; qcase_on (qltb (tokens (refill b1 t)) need); try lra; eauto.
Qed.

(** C32: A request heavier than the capacity is never granted: whatever the
    clock does, the coroutine keeps sleeping (with the admin endpoint, a
    configured capacity below 1 makes every request of that venue hang). *)
Theorem consume_hangs_over_capacity b w now wakes :
  (capacity b < w)%Z -> consume b w now wakes = None.
Proof.
  intros H. unfold consume. apply wait_loop_stuck.
  - change (capacity (refill b now)) with (capacity b). rewrite <- Zlt_Qlt. exact H.
  - exact (refill_le_cap b now).
Qed.

(** Spec example 7: a bucket (C = 5, R = 5/s) grants five requests at
    once; the sixth asks for a 0.2 s sleep and is granted when woken at
    0.2 s; after 1 s of idleness the bucket is full again. *)
Theorem bucket_spec_example :
  match run (new_bucket 5 5 0) [(1%Z, 0, []); (1%Z, 0, []); (1%Z, 0, []); (1%Z, 0, []); (1%Z, 0, [])] with
  | Some (b, tot) =>
      tot == 5 /\ tokens b == 0 /\ sleep_for (refill b 0) 1 == 1 # 5 /\
      (exists b6, consume b 1 0 [1 # 5] = Some (b6, 1%nat) /\
                  tokens (refill b6 (6 # 5)) == 5)
  | None => False
  end.
Proof.
  vm_compute. split; [reflexivity|]. split; [reflexivity|]. split; [reflexivity|].
  eexists. split; [reflexivity | reflexivity].
Qed.

(** Witnesses. *)

Lemma consume_ok_witness :
  0 <= refill_rate (new_bucket 5 5 0) /\ (0 <= 1)%Z /\
  consume (new_bucket 5 5 0) 1 0 [] = Some (mkBucket 5 5 (inject_Z 5 + 0 * 5 - inject_Z 1) 0, O) /\
  bucket_ok (mkBucket 5 5 (inject_Z 5 + 0 * 5 - inject_Z 1) 0).
Proof.
  assert (H1 : 0 <= refill_rate (new_bucket 5 5 0)) by (vm_compute; discriminate).
  assert (H2 : (0 <= 1)%Z) by lia.
  assert (H3 : consume (new_bucket 5 5 0) 1 0 [] =
               Some (mkBucket 5 5 (inject_Z 5 + 0 * 5 - inject_Z 1) 0, O)) by reflexivity.
  split; [exact H1|]. split; [exact H2|]. split; [exact H3|].
  exact (consume_ok _ 1 0 [] _ _ H1 H2 H3).
Defined.

(** Scenario S6: capacity 2, rate 1/s; three requests at clock 0, the
    third woken at 1 s; the bound [3 <= 2 + 1 * (1 - 0)] is attained. *)
Lemma run_rate_bound_witness :
  exists b', run (new_bucket 2 1 0) [(1%Z, 0, []); (1%Z, 0, []); (1%Z, 0, [1])] = Some (b', 3) /\
             last b' == 1 /\ 3 <= inject_Z 2 + 1 * (last b' - 0).
Proof.
  eexists. split; [vm_compute; reflexivity|]. split; [vm_compute; reflexivity|].
  apply (run_rate_bound 2 1 0 [(1%Z, 0, []); (1%Z, 0, []); (1%Z, 0, [1])]); [lia | vm_compute; reflexivity].
Defined.

Lemma consume_one_sleep_witness :
  exists b' n, consume (mkBucket 5 5 0 0) 1 0 [1 # 5] = Some (b', n) /\ (n <= 1)%nat.
Proof.
  apply consume_one_sleep.
  - unfold bucket_ok; vm_compute; repeat split; discriminate.
  - vm_compute; reflexivity.
  - simpl; lia.
  - vm_compute; discriminate.
  - vm_compute; discriminate.
Defined.

Lemma consume_hangs_over_capacity_witness :
  (capacity (new_bucket 0 1000 0) < 1)%Z /\ consume (new_bucket 0 1000 0) 1 0 [1; 2; 3] = None.
Proof.
  assert (H : (capacity (new_bucket 0 1000 0) < 1)%Z) by (simpl; lia).
  split; [exact H | exact (consume_hangs_over_capacity _ 1 0 [1; 2; 3] H)].
Defined.

End BucketTheory.

Module LimiterTheory.
Import Bucket Limiter PyJson.

Lemma wf_lookup_lt l id b :
  limiter_wf l -> heap l !! id = Some b -> (id < next_id l)%positive.
Proof.
  intros [_ H2] Hb. destruct (Pos.lt_total id (next_id l)) as [|Hge]; [assumption|].
  assert (Hle : (next_id l <= id)%positive) by (destruct Hge; lia).
  rewrite (H2 id Hle) in Hb. discriminate.
Qed.

Lemma alloc_wf l k b : limiter_wf l -> limiter_wf (alloc l k b).
Proof.
  intros [H1 H2]. unfold limiter_wf, alloc; cbn [heap dict next_id]. split.
  - intros k' id Hk. destruct (decide (next_id l = id)) as [<-|Hne].
    + rewrite lookup_insert_eq. eauto.
    + rewrite lookup_insert_ne by assumption.
      destruct (decide (k = k')) as [<-|Hk'].
      * rewrite lookup_insert_eq in Hk. congruence.
      * rewrite lookup_insert_ne in Hk by assumption. eauto.
  - intros id Hid. rewrite lookup_insert_ne by lia. apply H2. lia.
Qed.

Lemma alloc_heap_old l k b id b0 :
  limiter_wf l -> heap l !! id = Some b0 -> heap (alloc l k b) !! id = Some b0.
Proof.
  intros Hwf Hb. pose proof (wf_lookup_lt l id b0 Hwf Hb).
  cbn [heap alloc]. rewrite lookup_insert_ne by lia. exact Hb.
Qed.

Lemma alloc_next l k b : (next_id l < next_id (alloc l k b))%positive.
Proof. cbn [alloc next_id]. lia. Qed.

(** [update] only allocates: it keeps the dict well formed, never
    mutates an existing bucket object, and never reuses an id. *)
Lemma update_eps_mono l exch eps now :
  limiter_wf l ->
  limiter_wf (fst (update_eps l exch eps now)) /\
  (forall id b0, heap l !! id = Some b0 -> heap (fst (update_eps l exch eps now)) !! id = Some b0) /\
  (next_id l <= next_id (fst (update_eps l exch eps now)))%positive.
Proof.
  revert l. induction eps as [|[ep c] rest IH]; intros l Hwf; simpl; [split; [|split]; auto; lia|].
  destruct (read_capacity c) as [cap|e]; [|simpl; split; [|split]; auto; lia].
  destruct (read_refill c) as [rf|e]; [|simpl; split; [|split]; auto; lia].
  destruct (IH (alloc l (key exch ep) (new_bucket cap rf now))) as (H1 & H2 & H3);
    [apply alloc_wf; assumption|].
  split; [assumption|]. split.
  - intros id b0 Hb. apply H2. apply alloc_heap_old; assumption.
  - pose proof (alloc_next l (key exch ep) (new_bucket cap rf now)). lia.
Qed.

Lemma update_eps_mono_next l exch eps now :
  (next_id l <= next_id (fst (update_eps l exch eps now)))%positive.
Proof.
  revert l. induction eps as [|[ep c] rest IH]; intros l; simpl; [lia|].
  destruct (read_capacity c) as [cap|]; [|simpl; lia]. destruct (read_refill c) as [rf|]; [|simpl; lia].
  pose proof (IH (alloc l (key exch ep) (new_bucket cap rf now))). cbn [alloc next_id] in *. lia.
Qed.

Lemma update_items_mono l kv now :
  limiter_wf l ->
  limiter_wf (fst (update_items l kv now)) /\
  (forall id b0, heap l !! id = Some b0 -> heap (fst (update_items l kv now)) !! id = Some b0) /\
  (next_id l <= next_id (fst (update_items l kv now)))%positive.
Proof.
  revert l. induction kv as [|[exch cfg] rest IH]; intros l Hwf; simpl; [split; [|split]; auto; lia|].
  destruct (items cfg) as [eps|e]; [|simpl; split; [|split]; auto; lia].
  destruct (update_eps_mono l exch eps now Hwf) as (H1 & H2 & H3).
  destruct (update_eps l exch eps now) as [l1 [e|]]; simpl in *; [split; [|split]; auto|].
  destruct (IH l1 H1) as (G1 & G2 & G3). split; [|split]; auto. lia.
Qed.

Lemma update_mono l cfg now :
  limiter_wf l ->
  limiter_wf (fst (update l cfg now)) /\
  (forall id b0, heap l !! id = Some b0 -> heap (fst (update l cfg now)) !! id = Some b0) /\
  (next_id l <= next_id (fst (update l cfg now)))%positive.
Proof.
  intros Hwf. unfold update. destruct (items cfg) as [kv|e]; [apply update_items_mono; assumption|].
  simpl. split; [|split]; auto; lia.
Qed.

Lemma select_wf l ex ep now :
  limiter_wf l ->
  limiter_wf (snd (select l ex ep now)) /\ is_Some (heap (snd (select l ex ep now)) !! fst (select l ex ep now)).
Proof.
  intros Hwf. unfold select.
  destruct (dict l !! key ex ep) as [id|] eqn:E1; simpl; [split; [|destruct Hwf; eauto]; assumption|].
  destruct (dict l !! key ex "global") as [id|] eqn:E2; simpl; [split; [|destruct Hwf; eauto]; assumption|].
  split; [apply alloc_wf; assumption|]. rewrite lookup_insert_eq. eauto.
Qed.

Lemma consume_at_wf l id w now wakes l' :
  limiter_wf l -> consume_at l id w now wakes = Some l' ->
  limiter_wf l' /\ dict l' = dict l /\ next_id l' = next_id l /\
  (forall id', id' <> id -> heap l' !! id' = heap l !! id').
Proof.
  intros [H1 H2] E. unfold consume_at in E.
  destruct (heap l !! id) as [b|] eqn:Eb; [|discriminate].
  destruct (consume b w now wakes) as [[b' n]|]; [|discriminate].
  injection E as <-. split; [|split; [reflexivity|split; [reflexivity|]]].
  - unfold limiter_wf; cbn [heap dict next_id]. split.
  + intros k id' Hk. destruct (decide (id = id')) as [<-|Hne].
    * rewrite lookup_insert_eq. eauto.
    * rewrite lookup_insert_ne by assumption. eauto.
  + intros id' Hid. rewrite lookup_insert_ne; [apply H2; assumption|].
    intros <-. rewrite (H2 id Hid) in Eb. discriminate.
  - intros id' Hne. cbn [heap]. apply lookup_insert_ne. congruence.
Qed.

Lemma update_eps_fresh l exch eps now k id' :
  dict (fst (update_eps l exch eps now)) !! k = Some id' ->
  dict l !! k = Some id' \/ (next_id l <= id')%positive.
Proof.
  revert l. induction eps as [|[ep c] rest IH]; intros l Hk; simpl in Hk; [auto|].
  destruct (read_capacity c) as [cap|e]; [|simpl in Hk; auto].
  destruct (read_refill c) as [rf|e]; [|simpl in Hk; auto].
  destruct (IH _ Hk) as [H|H]; cbn [alloc dict next_id] in H.
  - destruct (decide (key exch ep = k)) as [<-|Hne].
    + rewrite lookup_insert_eq in H. injection H as <-. right. lia.
    + rewrite lookup_insert_ne in H by assumption. auto.
  - right. lia.
Qed.

Lemma update_items_fresh l kv now k id' :
  dict (fst (update_items l kv now)) !! k = Some id' ->
  dict l !! k = Some id' \/ (next_id l <= id')%positive.
Proof.
  revert l. induction kv as [|[exch cfg] rest IH]; intros l Hk; simpl in Hk; [auto|].
  destruct (items cfg) as [eps|e]; [|simpl in Hk; auto].
  pose proof (update_eps_mono_next l exch eps now) as Hn.
  destruct (update_eps l exch eps now) as [l1 [e|]] eqn:E; simpl in Hk.
  - apply (update_eps_fresh l exch eps now). rewrite E. exact Hk.
  - destruct (IH l1 Hk) as [H|H].
    + apply (update_eps_fresh l exch eps now). rewrite E. exact H.
    + right. simpl in Hn. lia.
Qed.

Lemma update_fresh l cfg now k id' :
  dict (fst (update l cfg now)) !! k = Some id' ->
  dict l !! k = Some id' \/ (next_id l <= id')%positive.
Proof.
  unfold update. destruct (items cfg) as [kv|e]; [apply update_items_fresh|simpl; auto].
Qed.

#[export] Instance override_proper :
  Proper (eq ==> pointwise_relation string eq ==> eq ==> pointwise_relation string eq) override.
Proof.
  intros now ? <- f g Hfg es ? <-. revert f g Hfg. induction es as [|[k [cap rf]] r IH]; intros f g Hfg k'; simpl; [apply Hfg|].
  apply IH. intros k''. destruct (String.eqb k k''); [reflexivity|apply Hfg].
Qed.

Lemma override_app now f es1 es2 k : override now f (es1 ++ es2) k = override now (override now f es1) es2 k.
Proof. revert f. induction es1 as [|[k1 [cap rf]] r IH]; intros f; simpl; [reflexivity|apply IH]. Qed.

(** Allocating under [k] changes the view at [k] only. *)
Lemma alloc_view l k b :
  limiter_wf l ->
  pointwise_relation string eq (view (alloc l k b))
    (fun k' => if String.eqb k k' then Some b else view l k').
Proof.
  intros Hwf k'. unfold view. cbn [alloc dict heap].
  destruct (String.eqb_spec k k') as [<-|Hne].
  - rewrite !lookup_insert_eq. reflexivity.
  - rewrite lookup_insert_ne by assumption.
    destruct (dict l !! k') as [id|] eqn:E; [|reflexivity].
    destruct (proj1 Hwf k' id E) as [b0 Hb0]. pose proof (wf_lookup_lt l id b0 Hwf Hb0).
    rewrite lookup_insert_ne by lia. reflexivity.
Qed.

Lemma update_eps_refines l exch eps now :
  limiter_wf l ->
  match map_res (fun '(ep, c) => conf_entry exch ep c) eps with
  | Ok es => snd (update_eps l exch eps now) = None /\
             forall k, view (fst (update_eps l exch eps now)) k = override now (view l) es k
  | Err e => snd (update_eps l exch eps now) = Some e
  end.
Proof.
  revert l. induction eps as [|[ep c] rest IH]; intros l Hwf; simpl; [auto|].
  unfold conf_entry at 1. destruct (read_capacity c) as [cap|e]; simpl; [|reflexivity].
  destruct (read_refill c) as [rf|e]; simpl; [|reflexivity].
  specialize (IH (alloc l (key exch ep) (new_bucket cap rf now)) (alloc_wf _ _ _ Hwf)).
  destruct (map_res _ rest) as [es|e]; simpl; [|exact IH].
  destruct IH as [IH1 IH2]. split; [exact IH1|]. intros k. rewrite IH2.
  exact (override_proper now now eq_refl _ _ (alloc_view l (key exch ep) (new_bucket cap rf now) Hwf) es es eq_refl k).
Qed.

Lemma update_items_refines l kv now :
  limiter_wf l ->
  match map_res (fun '(exch, cfg) =>
          let* eps := items cfg in map_res (fun '(ep, c) => conf_entry exch ep c) eps) kv with
  | Ok ess => snd (update_items l kv now) = None /\
              forall k, view (fst (update_items l kv now)) k = override now (view l) (concat ess) k
  | Err e => snd (update_items l kv now) = Some e
  end.
Proof.
  revert l. induction kv as [|[exch cfg] rest IH]; intros l Hwf; simpl; [auto|].
  destruct (items cfg) as [eps|e]; simpl; [|reflexivity].
  pose proof (update_eps_refines l exch eps now Hwf) as He.
  destruct (update_eps_mono l exch eps now Hwf) as (Hwf1 & _).
  destruct (update_eps l exch eps now) as [l1 r1].
  destruct (map_res _ eps) as [es|e]; simpl in *; [|rewrite He; reflexivity].
  destruct He as [-> He]. specialize (IH l1 Hwf1).
  destruct (map_res _ rest) as [ess|e]; simpl; [|exact IH].
  destruct IH as [IH1 IH2]. split; [exact IH1|]. intros k.
  rewrite IH2, override_app. exact (override_proper now now eq_refl _ _ He _ _ eq_refl k).
Qed.

(** Invariant: [update] and [allow] keep the dict pointing at allocated
    bucket objects, with fresh ids past [next_id]. *)
Theorem limiter_ops_wf l cfg now ex ep w t wakes l' :
  limiter_wf l ->
  limiter_wf (fst (update l cfg now)) /\
  (allow l ex ep w t wakes = Some l' -> limiter_wf l').
Proof.
  intros Hwf. split; [apply update_mono; assumption|].
  unfold allow. destruct (select_wf l ex ep t Hwf) as [Hs _].
  destruct (select l ex ep t) as [id l1]. simpl in Hs.
  intros E. apply (consume_at_wf l1 id w t wakes l' Hs E).
Qed.

(** C37: A coroutine that picked a bucket object before an admin [update]
    finishes on that old object, with its old capacity and rate; every
    key whose bucket the update replaced now points to a new object that
    the waiter's deduction does not touch.  (The spec says in-flight
    waiters continue against the new parameters.) *)
Theorem waiter_keeps_old_bucket l id b cfg now w t wakes l1 r l2 :
  limiter_wf l -> heap l !! id = Some b ->
  update l cfg now = (l1, r) ->
  consume_at l1 id w t wakes = Some l2 ->
  (exists b' n, consume b w t wakes = Some (b', n) /\ heap l2 !! id = Some b') /\
  (forall k id', dict l1 !! k = Some id' -> dict l !! k <> Some id' ->
     id' <> id /\ heap l2 !! id' = heap l1 !! id').
Proof.
  intros Hwf Hb Eu Ec.
  destruct (update_mono l cfg now Hwf) as (H1 & H2 & _). rewrite Eu in H1, H2. simpl in H1, H2.
  pose proof (H2 id b Hb) as Hb1.
  destruct (consume_at_wf l1 id w t wakes l2 H1 Ec) as (_ & _ & _ & Hother).
  split.
  - unfold consume_at in Ec. rewrite Hb1 in Ec.
    destruct (consume b w t wakes) as [[b' n]|]; [|discriminate].
    injection Ec as <-. exists b', n. split; [reflexivity|]. apply lookup_insert_eq.
  - intros k id' Hk Hold.
    assert (Hk' : dict (fst (update l cfg now)) !! k = Some id') by (rewrite Eu; exact Hk).
    destruct (update_fresh l cfg now k id' Hk') as [|Hf]; [contradiction|].
    pose proof (wf_lookup_lt l id b Hwf Hb).
    assert (id' <> id) by lia. split; [assumption|]. apply Hother. assumption.
Qed.

(** [allow] on a key that refers to the object [id]. *)
Lemma allow_at l ex ep id b w t ws :
  dict l !! key ex ep = Some id -> heap l !! id = Some b ->
  allow l ex ep w t ws =
    match consume b w t ws with
    | Some (b', _) => Some (mkLimiter (<[id := b']> (heap l)) (next_id l) (dict l))
    | None => None
    end.
Proof. intros Hd Hh. unfold allow, select. rewrite Hd. cbn [fst snd]. unfold consume_at. rewrite Hh. reflexivity. Qed.

Lemma override_notin now f es k : ~ In k (map fst es) -> override now f es k = f k.
Proof.
  revert f. induction es as [|[k1 [cap rf]] r IH]; intros f Hk; simpl in *; [reflexivity|].
  rewrite IH by tauto. destruct (String.eqb_spec k1 k); [tauto | reflexivity].
Qed.

Lemma view_empty k : view empty_limiter k = None.
Proof. unfold view. cbn [dict empty_limiter]. rewrite lookup_empty. reflexivity. Qed.

Lemma select_heap_old l ex ep now id b :
  limiter_wf l -> heap l !! id = Some b -> heap (snd (select l ex ep now)) !! id = Some b.
Proof.
  intros Hwf Hb. unfold select.
  destruct (dict l !! key ex ep); [exact Hb|]. destruct (dict l !! key ex "global"); [exact Hb|].
  apply alloc_heap_old; assumption.
Qed.

(** Simulation: projected on one bucket object, a run of [allow] calls
    from any number of tasks, in any order, is a run of that bucket. *)
Lemma run_allow_projects l reqs l' ids id b :
  limiter_wf l -> heap l !! id = Some b -> run_allow l reqs = Some (l', ids) ->
  exists b' tot, run b (bucket_reqs id reqs ids) = Some (b', tot) /\ heap l' !! id = Some b'.
Proof.
  revert l ids b. induction reqs as [|[[[[ex ep] w] now] wakes] rs IH]; intros l ids b Hwf Hb E; cbn in E.
  - injection E as <- <-. exists b, 0. split; [reflexivity | exact Hb].
  - destruct (select_wf l ex ep now Hwf) as [Hwf1 _]. pose proof (select_heap_old l ex ep now id b Hwf Hb) as Hb1.
    destruct (select l ex ep now) as [id1 l1]. cbn [fst snd] in *.
    destruct (consume_at l1 id1 w now wakes) as [l2|] eqn:Ec; [|discriminate].
    destruct (run_allow l2 rs) as [[l3 ids3]|] eqn:Er; [|discriminate]. injection E as <- <-.
    destruct (consume_at_wf l1 id1 w now wakes l2 Hwf1 Ec) as (Hwf2 & _ & _ & Hother).
    cbn [bucket_reqs]. destruct (Pos.eqb_spec id1 id) as [<-|Hne].
    + unfold consume_at in Ec. rewrite Hb1 in Ec.
      destruct (consume b w now wakes) as [[b1 n]|] eqn:Eb; [|discriminate]. injection Ec as <-.
      destruct (IH _ _ b1 Hwf2 (lookup_insert_eq _ _ _) Er) as (b' & tot & Hr & Hh).
      exists b', (inject_Z w + tot). split; [cbn; rewrite Eb, Hr; reflexivity | exact Hh].
    + apply (IH l2 ids3 b Hwf2); [rewrite Hother by congruence; exact Hb1 | exact Er].
Qed.

Lemma run_total b rq b' tot :
  run b rq = Some (b', tot) -> tot = qsum (map (fun r => inject_Z (fst (fst r))) rq).
Proof.
  revert b b' tot. induction rq as [|[[w now] wakes] rs IH]; intros b b' tot E; cbn in E.
  - injection E as _ <-. reflexivity.
  - destruct (consume b w now wakes) as [[b1 n]|]; [|discriminate].
    destruct (run b1 rs) as [[b2 t2]|] eqn:E2; [|discriminate]. injection E as _ <-.
    cbn. f_equal. exact (IH _ _ _ E2).
Qed.

Lemma run_allow_app l xs ys l1 i1 l2 i2 :
  run_allow l xs = Some (l1, i1) -> run_allow l1 ys = Some (l2, i2) -> run_allow l (xs ++ ys) = Some (l2, i1 ++ i2).
Proof.
  revert l i1. induction xs as [|[[[[ex ep] w] now] wakes] rs IH]; intros l i1 E1 E2; cbn in *.
  - injection E1 as <- <-. exact E2.
  - destruct (select l ex ep now) as [id l0].
    destruct (consume_at l0 id w now wakes) as [l3|]; [|discriminate].
    destruct (run_allow l3 rs) as [[l4 i4]|] eqn:E3; [|discriminate]. injection E1 as <- <-.
    rewrite (IH l3 i4 E3 E2). reflexivity.
Qed.

Lemma run_allow_single l ex ep w now ws l' :
  allow l ex ep w now ws = Some l' -> exists id, run_allow l [(ex, ep, w, now, ws)] = Some (l', [id]).
Proof.
  unfold allow. intros E. cbn. destruct (select l ex ep now) as [id l0].
  rewrite E. exists id. reflexivity.
Qed.

(** A key that refers to an object keeps referring to it across [allow]. *)
Lemma allow_keeps_key l ex ep w now ws l' k id :
  limiter_wf l -> dict l !! k = Some id -> allow l ex ep w now ws = Some l' -> dict l' !! k = Some id.
Proof.
  intros Hwf Hk E. unfold allow in E. destruct (select_wf l ex ep now Hwf) as [Hwf1 _].
  assert (Hk1 : dict (snd (select l ex ep now)) !! k = Some id).
  { unfold select. destruct (dict l !! key ex ep); [exact Hk|].
    match goal with |- context [dict l !! ?g] => destruct (dict l !! g) eqn:Eg end; [exact Hk|].
    cbn [alloc dict snd]. rewrite lookup_insert_ne; [exact Hk|]. intros <-. congruence. }
  destruct (select l ex ep now) as [id1 l1]. cbn [snd] in *.
  destruct (consume_at_wf l1 id1 w now ws l' Hwf1 E) as (_ & -> & _). exact Hk1.
Qed.

(** The calls on a key that refers to [id] all draw from [id]: with unit
    weights, the weight granted from [id] is at least their number. *)
Lemma granted_ge_count l tr l' ids k id :
  limiter_wf l -> dict l !! k = Some id -> run_allow l tr = Some (l', ids) ->
  Forall (fun r => req_weight r = 1%Z) tr ->
  inject_Z (Z.of_nat (count_key k tr)) <= granted id tr ids.
Proof.
  revert l ids. induction tr as [|[[[[ex ep] w] now] wakes] rs IH]; intros l ids Hwf Hk E Hw; cbn in E.
  - injection E as _ <-. unfold granted, count_key. cbn. change (inject_Z (Z.of_nat 0)) with 0. lra.
  - inversion Hw as [|? ? Hw1 Hws]; subst. cbn in Hw1. subst w.
    pose proof (allow_keeps_key l ex ep 1 now wakes) as Hkeep.
    destruct (select_wf l ex ep now Hwf) as [Hwf1 _].
    assert (Hsel : String.eqb (key ex ep) k = true -> fst (select l ex ep now) = id).
    { intros Hkk. apply String.eqb_eq in Hkk. subst k. unfold select. rewrite Hk. reflexivity. }
    unfold allow in Hkeep. destruct (select l ex ep now) as [id1 l1]. cbn [fst snd] in *.
    destruct (consume_at l1 id1 1 now wakes) as [l2|] eqn:Ec; [|discriminate].
    destruct (run_allow l2 rs) as [[l3 i3]|] eqn:Er; [|discriminate]. injection E as <- <-.
    destruct (consume_at_wf l1 id1 1 now wakes l2 Hwf1 Ec) as (Hwf2 & _).
    specialize (IH l2 i3 Hwf2 (Hkeep l2 k id Hwf Hk eq_refl) Er Hws).
    unfold granted, count_key in *. cbn [bucket_reqs List.filter req_key].
    destruct (String.eqb (key ex ep) k) eqn:Ekk.
    + rewrite (Hsel eq_refl), Pos.eqb_refl. cbn [length map qsum fold_right fst].
      rewrite Nat2Z.inj_succ. unfold Z.succ. rewrite inject_Z_plus. unfold qsum in IH.
      change (inject_Z 1) with 1. lra.
    + destruct (Pos.eqb id1 id); cbn [map fold_right]; [|exact IH].
      unfold qsum in *. cbn [fold_right fst]. change (inject_Z 1) with 1. lra.
Qed.

Lemma update_eps_app_valid l exch good ep c rest now e :
  Forall (fun '(_, c0) => exists cap rf, read_capacity c0 = Ok cap /\ read_refill c0 = Ok rf) good ->
  (read_capacity c = Err e \/ exists cap, read_capacity c = Ok cap /\ read_refill c = Err e) ->
  update_eps l exch (good ++ (ep, c) :: rest) now = (fst (update_eps l exch good now), Some e).
Proof.
  revert l. induction good as [|[ep0 c0] good IH]; intros l Hg Hc; simpl.
  - destruct Hc as [-> | (cap & -> & ->)]; reflexivity.
  - inversion Hg as [|? ? Hc0 Hg']; subst. destruct Hc0 as (cap & rf & E1 & E2).
    rewrite E1, E2. apply IH; assumption.
Qed.

(** Error path of [RateLimiter.update]: when an entry's value cannot be
    converted, the exception propagates, and the entries before it (in
    dict order) are already replaced; nothing rolls them back. *)
Theorem update_partial_on_error l exch good ep c rest cfg now e :
  Forall (fun '(_, c0) => exists cap rf, read_capacity c0 = Ok cap /\ read_refill c0 = Ok rf) good ->
  (read_capacity c = Err e \/ exists cap, read_capacity c = Ok cap /\ read_refill c = Err e) ->
  update l (JObj ((exch, JObj (good ++ (ep, c) :: rest)) :: cfg)) now =
    (fst (update_eps l exch good now), Some e).
Proof.
  intros Hg Hc. unfold update. cbn [items update_items]. rewrite (update_eps_app_valid l exch good ep c rest now e Hg Hc). reflexivity.
Qed.

(** [update] against the view, shared by the refinement theorem and
    the panel's admin endpoint. *)
Lemma update_view l cfg now :
  limiter_wf l ->
  match conf_entries cfg with
  | Ok es => snd (update l cfg now) = None /\ forall k, view (fst (update l cfg now)) k = override now (view l) es k
  | Err e => snd (update l cfg now) = Some e
  end.
Proof.
  intros Hwf. unfold conf_entries, update. destruct (items cfg) as [kv|e]; simpl; [|reflexivity].
  pose proof (update_items_refines l kv now Hwf) as H.
  destruct (map_res _ kv); exact H.
Qed.

(** C29: Refinement: [RateLimiter.update] implements its abstract
    contract.  If every entry of the configuration converts, the update
    succeeds and the new view is the old one overridden, in dict order,
    by a full bucket clocked at [now] with the configured
    [(capacity, refill)] of each ["exchange:endpoint"]; otherwise it
    raises the first conversion error of the configuration, whatever the
    limiter it runs on. *)
Theorem update_refines l cfg now :
  limiter_wf l ->
  match conf_entries cfg with
  | Ok es => snd (update l cfg now) = None /\ forall k, view (fst (update l cfg now)) k = override now (view l) es k
  | Err e => snd (update l cfg now) = Some e
  end.
Proof. exact (update_view l cfg now). Qed.

(** The weight granted from one bucket object over a run. *)
Lemma granted_le l reqs l' ids id b :
  limiter_wf l -> heap l !! id = Some b -> bucket_ok b ->
  run_allow l reqs = Some (l', ids) ->
  exists b', heap l' !! id = Some b' /\
             granted id reqs ids <= inject_Z (capacity b) + refill_rate b * (last b' - last b).
Proof.
  intros Hwf Hb Hok E. destruct (run_allow_projects l reqs l' ids id b Hwf Hb E) as (b' & tot & Hr & Hh).
  exists b'. split; [exact Hh|]. unfold granted. rewrite <- (run_total _ _ _ _ Hr).
  destruct (BucketTheory.run_budget _ _ _ _ Hr) as (H1 & H2 & _). destruct Hok as [[H0 Hc] _].
  destruct (bucket_reqs id reqs ids) as [|r rq] eqn:Eq.
  - cbn in Hr. injection Hr as <- <-. lra.
  - assert (0 <= tokens b') by (apply H2; discriminate). lra.
Qed.

(** C28: Safety: whatever calls of whatever tasks reach the limiter, in
    whatever order, the weight granted from one bucket object is at most
    its tokens at the start ([<= capacity]) plus its refill rate times
    the time elapsed until its last refill. *)
Theorem limiter_rate_bound l reqs l' ids id b :
  limiter_wf l -> heap l !! id = Some b -> bucket_ok b ->
  run_allow l reqs = Some (l', ids) ->
  exists b', heap l' !! id = Some b' /\
             granted id reqs ids <= inject_Z (capacity b) + refill_rate b * (last b' - last b).
Proof. exact (granted_le l reqs l' ids id b). Qed.

(** C38: With no bucket for the endpoint nor for the exchange's ["global"]
    key, [allow] creates a permissive bucket (capacity 1000, rate 1000/s)
    under ["global"]; it stays, and every later request of that exchange
    to an endpoint without a bucket of its own draws from it. *)
Theorem allow_default_shared l ex ep w t wakes l' :
  dict l !! key ex ep = None -> dict l !! key ex "global" = None ->
  allow l ex ep w t wakes = Some l' ->
  dict l' !! key ex "global" = Some (next_id l) /\
  (exists b', heap l' !! next_id l = Some b' /\ capacity b' = 1000%Z /\ refill_rate b' = 1000) /\
  (forall ep2 t2, dict l' !! key ex ep2 = None -> fst (select l' ex ep2 t2) = next_id l).
Proof.
  intros H1 H2. unfold allow, select. rewrite H1, H2. cbn [fst snd].
  unfold consume_at. cbn [alloc heap dict next_id]. rewrite lookup_insert_eq.
  destruct (consume (new_bucket 1000 1000 t) w t wakes) as [[b' n]|] eqn:Ec; [|discriminate].
  intros E. injection E as <-. cbn [heap dict next_id].
  destruct (BucketTheory.consume_budget _ _ _ _ _ _ Ec) as (_ & _ & Hc & Hr).
  split; [apply lookup_insert_eq|]. split.
  - exists b'. split; [apply lookup_insert_eq|]. split; assumption.
  - intros ep2 t2 Hn. rewrite Hn. rewrite lookup_insert_eq. reflexivity.
Qed.

(** Witnesses. *)

Lemma empty_limiter_wf : limiter_wf empty_limiter.
Proof. split; intros; simpl in *; [rewrite lookup_empty in H; discriminate | apply lookup_empty]. Qed.

Lemma update_refines_witness :
  conf_entries admin_cfg = Ok [(key "aster" "global", (2%Z, 1))] /\
  match conf_entries admin_cfg with
  | Ok es => snd (update empty_limiter admin_cfg 0) = None /\
             forall k, view (fst (update empty_limiter admin_cfg 0)) k = override 0 (view empty_limiter) es k
  | Err e => snd (update empty_limiter admin_cfg 0) = Some e
  end.
Proof. split; [vm_compute; reflexivity|]. exact (update_refines empty_limiter admin_cfg 0 empty_limiter_wf). Defined.

Lemma limiter_rate_bound_witness :
  let l := fst (update empty_limiter admin_cfg 0) in
  let reqs : list Req := [("aster", "global", 1%Z, 0, []); ("aster", "global", 1%Z, 0, []); ("aster", "global", 1%Z, 0, [1])] in
  heap l !! 1%positive = Some (new_bucket 2 1 0) /\
  match run_allow l reqs with
  | Some (l', ids) =>
      ids = [1%positive; 1%positive; 1%positive] /\ granted 1 reqs ids == 3 /\
      exists b', heap l' !! 1%positive = Some b' /\
                 granted 1 reqs ids <= inject_Z (capacity (new_bucket 2 1 0)) + refill_rate (new_bucket 2 1 0) * (last b' - last (new_bucket 2 1 0))
  | None => False
  end.
Proof.
  cbv zeta. assert (Hb : heap (fst (update empty_limiter admin_cfg 0)) !! 1%positive = Some (new_bucket 2 1 0))
    by (vm_compute; reflexivity).
  split; [exact Hb|].
  destruct (run_allow _ _) as [[l' ids]|] eqn:E; [|vm_compute in E; discriminate].
  assert (Hids : ids = [1%positive; 1%positive; 1%positive]) by (vm_compute in E; injection E as _ <-; reflexivity).
  split; [exact Hids|]. split; [subst ids; vm_compute; reflexivity|].
  apply (limiter_rate_bound _ _ _ _ _ _ (proj1 (update_mono empty_limiter admin_cfg 0 empty_limiter_wf)) Hb); [|exact E].
  unfold bucket_ok; vm_compute; repeat split; discriminate.
Defined.

Lemma limiter_ops_wf_witness :
  allow empty_limiter "aster" "depth" 1 0 [] = Some l_after_allow /\
  limiter_wf (fst (update empty_limiter admin_cfg 0)) /\
  (allow empty_limiter "aster" "depth" 1 0 [] = Some l_after_allow -> limiter_wf l_after_allow).
Proof.
  split; [vm_compute; reflexivity|].
  exact (limiter_ops_wf empty_limiter admin_cfg 0 "aster" "depth" 1 0 [] l_after_allow empty_limiter_wf).
Defined.

Lemma waiter_keeps_old_bucket_witness :
  exists l2,
    consume_at (fst (update l_before admin_cfg 0)) 1%positive 1 0 [1] = Some l2 /\
    heap l2 !! 2%positive = Some (new_bucket 2 1 0) /\
    ((exists b' n, consume (mkBucket 2 1 0 0) 1 0 [1] = Some (b', n) /\ heap l2 !! 1%positive = Some b') /\
     (forall k id', dict (fst (update l_before admin_cfg 0)) !! k = Some id' ->
        dict l_before !! k <> Some id' ->
        id' <> 1%positive /\ heap l2 !! id' = heap (fst (update l_before admin_cfg 0)) !! id')).
Proof.
  eexists. split; [vm_compute; reflexivity|]. split; [vm_compute; reflexivity|].
  apply (waiter_keeps_old_bucket l_before 1%positive (mkBucket 2 1 0 0) admin_cfg 0 1 0 [1]
           (fst (update l_before admin_cfg 0)) None).
  - unfold limiter_wf, l_before; cbn [heap dict next_id]. split; [intros k id H | intros id H].
    + destruct (decide (key "aster" "global" = k)) as [<-|Hne].
      * rewrite lookup_singleton_eq in H. injection H as <-. rewrite lookup_singleton_eq. eauto.
      * rewrite lookup_singleton_ne in H by assumption. discriminate.
    + rewrite lookup_singleton_ne by lia. reflexivity.
  - reflexivity.
  - reflexivity.
  - vm_compute. reflexivity.
Defined.

Lemma update_partial_on_error_witness :
  update empty_limiter
    (JObj [("aster"%string, JObj [("depth"%string, conf_of 10 5);
                                  ("global"%string, JObj [("capacity"%string, JStr "ten")])])]) 0 =
    (fst (update_eps empty_limiter "aster" [("depth", conf_of 10 5)] 0), Some ValueError) /\
  dict (fst (update_eps empty_limiter "aster" [("depth", conf_of 10 5)] 0)) !! key "aster" "depth"
    = Some 1%positive.
Proof.
  split; [|reflexivity].
  apply (update_partial_on_error empty_limiter "aster" [("depth", conf_of 10 5)] "global"
           (JObj [("capacity"%string, JStr "ten")]) [] [] 0 ValueError).
  - constructor; [|constructor]. exists 10%Z, 5. split; reflexivity.
  - left. reflexivity.
Defined.

Lemma allow_default_shared_witness :
  exists l', allow empty_limiter "lighter" "depth" 1 0 [] = Some l' /\
    dict l' !! key "lighter" "global" = Some 1%positive /\
    (exists b', heap l' !! 1%positive = Some b' /\ capacity b' = 1000%Z /\ refill_rate b' = 1000) /\
    (forall ep2 t2, dict l' !! key "lighter" ep2 = None -> fst (select l' "lighter" ep2 t2) = 1%positive).
Proof.
  eexists. split; [vm_compute; reflexivity|].
  apply (allow_default_shared empty_limiter "lighter" "depth" 1 0 []); [reflexivity | reflexivity |].
  vm_compute. reflexivity.
Defined.

End LimiterTheory.
