(* ===== verification/Venue.v ===== *)
(** * Venue adapters: [src/arb/connectors/base.py], [lighter.py], [aster.py]

    [VenueTypes]: the dicts the connector methods return.  [Lighter] and
    [Aster]: each read method of the two connectors as a function of the
    decoded HTTP answer ([res Json]: the request, [raise_for_status] and
    [resp.json()] are not modelled beyond their outcome), preceded by the
    [self.limiter.allow(...)] call the method makes on the shared
    [Limiter.RateLimiter] ([None]: the call is still waiting for its
    token when the clock readings run out).  [Books]: order books as the
    venues encode them, to state the spec's adapter contract. *)

From Stdlib Require Import QArith ZArith Lia List String.
From S2P Require Import Prelude PyJson RateLimiter.
Import ListNotations.

Open Scope Q_scope.
Open Scope py_scope.

Module VenueTypes.

(** The dict returned by [get_order_book_summary] (both connectors). *)
Record OBSummary := mkSummary {
  best_bid : Q;
  best_ask : Q;
  spread_abs : Q;
  spread_pct : Q;
  depth_qty : Q;
  depth_notional : Q
}.

(** [{"rate": ..., "next_time_ms": ...}] of [get_funding_info]. *)
Record FundingInfo := mkFunding {
  fi_rate : option Q;
  fi_next_time_ms : option Q
}.

(** [{"maker": ..., "taker": ...}] of [LighterConnector.get_fees] and of
    the [fees] config of a venue. *)
Record Fees := mkFees {
  maker : option Q;
  taker : option Q
}.

(** [{"bids": [[price, qty], ...], "asks": ...}] of
    [get_order_book_levels]. *)
Record Levels := mkLevels {
  bids : list (Q * Q);
  asks : list (Q * Q)
}.

(** [{"daily_base": ..., "daily_quote": ...}] of Lighter's
    [get_24h_stats], [{"volume": ..., "quoteVolume": ...}] of Aster's. *)
Record Stats24 := mkStats {
  base_volume : Q;
  quote_volume : Q
}.

End VenueTypes.

(** Reading helpers shared by the two connectors. *)
Module Read.
Import PyJson.

(** [float(side[0][...]) if side else None] for a best price. *)
Definition best_of (side : Json) (price : Json -> res Json) : res (option Q) :=
  if truthy side then
    let* o := get_idx side 0 in
    let* p := price o in
    let* f := to_float p in
    Ok (Some f)
  else Ok None.

(** [x or 0.0] on an optional float. *)
Definition or0 (o : option Q) : Q := match o with Some q => q | None => 0 end.

End Read.

(** * [LighterConnector] ([src/arb/connectors/lighter.py]) *)
Module Lighter.
Import PyJson VenueTypes Read.

(** [float(side[0]["price"])] *)
Definition price_key (o : Json) : res Json := get_key o "price".

(** Lines 43-53: the mid-price of the top of the book, or the only side. *)
Definition mid_of_book (data : Json) : res Q :=
  let* bids := dict_get data "bids" (JArr []) in
  let* asks := dict_get data "asks" (JArr []) in
  let* best_bid := best_of bids price_key in
  let* best_ask := best_of asks price_key in
  match best_bid, best_ask with
  | None, None => Err RuntimeError
  | None, Some a => Ok a
  | Some b, None => Ok b
  | Some b, Some a => Ok ((b + a) / 2)
  end.

(** [get_mid_price] (lines 26-53): [ValueError] without a market id,
    then one token of ["lighter:global"], then the HTTP answer [resp]
    ([None]: still waiting for the token when the clock readings run
    out). *)
Definition get_mid_price (l : Limiter.RateLimiter) (market_id : option Z) (now : Q) (wakes : list Q)
    (resp : res Json) : option (Limiter.RateLimiter * res Q) :=
  match market_id with
  | None => Some (l, Err ValueError)
  | Some _ =>
      match Limiter.allow l "lighter" "global" 1 now wakes with
      | None => None
      | Some l' => Some (l', let* data := resp in mid_of_book data)
      end
  end.

(** [float(o.get("price"))] and
    [float(o.get("remaining_base_amount", o.get("initial_base_amount", 0.0)))] *)
Definition order_price (o : Json) : res Q := let* v := dict_get o "price" JNull in to_float v.

Definition order_qty (o : Json) : res Q :=
  let* d := dict_get o "initial_base_amount" (JNum 0) in
  let* v := dict_get o "remaining_base_amount" d in
  to_float v.

(** [_sum_levels(side)] (lines 100-108) *)
Fixpoint sum_orders (os : list Json) (tq tn : Q) : res (Q * Q) :=
  match os with
  | [] => Ok (tq, tn)
  | o :: r =>
      let* p := order_price o in
      let* q := order_qty o in
      sum_orders r (tq + q) (tn + p * q)
  end.

Definition sum_levels (side : Json) (levels : Z) : res (Q * Q) :=
  let* os := take side levels in sum_orders os 0 0.

(** Lines 85-119: the summary of an [orderBookOrders] answer. *)
Definition summary_of_book (levels : Z) (data : Json) : res OBSummary :=
  let* bids := dict_get data "bids" (JArr []) in
  let* asks := dict_get data "asks" (JArr []) in
  let* best_bid := best_of bids price_key in
  let* best_ask := best_of asks price_key in
  match best_bid, best_ask with
  | None, None => Err RuntimeError
  | _, _ =>
      let spread :=
        match best_bid, best_ask with
        | Some b, Some a =>
            let mid := (b + a) / 2 in
            if Qeq_bool mid 0 then None else Some (a - b, (a - b) / mid)
        | _, _ => None
        end in
      let* sb := sum_levels bids levels in
      let* sa := sum_levels asks levels in
      Ok (mkSummary (or0 best_bid) (or0 best_ask) (or0 (option_map fst spread))
            (or0 (option_map snd spread)) (fst sb + fst sa) (snd sb + snd sa))
  end.

(** [get_order_book_summary] (lines 76-119) *)
Definition get_order_book_summary (l : Limiter.RateLimiter) (levels : Z) (now : Q) (wakes : list Q)
    (resp : res Json) : option (Limiter.RateLimiter * res OBSummary) :=
  match Limiter.allow l "lighter" "global" 1 now wakes with
  | None => None
  | Some l' => Some (l', let* data := resp in summary_of_book levels data)
  end.

(** [get_order_book_levels] (lines 121-140): no limiter call. *)
Definition level_of (o : Json) : res (Q * Q) :=
  let* p := order_price o in let* q := order_qty o in Ok (p, q).

Definition get_order_book_levels (levels : Z) (resp : res Json) : res Levels :=
  let* data := resp in
  let* b := dict_get data "bids" (JArr []) in
  let* bs := take b levels in
  let* bl := map_res level_of bs in
  let* a := dict_get data "asks" (JArr []) in
  let* as_ := take a levels in
  let* al := map_res level_of as_ in
  Ok (mkLevels bl al).

(** [get_24h_stats] (lines 158-173): no limiter call. *)
Definition get_24h_stats (resp : res Json) : res Stats24 :=
  let* data := resp in
  let* lst := dict_get data "order_book_details" (JArr []) in
  if negb (truthy lst) then Ok (mkStats 0 0) else
  let* d := get_idx lst 0 in
  let* bv := dict_get d "daily_base_token_volume" (JNum 0) in
  let* b := to_float bv in
  let* qv := dict_get d "daily_quote_token_volume" (JNum 0) in
  let* q := to_float qv in
  Ok (mkStats b q).

(** [str(ob.get("symbol")) == symbol] ([PyJson.py_str_json]; a
    value whose printing is not modelled is taken to differ from the
    symbol). *)
Definition symbol_is (j : Json) (symbol : string) : bool :=
  match py_str_json j with
  | Some s => String.eqb s symbol
  | None => false
  end.

(** The loop of [get_fees] (lines 148-155) over the cached order books:
    the first book of the symbol, whose [float()] conversions may fail
    after the maker fee was already set. *)
Fixpoint fees_scan (books : list Json) (symbol : string) : res Fees :=
  match books with
  | [] => Ok (mkFees None None)
  | ob :: r =>
      let* sj := dict_get ob "symbol" JNull in
      if symbol_is sj symbol then
        match (let* v := dict_get ob "maker_fee" JNull in to_float v) with
        | Err _ => Ok (mkFees None None)
        | Ok m =>
            match (let* v := dict_get ob "taker_fee" JNull in to_float v) with
            | Err _ => Ok (mkFees (Some m) None)
            | Ok t => Ok (mkFees (Some m) (Some t))
            end
        end
      else fees_scan r symbol
  end.

(** [get_fees(symbol)] with the market cache already filled. *)
Definition get_fees (books : list Json) (symbol : string) : res Fees :=
  match books with
  | [] => Ok (mkFees None None)
  | _ => fees_scan books symbol
  end.

(** An entry of the SDK's [funding_rates()] answer. *)
Record FundingRate := mkRate {
  fr_exchange : string;
  fr_symbol : string;
  fr_rate : Json
}.

(** Lines 184-191: the loop inside [try]; a failing [float()] leaves the
    rate [None] and ends the loop. *)
Fixpoint find_rate (rates : list FundingRate) (symbol : string) : option Q :=
  match rates with
  | [] => None
  | fr :: r =>
      if String.eqb (fr_exchange fr) "lighter" && String.eqb (fr_symbol fr) symbol then
        match to_float (fr_rate fr) with Ok q => Some q | Err _ => None end
      else find_rate r symbol
  end.

(** Lines 193-195: [((now_ms // period_ms) + 1) * period_ms]. *)
Definition next_funding_ms (now_ms cycle_hours : Z) : res Z :=
  let period_ms := (cycle_hours * 3600 * 1000)%Z in
  if (period_ms =? 0)%Z then Err ZeroDivisionError
  else Ok ((now_ms / period_ms + 1) * period_ms)%Z.

(** [get_funding_info(symbol, cycle_hours)] (lines 175-196) at wall-clock
    time [clock_s] seconds; the SDK call does not go through the
    limiter. *)
Definition get_funding_info (rates : res (list FundingRate)) (symbol : string) (cycle_hours : Z)
    (clock_s : Q) : res FundingInfo :=
  let* rs := rates in
  let rate := find_rate rs symbol in
  let now_ms := py_int (clock_s * 1000) in
  let* nt := next_funding_ms now_ms cycle_hours in
  Ok (mkFunding rate (Some (inject_Z nt))).

End Lighter.

(** * [AsterConnector] ([src/arb/connectors/aster.py]) *)
Module Aster.
Import PyJson VenueTypes Read.

(** [get_mid_price] (lines 20-31): the ticker's last price, after one
    token of ["aster:global"]. *)
Definition price_of_ticker (data : Json) : res Q := let* p := get_key data "price" in to_float p.

Definition get_mid_price (l : Limiter.RateLimiter) (now : Q) (wakes : list Q) (resp : res Json)
    : option (Limiter.RateLimiter * res Q) :=
  match Limiter.allow l "aster" "global" 1 now wakes with
  | None => None
  | Some l' => Some (l', let* data := resp in price_of_ticker data)
  end.

(** [for p, q in ...]: unpacking a level into two values (unpacking a
    two-character string or a two-key object is outside the model). *)
Definition unpack2 (j : Json) : res (Json * Json) :=
  match j with
  | JArr [p; q] => Ok (p, q)
  | JArr _ => Err ValueError
  | _ => Err TypeError
  end.

(** [sum(float(x[1]) for x in side[:levels]) if side else 0.0] *)
Definition depth_qty (side : Json) (levels : Z) : res Q :=
  if truthy side then
    let* xs := take side levels in
    let* qs := map_res (fun x => let* v := get_idx x 1 in to_float v) xs in
    Ok (qsum qs)
  else Ok 0.

(** [for p, q in side[:levels]: depth_notional += float(p) * float(q)] *)
Fixpoint notional_of (xs : list Json) (acc : Q) : res Q :=
  match xs with
  | [] => Ok acc
  | x :: r =>
      let* pq := unpack2 x in
      let* p := to_float (fst pq) in
      let* q := to_float (snd pq) in
      notional_of r (acc + p * q)
  end.

(** Lines 41-69: the summary of a [depth] answer. *)
Definition summary_of_depth (levels : Z) (data : Json) : res OBSummary :=
  let* bids := dict_get data "bids" (JArr []) in
  let* asks := dict_get data "asks" (JArr []) in
  let* best_bid := best_of bids (fun o => get_idx o 0) in
  let* best_ask := best_of asks (fun o => get_idx o 0) in
  let spread :=
    match best_bid, best_ask with
    | Some b, Some a =>
        let mid := (b + a) / 2 in
        Some (a - b, if Qeq_bool mid 0 then None else Some ((a - b) / mid))
    | _, _ => None
    end in
  let* qb := depth_qty bids levels in
  let* qa := depth_qty asks levels in
  let* xb := take bids levels in
  let* nb := notional_of xb 0 in
  let* xa := take asks levels in
  let* na := notional_of xa nb in
  Ok (mkSummary (or0 best_bid) (or0 best_ask) (or0 (option_map fst spread))
        (or0 (match spread with Some (_, p) => p | None => None end)) (qb + qa) na).

(** [get_order_book_summary] (lines 33-69): one token of
    ["aster:depth"]. *)
Definition get_order_book_summary (l : Limiter.RateLimiter) (levels : Z) (now : Q) (wakes : list Q)
    (resp : res Json) : option (Limiter.RateLimiter * res OBSummary) :=
  match Limiter.allow l "aster" "depth" 1 now wakes with
  | None => None
  | Some l' => Some (l', let* data := resp in summary_of_depth levels data)
  end.

(** [get_24h_stats] (lines 71-84): one token of ["aster:global"]. *)
Definition stats_of_ticker (data : Json) : res Stats24 :=
  let* bv := dict_get data "volume" (JNum 0) in
  let* b := to_float bv in
  let* qv := dict_get data "quoteVolume" (JNum 0) in
  let* q := to_float qv in
  Ok (mkStats b q).

Definition get_24h_stats (l : Limiter.RateLimiter) (now : Q) (wakes : list Q) (resp : res Json)
    : option (Limiter.RateLimiter * res Stats24) :=
  match Limiter.allow l "aster" "global" 1 now wakes with
  | None => None
  | Some l' => Some (l', let* data := resp in stats_of_ticker data)
  end.

(** [get_order_book_levels] (lines 86-96): no limiter call. *)
Definition level_of (x : Json) : res (Q * Q) :=
  let* pq := unpack2 x in
  let* p := to_float (fst pq) in
  let* q := to_float (snd pq) in
  Ok (p, q).

Definition get_order_book_levels (levels : Z) (resp : res Json) : res Levels :=
  let* data := resp in
  let* b := dict_get data "bids" (JArr []) in
  let* bs := take b levels in
  let* bl := map_res level_of bs in
  let* a := dict_get data "asks" (JArr []) in
  let* as_ := take a levels in
  let* al := map_res level_of as_ in
  Ok (mkLevels bl al).

(** [float(data.get(k)) if data.get(k) is not None else None] inside
    [try ... except: pass]. *)
Definition opt_float (data : Json) (k : string) : option Q :=
  try_except
    (let* v := dict_get data k JNull in
     match v with
     | JNull => Ok None
     | _ => let* f := to_float v in Ok (Some f)
     end)
    (fun _ => None).

(** [get_funding_info] (lines 98-121): one token of ["aster:global"]. *)
Definition get_funding_info (l : Limiter.RateLimiter) (now : Q) (wakes : list Q) (resp : res Json)
    : option (Limiter.RateLimiter * res FundingInfo) :=
  match Limiter.allow l "aster" "global" 1 now wakes with
  | None => None
  | Some l' =>
      Some (l', let* data := resp in
                Ok (mkFunding (opt_float data "lastFundingRate") (opt_float data "nextFundingTime")))
  end.

End Aster.

(** * Books as the venues encode them, for stating the adapters'
    contract (spec 4.2) on order books given as [(price, qty)] lists. *)
Module Books.
Import PyJson.

Definition lighter_order (pq : Q * Q) : Json :=
  JObj [("price"%string, JNum (fst pq)); ("remaining_base_amount"%string, JNum (snd pq))].

(** An [orderBookOrders] answer of Lighter. *)
Definition lighter_book (bids asks : list (Q * Q)) : Json :=
  JObj [("bids"%string, JArr (map lighter_order bids)); ("asks"%string, JArr (map lighter_order asks))].

Definition aster_level (pq : Q * Q) : Json := JArr [JNum (fst pq); JNum (snd pq)].

(** A [depth] answer of Aster. *)
Definition aster_book (bids asks : list (Q * Q)) : Json :=
  JObj [("bids"%string, JArr (map aster_level bids)); ("asks"%string, JArr (map aster_level asks))].

(** Spec 4.2: depth quantity and notional of the top [levels] levels. *)
Definition depth (levels : Z) (side : list (Q * Q)) : Q * Q :=
  (qsum (map snd (py_prefix levels side)), qsum (map (fun pq => fst pq * snd pq) (py_prefix levels side))).

End Books.

Module VenueTheory.
Import PyJson VenueTypes Read Books.

Lemma py_prefix_map {A B} (f : A -> B) n l : py_prefix n (map f l) = map f (py_prefix n l).
Proof. unfold py_prefix. rewrite length_map. destruct (0 <=? n)%Z; apply firstn_map. Qed.

Lemma map_res_map {A B C} (f : B -> res C) (g : A -> B) (h : A -> C) l :
  (forall a, f (g a) = Ok (h a)) -> map_res f (map g l) = Ok (map h l).
Proof. intros H. induction l as [|a l IH]; cbn; [reflexivity|]. rewrite H, IH. reflexivity. Qed.

Lemma lighter_best l : best_of (JArr (map lighter_order l)) Lighter.price_key = Ok (option_map fst (hd_error l)).
Proof. destruct l as [|[p q] r]; reflexivity. Qed.

Lemma aster_best l : best_of (JArr (map aster_level l)) (fun o => get_idx o 0) = Ok (option_map fst (hd_error l)).
Proof. destruct l as [|[p q] r]; reflexivity. Qed.

Lemma lighter_sum_orders l tq tn :
  exists x y, Lighter.sum_orders (map lighter_order l) tq tn = Ok (x, y) /\
    x == tq + qsum (map snd l) /\ y == tn + qsum (map (fun pq => fst pq * snd pq) l).
Proof.
  revert tq tn. induction l as [|[p q] l IH]; intros tq tn.
  - exists tq, tn. split; [reflexivity|]. cbn. split; ring.
  - destruct (IH (tq + q) (tn + p * q)) as (x & y & E & Hx & Hy).
    exists x, y. split; [exact E|]. cbn [map qsum fold_right fst snd] in *. fold (qsum (map snd l)).
    fold (qsum (map (fun pq : Q * Q => fst pq * snd pq) l)). split; [rewrite Hx | rewrite Hy]; ring.
Qed.

Lemma aster_notional l acc :
  exists x, Aster.notional_of (map aster_level l) acc = Ok x /\ x == acc + qsum (map (fun pq => fst pq * snd pq) l).
Proof.
  revert acc. induction l as [|[p q] l IH]; intros acc.
  - exists acc. split; [reflexivity|]. cbn. ring.
  - destruct (IH (acc + p * q)) as (x & E & Hx). exists x. split; [exact E|].
    cbn [map qsum fold_right fst snd]. fold (qsum (map (fun pq : Q * Q => fst pq * snd pq) l)).
    rewrite Hx. ring.
Qed.

Lemma aster_depth_qty l n :
  Aster.depth_qty (JArr (map aster_level l)) n =
    Ok (match l with [] => 0 | _ => qsum (map snd (py_prefix n l)) end).
Proof.
  unfold Aster.depth_qty. destruct l as [|a l]; [reflexivity|].
  change (truthy (JArr (map aster_level (a :: l)))) with true. cbv iota. cbn [take].
  rewrite py_prefix_map. cbn [res_bind].
  rewrite (map_res_map _ _ snd); [reflexivity|]. intros [p q]. reflexivity.
Qed.

Lemma lighter_book_get bids asks :
  dict_get (lighter_book bids asks) "bids" (JArr []) = Ok (JArr (map lighter_order bids)) /\
  dict_get (lighter_book bids asks) "asks" (JArr []) = Ok (JArr (map lighter_order asks)).
Proof. split; reflexivity. Qed.

Lemma aster_book_get bids asks :
  dict_get (aster_book bids asks) "bids" (JArr []) = Ok (JArr (map aster_level bids)) /\
  dict_get (aster_book bids asks) "asks" (JArr []) = Ok (JArr (map aster_level asks)).
Proof. split; reflexivity. Qed.

Lemma take_arr l n : take (JArr l) n = Ok (py_prefix n l).
Proof. reflexivity. Qed.

(** C35: Refinement of spec 4.2 [orderBookSummary]: on a two-sided book whose
    mid is not zero, both adapters report the top prices, the spread,
    a spread fraction of the mid, and depth quantity and notional summed
    over the top [levels] levels of both sides. *)
Theorem summary_contract levels bids asks b qb a qa :
  hd_error bids = Some (b, qb) -> hd_error asks = Some (a, qa) -> ~ (b + a) / 2 == 0 ->
  exists s1 s2, Lighter.summary_of_book levels (lighter_book bids asks) = Ok s1 /\
    Aster.summary_of_depth levels (aster_book bids asks) = Ok s2 /\
    forall s, s = s1 \/ s = s2 ->
      best_bid s = b /\ best_ask s = a /\ spread_abs s = a - b /\ spread_pct s * ((b + a) / 2) == a - b /\
      depth_qty s == fst (depth levels bids) + fst (depth levels asks) /\
      depth_notional s == snd (depth levels bids) + snd (depth levels asks).
Proof.
  intros Hb Ha Hm.
  assert (Em : Qeq_bool ((b + a) / 2) 0 = false) by (apply Qeq_bool_false; exact Hm).
  destruct (lighter_book_get bids asks) as [Lb La]. destruct (aster_book_get bids asks) as [Ab Aa].
  destruct (lighter_sum_orders (py_prefix levels bids) 0 0) as (xb & yb & Sb & Hxb & Hyb).
  destruct (lighter_sum_orders (py_prefix levels asks) 0 0) as (xa & ya & Sa & Hxa & Hya).
  destruct (aster_notional (py_prefix levels bids) 0) as (nb & Nb & Hnb).
  destruct (aster_notional (py_prefix levels asks) nb) as (na & Na & Hna).
  eexists. eexists. split; [|split].
  - unfold Lighter.summary_of_book. rewrite Lb, La. cbn [res_bind].
    rewrite !lighter_best, Hb, Ha. cbn [option_map fst res_bind]. rewrite Em.
    unfold Lighter.sum_levels. rewrite !take_arr, !py_prefix_map. cbn [res_bind]. rewrite Sb, Sa. reflexivity.
  - unfold Aster.summary_of_depth. rewrite Ab, Aa. cbn [res_bind].
    rewrite !aster_best, Hb, Ha. cbn [option_map fst res_bind]. rewrite Em.
    rewrite !aster_depth_qty. cbn [res_bind]. rewrite !take_arr, !py_prefix_map. cbn [res_bind].
    rewrite Nb. cbn [res_bind]. rewrite Na. reflexivity.
  - destruct bids as [|bb bids]; [discriminate|]. destruct asks as [|aa asks]; [discriminate|].
    unfold depth. cbn [fst snd].
    intros s [-> | ->]; cbn [best_bid best_ask spread_abs spread_pct depth_qty depth_notional or0 option_map fst snd];
      (split; [reflexivity|]); (split; [reflexivity|]); (split; [reflexivity|]);
      (split; [field; intros E; apply Hm; rewrite E; reflexivity|]).
    + rewrite Hxb, Hxa, Hyb, Hya. split; ring.
    + rewrite Hna, Hnb. split; ring.
Qed.

(** Refinement of spec 4.2 [midPrice] by Lighter's [get_mid_price]:
    the mean of the best bid and ask, the only side when one is empty,
    and a failure when both are. *)
Theorem lighter_mid_contract bids asks :
  Lighter.mid_of_book (lighter_book bids asks) =
    match hd_error bids, hd_error asks with
    | Some (b, _), Some (a, _) => Ok ((b + a) / 2)
    | Some (b, _), None => Ok b
    | None, Some (a, _) => Ok a
    | None, None => Err RuntimeError
    end.
Proof.
  destruct (lighter_book_get bids asks) as [Lb La]. unfold Lighter.mid_of_book.
  rewrite Lb, La. cbn [res_bind]. rewrite !lighter_best.
  destruct bids as [|[b qb] bids]; destruct asks as [|[a qa] asks]; reflexivity.
Qed.

(** Adapter divergence on an empty book: Lighter's summary raises
    [RuntimeError] (the tick then fails), Aster's returns an all-zero
    summary that the poller stores as data. *)
Theorem empty_book_divergence levels :
  Lighter.summary_of_book levels (lighter_book [] []) = Err RuntimeError /\
  Aster.summary_of_depth levels (aster_book [] []) = Ok (mkSummary 0 0 0 0 0 0).
Proof.
  split; [reflexivity|]. unfold Aster.summary_of_depth.
  destruct (aster_book_get [] []) as [Ab Aa]. rewrite Ab, Aa. cbn [res_bind].
  rewrite !aster_best. cbn [option_map hd_error res_bind]. rewrite !aster_depth_qty. cbn [res_bind].
  rewrite !take_arr. unfold py_prefix. destruct (0 <=? levels)%Z; cbn [map]; rewrite !firstn_nil; reflexivity.
Qed.

(** Lighter's approximated next funding time (spec 4.2): for a positive
    cycle it is the first multiple of the cycle strictly after [now_ms],
    at most one cycle later. *)
Theorem next_funding_bounds now_ms ch t :
  (0 < ch)%Z -> Lighter.next_funding_ms now_ms ch = Ok t ->
  (now_ms < t <= now_ms + ch * 3600000)%Z /\ (t mod (ch * 3600000) = 0)%Z.
Proof.
  intros Hc. unfold Lighter.next_funding_ms.
  replace (ch * 3600 * 1000)%Z with (ch * 3600000)%Z by ring.
  set (P := (ch * 3600000)%Z). assert (HP : (0 < P)%Z) by (unfold P; lia).
  rewrite (proj2 (Z.eqb_neq P 0)) by lia. intros E. injection E as <-.
  pose proof (Z.div_mod now_ms P) as D. pose proof (Z.mod_pos_bound now_ms P HP) as B.
  split; [nia|]. apply Z.mod_mul. lia.
Qed.

(** Witnesses. *)

Lemma summary_contract_witness :
  exists s1 s2, Lighter.summary_of_book 5 (lighter_book [(100, 1); (99, 2)] [(101, 3)]) = Ok s1 /\
    Aster.summary_of_depth 5 (aster_book [(100, 1); (99, 2)] [(101, 3)]) = Ok s2 /\
    forall s, s = s1 \/ s = s2 ->
      best_bid s = 100 /\ best_ask s = 101 /\ spread_abs s = 101 - 100 /\
      spread_pct s * ((100 + 101) / 2) == 101 - 100 /\
      depth_qty s == fst (depth 5 [(100, 1); (99, 2)]) + fst (depth 5 [(101, 3)]) /\
      depth_notional s == snd (depth 5 [(100, 1); (99, 2)]) + snd (depth 5 [(101, 3)]).
Proof. apply (summary_contract 5 _ _ 100 1 101 3); [reflexivity | reflexivity | discriminate]. Defined.

Lemma next_funding_bounds_witness :
  (0 < 8)%Z /\ Lighter.next_funding_ms 1700000000000 8 = Ok 1700006400000%Z /\
  (1700000000000 < 1700006400000 <= 1700000000000 + 8 * 3600000)%Z /\ (1700006400000 mod (8 * 3600000) = 0)%Z.
Proof.
  assert (H0 : (0 < 8)%Z) by reflexivity.
  assert (E : Lighter.next_funding_ms 1700000000000 8 = Ok 1700006400000%Z) by reflexivity.
  split; [exact H0|]. split; [exact E|]. exact (next_funding_bounds _ _ _ H0 E).
Defined.

End VenueTheory.
