(* ===== verification/Poller.v ===== *)
(** * Pair poller: [poll_pair_with_store] in [src/arb/runner_reminder.py]

    One iteration of the [while True] loop is [tick]: it reads both legs'
    mid-prices (timed), updates the z-score and the EMA, decides the
    action, computes freshness and staleness, fetches the per-leg extras,
    writes the row with [insert_spread], and, when [PANEL_INGEST_URL] is
    set, computes funding timing and the reversion estimate and posts the
    payload.  The poller's state is the [RollingZScore] and the [EMA]; the
    connectors' answers and the clock readings of a tick are its input
    [TickIO].  An exception escaping the tick body is caught at the tick
    boundary and logged: it is the [out_error] of the tick. *)

From Stdlib Require Import QArith Qminmax Qabs Lqa ZArith Lia List Bool String Sorted.
From S2P Require Import Prelude Signals Reversion Venue.
Import ListNotations.

Open Scope Q_scope.
Open Scope py_scope.

Module Poller.
Import ZScore Ema Reversion VenueTypes.

(** [Market] and [Pair] of [src/arb/models.py]. *)
Record Market := mkMarket {
  exchange : string;
  symbol : string;
  market_id : option Z
}.

Record Pair := mkPair {
  pair_name : string;
  leg_a : Market;
  leg_b : Market
}.

(** The four action strings. *)
Inductive Action : Type :=
| EnterShortALongB
| EnterLongAShortB
| ExitPos
| Hold.

Definition action_str (a : Action) : string :=
  match a with
  | EnterShortALongB => "enter_short_A_long_B"
  | EnterLongAShortB => "enter_long_A_short_B"
  | ExitPos => "exit"
  | Hold => "hold"
  end.

(** Lines 109-115. *)
Definition decide_action (zscore enter_z exit_z : Q) : Action :=
  if qleb enter_z zscore then EnterShortALongB
  else if qleb zscore (- enter_z) then EnterLongAShortB
  else if qleb (qabs zscore) exit_z then ExitPos
  else Hold.

(** Line 117. *)
Definition stale_flag (age_a age_b skew stale_th skew_th : Z) : Z :=
  if (stale_th <? age_a)%Z || (stale_th <? age_b)%Z || (skew_th <? skew)%Z then 1%Z else 0%Z.

(** Lines 118-119: [if stale: action = "hold"]. *)
Definition apply_stale (a : Action) (stale : Z) : Action :=
  if (stale =? 0)%Z then a else Hold.

(** Line 101. *)
Definition center_dev (spread ema std : Q) : Q :=
  if qltb (1 # 1000000000000) std then (spread - ema) / std else 0.

(** The two advice strings of lines 268 and 270. *)
Inductive Advice : Type :=
| ConvergeBeforeFunding
| SpanFunding.

(** Python truthiness of an optional float: not [None] and not [0.0]. *)
Definition truthy (o : option Q) : bool :=
  match o with
  | Some q => negb (Qeq_bool q 0)
  | None => false
  end.

Definition option_to_list {A} (o : option A) : list A :=
  match o with Some x => [x] | None => [] end.

(** Lines 244-250: [nexts = [x for x in [next_a, next_b] if x];
    countdown_ms = min(nexts) - now]. *)
Definition countdown (next_a next_b : option Q) (now : Z) : option Q :=
  match filter (fun x => truthy (Some x)) (option_to_list next_a ++ option_to_list next_b) with
  | [] => None
  | x :: xs => Some (fold_left Qmin xs x - inject_Z now)
  end.

(** Lines 259-264. *)
Definition net_rate (action : Action) (fr_a fr_b : option Q) : option Q :=
  match action, fr_a, fr_b with
  | EnterShortALongB, Some a, Some b => Some (a - b)
  | EnterLongAShortB, Some a, Some b => Some (b - a)
  | _, _, _ => None
  end.

(** Lines 256-278: [(advice, net_funding_cycle_usd, expect_funding_next_usd)]. *)
Definition funding_advice (notional : Q) (action : Action) (fr_a fr_b cd t_exit : option Q)
    : option Advice * option Q * option Q :=
  if truthy cd && truthy t_exit then
    match net_rate action fr_a fr_b, cd, t_exit with
    | Some nr, Some c, Some te =>
        let ttf := Z.max 0 (py_int (c / 1000)) in
        let adv := if qltb te (inject_Z ttf) then ConvergeBeforeFunding else SpanFunding in
        let net := notional * nr in
        (Some adv, Some net, Some (if qleb (inject_Z ttf) te then net else 0))
    | _, _, _ => (None, None, None)
    end
  else (None, None, None).

(** What the connectors answer for one leg during a tick, with the clock
    readings ([now_ms()]) around the timed mid-price call. *)
Record LegIO := mkLegIO {
  io_t0 : Z;
  io_mid : res Q;
  io_t1 : Z;
  io_summary : res OBSummary;
  io_stats : res Q;
  io_fees : res Fees;
  io_funding : res FundingInfo
}.

Record TickIO := mkTickIO {
  io_a : LegIO;
  io_b : LegIO;
  io_db : res unit
}.

(** The configuration the loop reads. *)
Record PollCfg := mkCfg {
  enter_z : Q;
  exit_z : Q;
  stale_ms_th : Z;
  skew_ms_th : Z;
  aster_fees : Fees;
  ingest : bool;
  notional_usd : Q;
  cfg_exit_z : Q;
  cfg_poll_ms : Z
}.

(** [build_connectors] creates the ["lighter"] and ["aster"] connectors. *)
Definition has_conn (ex : string) : bool :=
  String.eqb ex "lighter" || String.eqb ex "aster".

(** Lines 121-163 for one leg: the order-book summary, the 24h quote
    volume and the fees.  A failing call is not caught here. *)
Definition leg_extras (fees_cfg : Fees) (m : Market) (io : LegIO)
    : res (option OBSummary * option Q * Fees) :=
  if String.eqb (exchange m) "lighter" then
    let* ob := io_summary io in
    let* vol := io_stats io in
    let* fees := io_fees io in
    Ok (Some ob, Some vol, fees)
  else if String.eqb (exchange m) "aster" then
    let* ob := io_summary io in
    let* vol := io_stats io in
    Ok (Some ob, Some vol, fees_cfg)
  else Ok (None, None, mkFees None None).

(** A row / payload of the spreads table (the keys of [insert_spread]'s
    arguments and of the ingest payload). *)
Record Sample := mkSample {
  s_pair : string;
  s_ts : Z;
  s_price_a : Q;
  s_price_b : Q;
  s_spread : Q;
  s_z : Q;
  s_mean : Q;
  s_std : Q;
  s_ema : Q;
  s_center_dev : Q;
  s_ob_a : option OBSummary;
  s_ob_b : option OBSummary;
  s_vol_a : option Q;
  s_vol_b : option Q;
  s_fees_a : Fees;
  s_fees_b : Fees;
  s_fr_a : option Q;
  s_fr_b : option Q;
  s_countdown : option Q;
  s_half_life : option Q;
  s_t_exit : option Q;
  s_advice : option Advice;
  s_net_funding : option Q;
  s_expect_funding : option Q;
  s_age_a : Z;
  s_age_b : Z;
  s_skew : Z;
  s_latency : Z;
  s_stale : Z
}.

Record PollState := mkPoll {
  zs : RollingZScore;
  ema_st : EMA
}.

(** What a tick leaves: the action it logged, the row it stored, the
    payload it posted, and the exception caught at the tick boundary. *)
Record TickOut := mkTickOut {
  out_action : option Action;
  out_stored : option Sample;
  out_posted : option Sample;
  out_error : option PyExc
}.

Definition failed (a : option Action) (e : PyExc) : TickOut := mkTickOut a None None (Some e).

Definition no_funding : FundingInfo := mkFunding None None.

(** One iteration of the loop of [poll_pair_with_store] (lines 84-326).
    The action is logged by the print of lines 174-178, after the
    enrichment: an exception of the enrichment (lines 131-163) reaches
    the handler of line 325 with no action logged, while an exception
    of [insert_spread] (line 181) comes after the print. *)
Definition tick `{PyMath} (cfg : PollCfg) (p : Pair) (st : PollState) (io : TickIO)
    : PollState * TickOut :=
  if negb (has_conn (exchange (leg_a p))) || negb (has_conn (exchange (leg_b p))) then
    (st, failed None KeyError)
  else
  match io_mid (io_a io), io_mid (io_b io) with
  | Err e, _ => (st, failed None e)
  | _, Err e => (st, failed None e)
  | Ok price_a, Ok price_b =>
      let ts_a := io_t1 (io_a io) in
      let ts_b := io_t1 (io_b io) in
      let dur_a := (io_t1 (io_a io) - io_t0 (io_a io))%Z in
      let dur_b := (io_t1 (io_b io) - io_t0 (io_b io))%Z in
      let spread := price_a - price_b in
      let '((zscore, mean, std), zs') := ZScore.update (zs st) spread in
      let '(ema, ema') := Ema.update (ema_st st) spread in
      let st' := mkPoll zs' ema' in
      let cdev := center_dev spread ema std in
      let ts := Z.max ts_a ts_b in
      let age_a := (ts - ts_a)%Z in
      let age_b := (ts - ts_b)%Z in
      let skew := Z.abs (ts_a - ts_b) in
      let latency := Z.max dur_a dur_b in
      let action0 := decide_action zscore (enter_z cfg) (exit_z cfg) in
      let stale := stale_flag age_a age_b skew (stale_ms_th cfg) (skew_ms_th cfg) in
      let action := apply_stale action0 stale in
      match leg_extras (aster_fees cfg) (leg_a p) (io_a io) with
      | Err e => (st', failed None e)
      | Ok (ob_a, vol_a, fees_a) =>
      match leg_extras (aster_fees cfg) (leg_b p) (io_b io) with
      | Err e => (st', failed None e)
      | Ok (ob_b, vol_b, fees_b) =>
      let row := mkSample (pair_name p) ts price_a price_b spread zscore mean std ema cdev
                   ob_a ob_b vol_a vol_b fees_a fees_b None None None None None None None None
                   age_a age_b skew latency stale in
      match io_db io with
      | Err e => (st', failed (Some action) e)
      | Ok _ =>
          if ingest cfg then
            let fa := try_except (io_funding (io_a io)) (fun _ => no_funding) in
            let fb := try_except (io_funding (io_b io)) (fun _ => no_funding) in
            let cd := countdown (fi_next_time_ms fa) (fi_next_time_ms fb) ts in
            let '(hl, te) := estimate_reversion_times zs' zscore (cfg_exit_z cfg) (cfg_poll_ms cfg) in
            let '(adv, net, expect) := funding_advice (notional_usd cfg) action (fi_rate fa) (fi_rate fb) cd te in
            let payload := mkSample (pair_name p) ts price_a price_b spread zscore mean std ema cdev
                             ob_a ob_b vol_a vol_b fees_a fees_b (fi_rate fa) (fi_rate fb) cd hl te
                             adv net expect age_a age_b skew latency stale in
            (st', mkTickOut (Some action) (Some row) (Some payload) None)
          else (st', mkTickOut (Some action) (Some row) None None)
      end
      end
      end
  end.

(** The loop: ticks in sequence (the sleep between them is not
    modelled beyond the clock readings of the next tick). *)
Fixpoint poll_loop `{PyMath} (cfg : PollCfg) (p : Pair) (st : PollState) (ios : list TickIO)
    : PollState * list TickOut :=
  match ios with
  | [] => (st, [])
  | io :: rest =>
      let '(st1, o) := tick cfg p st io in
      let '(st2, os) := poll_loop cfg p st1 rest in
      (st2, o :: os)
  end.

(** The spec's invariants of a persisted sample (section 3). *)
Definition sample_ok (cfg : PollCfg) (s : Sample) : Prop :=
  s_spread s == s_price_a s - s_price_b s /\
  0 <= s_std s /\
  (0 < s_std s -> s_z s * s_std s == s_spread s - s_mean s) /\
  (s_std s == 0 -> s_z s == 0) /\
  (s_stale s = 1%Z <-> (stale_ms_th cfg < s_age_a s \/ stale_ms_th cfg < s_age_b s \/
                       skew_ms_th cfg < s_skew s)%Z) /\
  (s_stale s = 0%Z \/ s_stale s = 1%Z).

(** The clock readings of a tick come after [prev] and each call ends
    after it starts. *)
Definition clock_after (prev : Z) (io : TickIO) : Prop :=
  (prev <= io_t0 (io_a io) <= io_t1 (io_a io))%Z /\ (prev <= io_t0 (io_b io) <= io_t1 (io_b io))%Z.

(** A monotonic wall clock over the ticks of a loop. *)
Fixpoint clock_monotone (prev : Z) (ios : list TickIO) : Prop :=
  match ios with
  | [] => True
  | io :: rest =>
      clock_after prev io /\ clock_monotone (Z.max (io_t1 (io_a io)) (io_t1 (io_b io))) rest
  end.

(** The [ts_ms] of the rows a loop stored, in order. *)
Definition stored_ts (outs : list TickOut) : list Z :=
  flat_map (fun o => option_to_list (option_map s_ts (out_stored o))) outs.

(** Fixtures of the scenarios: a window seeded so that, with the new
    spread 0.5, mean = 0.3 and std = 0.1 (scenario S1). *)
Definition s1_state : PollState :=
  mkPoll (mkRolling 30 [27 # 100; 25 # 100; 29 # 100; 23 # 100; 26 # 100]) (mkEma 30 (2 # 31) None).

Definition s1_cfg : PollCfg :=
  mkCfg 2 (1 # 2) 3000 500 (mkFees None None) false 1000 (1 # 2) 1000.

Definition s1_pair : Pair :=
  mkPair "ETH" (mkMarket "lighter" "ETH" (Some 0%Z)) (mkMarket "aster" "ETHUSDT" None).

Definition s1_summary : OBSummary := mkSummary 99 101 2 (2 # 100) 10 1000.

Definition ok_leg (t : Z) (mid : Q) : LegIO :=
  mkLegIO t (Ok mid) t (Ok s1_summary) (Ok 0) (Ok (mkFees None None)) (Ok no_funding).

Definition s1_io : TickIO := mkTickIO (ok_leg 1000 100) (ok_leg 1000 (199 # 2)) (Ok tt).

(** Scenario S2: leg B answers 3.9 s after leg A. *)
Definition s2_io : TickIO := mkTickIO (ok_leg 1000 100) (ok_leg 4900 (199 # 2)) (Ok tt).

(** A tick whose leg-A mid-price read fails, and one whose leg-A
    order-book summary fails. *)
Definition mid_fail_io : TickIO :=
  mkTickIO (mkLegIO 1000 (Err HTTPError) 1000 (Ok s1_summary) (Ok 0) (Ok (mkFees None None)) (Ok no_funding))
    (ok_leg 1000 (199 # 2)) (Ok tt).

Definition summary_fail_io : TickIO :=
  mkTickIO (mkLegIO 1000 (Ok 100) 1000 (Err ValueError) (Ok 0) (Ok (mkFees None None)) (Ok no_funding))
    (ok_leg 1000 (199 # 2)) (Ok tt).

End Poller.

Module PollerTheory.
Import ZScore Ema Reversion VenueTypes Poller ZScoreTheory.

(** Case analysis on every [match] of an unfolded [tick]. *)
Ltac tick_split H :=
  repeat match type of H with
  | context [match ?x with _ => _ end] => destruct x eqn:?
  end.


(** The numbers [ZScore.update] hands to the poller: a non-negative
    standard deviation, [z = (v - mean) / std] when it is positive and
    [z = 0] otherwise. *)
Lemma update_out `{SqrtLaws} s v :
  let '((z, m, sd), _) := ZScore.update s v in
  0 <= sd /\ (0 < sd -> z * sd == v - m) /\ (sd == 0 -> z == 0).
Proof.
  rewrite update_eq. cbv zeta.
  set (b := deque_append (Z.to_nat (window s)) (buf s) v).
  pose proof (std_of_nonneg b) as Hnn.
  qcase_on (qltb 0 (std_of b)); repeat split; intros; try lra. field. lra.
Qed.

Lemma stale_flag_spec a b k th sk :
  (stale_flag a b k th sk = 1%Z <-> (th < a \/ th < b \/ sk < k)%Z) /\
  (stale_flag a b k th sk = 0%Z \/ stale_flag a b k th sk = 1%Z).
Proof.
  unfold stale_flag.
  destruct (Z.ltb_spec th a), (Z.ltb_spec th b), (Z.ltb_spec sk k); simpl;
    split; try (left; reflexivity); try (right; reflexivity); split; intros; try lia; discriminate.
Qed.

(** Every row the poller stores and every payload it posts is built from
    one successful pair of mid-price reads: its fields are the outputs of
    [ZScore.update] on the spread, the timestamps of the two legs, and the
    staleness flag that also decides the logged action. *)
Lemma tick_sample_fields `{PyMath} cfg p st io st' out s :
  tick cfg p st io = (st', out) ->
  out_stored out = Some s \/ out_posted out = Some s ->
  exists pa pb z m sd zs',
    io_mid (io_a io) = Ok pa /\ io_mid (io_b io) = Ok pb /\
    ZScore.update (zs st) (pa - pb) = ((z, m, sd), zs') /\ zs st' = zs' /\
    s_pair s = pair_name p /\ s_price_a s = pa /\ s_price_b s = pb /\ s_spread s = pa - pb /\
    s_z s = z /\ s_mean s = m /\ s_std s = sd /\
    s_ts s = Z.max (io_t1 (io_a io)) (io_t1 (io_b io)) /\
    s_age_a s = (s_ts s - io_t1 (io_a io))%Z /\ s_age_b s = (s_ts s - io_t1 (io_b io))%Z /\
    s_skew s = Z.abs (io_t1 (io_a io) - io_t1 (io_b io)) /\
    s_stale s = stale_flag (s_age_a s) (s_age_b s) (s_skew s) (stale_ms_th cfg) (skew_ms_th cfg) /\
    out_action out = Some (apply_stale (decide_action z (enter_z cfg) (exit_z cfg)) (s_stale s)).
Proof.
  intros Ht Hs. unfold tick in Ht. tick_split Ht;
    injection Ht as <- <-; cbn [out_stored out_posted] in Hs;
    destruct Hs as [Hs|Hs]; try discriminate; injection Hs as <-; subst;
    do 6 eexists; repeat match goal with |- _ /\ _ => split end;
    (eassumption || reflexivity).
Qed.

(** C1: Spec invariants 1-3 on every persisted or broadcast sample: the
    spread is [price_a - price_b]; [std >= 0]; [z * std = spread - mean]
    when [std > 0] and [z = 0] when [std = 0]; [stale] is 0 or 1 and is 1
    exactly when an age or the skew is above its threshold, and then the
    logged action is ["hold"]. *)
Theorem tick_sample_invariants `{SqrtLaws} cfg p st io st' out s :
  tick cfg p st io = (st', out) ->
  out_stored out = Some s \/ out_posted out = Some s ->
  sample_ok cfg s /\ (s_stale s = 1%Z -> out_action out = Some Hold).
Proof.
  intros Ht Hs.
  destruct (tick_sample_fields cfg p st io st' out s Ht Hs)
    as (pa & pb & z & m & sd & zs' & _ & _ & U & _ & _ & Hpa & Hpb & Hsp & Hz & Hm & Hsd & _ & _ & _ & _ & Hst & Ha).
  pose proof (update_out (zs st) (pa - pb)) as Hu. rewrite U in Hu.
  destruct (stale_flag_spec (s_age_a s) (s_age_b s) (s_skew s) (stale_ms_th cfg) (skew_ms_th cfg)) as [Hs1 Hs01].
  rewrite <- Hst in Hs1, Hs01.
  split.
  - unfold sample_ok. rewrite Hsp, Hz, Hm, Hsd, Hpa, Hpb. split; [reflexivity|]. tauto.
  - intros H1. rewrite Ha, H1. reflexivity.
Qed.

(** The ages are measured from the later of the two legs' timestamps, so
    one of them is always 0 and the skew is their sum. *)
Theorem tick_ages `{PyMath} cfg p st io st' out s :
  tick cfg p st io = (st', out) ->
  out_stored out = Some s \/ out_posted out = Some s ->
  (s_age_a s = 0 \/ s_age_b s = 0)%Z /\ (0 <= s_age_a s)%Z /\ (0 <= s_age_b s)%Z /\
  s_skew s = (s_age_a s + s_age_b s)%Z.
Proof.
  intros Ht Hs.
  destruct (tick_sample_fields cfg p st io st' out s Ht Hs)
    as (_ & _ & _ & _ & _ & _ & _ & _ & _ & _ & _ & _ & _ & _ & _ & _ & _ & Hts & Ha & Hb & Hk & _).
  rewrite Ha, Hb, Hk, Hts. lia.
Qed.

(** C5: The action rule of lines 109-115 on every branch. *)
Theorem decide_action_spec zc en ex :
  (decide_action zc en ex = EnterShortALongB <-> en <= zc) /\
  (decide_action zc en ex = EnterLongAShortB <-> zc < en /\ zc <= - en) /\
  (decide_action zc en ex = ExitPos <-> zc < en /\ - en < zc /\ qabs zc <= ex) /\
  (decide_action zc en ex = Hold <-> zc < en /\ - en < zc /\ ex < qabs zc).
Proof.
  unfold decide_action.
  qcase_on (qleb en zc); [|qcase_on (qleb zc (- en)); [|qcase_on (qleb (qabs zc) ex)]];
    repeat split; intros; repeat match goal with H : _ /\ _ |- _ => destruct H end;
    first [reflexivity | discriminate | lra].
Qed.

(** A failed mid-price read aborts the tick before any state changes:
    the windows are untouched and nothing is stored, posted or logged as
    an action. *)
Theorem tick_mid_failure `{PyMath} cfg p st io e :
  io_mid (io_a io) = Err e \/ io_mid (io_b io) = Err e ->
  fst (tick cfg p st io) = st /\ out_stored (snd (tick cfg p st io)) = None /\
  out_posted (snd (tick cfg p st io)) = None /\ out_action (snd (tick cfg p st io)) = None.
Proof.
  intros He. unfold tick.
  destruct (negb _ || negb _); [repeat split|].
  destruct He as [He|He]; rewrite He; [|destruct (io_mid (io_a io))]; repeat split.
Qed.

Lemma leg_extras_err fees m io e :
  has_conn (exchange m) = true -> io_summary io = Err e -> leg_extras fees m io = Err e.
Proof.
  unfold has_conn, leg_extras. intros Hc He. rewrite He.
  destruct (String.eqb (exchange m) "lighter"); [reflexivity|].
  destruct (String.eqb (exchange m) "aster"); [reflexivity | discriminate].
Qed.

(** C33: A failing enrichment call (here leg A's order-book summary) is not
    isolated: the exception escapes to the tick boundary, no row is
    stored and nothing is posted, yet the z-score window and the EMA have
    already taken the spread. *)
Theorem tick_enrichment_failure `{PyMath} cfg p st io pa pb e :
  has_conn (exchange (leg_a p)) = true -> has_conn (exchange (leg_b p)) = true ->
  io_mid (io_a io) = Ok pa -> io_mid (io_b io) = Ok pb ->
  io_summary (io_a io) = Err e ->
  let '(st', out) := tick cfg p st io in
  zs st' = snd (ZScore.update (zs st) (pa - pb)) /\
  ema_st st' = snd (Ema.update (ema_st st) (pa - pb)) /\
  out_stored out = None /\ out_posted out = None /\ out_error out = Some e.
Proof.
  intros Ha Hb Ea Eb Es. unfold tick. rewrite Ha, Hb, Ea, Eb. cbn [negb orb].
  destruct (ZScore.update (zs st) (pa - pb)) as [[[z m] sd] zs'].
  destruct (Ema.update (ema_st st) (pa - pb)) as [v e'].
  rewrite (leg_extras_err _ _ _ e Ha Es). repeat split.
Qed.

Lemma tick_zs `{PyMath} cfg p st io :
  zs (fst (tick cfg p st io)) = zs st \/
  exists v, zs (fst (tick cfg p st io)) = snd (ZScore.update (zs st) v).
Proof.
  destruct (tick cfg p st io) as [st' out] eqn:T. unfold tick in T. cbn [fst].
  tick_split T; injection T as <- _; try (left; reflexivity); right;
    match goal with H : ZScore.update _ ?v = (_, ?r) |- _ => exists v; rewrite H; reflexivity end.
Qed.

Lemma stored_ts_cons o os :
  stored_ts (o :: os) = option_to_list (option_map s_ts (out_stored o)) ++ stored_ts os.
Proof. reflexivity. Qed.

Lemma sorted_cons_ge (t : Z) l :
  Sorted Z.le l -> Forall (Z.le t) l -> Sorted Z.le (t :: l).
Proof. intros Hs Hf. constructor; [exact Hs|]. destruct l; constructor. inversion Hf; assumption. Qed.

(** The z-score window stays well formed over any run of the loop. *)
Theorem poll_loop_wf `{PyMath} cfg p st ios :
  wf (zs st) -> wf (zs (fst (poll_loop cfg p st ios))).
Proof.
  revert st. induction ios as [|io rest IH]; intros st Hw; [exact Hw|].
  cbn [poll_loop]. destruct (tick cfg p st io) as [st1 o] eqn:T.
  destruct (poll_loop cfg p st1 rest) as [st2 os] eqn:L. cbn [fst].
  change st2 with (fst (st2, os)). rewrite <- L. apply IH.
  change st1 with (fst (st1, o)). rewrite <- T.
  destruct (tick_zs cfg p st io) as [E|[v E]]; rewrite E; [exact Hw|].
  destruct (zs st) as [w b]. destruct Hw as [Hw Hl]. unfold wf. cbn in *.
  split; [exact Hw|]. rewrite deque_append_length by lia. lia.
Qed.

(** C6: Ordering: with a monotonic clock, the rows a loop stores have
    non-decreasing [ts_ms], none earlier than the clock at the start. *)
Theorem poll_loop_ts_sorted `{PyMath} cfg p st ios prev :
  clock_monotone prev ios ->
  Sorted Z.le (stored_ts (snd (poll_loop cfg p st ios))) /\
  Forall (Z.le prev) (stored_ts (snd (poll_loop cfg p st ios))).
Proof.
  revert st prev. induction ios as [|io rest IH]; intros st prev Hc; [split; constructor|].
  destruct Hc as [[Ha Hb] Hc]. cbn [poll_loop].
  destruct (tick cfg p st io) as [st1 o] eqn:T.
  destruct (poll_loop cfg p st1 rest) as [st2 os] eqn:L. cbn [snd].
  destruct (IH st1 _ Hc) as [IHs IHf]. rewrite L in IHs, IHf. cbn [snd] in IHs, IHf.
  rewrite stored_ts_cons.
  assert (Hmon : Forall (Z.le prev) (stored_ts os)).
  { eapply Forall_impl; [|exact IHf]. intros t Ht. lia. }
  destruct (out_stored o) as [s|] eqn:Es; cbn [option_map option_to_list app]; [|split; assumption].
  destruct (tick_sample_fields cfg p st io st1 o s T (or_introl Es))
    as (_ & _ & _ & _ & _ & _ & _ & _ & _ & _ & _ & _ & _ & _ & _ & _ & _ & Hts & _).
  rewrite Hts. split.
  - apply sorted_cons_ge; assumption.
  - constructor; [lia | exact Hmon].
Qed.

(** Funding advice (lines 256-278), for a countdown [c >= 0]: the
    advice is given only with a defined net rate, the cycle amount is
    [notional * net_rate]; "converge before funding" implies
    [t_exit < c / 1000] and an expected funding of 0, "span funding"
    implies [c / 1000 < t_exit + 1] and an expected funding of the cycle
    amount.  The slack of one second is the [int()] truncation. *)
Theorem funding_advice_consistent n act fa fb c te adv net ex :
  0 <= c ->
  funding_advice n act fa fb (Some c) (Some te) = (Some adv, net, ex) ->
  exists nr, net_rate act fa fb = Some nr /\ net = Some (n * nr) /\
  ((adv = ConvergeBeforeFunding /\ te * 1000 < c /\ ex = Some 0) \/
   (adv = SpanFunding /\ c < (te + 1) * 1000 /\ ex = net)).
Proof.
  intros Hc H. unfold funding_advice in H.
  destruct (truthy (Some c) && truthy (Some te)); [|discriminate].
  destruct (net_rate act fa fb) as [nr|]; [|discriminate].
  assert (Hd : 0 <= c / 1000) by (apply qdiv_nonneg; [exact Hc | reflexivity]).
  assert (Ec : c == c / 1000 * 1000) by field.
  destruct (py_int_nonneg (c / 1000) Hd) as (H0 & Hl & Hu).
  rewrite Z.max_r in H by exact H0.
  exists nr. split; [reflexivity|].
  qcase_on (qltb te (inject_Z (py_int (c / 1000))));
    [qcase_on (qleb (inject_Z (py_int (c / 1000))) te); [lra|] | qcase_on (qleb (inject_Z (py_int (c / 1000))) te); [|lra]];
    injection H as <- <- <-; split; try reflexivity.
  - left. split; [reflexivity|]. split; [rewrite Ec; lra | reflexivity].
  - right. split; [reflexivity|]. split; [rewrite Ec; lra | reflexivity].
Qed.

(** Spec divergence: the spec compares [t_exit_s] with the countdown in
    seconds, the code with its truncation [int(countdown_ms / 1000)]:
    with 1999 ms to funding and an exit expected in 1.5 s the code says
    the position spans the funding time and expects the full cycle
    amount.  A zero [t_exit_s] (the z-score already inside the exit band)
    is falsy and gives no advice at all. *)
Theorem funding_advice_truncation n a b :
  (3 # 2) * 1000 < 1999 /\
  funding_advice n EnterShortALongB (Some a) (Some b) (Some 1999) (Some (3 # 2)) =
    (Some SpanFunding, Some (n * (a - b)), Some (n * (a - b))) /\
  funding_advice n EnterShortALongB (Some a) (Some b) (Some 1999) (Some 0) = (None, None, None).
Proof. split; [reflexivity|]. split; reflexivity. Qed.

(** Scenario S5: one hour to funding and an exit expected in 600 s:
    convergence before funding, expected funding 0. *)
Theorem funding_advice_s5 n a b :
  funding_advice n EnterShortALongB (Some a) (Some b) (Some 3600000) (Some 600) =
    (Some ConvergeBeforeFunding, Some (n * (a - b)), Some 0).
Proof. reflexivity. Qed.

(** Scenario S1: prices 100 and 99.5 on the seeded window give mean 0.3,
    std 0.1, z = 2 and, with [enter_z = 2], the action
    ["enter_short_A_long_B"] with [stale = 0]. *)
Theorem tick_s1 :
  let '(_, out) := @tick qmath s1_cfg s1_pair s1_state s1_io in
  out_action out = Some EnterShortALongB /\
  match out_stored out with
  | Some s => s_z s == 2 /\ s_mean s == 3 # 10 /\ s_std s == 1 # 10 /\ s_stale s = 0%Z
  | None => False
  end.
Proof. vm_compute. repeat split; reflexivity. Qed.

(** Scenario S2: leg B's answer 3.9 s after leg A's makes leg A's age
    3900 ms > 3000 ms: [stale = 1] and the action is forced to ["hold"]
    although z = 2. *)
Theorem tick_s2 :
  let '(_, out) := @tick qmath s1_cfg s1_pair s1_state s2_io in
  out_action out = Some Hold /\
  match out_stored out with
  | Some s => s_z s == 2 /\ s_age_a s = 3900%Z /\ s_age_b s = 0%Z /\ s_stale s = 1%Z
  | None => False
  end.
Proof. vm_compute. repeat split; reflexivity. Qed.

(** Witnesses. *)

Lemma tick_sample_invariants_witness :
  match out_stored (snd (@tick qmath s1_cfg s1_pair s1_state s2_io)) with
  | Some s => sample_ok s1_cfg s /\
      (s_stale s = 1%Z -> out_action (snd (@tick qmath s1_cfg s1_pair s1_state s2_io)) = Some Hold)
  | None => False
  end.
Proof.
  destruct (out_stored (snd (@tick qmath s1_cfg s1_pair s1_state s2_io))) as [s|] eqn:E;
    [|vm_compute in E; discriminate].
  exact (@tick_sample_invariants qmath qmath_sqrt_laws s1_cfg s1_pair s1_state s2_io _ _ s
           (surjective_pairing _) (or_introl E)).
Defined.

Lemma tick_ages_witness :
  match out_stored (snd (@tick qmath s1_cfg s1_pair s1_state s2_io)) with
  | Some s => (s_age_a s = 0 \/ s_age_b s = 0)%Z /\ (0 <= s_age_a s)%Z /\ (0 <= s_age_b s)%Z /\
      s_skew s = (s_age_a s + s_age_b s)%Z
  | None => False
  end.
Proof.
  destruct (out_stored (snd (@tick qmath s1_cfg s1_pair s1_state s2_io))) as [s|] eqn:E;
    [|vm_compute in E; discriminate].
  exact (@tick_ages qmath s1_cfg s1_pair s1_state s2_io _ _ s (surjective_pairing _) (or_introl E)).
Defined.

Lemma tick_mid_failure_witness :
  io_mid (io_a mid_fail_io) = Err HTTPError /\
  fst (@tick qmath s1_cfg s1_pair s1_state mid_fail_io) = s1_state /\
  out_stored (snd (@tick qmath s1_cfg s1_pair s1_state mid_fail_io)) = None /\
  out_posted (snd (@tick qmath s1_cfg s1_pair s1_state mid_fail_io)) = None /\
  out_action (snd (@tick qmath s1_cfg s1_pair s1_state mid_fail_io)) = None.
Proof.
  assert (E : io_mid (io_a mid_fail_io) = Err HTTPError) by reflexivity.
  split; [exact E|]. exact (@tick_mid_failure qmath s1_cfg s1_pair s1_state mid_fail_io HTTPError (or_introl E)).
Defined.

Lemma tick_enrichment_failure_witness :
  let '(st', out) := @tick qmath s1_cfg s1_pair s1_state summary_fail_io in
  zs st' = snd (@ZScore.update qmath (zs s1_state) (100 - (199 # 2))) /\
  ema_st st' = snd (Ema.update (ema_st s1_state) (100 - (199 # 2))) /\
  out_stored out = None /\ out_posted out = None /\ out_error out = Some ValueError.
Proof.
  exact (@tick_enrichment_failure qmath s1_cfg s1_pair s1_state summary_fail_io 100 (199 # 2) ValueError
           eq_refl eq_refl eq_refl eq_refl eq_refl).
Defined.

Lemma poll_loop_wf_witness :
  wf (zs s1_state) /\ wf (zs (fst (@poll_loop qmath s1_cfg s1_pair s1_state [s1_io; s2_io]))).
Proof.
  assert (W : wf (zs s1_state)) by (unfold wf; cbn; split; [lia | cbn; lia]).
  split; [exact W|]. exact (@poll_loop_wf qmath s1_cfg s1_pair s1_state [s1_io; s2_io] W).
Defined.

Lemma poll_loop_ts_sorted_witness :
  clock_monotone 0 [s1_io; s2_io] /\
  Sorted Z.le (stored_ts (snd (@poll_loop qmath s1_cfg s1_pair s1_state [s1_io; s2_io]))) /\
  Forall (Z.le 0) (stored_ts (snd (@poll_loop qmath s1_cfg s1_pair s1_state [s1_io; s2_io]))).
Proof.
  assert (C : clock_monotone 0 [s1_io; s2_io])
    by (cbv [clock_monotone clock_after s1_io s2_io ok_leg io_a io_b io_t0 io_t1]; cbn; lia).
  split; [exact C|]. exact (@poll_loop_ts_sorted qmath s1_cfg s1_pair s1_state _ 0 C).
Defined.

Lemma funding_advice_consistent_witness :
  0 <= 3600000 /\
  exists nr, net_rate EnterShortALongB (Some (1 # 10000)) (Some 0) = Some nr /\ Some (1000 * (1 # 10000)) = Some (1000 * nr) /\
  ((ConvergeBeforeFunding = ConvergeBeforeFunding /\ 600 * 1000 < 3600000 /\ Some (0 : Q) = Some 0) \/
   (ConvergeBeforeFunding = SpanFunding /\ 3600000 < (600 + 1) * 1000 /\ Some (0 : Q) = Some (1000 * (1 # 10000)))).
Proof.
  assert (H0 : 0 <= 3600000) by discriminate. split; [exact H0|].
  apply (funding_advice_consistent 1000 EnterShortALongB (Some (1 # 10000)) (Some 0) 3600000 600
           ConvergeBeforeFunding (Some (1000 * (1 # 10000))) (Some 0) H0).
  reflexivity.
Defined.

End PollerTheory.
