(* ===== verification/Clock.v ===== *)
(** * Wall-clock milliseconds: [now_ms] of [src/arb/models.py]

    [now_ms()] is [int(time.time() * 1000)]: the wall clock in seconds
    (a float, here a rational reading) scaled to milliseconds and
    truncated toward zero.  The poller times each mid-price read with
    two such readings ([timed], lines 88-92 of [runner_reminder.py]);
    [Poller.clock_monotone] is the property of those readings the
    ordering theorem of the poller assumes.  The model reads the wall
    clock as a stream of readings, four per iteration, in the order
    [timed] and [asyncio.gather] make them.  The theorems: [now_ms] is
    monotone and within one millisecond below the exact value, so a
    wall clock that never steps back gives millisecond readings that
    satisfy [clock_monotone]. *)

From Stdlib Require Import QArith Qminmax Qround Lqa ZArith Lia List.
From S2P Require Import Prelude Poller.
Import ListNotations.

Module Models.

(** [now_ms()] (lines 41-42) on the reading [t] of [time.time()]. *)
Definition now_ms (t : Q) : Z := py_int (t * 1000).

(** The seconds read by the [timed] wrappers of one iteration: the start
    and end of leg [a]'s call, then of leg [b]'s. *)
Record Readings := mkReadings {
  r_a0 : Q; r_a1 : Q; r_b0 : Q; r_b1 : Q
}.

(** The ticks' millisecond timestamps are [now_ms] of the readings. *)
Definition timed_by (io : Poller.TickIO) (r : Readings) : Prop :=
  Poller.io_t0 (Poller.io_a io) = now_ms (r_a0 r) /\ Poller.io_t1 (Poller.io_a io) = now_ms (r_a1 r) /\
  Poller.io_t0 (Poller.io_b io) = now_ms (r_b0 r) /\ Poller.io_t1 (Poller.io_b io) = now_ms (r_b1 r).

(** The order of the four [now_ms()] calls of one iteration.
    [asyncio.gather] runs [timed(a)] until its first suspension before
    it starts [timed(b)], and each [timed] reads [t0] before awaiting
    its call and [t1] after it: [a]'s start comes first, and each call's
    end after its start.  The three orders left: [a] done before [b]
    starts, or both started and [a] or [b] done first. *)
Inductive Schedule : Type :=
| ADoneFirst
| AEndsFirst
| BEndsFirst.

(** [timed] (lines 88-92) under [asyncio.gather] (lines 94-97): the
    readings of one iteration from four consecutive readings of the
    wall clock. *)
Definition timed_readings (s0 s1 s2 s3 : Q) (o : Schedule) : Readings :=
  match o with
  | ADoneFirst => mkReadings s0 s1 s2 s3
  | AEndsFirst => mkReadings s0 s2 s1 s3
  | BEndsFirst => mkReadings s0 s3 s1 s2
  end.

(** The readings of successive iterations from the wall clock's
    readings, four per iteration. *)
Fixpoint gather_readings (ws : list Q) (os : list Schedule) : list Readings :=
  match os, ws with
  | o :: os', s0 :: s1 :: s2 :: s3 :: ws' => timed_readings s0 s1 s2 s3 o :: gather_readings ws' os'
  | _, _ => []
  end.

(** A wall clock that never steps back: its readings from [prev] on. *)
Fixpoint nondecreasing (prev : Q) (ws : list Q) : Prop :=
  match ws with
  | [] => True
  | w :: ws' => prev <= w /\ nondecreasing w ws'
  end.

(** The readings of the iterations of a loop, in order, each after the
    previous iteration's end. *)
Fixpoint secs_monotone (prev : Q) (rs : list Readings) : Prop :=
  match rs with
  | [] => True
  | r :: rest =>
      (prev <= r_a0 r /\ r_a0 r <= r_a1 r /\ prev <= r_b0 r /\ r_b0 r <= r_b1 r) /\
      secs_monotone (Qmax (r_a1 r) (r_b1 r)) rest
  end.

End Models.

Module ModelsTheory.
Import Models.

Lemma py_int_mono x y : x <= y -> (py_int x <= py_int y)%Z.
Proof.
  intros H. unfold py_int.
  destruct (qleb 0 x) eqn:Ex, (qleb 0 y) eqn:Ey;
    [apply qleb_iff in Ex; apply qleb_iff in Ey | apply qleb_iff in Ex; apply qleb_false in Ey
    |apply qleb_false in Ex; apply qleb_iff in Ey | apply qleb_false in Ex; apply qleb_false in Ey].
  - apply Qfloor_resp_le. exact H.
  - lra.
  - pose proof (Qfloor_resp_le 0 y Ey) as A. change (Qfloor 0) with 0%Z in A.
    assert (B : (0 <= Qfloor (- x))%Z) by (change 0%Z with (Qfloor 0); apply Qfloor_resp_le; lra). lia.
  - assert (B : (Qfloor (- y) <= Qfloor (- x))%Z) by (apply Qfloor_resp_le; lra). lia.
Qed.

(** [now_ms] is monotone: a later wall-clock reading never gives an
    earlier millisecond timestamp. *)
Theorem now_ms_monotone t t' : t <= t' -> (now_ms t <= now_ms t')%Z.
Proof. intros H. unfold now_ms. apply py_int_mono. nra. Qed.

(** C26: Bounds of the truncation: for a reading after the epoch, the
    timestamp is non-negative and within one millisecond below
    [1000 * t]. *)
Theorem now_ms_bounds t :
  0 <= t -> (0 <= now_ms t)%Z /\ inject_Z (now_ms t) <= t * 1000 /\ t * 1000 < inject_Z (now_ms t) + 1.
Proof. intros H. apply py_int_nonneg. nra. Qed.

Lemma now_ms_max a b : Z.max (now_ms a) (now_ms b) = now_ms (Qmax a b).
Proof.
  unfold Qmax, GenericMinMax.gmax. destruct (a ?= b) eqn:E.
  - apply Z.max_l, now_ms_monotone. apply Qeq_alt in E. rewrite E. apply Qle_refl.
  - apply Z.max_r, now_ms_monotone. apply Qlt_alt in E. lra.
  - apply Z.max_l, now_ms_monotone. apply Qgt_alt in E. lra.
Qed.

(** Readings of a clock that never steps back satisfy the poller's
    [clock_monotone]. *)
Lemma readings_clock_monotone prev ios rs :
  secs_monotone prev rs -> Forall2 timed_by ios rs -> Poller.clock_monotone (now_ms prev) ios.
Proof.
  intros Hs Hf. revert prev Hs. induction Hf as [|io r ios rs (A0 & A1 & B0 & B1) _ IH]; intros prev Hs; [exact I|].
  destruct Hs as [(Pa & Ha & Pb & Hb) Hs]. cbn. split.
  - unfold Poller.clock_after. rewrite A0, A1, B0, B1. repeat split; apply now_ms_monotone; assumption.
  - rewrite A1, B1, now_ms_max. apply IH. exact Hs.
Qed.

Lemma secs_monotone_weaken p p' rs : p' <= p -> secs_monotone p rs -> secs_monotone p' rs.
Proof. destruct rs as [|r rs]; [trivial|]. cbn. intros H ((A & B & C & D) & E). repeat split; auto; lra. Qed.

Lemma gather_secs_monotone prev ws os : nondecreasing prev ws -> secs_monotone prev (gather_readings ws os).
Proof.
  revert prev ws. induction os as [|o os IH]; intros prev ws; [intros _; destruct ws as [|? [|? [|? [|? ?]]]]; exact I|].
  destruct ws as [|s0 [|s1 [|s2 [|s3 ws]]]]; cbn; trivial.
  intros (H0 & H1 & H2 & H3 & Hr). specialize (IH s3 ws Hr).
  destruct o; cbn; (split; [repeat split; lra|]); apply (secs_monotone_weaken s3); auto;
    apply Q.max_lub; lra.
Qed.

(** C25: Composition with the poller: the [timed] wrappers of every
    iteration, run by [asyncio.gather] in any of its orders, read a
    wall clock that never steps back; their millisecond readings
    satisfy the poller's [clock_monotone], the hypothesis of its
    ordering theorem. *)
Theorem wall_clock_monotone prev ws os ios :
  nondecreasing prev ws -> Forall2 timed_by ios (gather_readings ws os) -> Poller.clock_monotone (now_ms prev) ios.
Proof. intros Hw Hf. exact (readings_clock_monotone _ _ _ (gather_secs_monotone _ _ os Hw) Hf). Qed.

(** Witnesses. *)

Lemma now_ms_monotone_witness : (1 # 2) <= 1 /\ (now_ms (1 # 2) <= now_ms 1)%Z.
Proof.
  assert (H : (1 # 2) <= 1) by (unfold Qle; cbn; lia).
  split; [exact H | exact (now_ms_monotone _ _ H)].
Defined.

Lemma now_ms_bounds_witness :
  0 <= (1 # 3) /\ (0 <= now_ms (1 # 3))%Z /\ inject_Z (now_ms (1 # 3)) <= (1 # 3) * 1000 /\
  (1 # 3) * 1000 < inject_Z (now_ms (1 # 3)) + 1.
Proof.
  assert (H : 0 <= (1 # 3)) by (unfold Qle; cbn; lia).
  split; [exact H | exact (now_ms_bounds _ H)].
Defined.

Lemma wall_clock_monotone_witness :
  nondecreasing 0 [1; 1; 1; 1] /\
  Forall2 timed_by [Poller.s1_io] (gather_readings [1; 1; 1; 1] [AEndsFirst]) /\
  Poller.clock_monotone (now_ms 0) [Poller.s1_io].
Proof.
  assert (S : nondecreasing 0 [1; 1; 1; 1]) by (cbn; repeat split; unfold Qle; vm_compute; discriminate).
  assert (F : Forall2 timed_by [Poller.s1_io] (gather_readings [1; 1; 1; 1] [AEndsFirst])) by (repeat constructor).
  split; [exact S|]. split; [exact F | exact (wall_clock_monotone 0 _ _ _ S F)].
Defined.

End ModelsTheory.
