(* ===== verification/Legacy.v ===== *)
(** * The legacy pair loop: [poll_pair] of [src/arb/runner_reminder.py]

    [poll_pair] (lines 40-69) is the first version of the pair task:
    read both mid-prices, feed the spread to the z-score, decide and
    print the action, sleep.  [main] no longer starts it; its successor
    [poll_pair_with_store] ([Poller.tick]) adds the EMA, the staleness
    rule, the enrichment and the storage.  The iteration is a function
    of the z-score state and the two mid-price reads of the iteration
    (their results, as for [Poller.tick]); the print is the logged
    action.  The theorem relates the two loops: on the same mid-price
    reads they feed the z-score the same spreads, and the successor
    logs the legacy action or, on a stale sample, [hold], except at the
    iterations whose enrichment raises, where it logs nothing. *)

From Stdlib Require Import QArith ZArith Lia List.
From S2P Require Import Prelude Signals Venue Poller.
Import ListNotations.

Open Scope py_scope.

Module Legacy.
Import ZScore Poller.






End Legacy.

Module LegacyTheory.
Import ZScore Poller Legacy.





End LegacyTheory.
