(* ===== verification/BinStats.v ===== *)
(** * Bin statistics: [_parse_edges] and [api_stats_bins] in
    [src/arb/panel/server.py] (lines 95-179)

    For each |z| bin the endpoint scans the ascending series for entries
    into the bin, measures the time to the first later |z| at or below
    [exit_z], and reports percentiles of these durations and the share of
    them that ended before the funding countdown.  The scan is a [while]
    loop whose index does not always grow: it is modelled as one step
    function [bin_step] iterated with fuel by [bin_loop], [None] meaning
    that the loop had not finished when the fuel ran out. *)

From Stdlib Require Import String QArith Qminmax Qabs Lqa ZArith Lia List Bool.
From S2P Require Import Prelude.
Import ListNotations.

Open Scope Q_scope.

Module Bins.

(** The columns of a spreads row the endpoint reads. *)
Record StatRow := mkRow {
  r_ts : Z;
  r_z : option Q;
  r_countdown : option Q
}.

(** [list.sort()] on floats (stable insertion sort). *)
Fixpoint insert_q (x : Q) (l : list Q) : list Q :=
  match l with
  | [] => [x]
  | y :: r => if qleb x y then x :: y :: r else y :: insert_q x r
  end.

Definition sort_q (l : list Q) : list Q := fold_right insert_q [] l.

(** [seq.sort(key=lambda r: r["ts_ms"])] (stable). *)
Fixpoint insert_row (x : StatRow) (l : list StatRow) : list StatRow :=
  match l with
  | [] => [x]
  | y :: r => if (r_ts x <=? r_ts y)%Z then x :: y :: r else y :: insert_row x r
  end.

Definition sort_rows (l : list StatRow) : list StatRow := fold_right insert_row [] l.

(** Lines 96-104: the bins of the sorted edges, the last one open.  The
    argument is the list of parsed floats, [None] when a [float(x)]
    raised; the [except] then returns the default bins. *)
Fixpoint edges_to_bins (parts : list Q) : list (Q * option Q) :=
  match parts with
  | [] => []
  | [lo] => [(lo, None)]
  | lo :: ((hi :: _) as rest) => (lo, Some hi) :: edges_to_bins rest
  end.

Definition default_bins : list (Q * option Q) :=
  [(3 # 2, Some 2); (2, Some (5 # 2)); (5 # 2, Some 3); (3, None)].

Definition parse_edges (parts : option (list Q)) : list (Q * option Q) :=
  match parts with
  | Some ps => edges_to_bins (sort_q ps)
  | None => default_bins
  end.

(** The state of the [while i < n] loop of one bin. *)
Record BinLoop := mkBL {
  bl_i : nat;
  bl_samples : list Q;
  bl_probs : list Q
}.

(** Lines 139-144: the first [j >= i] with [absz[j] <= exit_z]; the list
    is [absz[i:]]. *)
Fixpoint scan_from (ex : Q) (l : list Q) (j : nat) : option nat :=
  match l with
  | [] => None
  | x :: r => if qleb x ex then Some j else scan_from ex r (S j)
  end.

(** Lines 132-155: one iteration of the loop. *)
Definition bin_step (absz : list Q) (tms : list Z) (cds : list (option Q))
    (lo : Q) (hi : option Q) (ex : Q) (s : BinLoop) : BinLoop :=
  let i := bl_i s in
  let prev := nth (i - 1) absz 0 in
  let cur := nth i absz 0 in
  let enter := qltb prev lo && qleb lo cur &&
               match hi with None => true | Some h => qltb cur h end in
  if enter then
    let start_t := nth i tms 0%Z in
    match scan_from ex (skipn i absz) i with
    | Some j =>
        let dt_ms := (nth j tms 0%Z - start_t)%Z in
        let samples := bl_samples s ++ [inject_Z dt_ms / 1000] in
        let probs :=
          match nth i cds None with
          | Some c => bl_probs s ++ [if qleb (inject_Z dt_ms) c then 1 else 0]
          | None => bl_probs s
          end in
        mkBL j samples probs
    | None => mkBL (S i) (bl_samples s) (bl_probs s)
    end
  else mkBL (S i) (bl_samples s) (bl_probs s).

(** Line 131: [while i < n], with [fuel] iterations at most. *)
Fixpoint bin_loop (fuel : nat) (absz : list Q) (tms : list Z) (cds : list (option Q))
    (lo : Q) (hi : option Q) (ex : Q) (s : BinLoop) : option BinLoop :=
  if (bl_i s <? length absz)%nat then
    match fuel with
    | O => None
    | S f => bin_loop f absz tms cds lo hi ex (bin_step absz tms cds lo hi ex s)
    end
  else Some s.

(** Lines 159-163: [samples[int(max(0, min(cnt-1, round(p*(cnt-1)))))]]. *)
Definition pct (samples : list Q) (p : Q) : option Q :=
  let cnt := Z.of_nat (length samples) in
  if (cnt =? 0)%Z then None
  else
    let k := Z.max 0 (Z.min (cnt - 1) (py_round (p * inject_Z (cnt - 1)))) in
    nth_error samples (Z.to_nat k).

(** One entry of ["stats"]. *)
Record BinStat := mkStat {
  st_lo : Q;
  st_hi : option Q;
  st_samples : Z;
  st_p25 : option Q;
  st_median : option Q;
  st_p75 : option Q;
  st_p90 : option Q;
  st_prob : option Q
}.

(** Lines 156-177. *)
Definition bin_stat (lo : Q) (hi : option Q) (s : BinLoop) : BinStat :=
  let samples := sort_q (bl_samples s) in
  let probs := bl_probs s in
  mkStat lo hi (Z.of_nat (length samples))
    (pct samples (1 # 4)) (pct samples (1 # 2)) (pct samples (3 # 4)) (pct samples (9 # 10))
    (match probs with
     | [] => None
     | _ => Some (qsum probs / inject_Z (Z.of_nat (length probs)))
     end).

(** Lines 116-119: the rows of the last [days] days, ascending by time. *)
Definition select_rows (now_ms days : Z) (rows : list StatRow) : list StatRow :=
  let since_ms := (now_ms - days * 86400000)%Z in
  sort_rows (filter (fun r => (since_ms <=? r_ts r)%Z) rows).

(** [abs(r.get("z") or 0.0)] *)
Definition abs_z (r : StatRow) : Q :=
  match r_z r with Some z => qabs z | None => 0 end.

Fixpoint all_bins (fuel : nat) (absz : list Q) (tms : list Z) (cds : list (option Q)) (ex : Q)
    (bins : list (Q * option Q)) : option (list BinStat) :=
  match bins with
  | [] => Some []
  | (lo, hi) :: rest =>
      match bin_loop fuel absz tms cds lo hi ex (mkBL 1 [] []) with
      | None => None
      | Some s =>
          match all_bins fuel absz tms cds ex rest with
          | None => None
          | Some stats => Some (bin_stat lo hi s :: stats)
          end
      end
  end.

(** [api_stats_bins(pair, days, exit_z, edges)] on the rows [get_spreads]
    returned: [None] when a bin's loop has not finished within [fuel]
    iterations, [Some (Err HTTPError)] for the 400 answer. *)
Definition api_stats_bins (fuel : nat) (pair : string) (now_ms days : Z) (ex : Q)
    (edges : option (list Q)) (rows : list StatRow) : option (res (list BinStat)) :=
  if String.eqb pair "" then Some (Err HTTPError) else
  let seq := select_rows now_ms days rows in
  let bins := parse_edges edges in
  let absz := map abs_z seq in
  let tms := map r_ts seq in
  let cds := map r_countdown seq in
  match all_bins fuel absz tms cds ex bins with
  | None => None
  | Some stats => Some (Ok stats)
  end.

(** The series of scenario 10: |z| = 2.0 at 1 s, back to 0.4 at 4 s. *)
Definition example10_rows : list StatRow :=
  [mkRow 4000 (Some (2 # 5)) None; mkRow 3000 (Some 1) None; mkRow 2000 (Some (3 # 2)) None;
   mkRow 1000 (Some 2) None; mkRow 0 (Some 0) None].

(** [exit_z = 2] with the default edges: |z| goes 0 -> 1.8. *)
Definition hang_rows : list StatRow := [mkRow 1000 (Some (9 # 5)) None; mkRow 0 (Some 0) None].

(** The condition of line 135 at index [i]. *)
Definition enters (absz : list Q) (lo : Q) (hi : option Q) (i : nat) : Prop :=
  nth (i - 1) absz 0 < lo /\ lo <= nth i absz 0 /\
  match hi with None => True | Some h => nth i absz 0 < h end.

(** Four sorted durations. *)
Definition durations4 : list Q := [1; 2; 3; 4].

End Bins.

Module BinsTheory.
Import Bins.

Lemma scan_from_some ex l j k :
  scan_from ex l j = Some k -> (j <= k)%nat /\ (k - j < length l)%nat /\ nth (k - j) l 0 <= ex.
Proof.
  revert j. induction l as [|x r IH]; intros j H; [discriminate|]. cbn [scan_from] in H.
  qcase_on (qleb x ex).
  - injection H as <-. rewrite Nat.sub_diag. cbn. split; [lia|]. split; [lia | exact Hc].
  - destruct (IH (S j) H) as (H1 & H2 & H3). cbn [length].
    replace (k - j)%nat with (S (k - S j)) by lia. split; [lia|]. split; [lia | exact H3].
Qed.

Lemma scan_skipn ex absz i j :
  scan_from ex (skipn i absz) i = Some j -> (i <= j < length absz)%nat /\ nth j absz 0 <= ex.
Proof.
  intros H. destruct (scan_from_some _ _ _ _ H) as (H1 & H2 & H3).
  rewrite length_skipn in H2. rewrite nth_skipn in H3.
  replace (i + (j - i))%nat with j in H3 by lia. split; [lia | exact H3].
Qed.

Lemma skipn_nth_cons {A} (l : list A) i d :
  (i < length l)%nat -> skipn i l = nth i l d :: skipn (S i) l.
Proof.
  revert i. induction l as [|x r IH]; intros i H; [cbn in H; lia|].
  destruct i as [|i]; [reflexivity|]. cbn. apply IH. cbn in H. lia.
Qed.

Lemma enters_true absz lo hi i :
  enters absz lo hi i ->
  qltb (nth (i - 1) absz 0) lo && qleb lo (nth i absz 0) &&
  match hi with None => true | Some h => qltb (nth i absz 0) h end = true.
Proof.
  intros (H1 & H2 & H3). apply qltb_iff in H1. apply qleb_iff in H2. rewrite H1, H2.
  destruct hi as [h|]; [apply qltb_iff; exact H3 | reflexivity].
Qed.

(** An entry whose |z| is already within the exit band is "reached" at
    [j = i], and [i = j] leaves the index where it was. *)
Lemma bin_step_stays absz tms cds lo hi ex s :
  (bl_i s < length absz)%nat -> enters absz lo hi (bl_i s) -> nth (bl_i s) absz 0 <= ex ->
  bl_i (bin_step absz tms cds lo hi ex s) = bl_i s.
Proof.
  intros Hn He Hx. unfold bin_step. rewrite (enters_true _ _ _ _ He).
  rewrite (skipn_nth_cons absz (bl_i s) 0 Hn). cbn [scan_from].
  rewrite (proj2 (qleb_iff _ _) Hx). destruct (nth (bl_i s) cds None); reflexivity.
Qed.

Lemma bin_loop_stuck absz tms cds lo hi ex fuel s :
  (bl_i s < length absz)%nat -> enters absz lo hi (bl_i s) -> nth (bl_i s) absz 0 <= ex ->
  bin_loop fuel absz tms cds lo hi ex s = None.
Proof.
  revert s. induction fuel as [|f IH]; intros s Hn He Hx; cbn [bin_loop];
    rewrite (proj2 (Nat.ltb_lt _ _) Hn); [reflexivity|].
  pose proof (bin_step_stays absz tms cds lo hi ex s Hn He Hx) as E.
  apply IH; rewrite E; assumption.
Qed.

(** With [exit_z < lo] an entry is never reached at [j = i]: every
    iteration moves the index forward, and not past [n]. *)
Lemma bin_step_progress absz tms cds lo hi ex s :
  ex < lo -> (bl_i s < length absz)%nat ->
  (bl_i s < bl_i (bin_step absz tms cds lo hi ex s) <= length absz)%nat.
Proof.
  intros Hlo Hn. unfold bin_step.
  destruct (qltb _ lo && qleb lo _ && _) eqn:Ee; [|cbn; lia].
  apply andb_true_iff in Ee as [Ee _]. apply andb_true_iff in Ee as [_ Ee]. apply qleb_iff in Ee.
  destruct (scan_from ex (skipn (bl_i s) absz) (bl_i s)) as [j|] eqn:Es; [|cbn; lia].
  destruct (scan_skipn _ _ _ _ Es) as [[Hij Hj] Hx].
  assert (j <> bl_i s) by (intros ->; lra).
  destruct (nth (bl_i s) cds None); cbn; lia.
Qed.

Lemma bin_loop_total absz tms cds lo hi ex :
  ex < lo -> forall fuel s, (length absz - bl_i s <= fuel)%nat ->
  exists s', bin_loop fuel absz tms cds lo hi ex s = Some s'.
Proof.
  intros Hlo fuel. induction fuel as [|f IH]; intros s Hf; cbn [bin_loop];
    destruct (Nat.ltb_spec (bl_i s) (length absz)) as [Hn|Hn]; try (eexists; reflexivity); [lia|].
  apply IH. pose proof (bin_step_progress absz tms cds lo hi ex s Hlo Hn). lia.
Qed.

Lemma insert_row_length x l : length (insert_row x l) = S (length l).
Proof. induction l as [|y r IH]; cbn; [reflexivity|]. destruct (r_ts x <=? r_ts y)%Z; cbn; congruence. Qed.

Lemma sort_rows_length l : length (sort_rows l) = length l.
Proof. induction l as [|x r IH]; cbn; [reflexivity|]. rewrite insert_row_length. unfold sort_rows in IH. congruence. Qed.

Lemma select_rows_length now days rows : (length (select_rows now days rows) <= length rows)%nat.
Proof. unfold select_rows. rewrite sort_rows_length. apply filter_length_le. Qed.

Lemma all_bins_total fuel absz tms cds ex bins :
  (length absz <= fuel)%nat -> (forall lo hi, In (lo, hi) bins -> ex < lo) ->
  exists stats, all_bins fuel absz tms cds ex bins = Some stats.
Proof.
  intros Hf. induction bins as [|[lo hi] rest IH]; intros Hb; [eexists; reflexivity|].
  cbn [all_bins].
  destruct (bin_loop_total absz tms cds lo hi ex (Hb lo hi (or_introl eq_refl)) fuel (mkBL 1 [] []))
    as [s Hs]; [cbn; lia|].
  rewrite Hs. destruct IH as [stats Hst]; [intros l h H; apply (Hb l h); right; exact H|].
  rewrite Hst. eexists; reflexivity.
Qed.

(** C7: Code bug: when the first bin starts at or below [exit_z] and the
    series enters it at its second point with a |z| already within the
    exit band, the scan finds [j = i], sets [i = j], and the request never
    completes, however many iterations are allowed. *)
Theorem api_stats_bins_hangs fuel pair now days ex edges rows lo hi rest :
  pair <> ""%string -> parse_edges edges = (lo, hi) :: rest ->
  let absz := map abs_z (select_rows now days rows) in
  (1 < length absz)%nat -> nth 0 absz 0 < lo -> lo <= nth 1 absz 0 -> nth 1 absz 0 <= ex ->
  match hi with None => True | Some h => nth 1 absz 0 < h end ->
  api_stats_bins fuel pair now days ex edges rows = None.
Proof.
  intros Hp He absz Hn H0 H1 Hx Hh. unfold api_stats_bins.
  rewrite (proj2 (String.eqb_neq _ _) Hp), He. cbn [all_bins].
  rewrite bin_loop_stuck; [reflexivity | exact Hn | | exact Hx].
  split; [exact H0|]. split; assumption.
Qed.

(** C8: Termination: when every bin's lower edge is above [exit_z] (the
    defaults: edges from 1.5, [exit_z = 0.5]), the endpoint answers
    within as many iterations per bin as there are rows. *)
Theorem api_stats_bins_terminates fuel pair now days ex edges rows :
  (forall lo hi, In (lo, hi) (parse_edges edges) -> ex < lo) ->
  (length rows <= fuel)%nat ->
  exists r, api_stats_bins fuel pair now days ex edges rows = Some r.
Proof.
  intros Hb Hf. unfold api_stats_bins.
  destruct (String.eqb pair ""); [eexists; reflexivity|].
  destruct (all_bins_total fuel (map abs_z (select_rows now days rows)) (map r_ts (select_rows now days rows))
              (map r_countdown (select_rows now days rows)) ex (parse_edges edges)) as [st Hst].
  - rewrite length_map. pose proof (select_rows_length now days rows). lia.
  - exact Hb.
  - rewrite Hst. eexists; reflexivity.
Qed.

(** The percentile index stays in range for every [p]: on a non-empty
    list [pct] returns one of its elements, at an index below the
    count. *)
Theorem pct_in_range samples p :
  samples <> [] -> exists k x, (k < length samples)%nat /\ nth_error samples k = Some x /\ pct samples p = Some x.
Proof.
  intros Hne. unfold pct.
  assert (Hl : (0 < length samples)%nat) by (destruct samples; [contradiction | cbn; lia]).
  rewrite (proj2 (Z.eqb_neq _ 0%Z)) by lia.
  set (k := Z.max 0 (Z.min (Z.of_nat (length samples) - 1) (py_round (p * inject_Z (Z.of_nat (length samples) - 1))))).
  assert (Hk : (Z.to_nat k < length samples)%nat) by (unfold k; lia).
  destruct (nth_error samples (Z.to_nat k)) as [x|] eqn:E.
  - exists (Z.to_nat k), x. split; [exact Hk|]. split; first [exact E | reflexivity].
  - apply nth_error_None in E. lia.
Qed.

(** Scenario 10: one entry at |z| = 2.0 at 1 s, back to |z| <= 0.5 at
    4 s: the (1.5, 2.5) bin has one sample and a median of 3 s, and the
    open bin from 2.5 has none. *)
Theorem api_stats_bins_example10 :
  match api_stats_bins 10 "ETH" 10000 7 (1 # 2) (Some [3 # 2; 5 # 2]) example10_rows with
  | Some (Ok [b1; b2]) =>
      st_lo b1 == 3 # 2 /\ st_hi b1 = Some (5 # 2) /\ st_samples b1 = 1%Z /\ option_map Qred (st_median b1) = Some 3 /\
      st_samples b2 = 0%Z /\ st_median b2 = None
  | _ => False
  end.
Proof. vm_compute. repeat split; reflexivity. Qed.

(** Spec divergence: the percentiles are not nearest-rank.  The index is
    [round(p * (cnt - 1))] with Python's round-half-even: the median of
    the durations 1, 2, 3, 4 s is 3 s (nearest rank: 2 s), and their 25th
    percentile is 2 s (nearest rank: 1 s). *)
Theorem pct_not_nearest_rank :
  pct [1; 2; 3; 4] (1 # 2) = Some 3 /\ pct [1; 2; 3; 4] (1 # 4) = Some 2 /\
  pct [1; 2; 3; 4] (3 # 4) = Some 3 /\ pct [1; 2; 3; 4] (9 # 10) = Some 4.
Proof. vm_compute. repeat split. Qed.

(** Witnesses. *)

Lemma api_stats_bins_hangs_witness :
  api_stats_bins 1000 "ETH" 10000 7 2 None hang_rows = None.
Proof.
  apply (api_stats_bins_hangs 1000 "ETH" 10000 7 2 None hang_rows (3 # 2) (Some 2) (tl default_bins));
    [discriminate | reflexivity | vm_compute; lia | vm_compute; first [reflexivity | intro; discriminate] .. ].
Defined.

Lemma api_stats_bins_terminates_witness :
  exists r, api_stats_bins 10 "ETH" 10000 7 (1 # 2) None example10_rows = Some r.
Proof.
  apply api_stats_bins_terminates; [|cbn; lia].
  intros lo hi H. cbn in H.
  repeat (destruct H as [H|H]; [injection H as <- <-; reflexivity|]). contradiction.
Defined.

Lemma pct_in_range_witness :
  exists k x, (k < length durations4)%nat /\ nth_error durations4 k = Some x /\
    pct durations4 (9 # 10) = Some x.
Proof. apply pct_in_range. discriminate. Defined.

End BinsTheory.
