(* ===== verification/Simulator.v ===== *)
(** * Execution-cost simulator: [_avg_exec_price] and [api_simulate] in
    [src/arb/panel/server.py] (lines 316-415)

    [_avg_exec_price] walks one side of an order book, taking from each
    level until the base quantity is filled, and returns the average
    execution price and the filled quantity.  [api_simulate] converts the
    notional to base quantities at the mid-prices, walks the side of each
    leg the pattern dictates, and prices slippage and taker fees.  The
    connector answers are inputs ([SimIO]); configuration lookups are
    values of [res]. *)

From Stdlib Require Import String QArith Qminmax Qabs Lqa ZArith Lia List Bool.
From S2P Require Import Prelude Venue Poller.
Import ListNotations.

Open Scope Q_scope.
Open Scope py_scope.

Module Sim.
Import VenueTypes Poller.

(** Lines 328-333: the loop over [[price, qty]] levels with its [break],
    accumulating [total_quote] and [filled] while [remaining > 0]. *)
Fixpoint walk (levels : list (Q * Q)) (remaining total filled : Q) : Q * Q :=
  match levels with
  | [] => (total, filled)
  | (price, qty) :: rest =>
      if qleb remaining 0 then (total, filled)
      else
        let take := Qmin remaining qty in
        walk rest (remaining - take) (total + take * price) (filled + take)
  end.

(** [_avg_exec_price(levels, base_qty, side)]; the side does not change
    the walk (line 327). *)
Definition avg_exec_price (levels : list (Q * Q)) (base_qty : Q) : Q * Q :=
  let '(total, filled) := walk levels base_qty 0 0 in
  (if qltb 0 filled then total / filled else 0, filled).

Inductive Side := Buy | Sell.

(** Lines 373-379. *)
Definition pattern_sides (pattern : string) : res (Side * Side) :=
  if String.eqb pattern "enter_short_A_long_B" then Ok (Sell, Buy)
  else if String.eqb pattern "enter_long_A_short_B" then Ok (Buy, Sell)
  else Err HTTPError.

(** [levels["asks"] if side == "buy" else levels["bids"]] *)
Definition book_side (lv : Levels) (s : Side) : list (Q * Q) :=
  match s with Buy => asks lv | Sell => bids lv end.

(** Lines 385-386: [(abs(avg - mid) / mid) if avg > 0 else 0.0]. *)
Definition slip_pct (avg mid : Q) : res Q :=
  if qltb 0 avg then qdiv (qabs (avg - mid)) mid else Ok 0.

(** [x or 0.0] on an optional float. *)
Definition or_zero (o : option Q) : Q :=
  match o with Some q => q | None => 0 end.

(** Lines 391-400: the taker fee of a leg, from [LighterConnector.get_fees]
    or from the [fees.aster] configuration. *)
Definition taker_of (m : Market) (fees_io : res Fees) (aster_cfg : Fees) : res Q :=
  if String.eqb (exchange m) "lighter" then
    let* f := fees_io in Ok (or_zero (taker f))
  else Ok (or_zero (taker aster_cfg)).

(** The connector answers of one request. *)
Record SimIO := mkSimIO {
  sim_mid_a : res Q;
  sim_mid_b : res Q;
  sim_levels_a : res Levels;
  sim_levels_b : res Levels;
  sim_fees_a : res Fees;
  sim_fees_b : res Fees
}.

(** The response dict of lines 401-415. *)
Record SimResult := mkSim {
  mid_a : Q; mid_b : Q;
  avg_a : Q; avg_b : Q;
  slip_a_pct : Q; slip_b_pct : Q;
  slip_a_usd : Q; slip_b_usd : Q;
  fee_a_usd : Q; fee_b_usd : Q;
  total_cost_usd : Q;
  filled_base_a : Q; filled_base_b : Q
}.

(** [api_simulate(pair, notional_usd, pattern)]; [pairs] is the
    configured pair list, [aster_cfg] the [fees.aster] entry. *)
Definition api_simulate (pairs : list Pair) (aster_cfg : Fees) (io : SimIO)
    (pair : string) (notional : Q) (pattern : string) : res SimResult :=
  match find (fun p => String.eqb (pair_name p) pair) pairs with
  | None => Err HTTPError
  | Some pd =>
      let* ma := sim_mid_a io in
      let* mb := sim_mid_b io in
      let* base_a := qdiv notional ma in
      let* base_b := qdiv notional mb in
      let* lva := sim_levels_a io in
      let* lvb := sim_levels_b io in
      let* sides := pattern_sides pattern in
      let '(side_a, side_b) := sides in
      let '(aa, fa) := avg_exec_price (book_side lva side_a) base_a in
      let '(ab, fb) := avg_exec_price (book_side lvb side_b) base_b in
      let* spa := slip_pct aa ma in
      let* spb := slip_pct ab mb in
      let* ta := taker_of (leg_a pd) (sim_fees_a io) aster_cfg in
      let* tb := taker_of (leg_b pd) (sim_fees_b io) aster_cfg in
      let sua := spa * notional in
      let sub := spb * notional in
      let fua := ta * notional in
      let fub := tb * notional in
      Ok (mkSim ma mb aa ab spa spb sua sub fua fub (sua + sub + fua + fub) fa fb)
  end.

(** Scenario S4: leg A on Aster with bids [[100, 1], [99, 2]]. *)
Definition s4_pairs : list Pair :=
  [mkPair "ETH" (mkMarket "aster" "ETHUSDT" None) (mkMarket "aster" "ETHUSDT" None)].

Definition s4_io : SimIO :=
  mkSimIO (Ok 100) (Ok 100) (Ok (mkLevels [(100, 1); (99, 2)] [(101, 5)]))
    (Ok (mkLevels [(99, 5)] [(100, 1); (101, 2)])) (Ok (mkFees None None)) (Ok (mkFees None None)).

(** Order-book levels with non-negative quantities, and with prices in
    [[lo, hi]]. *)
Definition qty_nonneg (levels : list (Q * Q)) : Prop := Forall (fun pq => 0 <= snd pq) levels.

Definition prices_within (lo hi : Q) (levels : list (Q * Q)) : Prop :=
  Forall (fun pq => 0 <= snd pq /\ lo <= fst pq <= hi) levels.

End Sim.

Module SimTheory.
Import VenueTypes Poller Sim.

Lemma qsum_qty_nonneg levels : qty_nonneg levels -> 0 <= qsum (map snd levels).
Proof.
  induction 1 as [|[p q] l Hq _ IH]; [apply Qle_refl|].
  change (0 <= q + qsum (map snd l)). cbn in Hq. lra.
Qed.

Lemma walk_filled levels rem t0 f0 :
  qty_nonneg levels -> 0 <= rem ->
  snd (walk levels rem t0 f0) == f0 + Qmin rem (qsum (map snd levels)).
Proof.
  intros Hq. revert rem t0 f0. induction Hq as [|[p q] l Hq0 Hl IH]; intros rem t0 f0 Hr; cbn [walk map qsum fold_right snd fst] in *.
  - rewrite Q.min_r by lra. ring.
  - pose proof (qsum_qty_nonneg l Hl) as Hs. fold (qsum (map snd l)).
    qcase_on (qleb rem 0).
    + rewrite Q.min_l by lra. cbn. lra.
    + destruct (Q.min_spec rem q) as [[? ?]|[? ?]]; rewrite IH by lra;
        destruct (Q.min_spec (rem - Qmin rem q) (qsum (map snd l))) as [[? ?]|[? ?]];
        destruct (Q.min_spec rem (q + qsum (map snd l))) as [[? ?]|[? ?]]; lra.
Qed.

Lemma mul_between t p lo hi : 0 <= t -> lo <= p <= hi -> lo * t <= t * p <= hi * t.
Proof. intros Ht [H1 H2]. split; nra. Qed.

Lemma walk_total levels lo hi rem t0 f0 :
  prices_within lo hi levels -> lo * f0 <= t0 <= hi * f0 ->
  let '(t, f) := walk levels rem t0 f0 in lo * f <= t <= hi * f.
Proof.
  intros Hp. revert rem t0 f0. induction Hp as [|[p q] l [Hq Hpr] _ IH]; intros rem t0 f0 Ht; cbn [walk fst snd] in *.
  - exact Ht.
  - qcase_on (qleb rem 0); [exact Ht|].
    assert (Htk : 0 <= Qmin rem q) by (apply Q.min_glb; lra).
    pose proof (mul_between _ _ _ _ Htk Hpr). apply IH. split; nra.
Qed.

(** The walk fills [min(base_qty, total quantity of the levels)] when
    the quantities are non-negative. *)
Theorem avg_exec_filled levels base :
  qty_nonneg levels -> 0 <= base ->
  snd (avg_exec_price levels base) == Qmin base (qsum (map snd levels)).
Proof.
  intros Hq Hb. unfold avg_exec_price.
  pose proof (walk_filled levels base 0 0 Hq Hb) as H.
  destruct (walk levels base 0 0) as [t f]. cbn [snd] in *. rewrite H. ring.
Qed.

(** The average execution price lies between the lowest and the highest
    price of the book side whenever something was filled. *)
Theorem avg_exec_within levels base lo hi :
  prices_within lo hi levels -> 0 < snd (avg_exec_price levels base) ->
  lo <= fst (avg_exec_price levels base) <= hi.
Proof.
  intros Hp. unfold avg_exec_price.
  assert (H0 : lo * 0 <= 0 <= hi * 0) by lra.
  pose proof (walk_total levels lo hi base 0 0 Hp H0) as H.
  destruct (walk levels base 0 0) as [t f]. cbn [fst snd]. intros Hf.
  rewrite (proj2 (qltb_iff 0 f) Hf). destruct H as [H1 H2]. split.
  - apply Qle_shift_div_l; [exact Hf | lra].
  - apply Qle_shift_div_r; [exact Hf | lra].
Qed.

(** Scenario S4: selling 1.5 ETH (150 USD at mid 100) into the bids
    [[100, 1], [99, 2]] fills 1 @ 100 and 0.5 @ 99: average 299 / 3
    (about 99.667), slippage 1/300 of the notional (0.333 %). *)
Theorem simulate_s4 :
  match api_simulate s4_pairs (mkFees None None) s4_io "ETH" 150 "enter_short_A_long_B" with
  | Ok r => avg_a r == 299 # 3 /\ filled_base_a r == 3 # 2 /\ slip_a_pct r == 1 # 300 /\
            slip_a_usd r == 1 # 2
  | Err _ => False
  end.
Proof. vm_compute. repeat split; reflexivity. Qed.

(** A pattern other than the two entry actions is answered with the 400
    error, whatever the connectors return. *)
Theorem simulate_invalid_pattern pairs aster_cfg io pair notional pattern :
  pattern <> "enter_short_A_long_B"%string -> pattern <> "enter_long_A_short_B"%string ->
  exists e, api_simulate pairs aster_cfg io pair notional pattern = Err e.
Proof.
  intros H1 H2. unfold api_simulate.
  assert (E : pattern_sides pattern = Err HTTPError).
  { unfold pattern_sides. rewrite (proj2 (String.eqb_neq _ _) H1), (proj2 (String.eqb_neq _ _) H2). reflexivity. }
  destruct (find _ pairs); [|eexists; reflexivity].
  destruct (sim_mid_a io); [|eexists; reflexivity]. destruct (sim_mid_b io); [|eexists; reflexivity].
  cbn [res_bind].
  destruct (qdiv notional _); [|eexists; reflexivity]. destruct (qdiv notional _); [|eexists; reflexivity].
  cbn [res_bind].
  destruct (sim_levels_a io); [|eexists; reflexivity]. destruct (sim_levels_b io); [|eexists; reflexivity].
  cbn [res_bind]. rewrite E. eexists; reflexivity.
Qed.

(** Witnesses. *)

Lemma avg_exec_filled_witness :
  qty_nonneg [(100, 1); (99, 2)] /\ 0 <= 3 # 2 /\
  snd (avg_exec_price [(100, 1); (99, 2)] (3 # 2)) == Qmin (3 # 2) (qsum (map snd [(100, 1); (99, 2)])).
Proof.
  assert (Hq : qty_nonneg [(100, 1); (99, 2)]) by (repeat constructor; discriminate).
  assert (Hb : 0 <= 3 # 2) by discriminate.
  split; [exact Hq|]. split; [exact Hb|]. exact (avg_exec_filled _ _ Hq Hb).
Defined.

Lemma avg_exec_within_witness :
  prices_within 99 100 [(100, 1); (99, 2)] /\ 0 < snd (avg_exec_price [(100, 1); (99, 2)] (3 # 2)) /\
  99 <= fst (avg_exec_price [(100, 1); (99, 2)] (3 # 2)) <= 100.
Proof.
  assert (Hp : prices_within 99 100 [(100, 1); (99, 2)])
    by (repeat constructor; cbn; discriminate).
  assert (Hf : 0 < snd (avg_exec_price [(100, 1); (99, 2)] (3 # 2))) by reflexivity.
  split; [exact Hp|]. split; [exact Hf|]. exact (avg_exec_within _ _ _ _ Hp Hf).
Defined.

Lemma simulate_invalid_pattern_witness :
  exists e, api_simulate s4_pairs (mkFees None None) s4_io "ETH" 150 "hold" = Err e.
Proof. apply simulate_invalid_pattern; discriminate. Defined.

End SimTheory.
