(* ===== verification/Storage.v ===== *)
(** * Storage: [src/arb/storage/sqlite.py]

    The SQLite database is modelled as the list of columns of the
    [spreads] table ([None] before [open_db] created it), its rows in
    rowid order, each a map from column name to value, and the text of
    the single [admin_config] row.  [ensure_schema] appends the missing
    expected columns; [insert_spread] migrates and then inserts the 37
    named columns; the queries filter, order and project the rows.  SQL
    ordering of equal keys is unspecified: the model keeps rowid order.
    JSON encoding is the interface [JsonCodec]. *)

From Stdlib Require Import String Ascii QArith ZArith Lia List Bool Sorted.
From S2P Require Import Prelude.
Import ListNotations.

Open Scope py_scope.

Module Store.

(** An SQLite value. *)
Inductive Value : Type :=
| VNull
| VInt (z : Z)
| VReal (q : Q)
| VText (s : string).

(** A row: column name -> value. *)
Definition Row := list (string * Value).

Record Db := mkDb {
  table : option (list string);
  rows : list Row;
  admin : option string
}.

(** The columns of [CREATE_TABLE_SQL] (lines 9-42). *)
Definition create_cols : list string :=
  ["id"; "pair"; "ts_ms"; "price_a"; "price_b"; "spread"; "z"; "mean"; "std"; "ema"; "center_dev";
   "ob_spread_a"; "ob_spread_b"; "ob_spread_pct_a"; "ob_spread_pct_b"; "vol_a"; "vol_b";
   "depth_qty_a"; "depth_qty_b"; "depth_notional_a"; "depth_notional_b";
   "maker_fee_a"; "taker_fee_a"; "maker_fee_b"; "taker_fee_b"; "fr_a"; "fr_b";
   "fr_countdown_ms"; "half_life_s"; "t_exit_s"; "advice"]%string.

(** The [extras] keys of [insert_spread], after the eight positional
    columns (lines 142-170). *)
Definition extra_cols : list string :=
  ["ema"; "center_dev"; "ob_spread_a"; "ob_spread_b"; "ob_spread_pct_a"; "ob_spread_pct_b";
   "vol_a"; "vol_b"; "depth_qty_a"; "depth_qty_b"; "depth_notional_a"; "depth_notional_b";
   "maker_fee_a"; "taker_fee_a"; "maker_fee_b"; "taker_fee_b"; "fr_a"; "fr_b";
   "fr_countdown_ms"; "half_life_s"; "t_exit_s"; "advice"; "net_funding_cycle_usd";
   "expect_funding_next_usd"; "age_a_ms"; "age_b_ms"; "skew_ms"; "latency_ms"; "stale"]%string.

Definition base_cols : list string :=
  ["pair"; "ts_ms"; "price_a"; "price_b"; "spread"; "z"; "mean"; "std"]%string.

(** [columns] of [insert_spread] (lines 134-171). *)
Definition insert_cols : list string := base_cols ++ extra_cols.

(** [EXPECTED_COLUMNS] (lines 63-101).  It is a Python set: the order in
    which [ensure_schema] adds missing columns is its iteration order,
    which the model takes to be this one. *)
Definition expected_cols : list string := insert_cols.

Definition mem (c : string) (cols : list string) : bool := existsb (String.eqb c) cols.

(** [open_db] (lines 46-60): [CREATE TABLE IF NOT EXISTS]. *)
Definition open_db (db : Db) : Db :=
  match table db with
  | None => mkDb (Some create_cols) (rows db) (admin db)
  | Some _ => db
  end.

(** [ensure_schema] (lines 104-118): [PRAGMA table_info] gives no column
    for a missing table, and the first [ALTER TABLE] then fails. *)
Definition ensure_schema (db : Db) : res Db :=
  let cols := match table db with Some cs => cs | None => [] end in
  let missing := filter (fun c => negb (mem c cols)) expected_cols in
  match table db, missing with
  | _, [] => Ok db
  | None, _ :: _ => Err OperationalError
  | Some cs, _ => Ok (mkDb (Some (cs ++ missing)) (rows db) (admin db))
  end.

(** [extras.get(k)] *)
Definition get_val (r : Row) (k : string) : Value :=
  match find (fun kv => String.eqb (fst kv) k) r with
  | Some (_, v) => v
  | None => VNull
  end.

(** [insert_spread] (lines 121-216).  The [INSERT] names the 37 columns;
    it fails when one of them is not in the table. *)
Definition insert_spread (db : Db) (pair : Value) (ts_ms : Z) (price_a price_b spread z mean std : Q)
    (extras : Row) : res Db :=
  let* db1 := ensure_schema db in
  let values := [pair; VInt ts_ms; VReal price_a; VReal price_b; VReal spread; VReal z; VReal mean; VReal std]
                ++ map (get_val extras) extra_cols in
  match table db1 with
  | Some cols =>
      if forallb (fun c => mem c cols) insert_cols
      then Ok (mkDb (table db1) (rows db1 ++ [combine insert_cols values]) (admin db1))
      else Err OperationalError
  | None => Err OperationalError
  end.

(** The integer [ts_ms] of a row. *)
Definition ts_of (r : Row) : Z :=
  match get_val r "ts_ms"%string with VInt t => t | _ => 0%Z end.

(** [ORDER BY ts_ms DESC], stable on rowid order. *)
Fixpoint insert_desc (r : Row) (l : list Row) : list Row :=
  match l with
  | [] => [r]
  | y :: l' => if (ts_of y <=? ts_of r)%Z then r :: y :: l' else y :: insert_desc r l'
  end.

Definition sort_desc (l : list Row) : list Row := fold_right insert_desc [] l.

(** [WHERE pair = ?] with a text parameter. *)
Definition pair_is (p : string) (r : Row) : bool :=
  match get_val r "pair"%string with VText t => String.eqb t p | _ => false end.

(** The columns [get_spreads] selects (line 222). *)
Definition select_cols : list string := tl base_cols ++ extra_cols.

Definition project (cols : list string) (r : Row) : Row := map (fun c => (c, get_val r c)) cols.

(** A [SELECT] naming a column the table lacks fails. *)
Definition has_cols (db : Db) (cols : list string) : bool :=
  match table db with
  | Some cs => forallb (fun c => mem c cs) cols
  | None => false
  end.

(** SQLite's [LIMIT n]: a negative limit means no limit. *)
Definition sql_limit {A} (n : Z) (l : list A) : list A :=
  if (n <? 0)%Z then l else firstn (Z.to_nat n) l.

(** [get_spreads(db, pair, limit)] (lines 219-269): newest first. *)
Definition get_spreads (db : Db) (pair : string) (limit : Z) : res (list Row) :=
  if has_cols db ("pair"%string :: select_cols) then
    Ok (map (project select_cols) (sql_limit limit (sort_desc (filter (pair_is pair) (rows db)))))
  else Err OperationalError.

(** SQL [=] on two values (NULL equals nothing). *)
Definition value_eqb (v w : Value) : bool :=
  match v, w with
  | VInt a, VInt b => Z.eqb a b
  | VReal a, VReal b => Qeq_bool a b
  | VInt a, VReal b | VReal b, VInt a => Qeq_bool (inject_Z a) b
  | VText a, VText b => String.eqb a b
  | _, _ => false
  end.

(** [MAX(ts_ms)] of the group of [r]'s pair. *)
Definition max_ts_of_pair (all : list Row) (r : Row) : Z :=
  fold_right (fun y m => if value_eqb (get_val y "pair"%string) (get_val r "pair"%string) then Z.max (ts_of y) m else m)
    (ts_of r) all.

(** [get_latest_all] (lines 300-350): every row whose [ts_ms] is the
    maximum of its pair (the join keeps all rows on a tie). *)
Definition get_latest_all (db : Db) : res (list Row) :=
  if has_cols db ("pair"%string :: select_cols) then
    Ok (map (project ("pair"%string :: select_cols))
          (filter (fun r => Z.eqb (ts_of r) (max_ts_of_pair (rows db) r)) (rows db)))
  else Err OperationalError.

(** [json.dumps] / [json.loads] as an interface. *)
Class JsonCodec (A : Type) := {
  dumps : A -> string;
  loads : string -> option A
}.

(** [admin_set_config] (lines 287-290): insert or replace row 1. *)
Definition admin_set_config {A} `{JsonCodec A} (db : Db) (cfg : A) : Db :=
  mkDb (table db) (rows db) (Some (dumps cfg)).

(** [admin_get_config] (lines 276-284): [None] without a row or when
    [json.loads] raises. *)
Definition admin_get_config {A} `{JsonCodec A} (db : Db) : option A :=
  match admin db with
  | None => None
  | Some s => loads s
  end.

(** A database written by a binary whose table lacks [advice] and
    [t_exit_s] (spec property 9). *)
Definition old_cols : list string :=
  filter (fun c => negb (String.eqb c "advice"%string || String.eqb c "t_exit_s"%string)) create_cols.

Definition old_db : Db := mkDb (Some old_cols) [] None.

(** The row [insert_spread] appends. *)
Definition inserted_row (pair : Value) (ts_ms : Z) (pa pb sp z m sd : Q) (extras : Row) : Row :=
  combine insert_cols
    ([pair; VInt ts_ms; VReal pa; VReal pb; VReal sp; VReal z; VReal m; VReal sd] ++ map (get_val extras) extra_cols).

(** A codec for plain JSON strings. *)
#[export] Instance string_codec : JsonCodec string := {| dumps := fun s => s; loads := fun s => Some s |}.

(** [ORDER BY ts_ms DESC]: [a] comes no later than [b]. *)
Definition newer (a b : Row) : Prop := (ts_of b <= ts_of a)%Z.


(** The calls that change the database file, as the runner and the
    panel make them: [open_db] at each start (lines 46-60),
    [insert_spread] (lines 121-216) and [admin_set_config] (lines
    287-290). *)
Inductive DbCall : Type :=
| CallOpen
| CallInsert (pv : Value) (ts_ms : Z) (price_a price_b spread z mean std : Q) (extras : Row)
| CallSetAdmin (cfg : string).

Definition db_call (db : Db) (c : DbCall) : res Db :=
  match c with
  | CallOpen => Ok (open_db db)
  | CallInsert pv ts pa pb sp z m sd extras => insert_spread db pv ts pa pb sp z m sd extras
  | CallSetAdmin cfg => Ok (admin_set_config db cfg)
  end.

(** A sequence of calls; the first exception ends it. *)
Fixpoint db_calls (db : Db) (cs : list DbCall) : res Db :=
  match cs with
  | [] => Ok db
  | c :: r => let* db1 := db_call db c in db_calls db1 r
  end.

Definition is_insert (c : DbCall) : bool :=
  match c with CallInsert _ _ _ _ _ _ _ _ _ => true | _ => false end.

End Store.

Module StoreTheory.
Import Store.

Lemma mem_In c cols : mem c cols = true <-> In c cols.
Proof.
  unfold mem. rewrite existsb_exists. split.
  - intros [x [Hx E]]. apply String.eqb_eq in E. subst. exact Hx.
  - intros H. exists c. split; [exact H | apply String.eqb_refl].
Qed.

Lemma ensure_schema_some cs r a :
  exists cs', ensure_schema (mkDb (Some cs) r a) = Ok (mkDb (Some (cs ++ cs')) r a) /\
    forall c, In c expected_cols -> In c (cs ++ cs').
Proof.
  unfold ensure_schema. cbn [table rows admin].
  set (missing := filter (fun c => negb (mem c cs)) expected_cols).
  assert (Hm : forall c, In c expected_cols -> In c (cs ++ missing)).
  { intros c Hc. apply in_or_app. destruct (mem c cs) eqn:E.
    - left. apply mem_In. exact E.
    - right. apply filter_In. rewrite E. split; [exact Hc | reflexivity]. }
  destruct missing as [|m ms] eqn:Em.
  - exists []. split; [rewrite app_nil_r; reflexivity | exact Hm].
  - exists (m :: ms). split; [reflexivity | exact Hm].
Qed.

(** Self-migration: on an existing table, [ensure_schema] succeeds, keeps
    the existing columns in place and in order, appends columns so that
    every expected column is present, and leaves rows and admin row as
    they were. *)
Theorem ensure_schema_complete db cs :
  table db = Some cs ->
  exists cs', ensure_schema db = Ok (mkDb (Some (cs ++ cs')) (rows db) (admin db)) /\
    forall c, In c expected_cols -> In c (cs ++ cs').
Proof. destruct db as [t r a]. cbn. intros ->. apply ensure_schema_some. Qed.

Lemma forallb_mem_expected cols :
  (forall c, In c expected_cols -> In c cols) -> forallb (fun c => mem c cols) insert_cols = true.
Proof. intros H. apply forallb_forall. intros c Hc. apply mem_In. apply H. exact Hc. Qed.

Lemma insert_spread_eq db cs pair ts pa pb sp z m sd extras :
  table db = Some cs ->
  exists cs', insert_spread db pair ts pa pb sp z m sd extras =
    Ok (mkDb (Some (cs ++ cs')) (rows db ++ [inserted_row pair ts pa pb sp z m sd extras]) (admin db)) /\
    forall c, In c expected_cols -> In c (cs ++ cs').
Proof.
  intros Ht. destruct (ensure_schema_complete db cs Ht) as [cs' [E Hc]].
  exists cs'. split; [|exact Hc].
  unfold insert_spread. rewrite E. cbn [res_bind table rows admin].
  rewrite (forallb_mem_expected _ Hc). reflexivity.
Qed.

(** Spec property 9, self-migration: on any existing table, in
    particular one written by an older binary without [advice] and
    [t_exit_s], [insert_spread] succeeds, first adding every missing
    expected column, and appends exactly one row. *)
Theorem insert_migrates db cs pair ts pa pb sp z m sd extras :
  table db = Some cs ->
  exists db', insert_spread db pair ts pa pb sp z m sd extras = Ok db' /\
    rows db' = rows db ++ [inserted_row pair ts pa pb sp z m sd extras] /\
    forall c, In c expected_cols -> has_cols db' [c] = true.
Proof.
  intros Ht. destruct (insert_spread_eq db cs pair ts pa pb sp z m sd extras Ht) as [cs' [E Hc]].
  eexists. split; [exact E|]. split; [reflexivity|].
  intros c Hin. cbn. rewrite andb_true_r. apply mem_In. apply Hc. exact Hin.
Qed.

(** The inserted row holds, under each extra column, the value [extras]
    gives for it ([NULL] when absent), and the positional arguments under
    the eight base columns. *)
Theorem inserted_row_values pair ts pa pb sp z m sd extras :
  (forall c, In c extra_cols -> get_val (inserted_row pair ts pa pb sp z m sd extras) c = get_val extras c) /\
  map (get_val (inserted_row pair ts pa pb sp z m sd extras)) base_cols =
    [pair; VInt ts; VReal pa; VReal pb; VReal sp; VReal z; VReal m; VReal sd].
Proof.
  split; [|reflexivity].
  intros c Hc. repeat (destruct Hc as [<-|Hc]; [reflexivity|]). destruct Hc.
Qed.

Lemma get_val_project cols r c : In c cols -> get_val (project cols r) c = get_val r c.
Proof.
  induction cols as [|x xs IH]; intros H; [destruct H|].
  unfold get_val in *. cbn [project map find fst].
  destruct (String.eqb x c) eqn:E.
  - apply String.eqb_eq in E. subst. reflexivity.
  - destruct H as [H|H]; [subst; rewrite String.eqb_refl in E; discriminate|]. apply IH. exact H.
Qed.

Lemma insert_desc_sorted r l : Sorted newer l -> Sorted newer (insert_desc r l).
Proof.
  induction 1 as [|y l Hs IH Hd]; cbn; [repeat constructor|].
  destruct (Z.leb_spec (ts_of y) (ts_of r)) as [Hle|Hlt].
  - constructor; [constructor; assumption | constructor; exact Hle].
  - constructor; [exact IH|].
    destruct l as [|y' l']; cbn; [constructor; unfold newer; lia|].
    destruct (ts_of y' <=? ts_of r)%Z; constructor; [unfold newer; lia|].
    inversion Hd; assumption.
Qed.

Lemma sort_desc_sorted l : Sorted newer (sort_desc l).
Proof. induction l as [|r l IH]; cbn; [constructor | apply insert_desc_sorted; exact IH]. Qed.

Lemma sort_desc_length l : length (sort_desc l) = length l.
Proof.
  induction l as [|r l IH]; cbn; [reflexivity|].
  assert (Hi : forall l', length (insert_desc r l') = S (length l')).
  { induction l' as [|y l' IH']; cbn; [reflexivity|]. destruct (_ <=? _)%Z; cbn; [reflexivity | congruence]. }
  rewrite Hi. unfold sort_desc in IH. congruence.
Qed.

Lemma sorted_firstn {A} (R : A -> A -> Prop) n l : Sorted R l -> Sorted R (firstn n l).
Proof.
  intros H. revert n. induction H as [|x l Hs IH Hd]; intros [|n]; cbn; try constructor.
  - apply IH.
  - destruct l as [|y l]; destruct n; cbn; constructor. inversion Hd. assumption.
Qed.

Lemma sorted_project l : Sorted newer l -> Sorted newer (map (project select_cols) l).
Proof.
  assert (Hts : forall r, ts_of (project select_cols r) = ts_of r).
  { intros r. unfold ts_of. rewrite get_val_project; [reflexivity | cbn; tauto]. }
  induction 1 as [|x l Hs IH Hd]; cbn [map]; constructor; [exact IH|].
  destruct Hd as [|b l' Hb]; cbn [map]; constructor. unfold newer in *. rewrite !Hts. exact Hb.
Qed.

(** [get_spreads] answers newest first, [min(limit, n)] rows for a
    non-negative limit when the pair has [n] rows, all of them for a
    negative one. *)
Theorem get_spreads_newest_first db p limit rs :
  get_spreads db p limit = Ok rs ->
  Sorted newer rs /\ ((0 <= limit)%Z -> length rs = Nat.min (Z.to_nat limit) (length (filter (pair_is p) (rows db)))) /\
  (length rs <= length (filter (pair_is p) (rows db)))%nat.
Proof.
  unfold get_spreads. destruct (has_cols _ _); [|discriminate]. intros H. injection H as <-.
  pose proof sort_desc_length as Hl. rewrite length_map. unfold sql_limit. split; [|split].
  - apply sorted_project. destruct (limit <? 0)%Z; [|apply sorted_firstn]; apply sort_desc_sorted.
  - intros H0. destruct (Z.ltb_spec limit 0); [lia|]. rewrite length_firstn, Hl. reflexivity.
  - destruct (limit <? 0)%Z; [|rewrite length_firstn]; rewrite Hl; lia.
Qed.

Lemma get_spreads_Err db p limit :
  get_spreads db p limit = Err OperationalError <-> has_cols db ("pair"%string :: select_cols) = false.
Proof. unfold get_spreads. destruct (has_cols _ _); split; congruence. Qed.

Lemma get_latest_all_Err db :
  get_latest_all db = Err OperationalError <-> has_cols db ("pair"%string :: select_cols) = false.
Proof. unfold get_latest_all. destruct (has_cols _ _); split; congruence. Qed.

(** A completed [insert_spread] leaves every column the reads select. *)
Lemma insert_has_cols db pair ts pa pb sp z m sd extras db' :
  insert_spread db pair ts pa pb sp z m sd extras = Ok db' -> has_cols db' ("pair"%string :: select_cols) = true.
Proof.
  unfold insert_spread. intros E. destruct (ensure_schema db) as [db1|]; cbn [res_bind] in E; [|discriminate].
  destruct (table db1) as [cols|] eqn:Et; [|discriminate].
  destruct (forallb (fun c => mem c cols) insert_cols) eqn:Ef; [|discriminate].
  injection E as <-. unfold has_cols. cbn [table].
  apply forallb_forall. intros c Hc. rewrite forallb_forall in Ef. apply Ef.
  assert (S : forallb (fun c => mem c insert_cols) ("pair"%string :: select_cols) = true) by reflexivity.
  rewrite forallb_forall in S. apply mem_In, S, Hc.
Qed.

(** The calls other than [insert_spread] keep an existing table. *)
Lemma db_call_keeps db c db' cs :
  is_insert c = false -> table db = Some cs -> db_call db c = Ok db' -> table db' = Some cs.
Proof.
  destruct c; cbn; [|discriminate|]; intros _ Ht [= <-]; [unfold open_db; rewrite Ht|]; exact Ht.
Qed.

Lemma has_cols_some db : has_cols db ("pair"%string :: select_cols) = true -> exists cs, table db = Some cs.
Proof. unfold has_cols. destruct (table db); [eauto | discriminate]. Qed.

(** Reads succeed after a sequence of calls exactly when they succeeded
    before it or it made an insert, from a table that is the created
    one or has every selected column. *)
Lemma db_calls_reads db cs db' :
  db_calls db cs = Ok db' ->
  table db = Some create_cols \/ has_cols db ("pair"%string :: select_cols) = true ->
  (has_cols db' ("pair"%string :: select_cols) = true <->
   has_cols db ("pair"%string :: select_cols) = true \/ existsb is_insert cs = true).
Proof.
  revert db. induction cs as [|c r IH]; intros db; cbn [db_calls existsb].
  - intros [= <-] _. split; [left; exact H | intros [H|H]; [exact H | discriminate]].
  - destruct (db_call db c) as [db1|] eqn:Ec; cbn [res_bind]; [|discriminate]. intros E Hinv.
    destruct (is_insert c) eqn:Ei; cbn [orb].
    + assert (H1 : has_cols db1 ("pair"%string :: select_cols) = true)
        by (destruct c; try discriminate; exact (insert_has_cols _ _ _ _ _ _ _ _ _ _ _ Ec)).
      rewrite (IH db1 E (or_intror H1)). split; [intros _; right; reflexivity | intros _; left; exact H1].
    + assert (Hk : exists cs, table db = Some cs /\ table db1 = Some cs).
      { destruct Hinv as [Ht|Hh]; [exists create_cols|destruct (has_cols_some _ Hh) as [cs Ht]; exists cs];
          split; [exact Ht | exact (db_call_keeps _ _ _ _ Ei Ht Ec) | exact Ht | exact (db_call_keeps _ _ _ _ Ei Ht Ec)]. }
      destruct Hk as (cs & Ht & Ht1).
      assert (Eh : has_cols db1 ("pair"%string :: select_cols) = has_cols db ("pair"%string :: select_cols))
        by (unfold has_cols; rewrite Ht, Ht1; reflexivity).
      assert (Hinv1 : table db1 = Some create_cols \/ has_cols db1 ("pair"%string :: select_cols) = true)
        by (rewrite Eh; destruct Hinv as [Ht0|Hh]; [left; rewrite Ht1, <- Ht, Ht0; reflexivity | right; exact Hh]).
      rewrite (IH db1 E Hinv1), Eh. reflexivity.
Qed.

(** C39: Code bug: the read queries select columns that [CREATE_TABLE_SQL]
    does not create ([net_funding_cycle_usd], ..., [stale]); only
    [ensure_schema], called by [insert_spread], adds them.  After any
    sequence of [open_db], [insert_spread] and [admin_set_config] calls
    on a new database file, [get_spreads] (for every pair and limit)
    and [get_latest_all] fail exactly when no insert was made: the
    panel cannot read a database the runner has not written yet,
    whatever the reopenings and admin writes, and reads once the
    first sample is stored. *)
Theorem fresh_db_reads_fail r a cs db p limit :
  db_calls (open_db (mkDb None r a)) cs = Ok db ->
  (get_spreads db p limit = Err OperationalError <-> existsb is_insert cs = false) /\
  (get_latest_all db = Err OperationalError <-> existsb is_insert cs = false).
Proof.
  intros E. pose proof (db_calls_reads _ _ _ E (or_introl eq_refl)) as R.
  assert (F : has_cols (open_db (mkDb None r a)) ("pair"%string :: select_cols) = false) by reflexivity.
  rewrite F in R. rewrite get_spreads_Err, get_latest_all_Err.
  destruct (has_cols db _), (existsb is_insert cs); intuition congruence.
Qed.

(** Storing the same sample twice (the poller's direct write and the
    panel's ingest of its payload) leaves two rows with the pair's
    maximal [ts_ms]: [get_latest_all] then answers two rows for the
    pair. *)
Theorem latest_all_duplicates pa pb sp z m sd extras :
  match insert_spread old_db (VText "ETH") 1000 pa pb sp z m sd extras with
  | Ok db1 =>
      match insert_spread db1 (VText "ETH") 1000 pa pb sp z m sd extras with
      | Ok db2 => match get_latest_all db2 with Ok l => length l = 2%nat | Err _ => False end
      | Err _ => False
      end
  | Err _ => False
  end.
Proof. vm_compute. reflexivity. Qed.

Lemma sort_desc_snoc_newest l x :
  (forall y, In y l -> (ts_of y < ts_of x)%Z) -> sort_desc (l ++ [x]) = x :: sort_desc l.
Proof.
  unfold sort_desc. rewrite fold_right_app. cbn. induction l as [|y l IH]; intros H; [reflexivity|].
  cbn. rewrite IH by (intros w Hw; apply H; right; exact Hw). cbn.
  destruct (Z.leb_spec (ts_of x) (ts_of y)) as [L|]; [|reflexivity].
  specialize (H y (or_introl eq_refl)). lia.
Qed.

Lemma inserted_row_pair_ts p ts pa pb sp z m sd extras :
  pair_is p (inserted_row (VText p) ts pa pb sp z m sd extras) = true /\
  ts_of (inserted_row (VText p) ts pa pb sp z m sd extras) = ts.
Proof. unfold pair_is, ts_of. cbn. rewrite String.eqb_refl. split; reflexivity. Qed.

Lemma read_cols_expected cols :
  (forall c, In c expected_cols -> In c cols) -> forallb (fun c => mem c cols) ("pair"%string :: select_cols) = true.
Proof.
  intros H. apply forallb_forall. intros c Hc. apply mem_In, H.
  assert (E : forallb (fun c => mem c expected_cols) ("pair"%string :: select_cols) = true) by reflexivity.
  rewrite forallb_forall in E. apply mem_In, E, Hc.
Qed.

(** C18: Round trip of a spread sample: on an existing table, a sample
    written with [insert_spread] for a pair whose stored samples are all
    older is the one [get_spreads(pair, limit=1)] reads back, with the
    timestamp, prices, spread, z-score, mean and deviation written and,
    under every extra column, the value [extras] gave ([NULL] when
    absent). *)
Theorem insert_then_read db cs p ts pa pb sp z m sd extras :
  table db = Some cs ->
  (forall r, In r (rows db) -> pair_is p r = true -> (ts_of r < ts)%Z) ->
  exists db' r, insert_spread db (VText p) ts pa pb sp z m sd extras = Ok db' /\
    get_spreads db' p 1 = Ok [r] /\
    map (get_val r) (tl base_cols) = [VInt ts; VReal pa; VReal pb; VReal sp; VReal z; VReal m; VReal sd] /\
    (forall c, In c extra_cols -> get_val r c = get_val extras c).
Proof.
  intros Ht Hold. destruct (insert_spread_eq db cs (VText p) ts pa pb sp z m sd extras Ht) as [cs' [E Hc]].
  set (x := inserted_row (VText p) ts pa pb sp z m sd extras) in *.
  destruct (inserted_row_pair_ts p ts pa pb sp z m sd extras) as [Px Tx]. fold x in Px, Tx.
  do 2 eexists. split; [exact E|]. split.
  - unfold get_spreads. cbn [has_cols table rows]. rewrite (read_cols_expected _ Hc), filter_app. cbn [filter].
    rewrite Px, sort_desc_snoc_newest; [reflexivity|].
    intros y Hy. apply filter_In in Hy as [Hy Py]. rewrite Tx. exact (Hold y Hy Py).
  - destruct (inserted_row_values (VText p) ts pa pb sp z m sd extras) as [Ex Eb]. fold x in Ex, Eb. split.
    + rewrite <- (map_ext_in (get_val x)); [exact (f_equal (@tl _) Eb)|].
      intros c Hin. symmetry. apply get_val_project. apply in_or_app. left. exact Hin.
    + intros c Hin. rewrite get_val_project by (apply in_or_app; right; exact Hin). exact (Ex c Hin).
Qed.

Section AdminConfig.
Context {A : Type} `{JsonCodec A}.
Hypothesis loads_dumps : forall a : A, loads (dumps a) = Some a.

(** Round trip of the admin row: reading after [admin_set_config] gives
    the configuration written, the latest write wins, and the spreads
    table is untouched. *)
Theorem admin_roundtrip db (cfg cfg' : A) :
  admin_get_config (admin_set_config db cfg) = Some cfg /\
  admin_get_config (admin_set_config (admin_set_config db cfg') cfg) = Some cfg /\
  rows (admin_set_config db cfg) = rows db /\ table (admin_set_config db cfg) = table db.
Proof. unfold admin_get_config, admin_set_config. cbn. rewrite !loads_dumps. repeat split. Qed.

End AdminConfig.

(** Witnesses. *)

Lemma ensure_schema_complete_witness :
  exists cs', ensure_schema old_db = Ok (mkDb (Some (old_cols ++ cs')) (rows old_db) (admin old_db)) /\
    forall c, In c expected_cols -> In c (old_cols ++ cs').
Proof. exact (ensure_schema_complete old_db old_cols eq_refl). Defined.

Lemma insert_migrates_witness :
  exists db', insert_spread old_db (VText "ETH") 1000 100 99 1 2 (3 # 10) (1 # 10) [] = Ok db' /\
    rows db' = rows old_db ++ [inserted_row (VText "ETH") 1000 100 99 1 2 (3 # 10) (1 # 10) []] /\
    forall c, In c expected_cols -> has_cols db' [c] = true.
Proof. exact (insert_migrates old_db old_cols _ _ _ _ _ _ _ _ [] eq_refl). Defined.

Lemma get_spreads_newest_first_witness :
  match insert_spread old_db (VText "ETH") 1000 100 99 1 2 (3 # 10) (1 # 10) [] with
  | Ok db1 =>
      match get_spreads db1 "ETH" 10 with
      | Ok rs => Sorted newer rs /\
                 ((0 <= 10)%Z -> length rs = Nat.min (Z.to_nat 10) (length (filter (pair_is "ETH") (rows db1)))) /\
                 (length rs <= length (filter (pair_is "ETH") (rows db1)))%nat
      | Err _ => False
      end
  | Err _ => False
  end.
Proof.
  destruct (insert_spread old_db _ _ _ _ _ _ _ _ _) as [db1|e] eqn:E1; [|vm_compute in E1; discriminate].
  destruct (get_spreads db1 "ETH" 10) as [rs|e] eqn:E2.
  - exact (get_spreads_newest_first db1 "ETH" 10 rs E2).
  - vm_compute in E1. injection E1 as <-. vm_compute in E2. discriminate.
Defined.

Lemma admin_roundtrip_witness :
  (forall a : string, loads (dumps a) = Some a) /\
  admin_get_config (admin_set_config old_db "{}"%string) = Some "{}"%string /\
  admin_get_config (admin_set_config (admin_set_config old_db "[]"%string) "{}"%string) = Some "{}"%string /\
  rows (admin_set_config old_db "{}"%string) = rows old_db /\
  table (admin_set_config old_db "{}"%string) = table old_db.
Proof.
  assert (L : forall a : string, loads (dumps a) = Some a) by reflexivity.
  split; [exact L|]. exact (admin_roundtrip L old_db "{}"%string "[]"%string).
Defined.

Lemma insert_then_read_witness :
  table old_db = Some old_cols /\
  (forall r, In r (rows old_db) -> pair_is "BTCUSDT" r = true -> (ts_of r < 1000)%Z) /\
  exists db' r, insert_spread old_db (VText "BTCUSDT") 1000 100 99 1 2 0 (1 # 2) [("advice"%string, VText "hold")] = Ok db' /\
    get_spreads db' "BTCUSDT" 1 = Ok [r] /\
    map (get_val r) (tl base_cols) = [VInt 1000; VReal 100; VReal 99; VReal 1; VReal 2; VReal 0; VReal (1 # 2)] /\
    (forall c, In c extra_cols -> get_val r c = get_val [("advice"%string, VText "hold")] c).
Proof.
  assert (H : forall r, In r (rows old_db) -> pair_is "BTCUSDT" r = true -> (ts_of r < 1000)%Z) by (intros r []).
  split; [reflexivity|]. split; [exact H|].
  exact (insert_then_read old_db old_cols "BTCUSDT" 1000 100 99 1 2 0 (1 # 2) _ eq_refl H).
Defined.

Lemma fresh_db_reads_fail_witness :
  (exists db, db_calls (open_db (mkDb None [] None)) [CallSetAdmin "{}"; CallOpen] = Ok db /\
     (get_spreads db "ETH" 10 = Err OperationalError <-> existsb is_insert [CallSetAdmin "{}"; CallOpen] = false) /\
     (get_latest_all db = Err OperationalError <-> existsb is_insert [CallSetAdmin "{}"; CallOpen] = false)).
Proof.
  destruct (db_calls (open_db (mkDb None [] None)) [CallSetAdmin "{}"; CallOpen]) as [db|e] eqn:E;
    [|vm_compute in E; discriminate].
  exists db. split; [reflexivity|]. exact (fresh_db_reads_fail [] None _ db "ETH" 10 E).
Defined.

End StoreTheory.
