(* ===== verification/Fanout.v ===== *)
(** * Ingestion and fanout: [WSManager], [ws_stream] and [ingest_spread] in
    [src/arb/panel/server.py] (lines 221-313)

    The manager maps a pair to the set of its WebSocket subscribers
    (connection ids).  [broadcast] iterates a snapshot of the pair's set;
    each [send_json] is a suspension point at which other tasks may
    connect or disconnect subscribers: the interleaving is an explicit
    list of events run before each send.  A send succeeds when the
    client is still there ([ok]); a failing send drops the subscriber.
    [ingest_spread] validates the payload, stores it with
    [Store.insert_spread] and broadcasts it. *)

From stdpp Require Import base gmap sets strings list.
From Stdlib Require Import QArith ZArith.
From S2P Require Import Prelude PyJson Storage.

Open Scope py_scope.

Module WS.
Import Store.

Record WSManager := mkWS { active : gmap string (gset nat) }.

Definition empty_manager : WSManager := mkWS ∅.

(** [self.active.get(pair, set())] *)
Definition subscribers (m : WSManager) (pair : string) : gset nat :=
  default ∅ (active m !! pair).

(** [connect] (lines 225-227), after [ws.accept()]:
    [self.active.setdefault(pair, set()).add(ws)]. *)
Definition connect (m : WSManager) (pair : string) (ws : nat) : WSManager :=
  mkWS (<[pair := {[ws]} ∪ subscribers m pair]> (active m)).

(** [disconnect] (lines 229-233): discards from the pair's set when the
    pair has one; otherwise from a fresh empty set, a no-op. *)
Definition disconnect (m : WSManager) (pair : string) (ws : nat) : WSManager :=
  match active m !! pair with
  | Some s => mkWS (<[pair := s ∖ {[ws]}]> (active m))
  | None => m
  end.

(** What other tasks do while a send is suspended. *)
Inductive Event : Type :=
| EConnect (pair : string) (ws : nat)
| EDisconnect (pair : string) (ws : nat).

Definition run_event (m : WSManager) (e : Event) : WSManager :=
  match e with
  | EConnect p w => connect m p w
  | EDisconnect p w => disconnect m p w
  end.

Definition run_events (m : WSManager) (es : list Event) : WSManager := foldl run_event m es.

Definition head_or_nil (l : list (list Event)) : list Event :=
  match l with [] => [] | x :: _ => x end.

(** The [for ws in conns] loop of [broadcast] (lines 236-242): before the
    send to the [k]-th subscriber the events [nth k inter []] run; the
    result is the manager and the subscribers that received the
    message. *)
Fixpoint send_all (m : WSManager) (pair : string) (conns : list nat) (inter : list (list Event))
    (ok : nat -> bool) : WSManager * list nat :=
  match conns with
  | [] => (m, [])
  | ws :: rest =>
      let m1 := run_events m (head_or_nil inter) in
      let m2 := if ok ws then m1 else disconnect m1 pair ws in
      let '(m3, sent) := send_all m2 pair rest (tl inter) ok in
      (m3, if ok ws then ws :: sent else sent)
  end.

(** [broadcast(pair, message)] over [list(self.active.get(pair, set()))]. *)
Definition broadcast (m : WSManager) (pair : string) (inter : list (list Event)) (ok : nat -> bool)
    : WSManager * list nat :=
  send_all m pair (elements (subscribers m pair)) inter ok.

End WS.

Module Ingest.
Import Store WS.

(** The keys [ingest_spread] requires (line 265). *)
Definition required : list string := ["pair"; "ts_ms"; "price_a"; "price_b"; "spread"; "z"; "mean"; "std"].

(** [k in payload] *)
Definition has_key (payload : Row) (k : string) : bool := existsb (fun kv => String.eqb kv.1 k) payload.

(** Lines 266-268: the first missing key raises the 400 error. *)
Definition check_required (payload : Row) : res unit :=
  if forallb (has_key payload) required then Ok tt else Err HTTPError.

(** [float(v)] and [int(v)] of a JSON value: a string is parsed as
    Python parses it ([PyJson.parse_float], [PyJson.parse_int]; the
    strings of [inf] and [nan] are outside the model), [None] raises
    [TypeError]. *)
Definition py_float (v : Value) : res Q :=
  match v with
  | VInt z => Ok (inject_Z z)
  | VReal q => Ok q
  | VText s => match PyJson.parse_float s with Some q => Ok q | None => Err ValueError end
  | VNull => Err TypeError
  end.

Definition py_int_of (v : Value) : res Z :=
  match v with
  | VInt z => Ok z
  | VReal q => Ok (py_int q)
  | VText s => match PyJson.parse_int s with Some z => Ok z | None => Err ValueError end
  | VNull => Err TypeError
  end.

(** [ingest_spread(payload)] (lines 263-313): validate, convert, insert,
    broadcast to the subscribers of [payload["pair"]] (a non-text pair
    matches no subscriber key). *)
Definition ingest_spread (db : Db) (m : WSManager) (payload : Row) (inter : list (list Event)) (ok : nat -> bool)
    : res (Db * WSManager * list nat) :=
  let* _ := check_required payload in
  let pair := get_val payload "pair" in
  let* ts := py_int_of (get_val payload "ts_ms") in
  let* pa := py_float (get_val payload "price_a") in
  let* pb := py_float (get_val payload "price_b") in
  let* sp := py_float (get_val payload "spread") in
  let* z := py_float (get_val payload "z") in
  let* mean := py_float (get_val payload "mean") in
  let* std := py_float (get_val payload "std") in
  let* db' := insert_spread db pair ts pa pb sp z mean std payload in
  let '(m', sent) := match pair with VText p => broadcast m p inter ok | _ => (m, []) end in
  Ok (db', m', sent).

(** A payload of the poller for pair "ETH". *)
Definition eth_payload : Row :=
  [("pair", VText "ETH"); ("ts_ms", VInt 1000); ("price_a", VReal 100); ("price_b", VReal 99);
   ("spread", VReal 1); ("z", VReal 2); ("mean", VReal (3 # 10)); ("std", VReal (1 # 10))].

(** The same payload with a JSON [null] for [z]. *)
Definition null_z_payload : Row := <[5%nat := ("z", VNull)]> eth_payload.

End Ingest.

Module FanoutTheory.
Import Store WS Ingest StoreTheory.

Lemma send_all_sent m p conns inter ok :
  (send_all m p conns inter ok).2 = List.filter ok conns.
Proof.
  revert m inter. induction conns as [|w ws IH]; intros m inter; [reflexivity|]. cbn [send_all List.filter].
  destruct (send_all _ p ws (tl inter) ok) as [m3 sent] eqn:E.
  specialize (IH (if ok w then run_events m (head_or_nil inter) else disconnect (run_events m (head_or_nil inter)) p w) (tl inter)).
  rewrite E in IH. cbn in IH. subst sent. destruct (ok w); reflexivity.
Qed.

(** C9: Interleaving: whatever connects and disconnects the other tasks run
    while [broadcast] is suspended in its sends, exactly the subscribers
    of the snapshot taken at its start whose send succeeds receive the
    message (a subscriber that joins during the broadcast misses it). *)
Theorem broadcast_snapshot m p inter ok :
  (broadcast m p inter ok).2 = List.filter ok (elements (subscribers m p)).
Proof. apply send_all_sent. Qed.

Lemma subscribers_connect m p q w :
  subscribers (connect m p w) q = if decide (p = q) then {[w]} ∪ subscribers m p else subscribers m q.
Proof.
  unfold subscribers, connect. cbn [active]. case_decide as E.
  - subst. rewrite lookup_insert_eq. reflexivity.
  - rewrite lookup_insert_ne by exact E. reflexivity.
Qed.

Lemma subscribers_connects m p ws :
  subscribers (foldl (fun m w => connect m p w) m ws) p = list_to_set ws ∪ subscribers m p.
Proof.
  revert m. induction ws as [|w ws IH]; intros m; cbn [foldl list_to_set].
  - set_solver.
  - rewrite IH, subscribers_connect, decide_True; [set_solver | reflexivity].
Qed.

Lemma filter_perm (f : nat -> bool) l1 l2 : l1 ≡ₚ l2 -> List.filter f l1 ≡ₚ List.filter f l2.
Proof.
  induction 1 as [|x l1 l2 _ IH|x y l|l1 l2 l3 _ IH1 _ IH2]; cbn.
  - constructor.
  - destruct (f x); [apply perm_skip|]; exact IH.
  - destruct (f x), (f y); first [reflexivity | apply perm_swap].
  - etrans; eassumption.
Qed.

(** C10: Spec property 8: after [N] distinct subscribers connect to pair [P]
    on a fresh manager, one broadcast for [P] pushes to exactly those of
    them whose send succeeds: [N] pushes when every client is still
    there, fewer exactly by the clients gone. *)
Theorem fanout_count p wss inter ok :
  NoDup wss ->
  let m := foldl (fun m w => connect m p w) empty_manager wss in
  length (broadcast m p inter ok).2 = length (List.filter ok wss) /\
  (forall w, In w wss -> ok w = true -> In w (broadcast m p inter ok).2) /\
  ((forall w, In w wss -> ok w = true) -> length (broadcast m p inter ok).2 = length wss).
Proof.
  intros Hnd m. unfold broadcast. rewrite send_all_sent. unfold m. rewrite subscribers_connects.
  assert (E : subscribers empty_manager p = ∅) by reflexivity. rewrite E, (right_id_L ∅ (∪)).
  pose proof (filter_perm ok _ _ (elements_list_to_set (C := gset nat) wss Hnd)) as Hp.
  split; [|split].
  - apply Permutation_length. exact Hp.
  - intros w Hw Hok. eapply Permutation_in; [symmetry; exact Hp|]. apply filter_In. split; assumption.
  - intros Hall. rewrite (Permutation_length Hp). f_equal. apply forallb_filter_id.
    apply forallb_forall. intros w Hw. apply Hall. exact Hw.
Qed.

Lemma subscribers_disconnect m p q w :
  subscribers (disconnect m p w) q = if decide (p = q) then subscribers m p ∖ {[w]} else subscribers m q.
Proof.
  unfold subscribers, disconnect. case_decide as Hpq.
  - subst q. destruct (active m !! p) as [s|] eqn:E; cbn [active].
    + rewrite lookup_insert_eq. reflexivity.
    + rewrite E. cbn. set_solver.
  - destruct (active m !! p) as [s|] eqn:E; cbn [active]; [|reflexivity].
    rewrite lookup_insert_ne by exact Hpq. reflexivity.
Qed.

Lemma send_all_quiet m p conns ok q :
  subscribers (send_all m p conns [] ok).1 q =
    if decide (p = q) then subscribers m p ∖ list_to_set (List.filter (fun w => negb (ok w)) conns)
    else subscribers m q.
Proof.
  revert m. induction conns as [|w ws IH]; intros m; cbn [send_all List.filter list_to_set].
  - case_decide; [set_solver | reflexivity].
  - change (run_events m (head_or_nil [])) with m. change (tl (@nil (list Event))) with (@nil (list Event)).
    destruct (send_all (if ok w then m else disconnect m p w) p ws [] ok) as [m3 sent] eqn:E.
    cbn [fst]. specialize (IH (if ok w then m else disconnect m p w)). rewrite E in IH. cbn [fst] in IH.
    rewrite IH. destruct (ok w); cbn [negb list_to_set].
    + reflexivity.
    + rewrite !subscribers_disconnect. case_decide; subst; [|reflexivity].
      rewrite decide_True by reflexivity. set_solver.
Qed.

(** Without interleaved tasks, a broadcast leaves the pair with exactly
    the subscribers whose send succeeded (a failing send drops the
    subscriber at once, spec: no retry) and leaves the other pairs'
    subscribers unchanged. *)
Theorem broadcast_drops_failed m p ok :
  (forall w, w ∈ subscribers (broadcast m p [] ok).1 p <-> w ∈ subscribers m p /\ ok w = true) /\
  (forall q, q <> p -> subscribers (broadcast m p [] ok).1 q = subscribers m q).
Proof.
  unfold broadcast. split.
  - intros w. rewrite send_all_quiet, decide_True by reflexivity.
    rewrite elem_of_difference, elem_of_list_to_set, list_elem_of_In, filter_In, <- list_elem_of_In,
      elem_of_elements.
    destruct (ok w); cbn; intuition congruence.
  - intros q Hq. rewrite send_all_quiet, decide_False by congruence. reflexivity.
Qed.

Lemma check_required_ok payload : forallb (has_key payload) required = true -> check_required payload = Ok tt.
Proof. unfold check_required. intros ->. reflexivity. Qed.

(** Validation: a payload lacking a required key is refused with the 400
    error before anything is stored or broadcast; a required key present
    with a JSON [null] passes the check and fails in [float()] with a
    [TypeError], again before the insert. *)
Theorem ingest_rejects db m payload inter ok :
  (forallb (has_key payload) required = false -> ingest_spread db m payload inter ok = Err HTTPError) /\
  (forallb (has_key payload) required = true -> get_val payload "z" = VNull ->
   (exists v, py_int_of (get_val payload "ts_ms") = Ok v) ->
   (forall k, In k ["price_a"; "price_b"; "spread"] -> exists q, py_float (get_val payload k) = Ok q) ->
   ingest_spread db m payload inter ok = Err TypeError).
Proof.
  split.
  - intros H. unfold ingest_spread, check_required. rewrite H. reflexivity.
  - intros H Hz [t Ht] Hf. unfold ingest_spread. rewrite (check_required_ok _ H). cbn [res_bind].
    rewrite Ht. cbn [res_bind].
    destruct (Hf "price_a") as [a Ha]; [cbn; tauto|]. destruct (Hf "price_b") as [b Hb]; [cbn; tauto|].
    destruct (Hf "spread") as [c Hc]; [cbn; tauto|].
    rewrite Ha. cbn [res_bind]. rewrite Hb. cbn [res_bind]. rewrite Hc. cbn [res_bind]. rewrite Hz. reflexivity.
Qed.

(** C40: A valid payload is stored (migrating the table first) as one row
    holding its values, and pushed to the subscribers of its pair
    present when the broadcast starts whose send succeeds. *)
Theorem ingest_stores_and_broadcasts db cs m payload inter ok p ts pa pb sp z mean std :
  table db = Some cs ->
  forallb (has_key payload) required = true ->
  get_val payload "pair" = VText p ->
  py_int_of (get_val payload "ts_ms") = Ok ts ->
  py_float (get_val payload "price_a") = Ok pa -> py_float (get_val payload "price_b") = Ok pb ->
  py_float (get_val payload "spread") = Ok sp -> py_float (get_val payload "z") = Ok z ->
  py_float (get_val payload "mean") = Ok mean -> py_float (get_val payload "std") = Ok std ->
  exists db' m', ingest_spread db m payload inter ok = Ok (db', m', List.filter ok (elements (subscribers m p))) /\
    rows db' = rows db ++ [inserted_row (VText p) ts pa pb sp z mean std payload].
Proof.
  intros Ht Hk Hp H1 H2 H3 H4 H5 H6 H7. unfold ingest_spread.
  rewrite (check_required_ok _ Hk), Hp, H1, H2, H3, H4, H5, H6, H7. cbn [res_bind].
  destruct (insert_spread_eq db cs (VText p) ts pa pb sp z mean std payload Ht) as [cs' [E _]].
  rewrite E. cbn [res_bind].
  pose proof (send_all_sent m p (elements (subscribers m p)) inter ok) as B. fold (broadcast m p inter ok) in B.
  destruct (broadcast m p inter ok) as [m' sent]. cbn in B. subst sent.
  eexists _, m'. split; reflexivity.
Qed.

(** Witnesses. *)

Lemma fanout_count_witness :
  NoDup [1%nat; 2%nat; 3%nat] /\
  let m := foldl (fun m w => connect m "ETH" w) empty_manager [1%nat; 2%nat; 3%nat] in
  length (broadcast m "ETH" [[EConnect "ETH" 4%nat]; [EDisconnect "ETH" 1%nat]] (fun w => negb (w =? 2)%nat)).2 =
    length (List.filter (fun w => negb (w =? 2)%nat) [1%nat; 2%nat; 3%nat]) /\
  (forall w, In w [1%nat; 2%nat; 3%nat] -> negb (w =? 2)%nat = true ->
     In w (broadcast m "ETH" [[EConnect "ETH" 4%nat]; [EDisconnect "ETH" 1%nat]] (fun w => negb (w =? 2)%nat)).2) /\
  ((forall w, In w [1%nat; 2%nat; 3%nat] -> negb (w =? 2)%nat = true) ->
     length (broadcast m "ETH" [[EConnect "ETH" 4%nat]; [EDisconnect "ETH" 1%nat]] (fun w => negb (w =? 2)%nat)).2 = 3%nat).
Proof.
  assert (H : NoDup [1%nat; 2%nat; 3%nat]) by (repeat constructor; set_solver).
  split; [exact H|]. exact (fanout_count "ETH" _ _ _ H).
Defined.

Lemma ingest_rejects_witness :
  ingest_spread old_db empty_manager (tail eth_payload) [] (fun _ => true) = Err HTTPError /\
  ingest_spread old_db empty_manager null_z_payload [] (fun _ => true) = Err TypeError.
Proof.
  split.
  - exact (proj1 (ingest_rejects old_db empty_manager (tail eth_payload) [] (fun _ => true)) eq_refl).
  - apply (proj2 (ingest_rejects old_db empty_manager null_z_payload [] (fun _ => true)) eq_refl eq_refl).
    + eexists; reflexivity.
    + intros k Hk. repeat (destruct Hk as [<-|Hk]; [eexists; reflexivity|]). destruct Hk.
Defined.

Lemma ingest_stores_and_broadcasts_witness :
  exists db' m', ingest_spread old_db (connect empty_manager "ETH" 7%nat) eth_payload [] (fun _ => true) =
      Ok (db', m', List.filter (fun _ => true) (elements (subscribers (connect empty_manager "ETH" 7%nat) "ETH"))) /\
    rows db' = rows old_db ++ [inserted_row (VText "ETH") 1000 100 99 1 2 (3 # 10) (1 # 10) eth_payload].
Proof.
  exact (ingest_stores_and_broadcasts old_db old_cols (connect empty_manager "ETH" 7%nat) eth_payload [] (fun _ => true)
           "ETH" 1000 100 99 1 2 (3 # 10) (1 # 10) eq_refl eq_refl eq_refl eq_refl eq_refl eq_refl eq_refl eq_refl
           eq_refl eq_refl).
Defined.

End FanoutTheory.
