(* ===== verification/Panel.v ===== *)
(** * Panel API: [src/arb/panel/server.py], startup and endpoints

    [app.state] is a record [App]: the database, the loaded config, the
    panel's own [RateLimiter] and the Lighter market map.  [on_startup]
    builds the limiter from the admin row of the database; the admin
    endpoints read and write that row and update the running limiter;
    [/api/spreads], [/api/pairs] and [/api/latest] read the sample
    table.  JSON encoding of the admin row is the [JsonCodec] interface
    of [Storage]; every definition here takes the codec as a parameter. *)

From stdpp Require Import base gmap strings.
From Stdlib Require Import String QArith Qminmax Lqa ZArith Lia List Sorted.
From S2P Require Import Prelude PyJson RateLimiter Storage.
Import ListNotations.

Open Scope py_scope.

Module Panel.
Import PyJson Store.

(** [app.state]. *)
Record App := mkApp {
  app_db : Db;
  app_cfg : Json;
  app_limiter : Limiter.RateLimiter;
  app_lighter_map : list (string * Z)
}.

Section Endpoints.
Context {codec : JsonCodec Json}.

(** [RateLimiter(adm.get("ratelimits") if adm else None)] with
    [adm = await admin_get_config(db)] (lines 36-37). *)
Definition startup_limiter (db : Db) (now : Q) : Limiter.RateLimiter * option PyExc :=
  match admin_get_config db with
  | Some adm =>
      if truthy adm then
        match dict_get adm "ratelimits" JNull with
        | Ok v => Limiter.init v now
        | Err e => (Limiter.empty_limiter, Some e)
        end
      else Limiter.init JNull now
  | None => Limiter.init JNull now
  end.

(** [on_startup] (lines 30-48) on the stored database [db0] and the
    outcome [cfg] of [load_config()] ([Config.load_config], which raises
    [ValueError] on a [DEPTH_LEVELS] [int()] rejects): open the
    database, load the configuration, build the limiter, then prefetch
    the Lighter market map, whose [fetch_market_map] first waits on the
    limiter's ["lighter:global"] bucket ([wakes] are the clock readings
    after its sleeps; [None]: still waiting) and whose answer [fetched]
    is replaced by [{}] when it raises.  [Err]: the startup hook raises
    and the panel does not start. *)
Definition on_startup (db0 : Db) (cfg : res Json) (now : Q) (wakes : list Q) (fetched : res (list (string * Z)))
    : option (res App) :=
  let db := open_db db0 in
  match cfg with
  | Err e => Some (Err e)
  | Ok cfg =>
  match startup_limiter db now with
  | (_, Some e) => Some (Err e)
  | (l, None) =>
      match Limiter.allow l "lighter" "global" 1 now wakes with
      | None => None
      | Some l1 =>
          Some (Ok (mkApp db cfg l1 (match fetched with Ok m => m | Err _ => [] end)))
      end
  end
  end.

(** The answer of [GET /api/admin/config] without a stored row. *)
Definition default_admin : Json :=
  JObj [("ratelimits"%string,
         JObj [("aster"%string, JObj [("global"%string, JObj [("capacity"%string, JNum 20); ("refill"%string, JNum 10)])]);
               ("lighter"%string, JObj [("global"%string, JObj [("capacity"%string, JNum 20); ("refill"%string, JNum 10)])])])].

(** [api_admin_get] (lines 423-427): [cfg or {...}]. *)
Definition api_admin_get (a : App) : Json :=
  match admin_get_config (app_db a) with
  | Some c => if truthy c then c else default_admin
  | None => default_admin
  end.

(** [api_admin_set(payload)] (lines 430-438) at clock [now]: 400 without
    a ["ratelimits"] key; otherwise the payload is written to the admin
    row, then the running limiter is updated with
    [payload.get("ratelimits")].  An exception of [update] propagates
    (a 500 answer) after the row is written and the entries before it
    are applied. *)
Definition api_admin_set (a : App) (payload : list (string * Json)) (now : Q) : App * res unit :=
  match assoc "ratelimits" payload with
  | None => (a, Err HTTPError)
  | Some v =>
      let db1 := admin_set_config (app_db a) (JObj payload) in
      let '(l1, e) := Limiter.update (app_limiter a) v now in
      (mkApp db1 (app_cfg a) l1 (app_lighter_map a), match e with None => Ok tt | Some e => Err e end)
  end.

End Endpoints.

(** [api_spreads(pair, limit)] (lines 68-75): 400 on an empty pair,
    otherwise [get_spreads] with the limit clamped to [1..5000], reversed
    to oldest first. *)
Definition api_spreads (a : App) (pair : string) (limit : Z) : res (list Row) :=
  if String.eqb pair EmptyString then Err HTTPError else
  let* rows := get_spreads (app_db a) pair (Z.min (Z.max limit 1) 5000) in
  Ok (rev rows).

(** ** [get_pairs]: [SELECT DISTINCT pair FROM spreads ORDER BY pair] *)

Definition num_of (v : Value) : Q :=
  match v with VInt z => inject_Z z | VReal q => q | _ => 0 end.

(** SQLite's order on the values of a column: [NULL] first, then numbers
    by value (an integer and a real compare numerically), then text by
    its bytes (the [BINARY] collation). *)
Definition value_cmp (v w : Value) : comparison :=
  match v, w with
  | VNull, VNull => Eq
  | VNull, _ => Lt
  | _, VNull => Gt
  | VText a, VText b => String.compare a b
  | VText _, _ => Gt
  | _, VText _ => Lt
  | _, _ => Qcompare (num_of v) (num_of w)
  end.

(** Insertion into an ordered list without duplicates; [DISTINCT] keeps
    one of the values that compare equal (which one is unspecified in
    SQL; the model keeps the one already there). *)
Fixpoint insert_distinct (v : Value) (l : list Value) : list Value :=
  match l with
  | [] => [v]
  | w :: r =>
      match value_cmp v w with
      | Lt => v :: l
      | Eq => l
      | Gt => w :: insert_distinct v r
      end
  end.

(** [get_pairs(db)] (storage lines 293-297). *)
Definition get_pairs (db : Db) : res (list Value) :=
  if has_cols db ["pair"%string] then
    Ok (fold_right insert_distinct [] (map (fun r => get_val r "pair"%string) (rows db)))
  else Err OperationalError.

(** The JSON value of a column value. *)
Definition value_json (v : Value) : Json :=
  match v with
  | VNull => JNull
  | VInt z => JNum (inject_Z z)
  | VReal q => JNum q
  | VText s => JStr s
  end.

(** [[p.get("name") for p in cfg.get("pairs", [])]] *)
Definition cfg_pair_names (cfg : Json) : res (list Json) :=
  let* ps := dict_get cfg "pairs" (JArr []) in
  let* l := py_iter ps in
  map_res (fun p => dict_get p "name" JNull) l.

(** [api_pairs] (lines 78-86): the stored pairs, or the configured
    names when the table has none. *)
Definition api_pairs (a : App) : res (list Json) :=
  let* rows := get_pairs (app_db a) in
  match rows with
  | [] => cfg_pair_names (app_cfg a)
  | _ => Ok (map value_json rows)
  end.

(** [api_latest] (lines 89-92). *)
Definition api_latest (a : App) : res (list Row) := get_latest_all (app_db a).

(** [health] (lines 63-65). *)
Definition health : Json := JObj [("status"%string, JStr "ok")].

(** Scenario S6 of the spec: the admin sets ["aster:global"] to
    capacity 2, refill 1/s. *)
Definition s6_ratelimits : Json := JObj [("aster"%string, JObj [("global"%string, Limiter.conf_of 2 1)])].

Definition s6_payload : list (string * Json) := [("ratelimits"%string, s6_ratelimits)].

(** A payload whose capacity is not a number. *)
Definition bad_payload : list (string * Json) :=
  [("ratelimits"%string, JObj [("aster"%string, JObj [("global"%string, JObj [("capacity"%string, JStr "ten")])])])].

(** A codec whose [loads] decodes every row to the document [j]: it
    round-trips [j], which is all the theorems below assume of
    [json.dumps]/[json.loads]. *)
Definition fixed_codec (j : Json) : JsonCodec Json := {| dumps := fun _ => EmptyString; loads := fun _ => Some j |}.

(** A table holding rows of two pairs, one of them twice. *)
Definition pairs_db : Db :=
  mkDb (Some create_cols)
    [[("pair"%string, VText "ETH")]; [("pair"%string, VText "BTC")]; [("pair"%string, VText "ETH")]] None.

(** A panel state on an empty database, with an empty limiter. *)
Definition app0 : App := mkApp (open_db (mkDb None [] None)) JNull Limiter.empty_limiter [].

End Panel.

Module PanelTheory.
Import PyJson Store StoreTheory Panel Bucket Limiter BucketTheory LimiterTheory.

(** Arithmetic on bucket fields with integer capacities. *)
Ltac bucket_lra := cbn [tokens capacity refill_rate last new_bucket] in *; unfold inject_Z in *; lra.

Section WithCodec.
Context {codec : JsonCodec Json}.

Lemma assoc_nonempty k v kv : assoc k kv = Some v -> truthy (JObj kv) = true.
Proof. destruct kv; [discriminate | reflexivity]. Qed.

(** After the admin row holds [payload], a startup builds its limiter
    from [payload["ratelimits"]] alone. *)
Lemma startup_after_set db payload v now :
  assoc "ratelimits" payload = Some v -> loads (dumps (JObj payload)) = Some (JObj payload) ->
  admin_get_config (admin_set_config db (JObj payload)) = Some (JObj payload) /\
  startup_limiter (admin_set_config db (JObj payload)) now = init v now.
Proof.
  intros Hv Hr. unfold startup_limiter, admin_get_config, admin_set_config. cbn [admin]. rewrite Hr.
  split; [reflexivity|]. rewrite (assoc_nonempty _ _ _ Hv). cbn [dict_get]. rewrite Hv. reflexivity.
Qed.

Lemma api_admin_set_some a payload v now :
  assoc "ratelimits" payload = Some v ->
  api_admin_set a payload now =
    (mkApp (admin_set_config (app_db a) (JObj payload)) (app_cfg a) (fst (update (app_limiter a) v now))
       (app_lighter_map a),
     match snd (update (app_limiter a) v now) with None => Ok tt | Some e => Err e end).
Proof. intros Hv. unfold api_admin_set. rewrite Hv. destruct (update _ v now); reflexivity. Qed.

(** The only falsy configurations that convert are empty. *)
Lemma conf_entries_falsy v es : truthy v = false -> conf_entries v = Ok es -> es = [].
Proof.
  destruct v as [| | | | |[|kv0 kv]]; cbn; try discriminate.
  intros _ H. injection H as <-. reflexivity.
Qed.

(** C30: Error path and restart of [POST /api/admin/config]: the payload
    is stored before the limiter is updated, so it is kept whatever
    happens.  When every entry of [ratelimits] converts, the running
    limiter is the old one overridden by the configured buckets, while
    the limiter a restart builds holds the configured buckets only: the
    keys the payload does not name keep their old buckets until the next
    restart and lose them after it.  When an entry does not convert, the
    request fails with that error and, the payload being stored, every
    later startup raises the same error (the panel no longer starts);
    when [ratelimits] is falsy the restart limiter is empty. *)
Theorem admin_set_then_restart a payload v now now' a' r :
  limiter_wf (app_limiter a) ->
  assoc "ratelimits" payload = Some v ->
  loads (dumps (JObj payload)) = Some (JObj payload) ->
  api_admin_set a payload now = (a', r) ->
  admin_get_config (app_db a') = Some (JObj payload) /\
  (truthy v = false -> startup_limiter (app_db a') now' = (empty_limiter, None)) /\
  match conf_entries v with
  | Ok es =>
      r = Ok tt /\ snd (startup_limiter (app_db a') now') = None /\
      forall k,
        view (app_limiter a') k = override now (view (app_limiter a)) es k /\
        view (fst (startup_limiter (app_db a') now')) k = override now' (fun _ => None) es k /\
        (~ In k (map fst es) ->
           view (app_limiter a') k = view (app_limiter a) k /\ view (fst (startup_limiter (app_db a') now')) k = None)
  | Err e => r = Err e /\ (truthy v = true -> snd (startup_limiter (app_db a') now') = Some e)
  end.
Proof.
  intros Hwf Hv Hr Ha. rewrite (api_admin_set_some a payload v now Hv) in Ha. injection Ha as <- <-.
  cbn [app_db app_limiter]. destruct (startup_after_set (app_db a) payload v now' Hv Hr) as [H1 ->].
  split; [exact H1|]. split; [intros Hf; unfold init; rewrite Hf; reflexivity|].
  pose proof (update_view (app_limiter a) v now Hwf) as Hu.
  pose proof (update_view empty_limiter v now' empty_limiter_wf) as Hu'.
  unfold init. destruct (conf_entries v) as [es|e] eqn:Ec.
  - destruct Hu as [-> Hu2]. destruct Hu' as [Hu1' Hu2']. split; [reflexivity|].
    destruct (truthy v) eqn:Et.
    + split; [exact Hu1'|]. intros k.
      assert (Hk : view (fst (update empty_limiter v now')) k = override now' (fun _ => None) es k).
      { rewrite Hu2'. exact (override_proper now' now' eq_refl _ _ view_empty es es eq_refl k). }
      rewrite Hk. split; [apply Hu2|]. split; [reflexivity|]. intros Hn.
      rewrite Hu2, !override_notin by exact Hn. split; reflexivity.
    + pose proof (conf_entries_falsy v es Et Ec); subst es. split; [reflexivity|]. intros k.
      cbn [fst override]. rewrite view_empty, Hu2. cbn [override]. repeat split; reflexivity.
  - rewrite Hu. split; [reflexivity|]. intros Ht. rewrite Ht. exact Hu'.
Qed.

(** Scenario S6: after the admin sets ["aster:global"] to capacity 2
    and refill 1/s at clock [t], whatever limiter was running, two
    acquires at [t] pass at once and a third one blocks: it completes
    after its sleep exactly when the clock has advanced by one second. *)
Theorem s6_admin_update a t a' r :
  limiter_wf (app_limiter a) ->
  api_admin_set a s6_payload t = (a', r) ->
  r = Ok tt /\
  exists l1 l2,
    allow (app_limiter a') "aster" "global" 1 t [] = Some l1 /\
    allow l1 "aster" "global" 1 t [] = Some l2 /\
    allow l2 "aster" "global" 1 t [] = None /\
    forall t', allow l2 "aster" "global" 1 t [t'] <> None <-> t + 1 <= t'.
Proof.
  intros Hwf Ha. rewrite (api_admin_set_some a s6_payload s6_ratelimits t eq_refl) in Ha.
  pose proof (update_view (app_limiter a) s6_ratelimits t Hwf) as Hu.
  remember (update (app_limiter a) s6_ratelimits t) as u eqn:Eu. clear Eu.
  injection Ha as <- <-. cbn [app_limiter].
  assert (Ec : conf_entries s6_ratelimits = Ok [(key "aster" "global", (2%Z, 1))]) by (vm_compute; reflexivity).
  rewrite Ec in Hu. destruct Hu as [-> Hu]. split; [reflexivity|].
  specialize (Hu (key "aster" "global")). cbn [override] in Hu. rewrite String.eqb_refl in Hu.
  set (l0 := fst u) in *.
  unfold view in Hu. destruct (dict l0 !! key "aster" "global") as [id|] eqn:Ed; [|discriminate].
  destruct (consume_no_wait (new_bucket 2 1 t) 1 [])
    as (b1 & E1 & T1 & L1 & C1 & R1); [bucket_lra..|].
  destruct (consume_no_wait b1 1 []) as (b2 & E2 & T2 & L2 & C2 & R2); [bucket_lra | rewrite C1; bucket_lra|].
  rewrite L1 in E2. cbn [last new_bucket] in E1, E2, L1.
  exists (mkLimiter (<[id := b1]> (heap l0)) (next_id l0) (dict l0)),
         (mkLimiter (<[id := b2]> (<[id := b1]> (heap l0))) (next_id l0) (dict l0)).
  rewrite (allow_at _ _ _ id _ _ _ _ Ed Hu), E1. split; [reflexivity|].
  rewrite (allow_at (mkLimiter (<[id := b1]> (heap l0)) (next_id l0) (dict l0)) _ _ id b1 _ _ _ Ed
             (lookup_insert_eq _ _ _)), E2. split; [reflexivity|].
  assert (Hb2 : tokens b2 < inject_Z 1) by bucket_lra.
  assert (Hc2 : tokens b2 <= inject_Z (capacity b2)) by (rewrite C2, C1; bucket_lra).
  pose proof (fun t' => consume_wait_one b2 1 t' Hb2 Hc2) as W. rewrite L2, L1 in W.
  pose proof (fun ws => allow_at (mkLimiter (<[id := b2]> (<[id := b1]> (heap l0))) (next_id l0) (dict l0))
                           _ _ id b2 1 t ws Ed (lookup_insert_eq _ _ _)) as A3.
  split.
  - rewrite A3. destruct (W t) as [-> _]. reflexivity.
  - intros t'. rewrite A3. destruct (W t') as [_ W2]. rewrite C2, C1, R2, R1 in W2. cbn [capacity refill_rate new_bucket] in W2.
    assert (Hiff : inject_Z 1 <= Qmin (inject_Z 2) (tokens b2 + (t' - t) * 1) <-> t + 1 <= t').
    { cbn in T1. destruct (Q.min_spec (inject_Z 2) (tokens b2 + (t' - t) * 1)) as [[H0 H1]|[H0 H1]];
        rewrite H1; split; intros; bucket_lra. }
    destruct (consume b2 1 t [t']) as [[b3 n]|]; split; intros H.
    + apply Hiff, W2. intros E. inversion E.
    + intros E. inversion E.
    + exfalso. apply H. reflexivity.
    + exfalso. apply (proj2 W2 (proj2 Hiff H)). reflexivity.
Qed.

End WithCodec.

Lemma stronglysorted_snoc {A} (R : A -> A -> Prop) l a :
  StronglySorted R l -> Forall (fun x => R x a) l -> StronglySorted R (l ++ [a]).
Proof.
  induction 1 as [|x l Hs IH Hx]; intros Ha; simpl; [repeat constructor|].
  inversion Ha as [|? ? Hxa Hl]; subst. constructor; [apply IH; exact Hl|].
  apply Forall_app. split; [exact Hx | constructor; [exact Hxa | constructor]].
Qed.

#[export] Instance newer_trans : Transitive newer.
Proof. unfold newer. intros x y z H1 H2. lia. Qed.

(** Reversing a newest-first list gives an oldest-first one. *)
Lemma sorted_rev_newer l : Sorted newer l -> Sorted (fun x y => newer y x) (rev l).
Proof.
  intros Hs. apply StronglySorted_Sorted. apply Sorted_StronglySorted in Hs; [|exact newer_trans].
  induction Hs as [|a l Hs IH Hall]; simpl; [constructor|].
  apply stronglysorted_snoc; [exact IH|]. apply Forall_rev. exact Hall.
Qed.

(** Functional behaviour of [GET /api/spreads]: on a non-empty pair
    it answers, oldest first, the newest [min(max(limit, 1), 5000)] rows
    of the pair, so at most 5000 and at least one when the pair has any;
    it fails with 400 on an empty pair and with the database error when
    the table lacks a selected column. *)
Theorem api_spreads_spec a p limit :
  match api_spreads a p limit with
  | Ok rs =>
      p <> EmptyString /\ Sorted (fun x y => newer y x) rs /\
      length rs = Nat.min (Z.to_nat (Z.min (Z.max limit 1) 5000)) (length (filter (pair_is p) (rows (app_db a)))) /\
      (length rs <= 5000)%nat /\
      (0 < length (filter (pair_is p) (rows (app_db a))) -> 0 < length rs)%nat
  | Err e => (p = EmptyString /\ e = HTTPError) \/ (p <> EmptyString /\ e = OperationalError)
  end.
Proof.
  unfold api_spreads. destruct (String.eqb_spec p EmptyString) as [->|Hp]; [left; split; reflexivity|].
  destruct (get_spreads (app_db a) p _) as [rs|e] eqn:E; cbn [res_bind].
  - destruct (get_spreads_newest_first _ _ _ _ E) as (Hs & Hl & _).
    rewrite length_rev, Hl by lia. split; [exact Hp|]. split; [apply sorted_rev_newer; exact Hs|].
    split; [reflexivity|]. lia.
  - right. split; [exact Hp|]. unfold get_spreads in E. destruct (has_cols _ _); congruence.
Qed.

(** ** [SELECT DISTINCT pair ... ORDER BY pair] *)

Lemma string_compare_refl a : String.compare a a = Eq.
Proof. induction a as [|c a IH]; cbn; [reflexivity|]. unfold Ascii.compare. rewrite N.compare_refl. exact IH. Qed.

Lemma string_compare_lt_trans a b c :
  String.compare a b = Lt -> String.compare b c = Lt -> String.compare a c = Lt.
Proof.
  intros H1 H2. assert (Hle : String.le a c).
  { apply (PreOrder_Transitive (R := String.le) a b c); unfold String.le, String.leb; [rewrite H1 | rewrite H2]; exact I. }
  unfold String.le, String.leb in Hle. destruct (String.compare a c) eqn:E; [|reflexivity|contradiction].
  apply String.compare_eq_iff in E. subst c. rewrite String.compare_antisym, H2 in H1. discriminate.
Qed.

Lemma value_cmp_antisym v w : value_cmp v w = CompOpp (value_cmp w v).
Proof.
  destruct v, w; cbn; try reflexivity; first [apply String.compare_antisym | symmetry; apply Qcompare_antisym].
Qed.

Lemma value_cmp_refl v : value_cmp v v = Eq.
Proof. destruct v; cbn; [reflexivity| | |apply string_compare_refl]; apply Qeq_alt; reflexivity. Qed.

Lemma value_cmp_lt_trans u v w : value_cmp u v = Lt -> value_cmp v w = Lt -> value_cmp u w = Lt.
Proof.
  destruct u, v, w; cbn; try discriminate; try reflexivity; try apply string_compare_lt_trans;
    rewrite <- !Qlt_alt; apply Qlt_trans.
Qed.

Lemma insert_distinct_in v l x : In x (insert_distinct v l) -> x = v \/ In x l.
Proof.
  induction l as [|w r IH]; cbn; [intuition|].
  destruct (value_cmp v w); cbn; [tauto|intuition|]. intros [->|H]; [tauto|]. destruct (IH H); tauto.
Qed.

Lemma insert_distinct_keeps v l x : In x l -> In x (insert_distinct v l).
Proof.
  induction l as [|w r IH]; cbn; [tauto|]. destruct (value_cmp v w); cbn; tauto.
Qed.

Lemma insert_distinct_covers v l : exists w, In w (insert_distinct v l) /\ value_cmp v w = Eq.
Proof.
  induction l as [|w r IH]; cbn; [exists v; split; [left; reflexivity | apply value_cmp_refl]|].
  destruct (value_cmp v w) eqn:E.
  - exists w. split; [left; reflexivity | exact E].
  - exists v. split; [left; reflexivity | apply value_cmp_refl].
  - destruct IH as (x & Hx & Ex). exists x. split; [right; exact Hx | exact Ex].
Qed.

Lemma insert_distinct_sorted v l :
  StronglySorted (fun a b => value_cmp a b = Lt) l ->
  StronglySorted (fun a b => value_cmp a b = Lt) (insert_distinct v l).
Proof.
  induction 1 as [|w r Hs IH Hw]; cbn; [repeat constructor|].
  destruct (value_cmp v w) eqn:E.
  - constructor; assumption.
  - constructor; [constructor; assumption|]. constructor; [exact E|].
    eapply Forall_impl; [|exact Hw]. intros x Hx. eapply value_cmp_lt_trans; eassumption.
  - constructor; [exact IH|]. apply Forall_forall. intros x Hx.
    destruct (insert_distinct_in v r x Hx) as [->|Hr].
    + rewrite value_cmp_antisym, E. reflexivity.
    + rewrite Forall_forall in Hw. apply Hw, Hr.
Qed.

(** Functional behaviour of [get_pairs]: its answer is strictly
    increasing in SQLite's order (so without duplicates), every stored
    row's pair is in it up to that order's equality, and each of its
    values is the pair of a stored row. *)
Theorem get_pairs_spec db ps :
  get_pairs db = Ok ps ->
  StronglySorted (fun v w => value_cmp v w = Lt) ps /\
  (forall r, In r (rows db) -> exists w, In w ps /\ value_cmp (get_val r "pair"%string) w = Eq) /\
  (forall w, In w ps -> exists r, In r (rows db) /\ get_val r "pair"%string = w).
Proof.
  unfold get_pairs. destruct (has_cols _ _); [|discriminate]. intros H. injection H as <-.
  induction (rows db) as [|r rs IH]; cbn [map fold_right].
  - split; [constructor|]. split; intros ? [].
  - destruct IH as (H1 & H2 & H3). split; [apply insert_distinct_sorted; exact H1|]. split.
    + intros r' [<-|Hr]; [apply insert_distinct_covers|].
      destruct (H2 r' Hr) as (w & Hw & Ew). exists w. split; [apply insert_distinct_keeps; exact Hw | exact Ew].
    + intros w Hw. destruct (insert_distinct_in _ _ _ Hw) as [->|Hin].
      * exists r. split; [left|]; reflexivity.
      * destruct (H3 w Hin) as (r' & Hr' & Er'). exists r'. split; [right|]; assumption.
Qed.

(** Witnesses. *)

Lemma admin_set_then_restart_witness :
  let c := fixed_codec (JObj bad_payload) in
  let '(a', r) := @api_admin_set c app0 bad_payload 0 in
  r = Err ValueError /\ @startup_limiter c (app_db a') 5 = (empty_limiter, Some ValueError) /\
  (@admin_get_config _ c (app_db a') = Some (JObj bad_payload) /\
   (truthy (JObj [("aster"%string, JObj [("global"%string, JObj [("capacity"%string, JStr "ten")])])]) = false ->
      @startup_limiter c (app_db a') 5 = (empty_limiter, None)) /\
   match conf_entries (JObj [("aster"%string, JObj [("global"%string, JObj [("capacity"%string, JStr "ten")])])]) with
   | Ok es =>
       r = Ok tt /\ snd (@startup_limiter c (app_db a') 5) = None /\
       forall k,
         view (app_limiter a') k = override 0 (view (app_limiter app0)) es k /\
         view (fst (@startup_limiter c (app_db a') 5)) k = override 5 (fun _ => None) es k /\
         (~ In k (map fst es) ->
            view (app_limiter a') k = view (app_limiter app0) k /\ view (fst (@startup_limiter c (app_db a') 5)) k = None)
   | Err e => r = Err e /\ (truthy (JObj [("aster"%string, JObj [("global"%string, JObj [("capacity"%string, JStr "ten")])])]) = true ->
                            snd (@startup_limiter c (app_db a') 5) = Some e)
   end).
Proof.
  cbv zeta. destruct (@api_admin_set (fixed_codec (JObj bad_payload)) app0 bad_payload 0) as [a' r] eqn:E.
  split; [|split].
  - vm_compute in E. injection E as _ <-. reflexivity.
  - vm_compute in E. injection E as <- _. vm_compute. reflexivity.
  - exact (@admin_set_then_restart (fixed_codec (JObj bad_payload)) app0 bad_payload _ 0 5 a' r
             empty_limiter_wf eq_refl eq_refl E).
Defined.

Lemma get_pairs_spec_witness :
  get_pairs pairs_db = Ok [VText "BTC"; VText "ETH"] /\
  StronglySorted (fun v w => value_cmp v w = Lt) [VText "BTC"; VText "ETH"] /\
  (forall r, In r (rows pairs_db) -> exists w, In w [VText "BTC"; VText "ETH"] /\ value_cmp (get_val r "pair"%string) w = Eq) /\
  (forall w, In w [VText "BTC"; VText "ETH"] -> exists r, In r (rows pairs_db) /\ get_val r "pair"%string = w).
Proof.
  assert (E : get_pairs pairs_db = Ok [VText "BTC"; VText "ETH"]) by (vm_compute; reflexivity).
  split; [exact E | exact (get_pairs_spec pairs_db _ E)].
Defined.

Lemma s6_admin_update_witness :
  let '(a', r) := @api_admin_set (fixed_codec (JObj s6_payload)) app0 s6_payload 0 in
  r = Ok tt /\
  exists l1 l2,
    allow (app_limiter a') "aster" "global" 1 0 [] = Some l1 /\
    allow l1 "aster" "global" 1 0 [] = Some l2 /\
    allow l2 "aster" "global" 1 0 [] = None /\
    forall t', allow l2 "aster" "global" 1 0 [t'] <> None <-> 0 + 1 <= t'.
Proof.
  destruct (@api_admin_set (fixed_codec (JObj s6_payload)) app0 s6_payload 0) as [a' r] eqn:E.
  exact (@s6_admin_update (fixed_codec (JObj s6_payload)) app0 0 a' r empty_limiter_wf E).
Defined.

End PanelTheory.
