(* ===== verification/Runner.v ===== *)
(** * Composition root: [main] of [src/arb/runner_reminder.py]

    [main] builds one [RateLimiter] shared by the connectors of every
    pair task, tunes it from the panel's admin endpoint when
    [PANEL_ADMIN_URL] is set ([main_limiter]), resolves the missing
    Lighter market ids from the market map ([resolve_pairs]) and starts
    one [poll_pair_with_store] task per pair.  The theorems relate the
    runner's limiter to the one the panel builds from the same admin
    row, and the resolution of market ids to the poller's mid-price
    reads. *)

From stdpp Require Import base gmap strings.
From Stdlib Require Import String QArith ZArith Lia List.
From S2P Require Import Prelude PyJson RateLimiter Storage Venue Poller Panel.
Import ListNotations.

Open Scope py_scope.

Module Runner.
Import PyJson Limiter Poller.

(** The admin fetch of [main] (lines 368-379) at clock [now]: [None] when
    [PANEL_ADMIN_URL] is unset, [Err] when the request or [r.json()]
    raises, otherwise the status and the decoded answer.  The update runs
    in the [try]: an exception it raises is swallowed, and the buckets it
    already replaced stay. *)
Definition main_limiter (admin : option (res (Z * Json))) (now : Q) : RateLimiter :=
  match admin with
  | Some (Ok (status, adm)) =>
      if Z.eqb status 200 && PyJson.truthy adm then
        match dict_get adm "ratelimits" JNull with
        | Ok v => if PyJson.truthy v then fst (update empty_limiter v now) else empty_limiter
        | Err _ => empty_limiter
        end
      else empty_limiter
  | _ => empty_limiter
  end.

(** [lighter_map.get(symbol)] on the market map ([Dict[str, int]]). *)
Definition map_get (m : list (string * Z)) (s : string) : option Z :=
  match find (fun kv => String.eqb (fst kv) s) m with
  | Some (_, v) => Some v
  | None => None
  end.

(** [if p.a.exchange == "lighter" and p.a.market_id is None:
       if p.a.symbol in lighter_map: p.a.market_id = lighter_map[p.a.symbol]] *)
Definition resolve_leg (m : list (string * Z)) (leg : Market) : Market :=
  if String.eqb (exchange leg) "lighter" then
    match market_id leg with
    | None =>
        match map_get m (symbol leg) with
        | Some id => mkMarket (exchange leg) (symbol leg) (Some id)
        | None => leg
        end
    | Some _ => leg
    end
  else leg.

(** One iteration of the resolution loop of [main] (lines 395-400). *)
Definition resolve_pair (m : list (string * Z)) (p : Pair) : Pair :=
  mkPair (pair_name p) (resolve_leg m (leg_a p)) (resolve_leg m (leg_b p)).

(** The resolution loop; each pair's markets are its own objects, built
    by [build_pairs], so the in-place assignment is a new pair here. *)
Definition resolve_pairs (m : list (string * Z)) (ps : list Pair) : list Pair := map (resolve_pair m) ps.

(** The default configuration the panel answers without a stored row. *)
Definition default_ratelimits : Json :=
  JObj [("aster"%string, JObj [("global"%string, JObj [("capacity"%string, JNum 20); ("refill"%string, JNum 10)])]);
        ("lighter"%string, JObj [("global"%string, JObj [("capacity"%string, JNum 20); ("refill"%string, JNum 10)])])].

(** A pair whose Lighter leg has neither a market id nor a map entry. *)
Definition unmapped_pair : Pair :=
  mkPair "ETH" (mkMarket "lighter" "ETH" None) (mkMarket "aster" "ETHUSDT" None).

(** The iteration input of a mid-price read that raised [ValueError]. *)
Definition value_error_io : TickIO :=
  mkTickIO (mkLegIO 1000 (Err ValueError) 1000 (Err ValueError) (Err ValueError) (Err ValueError) (Err ValueError))
    (ok_leg 1000 100) (Ok tt).

(** A panel whose admin row decodes to [bad_payload]. *)
Definition bad_row_app : Panel.App :=
  Panel.mkApp (Store.mkDb (Some Store.create_cols) [] (Some EmptyString)) JNull empty_limiter [].

End Runner.

Module RunnerTheory.
Import PyJson Store Bucket Limiter LimiterTheory Poller Panel PanelTheory Runner.

Section WithCodec.
Context {codec : JsonCodec Json}.

(** The limiter a panel startup builds from a decodable admin row. *)
Lemma startup_from_row db payload v now :
  admin_get_config db = Some (JObj payload) -> assoc "ratelimits" payload = Some v ->
  startup_limiter db now = init v now.
Proof.
  intros Hr Hv. unfold startup_limiter. rewrite Hr, (assoc_nonempty _ _ _ Hv). cbn [dict_get]. rewrite Hv. reflexivity.
Qed.

(** The runner's limiter fetched from a panel whose admin row decodes to
    [payload]. *)
Lemma main_limiter_from_row a payload v now :
  admin_get_config (app_db a) = Some (JObj payload) -> assoc "ratelimits" payload = Some v ->
  PyJson.truthy v = true ->
  main_limiter (Some (Ok (200%Z, api_admin_get a))) now = fst (update empty_limiter v now).
Proof.
  intros Hr Hv Ht. unfold api_admin_get. rewrite Hr, (assoc_nonempty _ _ _ Hv).
  unfold main_limiter. rewrite (assoc_nonempty _ _ _ Hv). cbn [Z.eqb andb dict_get]. rewrite Hv, Ht. reflexivity.
Qed.

(** A mid-price read that fails leaves a tick without effect. *)
Lemma tick_mid_err `{PyMath} cfg p st io e :
  io_mid (io_a io) = Err e ->
  fst (tick cfg p st io) = st /\ out_stored (snd (tick cfg p st io)) = None /\
  out_posted (snd (tick cfg p st io)) = None.
Proof.
  intros He. unfold tick. destruct (negb _ || negb _); [repeat split|]. rewrite He. repeat split.
Qed.

(** A fresh limiter updated with a configuration that converts. *)
Lemma fresh_update_view v es now k :
  conf_entries v = Ok es -> view (fst (update empty_limiter v now)) k = override now (fun _ => None) es k.
Proof.
  intros Ec. pose proof (update_view empty_limiter v now empty_limiter_wf) as H. rewrite Ec in H.
  destruct H as [_ H]. rewrite H. exact (override_proper now now eq_refl _ _ view_empty es es eq_refl k).
Qed.

(** Divergence of the two limiters on a database without an admin
    row: the panel builds an empty limiter, so each of its connector
    calls falls back to a permissive [TokenBucket(1000, 1000.0)], while
    the runner, fetching the panel's default answer, limits
    ["aster:global"] and ["lighter:global"] to capacity 20 and 10
    tokens/s. *)
Theorem runner_vs_panel_defaults a now now' :
  admin_get_config (app_db a) = None ->
  snd (startup_limiter (app_db a) now') = None /\
  (forall k, view (fst (startup_limiter (app_db a) now')) k = None) /\
  (forall k, view (main_limiter (Some (Ok (200%Z, api_admin_get a))) now) k =
     if String.eqb (key "lighter" "global") k then Some (new_bucket 20 10 now)
     else if String.eqb (key "aster" "global") k then Some (new_bucket 20 10 now) else None).
Proof.
  intros Hr. assert (Hs : startup_limiter (app_db a) now' = (empty_limiter, None))
    by (unfold startup_limiter; rewrite Hr; reflexivity).
  rewrite Hs. split; [reflexivity|]. split; [exact view_empty|].
  intros k. unfold api_admin_get. rewrite Hr.
  assert (E : main_limiter (Some (Ok (200%Z, default_admin))) now = fst (update empty_limiter default_ratelimits now))
    by reflexivity.
  rewrite E, (fresh_update_view default_ratelimits [(key "aster" "global", (20%Z, 10)); (key "lighter" "global", (20%Z, 10))])
    by (vm_compute; reflexivity).
  reflexivity.
Qed.

(** C31: The runner and the panel on a stored admin row whose
    ["ratelimits"] is truthy: when it converts, the runner's limiter and
    the one a restarted panel builds configure the same buckets; when an
    entry does not convert, the panel's startup raises the error while
    the runner swallows the same error and runs on the partially updated
    limiter. *)
Theorem runner_admin_fetch a payload v now now' :
  admin_get_config (app_db a) = Some (JObj payload) -> assoc "ratelimits" payload = Some v ->
  PyJson.truthy v = true ->
  match conf_entries v with
  | Ok es =>
      snd (startup_limiter (app_db a) now') = None /\
      forall k, view (main_limiter (Some (Ok (200%Z, api_admin_get a))) now) k = override now (fun _ => None) es k /\
                view (fst (startup_limiter (app_db a) now')) k = override now' (fun _ => None) es k
  | Err e =>
      snd (startup_limiter (app_db a) now') = Some e /\
      main_limiter (Some (Ok (200%Z, api_admin_get a))) now = fst (update empty_limiter v now) /\
      snd (update empty_limiter v now) = Some e
  end.
Proof.
  intros Hr Hv Ht. rewrite (startup_from_row _ _ _ now' Hr Hv), (main_limiter_from_row a payload v now Hr Hv Ht).
  unfold init. rewrite Ht.
  pose proof (update_view empty_limiter v now empty_limiter_wf) as Hu.
  pose proof (update_view empty_limiter v now' empty_limiter_wf) as Hu'.
  destruct (conf_entries v) as [es|e] eqn:Ec.
  - split; [exact (proj1 Hu')|]. intros k. split; apply fresh_update_view; exact Ec.
  - split; [exact Hu'|]. split; [reflexivity | exact Hu].
Qed.

End WithCodec.

(** C34: A Lighter leg without a market id whose symbol the market map
    lacks stays unresolved: every mid-price read of it raises
    [ValueError] before taking a token, so every iteration of its
    pair's task ends without storing or posting a sample and without
    touching the z-score and EMA state. *)
Theorem unresolved_lighter_leg `{PyMath} m p l now wakes resp cfg st io :
  exchange (leg_a p) = "lighter"%string -> market_id (leg_a p) = None -> map_get m (symbol (leg_a p)) = None ->
  Lighter.get_mid_price l (market_id (leg_a (resolve_pair m p))) now wakes resp = Some (l, Err ValueError) /\
  (io_mid (io_a io) = Err ValueError ->
   fst (tick cfg (resolve_pair m p) st io) = st /\ out_stored (snd (tick cfg (resolve_pair m p) st io)) = None /\
   out_posted (snd (tick cfg (resolve_pair m p) st io)) = None).
Proof.
  intros He Hm Hg. cbn [resolve_pair leg_a]. unfold resolve_leg. rewrite He, Hm, Hg. cbn. rewrite Hm.
  split; [reflexivity|]. apply tick_mid_err.
Qed.

(** Witnesses. *)

Lemma runner_vs_panel_defaults_witness :
  let c := fixed_codec JNull in
  @admin_get_config _ c (app_db app0) = None /\
  snd (@startup_limiter c (app_db app0) 0) = None /\
  (forall k, view (fst (@startup_limiter c (app_db app0) 0)) k = None) /\
  (forall k, view (main_limiter (Some (Ok (200%Z, @api_admin_get c app0))) 0) k =
     if String.eqb (key "lighter" "global") k then Some (new_bucket 20 10 0)
     else if String.eqb (key "aster" "global") k then Some (new_bucket 20 10 0) else None).
Proof.
  cbv zeta. assert (H : @admin_get_config _ (fixed_codec JNull) (app_db app0) = None) by reflexivity.
  split; [exact H | exact (@runner_vs_panel_defaults (fixed_codec JNull) app0 0 0 H)].
Defined.

Lemma runner_admin_fetch_witness :
  let c := fixed_codec (JObj bad_payload) in
  let v := JObj [("aster"%string, JObj [("global"%string, JObj [("capacity"%string, JStr "ten")])])] in
  @admin_get_config _ c (app_db bad_row_app) = Some (JObj bad_payload) /\
  conf_entries v = Err ValueError /\
  match conf_entries v with
  | Ok es =>
      snd (@startup_limiter c (app_db bad_row_app) 5) = None /\
      forall k, view (main_limiter (Some (Ok (200%Z, @api_admin_get c bad_row_app))) 0) k = override 0 (fun _ => None) es k /\
                view (fst (@startup_limiter c (app_db bad_row_app) 5)) k = override 5 (fun _ => None) es k
  | Err e =>
      snd (@startup_limiter c (app_db bad_row_app) 5) = Some e /\
      main_limiter (Some (Ok (200%Z, @api_admin_get c bad_row_app))) 0 = fst (update empty_limiter v 0) /\
      snd (update empty_limiter v 0) = Some e
  end.
Proof.
  cbv zeta. split; [reflexivity|]. split; [vm_compute; reflexivity|].
  exact (@runner_admin_fetch (fixed_codec (JObj bad_payload)) bad_row_app bad_payload _ 0 5 eq_refl eq_refl eq_refl).
Defined.

Lemma unresolved_lighter_leg_witness :
  exchange (leg_a unmapped_pair) = "lighter"%string /\ market_id (leg_a unmapped_pair) = None /\
  map_get [("BTC"%string, 1%Z)] (symbol (leg_a unmapped_pair)) = None /\
  Lighter.get_mid_price empty_limiter (market_id (leg_a (resolve_pair [("BTC"%string, 1%Z)] unmapped_pair))) 0 []
    (Ok JNull) = Some (empty_limiter, Err ValueError) /\
  (io_mid (io_a value_error_io) = Err ValueError ->
   fst (@tick qmath s1_cfg (resolve_pair [("BTC"%string, 1%Z)] unmapped_pair) s1_state value_error_io) = s1_state /\
   out_stored (snd (@tick qmath s1_cfg (resolve_pair [("BTC"%string, 1%Z)] unmapped_pair) s1_state value_error_io)) = None /\
   out_posted (snd (@tick qmath s1_cfg (resolve_pair [("BTC"%string, 1%Z)] unmapped_pair) s1_state value_error_io)) = None).
Proof.
  split; [reflexivity|]. split; [reflexivity|]. split; [reflexivity|].
  exact (@unresolved_lighter_leg qmath [("BTC"%string, 1%Z)] unmapped_pair empty_limiter 0 [] (Ok JNull)
           s1_cfg s1_state value_error_io eq_refl eq_refl eq_refl).
Defined.

End RunnerTheory.
