(* ===== verification/Depth.v ===== *)
(** * The depth endpoint: [api_depth] of [src/arb/panel/server.py]

    [GET /api/depth?pair=..&levels=..] looks the pair up in the
    configuration the panel loaded at startup ([app.state.cfg]),
    resolves a Lighter leg without a market id from the market map
    prefetched at startup, and answers the level lists of both legs.
    The resolution writes the id into the leg's dictionary, which is
    the one inside [app.state.cfg]: the endpoint mutates the shared
    configuration, and a later request sees the id written.  The model
    returns the new [App] with the answer; the configuration's
    dictionaries are distinct objects, as [load_config]'s literal
    builds them, so a write into one leg is a write into that leg's
    entry of [app.state.cfg] only.  The venues' answers are inputs. *)

From Stdlib Require Import String QArith ZArith Lia List Bool.
From S2P Require Import Prelude PyJson RateLimiter Venue Storage Panel Runner.
Import ListNotations.

Open Scope py_scope.
Open Scope string_scope.

Module Depth.
Import PyJson VenueTypes Panel.

(** [d[k] = v] on a dict: an existing key keeps its place and takes the
    new value, a new key is appended. *)
Fixpoint dict_set_kv (kv : list (string * Json)) (k : string) (v : Json) : list (string * Json) :=
  match kv with
  | [] => [(k, v)]
  | (k', v') :: r => if String.eqb k' k then (k', v) :: r else (k', v') :: dict_set_kv r k v
  end.

Definition set_key (j : Json) (k : string) (v : Json) : Json :=
  match j with
  | JObj kv => JObj (dict_set_kv kv k v)
  | _ => j
  end.

(** The [i]-th item of a list, replaced by [f] of it. *)
Fixpoint upd_nth (l : list Json) (i : nat) (f : Json -> Json) : list Json :=
  match l, i with
  | [], _ => []
  | x :: r, O => f x :: r
  | x :: r, S j => x :: upd_nth r j f
  end.

(** The write [pdef[side]["market_id"] = mid] seen from
    [app.state.cfg]: [pdef] is the [i]-th item of [cfg["pairs"]]. *)
Definition set_leg (cfg : Json) (i : nat) (side : string) (leg : Json) : Json :=
  match cfg with
  | JObj kv =>
      match assoc "pairs" kv with
      | Some (JArr ps) => JObj (dict_set_kv kv "pairs" (JArr (upd_nth ps i (fun p => set_key p side leg))))
      | _ => cfg
      end
  | _ => cfg
  end.

(** [x == s] for a string [s]. *)
Definition is_str (j : Json) (s : string) : bool :=
  match j with JStr t => String.eqb t s | _ => false end.

(** [next((p for p in pairs if p.get("name") == pair), None)], with the
    index of the pair found. *)
Fixpoint find_pair (ps : list Json) (pair : string) (i : nat) : res (option (nat * Json)) :=
  match ps with
  | [] => Ok None
  | p :: r =>
      let* nm := dict_get p "name" JNull in
      if is_str nm pair then Ok (Some (i, p)) else find_pair r pair (S i)
  end.

(** The lookup of [api_depth] (lines 188-189): [pairs = cfg.get("pairs", [])] and the
    [next(...)] over them. *)
Definition lookup_pair (cfg : Json) (pair : string) : res (option (nat * Json)) :=
  let* ps := dict_get cfg "pairs" (JArr []) in
  let* l := py_iter ps in
  find_pair l pair 0.

(** [app.state.lighter_map.get(a.get("symbol"))] on a [Dict[str, int]]:
    a key of another type is absent; a list or dict is unhashable. *)
Definition map_lookup (m : list (string * Z)) (k : Json) : res (option Z) :=
  match k with
  | JStr s => Ok (Runner.map_get m s)
  | JArr _ | JObj _ => Err TypeError
  | _ => Ok None
  end.

(** What the resolution of one leg does. *)
Inductive LegRes : Type :=
| Keep
| SetId (id : Z)
| Unresolved.

(** [if a["exchange"] == "lighter" and (a.get("market_id") is None):
       mid = app.state.lighter_map.get(a.get("symbol"))
       if mid is None: raise HTTPException(status_code=400, ...)
       a["market_id"] = mid] (lines 195-199 for [a], 200-204 for [b]). *)
Definition resolve_depth_leg (m : list (string * Z)) (leg : Json) : res LegRes :=
  let* ex := get_key leg "exchange" in
  if is_str ex "lighter" then
    let* mi := dict_get leg "market_id" JNull in
    match mi with
    | JNull =>
        let* sy := dict_get leg "symbol" JNull in
        let* mid := map_lookup m sy in
        match mid with
        | None => Ok Unresolved
        | Some id => Ok (SetId id)
        end
    | _ => Ok Keep
    end
  else Ok Keep.

(** The leg after the resolution's write. *)
Definition leg_after (leg : Json) (r : LegRes) : Json :=
  match r with
  | SetId id => set_key leg "market_id" (JNum (inject_Z id))
  | _ => leg
  end.

(** The configuration after the resolution's write. *)
Definition cfg_after (cfg : Json) (i : nat) (side : string) (leg : Json) (r : LegRes) : Json :=
  match r with
  | SetId _ => set_leg cfg i side (leg_after leg r)
  | _ => cfg
  end.

(** The venues' answers to [GET orderBookOrders] and [GET depth], as
    functions of the request's [market_id] or [symbol] parameter and
    its [limit]. *)
Definition BookService := Json -> Z -> res Json.

(** [conns["lighter"].get_order_book_levels(market_id=a["market_id"], levels=levels)]
    or [conns["aster"].get_order_book_levels(symbol=a["symbol"], levels=levels)]
    (lines 207-215): the request carries the leg's id or symbol. *)
Definition fetch_levels (leg : Json) (levels : Z) (lv av : BookService) : res Levels :=
  let* ex := get_key leg "exchange" in
  if is_str ex "lighter" then
    let* mi := get_key leg "market_id" in
    Lighter.get_order_book_levels levels (lv mi levels)
  else
    let* sy := get_key leg "symbol" in
    Aster.get_order_book_levels levels (av sy levels).

(** The answer: [{"a": ..., "b": ...}], an HTTP status, or an exception. *)
Inductive DepthAnswer : Type :=
| DLevels (la lb : Levels)
| DStatus (code : Z)
| DRaised (e : PyExc).

(** [api_depth(pair, levels)] (lines 182-217) on the panel state [a]
    with the Lighter and Aster services [lv], [av]. *)
Definition api_depth (a : App) (pair : string) (levels : Z) (lv av : BookService) : App * DepthAnswer :=
  if String.eqb pair EmptyString then (a, DStatus 400) else
  let cfg := app_cfg a in
  let with_cfg c := mkApp (app_db a) c (app_limiter a) (app_lighter_map a) in
  match lookup_pair cfg pair with
  | Err e => (a, DRaised e)
  | Ok None => (a, DStatus 404)
  | Ok (Some (i, pdef)) =>
      if negb (PyJson.truthy pdef) then (a, DStatus 404) else
      match get_key pdef "a" with
      | Err e => (a, DRaised e)
      | Ok la =>
      match get_key pdef "b" with
      | Err e => (a, DRaised e)
      | Ok lb =>
      match resolve_depth_leg (app_lighter_map a) la with
      | Err e => (a, DRaised e)
      | Ok Unresolved => (a, DStatus 400)
      | Ok ra_ =>
      let cfg1 := cfg_after cfg i "a" la ra_ in
      let la' := leg_after la ra_ in
      match resolve_depth_leg (app_lighter_map a) lb with
      | Err e => (with_cfg cfg1, DRaised e)
      | Ok Unresolved => (with_cfg cfg1, DStatus 400)
      | Ok rb_ =>
      let cfg2 := cfg_after cfg1 i "b" lb rb_ in
      let lb' := leg_after lb rb_ in
      match fetch_levels la' levels lv av with
      | Err e => (with_cfg cfg2, DRaised e)
      | Ok xa =>
      match fetch_levels lb' levels lv av with
      | Err e => (with_cfg cfg2, DRaised e)
      | Ok xb => (with_cfg cfg2, DLevels xa xb)
      end
      end
      end
      end
      end
      end
  end.

(** [if a["exchange"] == "lighter" and (a.get("market_id") is None):
       a["market_id"] = app.state.lighter_map.get(a.get("symbol"))]
    of [api_simulate] (lines 347-350): the value written, if any; it is
    [None] when the map lacks the symbol. *)
Definition simulate_write (m : list (string * Z)) (leg : Json) : res (option Json) :=
  let* ex := get_key leg "exchange" in
  if is_str ex "lighter" then
    let* mi := dict_get leg "market_id" JNull in
    match mi with
    | JNull =>
        let* sy := dict_get leg "symbol" JNull in
        let* mid := map_lookup m sy in
        Ok (Some (match mid with Some id => JNum (inject_Z id) | None => JNull end))
    | _ => Ok None
    end
  else Ok None.

(** The leg after that write. *)
Definition written (leg : Json) (w : option Json) : Json :=
  match w with Some v => set_key leg "market_id" v | None => leg end.

(** The configuration after that write. *)
Definition write_leg (cfg : Json) (i : nat) (side : string) (leg : Json) (w : option Json) : Json :=
  match w with Some _ => set_leg cfg i side (written leg w) | None => cfg end.

(** The lookup and the two writes that open [api_simulate] (lines
    339-350) on the panel state; the rest of the request, which reads
    the legs, is [Simulator.api_simulate]. *)
Definition simulate_resolve (a : App) (pair : string) : App * res unit :=
  let cfg := app_cfg a in
  let m := app_lighter_map a in
  let with_cfg c := mkApp (app_db a) c (app_limiter a) m in
  match lookup_pair cfg pair with
  | Err e => (a, Err e)
  | Ok None => (a, Err HTTPError)
  | Ok (Some (i, pdef)) =>
      if negb (PyJson.truthy pdef) then (a, Err HTTPError) else
      match get_key pdef "a" with
      | Err e => (a, Err e)
      | Ok la =>
      match get_key pdef "b" with
      | Err e => (a, Err e)
      | Ok lb =>
      match simulate_write m la with
      | Err e => (a, Err e)
      | Ok wa =>
      let cfg1 := write_leg cfg i "a" la wa in
      match simulate_write m lb with
      | Err e => (with_cfg cfg1, Err e)
      | Ok wb => (with_cfg (write_leg cfg1 i "b" lb wb), Ok tt)
      end
      end
      end
      end
  end.

(** A panel whose configuration holds the default pair, with a market
    map that knows [BTC], and two venue answers. *)
Definition depth_cfg : Json :=
  JObj [("pairs", JArr [JObj [("name", JStr "BTCUSDT");
                              ("a", JObj [("exchange", JStr "lighter"); ("symbol", JStr "BTC"); ("market_id", JNull)]);
                              ("b", JObj [("exchange", JStr "aster"); ("symbol", JStr "BTCUSDT")])]])].

Definition depth_app (m : list (string * Z)) : App :=
  mkApp (Store.open_db (Store.mkDb None [] None)) depth_cfg Limiter.empty_limiter m.

(** The venues: Lighter knows market 1 only and rejects any other
    id; Aster answers one bid for any symbol. *)
Definition lighter_book : BookService := fun mi _ =>
  match mi with
  | JNum q => if Qeq_bool q 1 then
      Ok (JObj [("bids", JArr [JObj [("price", JStr "100"); ("remaining_base_amount", JStr "2")]]); ("asks", JArr [])])
      else Err HTTPError
  | _ => Err HTTPError
  end.

Definition aster_book : BookService := fun _ _ =>
  Ok (JObj [("bids", JArr [JArr [JStr "99"; JStr "1"]]); ("asks", JArr [])]).

(** A pair with two Lighter legs, of which the market map knows only
    the first. *)
Definition leg_btc : Json := JObj [("exchange", JStr "lighter"); ("symbol", JStr "BTC"); ("market_id", JNull)].
Definition leg_eth : Json := JObj [("exchange", JStr "lighter"); ("symbol", JStr "ETH")].
Definition pair_ll : Json := JObj [("name", JStr "LL"); ("a", leg_btc); ("b", leg_eth)].
Definition app_ll : App :=
  mkApp (Store.open_db (Store.mkDb None [] None)) (JObj [("pairs", JArr [pair_ll])]) Limiter.empty_limiter [("BTC", 1%Z)].

End Depth.

Module DepthTheory.
Import PyJson VenueTypes Panel Depth.


Lemma assoc_set_same kv k v : assoc k (dict_set_kv kv k v) = Some v.
Proof.
  induction kv as [|[k' v'] r IH]; cbn; [unfold assoc; cbn; rewrite String.eqb_refl; reflexivity|].
  destruct (String.eqb_spec k' k) as [->|Hne]; unfold assoc; cbn.
  - rewrite String.eqb_refl. reflexivity.
  - apply String.eqb_neq in Hne. rewrite Hne. exact IH.
Qed.

Lemma assoc_set_other kv k k' v : k' <> k -> assoc k' (dict_set_kv kv k v) = assoc k' kv.
Proof.
  intros Hne. induction kv as [|[k0 v0] r IH]; unfold assoc; cbn.
  - apply not_eq_sym, String.eqb_neq in Hne. rewrite Hne. reflexivity.
  - destruct (String.eqb_spec k0 k) as [->|]; cbn.
    + apply not_eq_sym, String.eqb_neq in Hne. rewrite Hne. reflexivity.
    + destruct (String.eqb k0 k'); [reflexivity|exact IH].
Qed.

Lemma dict_get_set_same j k v d : (exists kv, j = JObj kv) -> dict_get (set_key j k v) k d = Ok v.
Proof. intros [kv ->]. cbn. rewrite assoc_set_same. reflexivity. Qed.

Lemma dict_get_set_other j k k' v d : k' <> k -> dict_get (set_key j k v) k' d = dict_get j k' d.
Proof. intros Hne. destruct j; try reflexivity. cbn. rewrite assoc_set_other by exact Hne. reflexivity. Qed.

Lemma get_key_set_same j k v : (exists kv, j = JObj kv) -> get_key (set_key j k v) k = Ok v.
Proof. intros [kv ->]. cbn. rewrite assoc_set_same. reflexivity. Qed.

Lemma get_key_set_other j k k' v : k' <> k -> get_key (set_key j k v) k' = get_key j k'.
Proof. intros Hne. destruct j; try reflexivity. cbn. rewrite assoc_set_other by exact Hne. reflexivity. Qed.

Lemma dict_get_obj j k d x : dict_get j k d = Ok x -> exists kv, j = JObj kv.
Proof. destruct j; try discriminate. eauto. Qed.

Lemma get_key_obj j k x : get_key j k = Ok x -> exists kv, j = JObj kv.
Proof. destruct j; try discriminate. eauto. Qed.

Lemma truthy_set_key kv k v : PyJson.truthy (set_key (JObj kv) k v) = true.
Proof. cbn. destruct kv as [|[k' v'] r]; cbn; [reflexivity|]. destruct (String.eqb k' k); reflexivity. Qed.

Lemma find_pair_ge ps pair j i p : find_pair ps pair j = Ok (Some (i, p)) -> (j <= i)%nat.
Proof.
  revert j. induction ps as [|x r IH]; intros j; cbn; [discriminate|].
  destruct (dict_get x "name" JNull) as [nm|]; cbn; [|discriminate].
  destruct (is_str nm pair); [intros [= <- _]; lia|]. intros E. specialize (IH _ E). lia.
Qed.

(** Rewriting the pair found by a map that keeps every item's name
    keeps the lookup by name. *)
Lemma find_pair_upd ps pair f :
  (forall x, dict_get (f x) "name" JNull = dict_get x "name" JNull) ->
  forall (j k : nat) p, find_pair ps pair j = Ok (Some ((j + k)%nat, p)) ->
  find_pair (upd_nth ps k f) pair j = Ok (Some ((j + k)%nat, f p)).
Proof.
  intros Hf. induction ps as [|x r IH]; intros j k p; cbn; [discriminate|].
  destruct (dict_get x "name" JNull) as [nm|] eqn:En; cbn; [|discriminate].
  destruct (is_str nm pair) eqn:Es.
  - intros [= Hk <-]. assert (k = O) as -> by lia. cbn. rewrite Hf, En. cbn. rewrite Es, Nat.add_0_r. reflexivity.
  - intros E. pose proof (find_pair_ge _ _ _ _ _ E) as G. destruct k as [|k]; [lia|].
    cbn. rewrite En. cbn. rewrite Es. replace (j + S k)%nat with (S j + k)%nat in * by lia. apply IH. exact E.
Qed.

Lemma find_pair_strs (l : list Json) pair j :
  Forall (fun x => exists s, x = JStr s) l -> find_pair l pair j = Ok None \/ exists e, find_pair l pair j = Err e.
Proof.
  destruct l as [|x r]; [left; reflexivity|]. intros F. inversion F as [|? ? [s ->] _]; subst.
  right. eexists. reflexivity.
Qed.

(** The write of a leg into the pair found keeps the lookup, which
    then finds the pair with the leg written. *)
Lemma lookup_set_leg cfg pair i p side v :
  side <> "name" -> side <> "pairs" ->
  lookup_pair cfg pair = Ok (Some (i, p)) ->
  lookup_pair (set_leg cfg i side v) pair = Ok (Some (i, set_key p side v)).
Proof.
  intros Hs Hp. unfold lookup_pair.
  destruct cfg as [| | | | |kv]; try discriminate. cbn [dict_get set_leg].
  destruct (assoc "pairs" kv) as [ps|] eqn:Ea; cbn [res_bind]; [|discriminate].
  destruct ps as [| | | s |l|kv2]; cbn [py_iter res_bind]; try discriminate.
  - intros E. destruct (find_pair_strs (map (fun c => JStr (String c EmptyString)) (list_ascii_of_string s)) pair 0)
      as [E'|[e E']]; [apply Forall_map, Forall_forall; eauto| |]; rewrite E' in E; discriminate.
  - intros E. cbn. rewrite assoc_set_same. cbn [res_bind py_iter].
    apply (find_pair_upd l pair (fun x => set_key x side v)); [|exact E].
    intros x. apply dict_get_set_other. intros H. apply Hs. symmetry. exact H.
  - intros E. destruct (find_pair_strs (map (fun q => JStr (fst q)) kv2) pair 0)
      as [E'|[e E']]; [apply Forall_map, Forall_forall; eauto| |]; rewrite E' in E; discriminate.
Qed.

(** The pair after the write of one leg. *)
Definition pdef_after (p : Json) (side : string) (leg : Json) (r : LegRes) : Json :=
  match r with
  | SetId _ => set_key p side (leg_after leg r)
  | _ => p
  end.

(** A resolved leg resolves again to [Keep]: its id is written. *)
Lemma resolve_again m leg r :
  resolve_depth_leg m leg = Ok r -> r <> Unresolved -> resolve_depth_leg m (leg_after leg r) = Ok Keep.
Proof.
  intros E Hr. destruct r as [|id|]; [exact E| |contradiction]. cbn [leg_after].
  unfold resolve_depth_leg in E |- *.
  destruct (get_key leg "exchange") as [ex|] eqn:Ex; cbn in E; [|discriminate].
  destruct (is_str ex "lighter") eqn:Hl; [|discriminate].
  rewrite get_key_set_other by discriminate. rewrite Ex. cbn [res_bind]. rewrite Hl.
  rewrite dict_get_set_same by (eapply get_key_obj; exact Ex). reflexivity.
Qed.

Lemma leg_after_Keep leg : leg_after leg Keep = leg.
Proof. reflexivity. Qed.

(** One resolution stage of [api_depth], seen by the next request: the
    lookup finds the pair with the leg written, whose other leg is
    unchanged and whose written leg resolves to [Keep]. *)
Lemma stage cfg pair i p side other leg r m :
  side <> "name" -> side <> "pairs" -> other <> side ->
  lookup_pair cfg pair = Ok (Some (i, p)) -> PyJson.truthy p = true -> get_key p side = Ok leg ->
  resolve_depth_leg m leg = Ok r -> r <> Unresolved ->
  lookup_pair (cfg_after cfg i side leg r) pair = Ok (Some (i, pdef_after p side leg r)) /\
  PyJson.truthy (pdef_after p side leg r) = true /\
  get_key (pdef_after p side leg r) side = Ok (leg_after leg r) /\
  get_key (pdef_after p side leg r) other = get_key p other /\
  resolve_depth_leg m (leg_after leg r) = Ok Keep.
Proof.
  intros Hn Hp Ho L T G R Hr. split; [|split; [|split; [|split]]].
  - destruct r; [exact L| |exact L]. apply lookup_set_leg; assumption.
  - destruct r; [exact T| |exact T]. destruct (get_key_obj _ _ _ G) as [kv ->]. apply truthy_set_key.
  - destruct r; [exact G| |exact G]. apply get_key_set_same. exact (get_key_obj _ _ _ G).
  - destruct r; [reflexivity| |reflexivity]. apply get_key_set_other. exact Ho.
  - exact (resolve_again m leg r R Hr).
Qed.

Lemma unresolved_dec r : {r = Unresolved} + {r <> Unresolved}.
Proof. destruct r; [right; discriminate|right; discriminate|left; reflexivity]. Qed.


(** Rewrite the goal with the equations of the context, reducing
    between rewrites. *)
Ltac rewrite_hyps :=
  repeat first [ match goal with H : ?x = _ |- context [?x] => progress rewrite H end
               | progress cbn [negb cfg_after leg_after res_bind written] ].

(** The second request runs the steps of the first on the state it
    left. *)
Ltac same_run :=
  intros [= <- <-]; cbn [app_cfg app_lighter_map app_db app_limiter cfg_after leg_after pdef_after] in *;
  rewrite_hyps; reflexivity.

(** C22: [GET /api/depth] is idempotent although it writes into the
    shared configuration: repeating a request on the panel state it
    left, with the same venue answers, changes nothing more and gives
    the same answer (the id written by the first request is read back
    instead of being resolved again). *)
Theorem api_depth_idempotent a pair levels ra rb a1 ans :
  api_depth a pair levels ra rb = (a1, ans) -> api_depth a1 pair levels ra rb = (a1, ans).
Proof.
  unfold api_depth. destruct (String.eqb pair EmptyString) eqn:Ep; [intros [= <- <-]; reflexivity|].
  destruct (lookup_pair (app_cfg a) pair) as [[[i p]|]|e] eqn:L; [|same_run..].
  destruct (PyJson.truthy p) eqn:T; cbn [negb]; [|same_run].
  destruct (get_key p "a") as [la|e] eqn:Ga; [|same_run].
  destruct (get_key p "b") as [lb|e] eqn:Gb; [|same_run].
  destruct (resolve_depth_leg (app_lighter_map a) la) as [r1|e] eqn:R1; [|same_run].
  destruct (unresolved_dec r1) as [->|Hr1]; [same_run|].
  destruct (stage (app_cfg a) pair i p "a" "b" la r1 (app_lighter_map a) ltac:(discriminate) ltac:(discriminate) ltac:(discriminate)
              L T Ga R1 Hr1) as (L1 & T1 & Ga1 & Gb1 & R1').
  rewrite Gb in Gb1.
  destruct (resolve_depth_leg (app_lighter_map a) lb) as [r2|e] eqn:R2;
    [|destruct r1 as [|id1|]; [same_run|same_run|contradiction]].
  destruct (unresolved_dec r2) as [->|Hr2]; [destruct r1 as [|id1|]; [same_run|same_run|contradiction]|].
  destruct (stage (cfg_after (app_cfg a) i "a" la r1) pair i (pdef_after p "a" la r1) "b" "a" lb r2 (app_lighter_map a)
              ltac:(discriminate) ltac:(discriminate) ltac:(discriminate) L1 T1 Gb1 R2 Hr2) as (L2 & T2 & Gb2 & Ga2 & R2').
  rewrite Ga1 in Ga2.
  destruct r1 as [|id1|]; [| |contradiction]; destruct r2 as [|id2|]; try contradiction;
    repeat match goal with |- context [fetch_levels ?l levels ra rb] =>
      let F := fresh "F" in destruct (fetch_levels l levels ra rb) as [?|?] eqn:F end;
    same_run.
Qed.

Lemma get_key_truthy p k x : get_key p k = Ok x -> PyJson.truthy p = true.
Proof. destruct p as [| | | | |[|kv r]]; try discriminate. reflexivity. Qed.

(** C21: Error path with a side effect: when leg [a] resolves and leg [b]
    is a Lighter leg the market map cannot resolve, [api_depth] answers
    400, yet the id of [a] stays written into [app.state.cfg], where the
    next request finds it. *)
Theorem api_depth_partial_write a pair levels ra rb i p la lb id :
  String.eqb pair EmptyString = false ->
  lookup_pair (app_cfg a) pair = Ok (Some (i, p)) ->
  get_key p "a" = Ok la -> get_key p "b" = Ok lb ->
  resolve_depth_leg (app_lighter_map a) la = Ok (SetId id) ->
  resolve_depth_leg (app_lighter_map a) lb = Ok Unresolved ->
  snd (api_depth a pair levels ra rb) = DStatus 400 /\
  lookup_pair (app_cfg (fst (api_depth a pair levels ra rb))) pair =
    Ok (Some (i, set_key p "a" (set_key la "market_id" (JNum (inject_Z id))))).
Proof.
  intros Ep L Ga Gb R1 R2. pose proof (get_key_truthy _ _ _ Ga) as T.
  unfold api_depth. rewrite Ep, L, T, Ga, Gb, R1, R2. cbn [negb snd fst app_cfg]. split; [reflexivity|].
  exact (proj1 (stage _ _ _ _ "a" "b" _ _ _ ltac:(discriminate) ltac:(discriminate) ltac:(discriminate)
                  L T Ga R1 ltac:(discriminate))).
Qed.

(** What [api_depth] makes of one leg: its exception, the 400 of an
    unresolved leg ([None]), or the leg the levels are read from. *)
Definition outcome (m : list (string * Z)) (leg : Json) : res (option Json) :=
  match resolve_depth_leg m leg with
  | Err e => Err e
  | Ok Unresolved => Ok None
  | Ok r => Ok (Some (leg_after leg r))
  end.

(** The answer of [api_depth] for the pair found, in the code's order. *)
Definition answer_of (p : Json) (m : list (string * Z)) (levels : Z) (lv av : BookService) : DepthAnswer :=
  if negb (PyJson.truthy p) then DStatus 404 else
  match get_key p "a" with
  | Err e => DRaised e
  | Ok la =>
  match get_key p "b" with
  | Err e => DRaised e
  | Ok lb =>
  match outcome m la with
  | Err e => DRaised e
  | Ok None => DStatus 400
  | Ok (Some la') =>
  match outcome m lb with
  | Err e => DRaised e
  | Ok None => DStatus 400
  | Ok (Some lb') =>
  match fetch_levels la' levels lv av with
  | Err e => DRaised e
  | Ok xa =>
  match fetch_levels lb' levels lv av with
  | Err e => DRaised e
  | Ok xb => DLevels xa xb
  end
  end
  end
  end
  end
  end.

Lemma api_depth_answer a pair levels ra rb :
  snd (api_depth a pair levels ra rb) =
  if String.eqb pair EmptyString then DStatus 400 else
  match lookup_pair (app_cfg a) pair with
  | Err e => DRaised e
  | Ok None => DStatus 404
  | Ok (Some (_, p)) => answer_of p (app_lighter_map a) levels ra rb
  end.
Proof.
  unfold api_depth, answer_of, outcome.
  repeat match goal with |- context [match ?x with _ => _ end] => destruct x end; reflexivity.
Qed.

Lemma answer_of_congr p q m levels ra rb la lb la' lb' :
  PyJson.truthy q = PyJson.truthy p ->
  get_key p "a" = Ok la -> get_key p "b" = Ok lb -> get_key q "a" = Ok la' -> get_key q "b" = Ok lb' ->
  outcome m la' = outcome m la -> outcome m lb' = outcome m lb ->
  answer_of q m levels ra rb = answer_of p m levels ra rb.
Proof. intros T Ga Gb Ga' Gb' Oa Ob. unfold answer_of. rewrite T, Ga, Gb, Ga', Gb', Oa, Ob. reflexivity. Qed.

(** [api_simulate]'s write changes nothing [api_depth] makes of a leg. *)
Lemma outcome_written m leg w : simulate_write m leg = Ok w -> outcome m (written leg w) = outcome m leg.
Proof.
  unfold simulate_write, outcome, resolve_depth_leg.
  destruct (get_key leg "exchange") as [ex|e] eqn:Ex; cbn [res_bind]; [|discriminate].
  destruct (is_str ex "lighter") eqn:Hl; [|intros [= <-]; rewrite_hyps; reflexivity].
  destruct (dict_get leg "market_id" JNull) as [mi|e] eqn:Mi; cbn [res_bind]; [|discriminate].
  destruct mi; try (intros [= <-]; rewrite_hyps; reflexivity).
  destruct (dict_get leg "symbol" JNull) as [sy|e] eqn:Sy; cbn [res_bind]; [|discriminate].
  destruct (map_lookup m sy) as [mid|e] eqn:Ml; cbn [res_bind]; [|discriminate].
  pose proof (get_key_obj _ _ _ Ex) as Ob.
  intros [= <-]. cbn [written]. rewrite get_key_set_other by discriminate. rewrite Ex. cbn [res_bind]. rewrite Hl.
  rewrite dict_get_set_same by exact Ob. destruct mid as [id|]; cbn [res_bind leg_after]; [reflexivity|].
  rewrite dict_get_set_other by discriminate. rewrite Sy. cbn [res_bind]. rewrite Ml. reflexivity.
Qed.

(** ... and fails exactly as [api_depth]'s resolution does. *)
Lemma outcome_write_err m leg e : simulate_write m leg = Err e -> outcome m leg = Err e.
Proof.
  unfold simulate_write, outcome, resolve_depth_leg.
  destruct (get_key leg "exchange") as [ex|e'] eqn:Ex; cbn [res_bind]; [|intros H; exact H].
  destruct (is_str ex "lighter"); [|discriminate].
  destruct (dict_get leg "market_id" JNull) as [mi|e'] eqn:Mi; cbn [res_bind]; [|intros H; exact H].
  destruct mi; try discriminate.
  destruct (dict_get leg "symbol" JNull) as [sy|e'] eqn:Sy; cbn [res_bind]; [|intros H; exact H].
  destruct (map_lookup m sy); cbn [res_bind]; [discriminate|intros H; exact H].
Qed.

(** The pair after the write of one leg by [api_simulate]. *)
Definition pdef_w (p : Json) (side : string) (leg : Json) (w : option Json) : Json :=
  match w with Some _ => set_key p side (written leg w) | None => p end.

Lemma wstage cfg pair i p side other leg w :
  side <> "name" -> side <> "pairs" -> other <> side ->
  lookup_pair cfg pair = Ok (Some (i, p)) -> PyJson.truthy p = true -> get_key p side = Ok leg ->
  lookup_pair (write_leg cfg i side leg w) pair = Ok (Some (i, pdef_w p side leg w)) /\
  PyJson.truthy (pdef_w p side leg w) = true /\
  get_key (pdef_w p side leg w) side = Ok (written leg w) /\
  get_key (pdef_w p side leg w) other = get_key p other.
Proof.
  intros Hn Hp Ho L T G. destruct w as [v|]; [|split; [exact L|split; [exact T|split; [exact G|reflexivity]]]].
  destruct (get_key_obj _ _ _ G) as [kv ->]. split; [|split; [|split]].
  - apply lookup_set_leg; assumption.
  - apply truthy_set_key.
  - apply get_key_set_same. eauto.
  - apply get_key_set_other. exact Ho.
Qed.

(** C20: Composition of two endpoints through the shared configuration:
    [api_simulate] writes the market map's answer into the legs of
    [app.state.cfg] (an id, or [None] when the map lacks the symbol);
    a later [api_depth] answers exactly what it answers without that
    write, whatever the venues answer for each id and symbol: the id
    written is the one [api_depth] requests the levels of. *)
Theorem depth_after_simulate a pair levels ra rb :
  snd (api_depth (fst (simulate_resolve a pair)) pair levels ra rb) = snd (api_depth a pair levels ra rb).
Proof.
  rewrite !api_depth_answer. destruct (String.eqb pair EmptyString); [reflexivity|].
  unfold simulate_resolve. cbn zeta.
  destruct (lookup_pair (app_cfg a) pair) as [[[i p]|]|e] eqn:L; cbn [fst]; try (rewrite L; reflexivity).
  destruct (PyJson.truthy p) eqn:T; cbn [negb fst]; [|rewrite L; unfold answer_of; rewrite_hyps; reflexivity].
  destruct (get_key p "a") as [la|e] eqn:Ga; [|cbn [fst]; rewrite L; unfold answer_of; rewrite_hyps; reflexivity].
  destruct (get_key p "b") as [lb|e] eqn:Gb; [|cbn [fst]; rewrite L; unfold answer_of; rewrite_hyps; reflexivity].
  destruct (simulate_write (app_lighter_map a) la) as [wa|e] eqn:Wa;
    [|cbn [fst]; rewrite L; unfold answer_of; rewrite_hyps; rewrite (outcome_write_err _ _ _ Wa); reflexivity].
  destruct (wstage (app_cfg a) pair i p "a" "b" la wa ltac:(discriminate) ltac:(discriminate) ltac:(discriminate)
              L T Ga) as (L1 & T1 & Ga1 & Gb1). rewrite Gb in Gb1.
  destruct (simulate_write (app_lighter_map a) lb) as [wb|e] eqn:Wb; cbn [fst app_cfg app_lighter_map].
  - destruct (wstage _ pair i _ "b" "a" lb wb ltac:(discriminate) ltac:(discriminate) ltac:(discriminate)
                L1 T1 Gb1) as (L2 & T2 & Gb2 & Ga2). rewrite Ga1 in Ga2.
    rewrite L2. apply (answer_of_congr _ _ _ _ _ _ _ _ _ _ (eq_trans T2 (eq_sym T)) Ga Gb Ga2 Gb2);
      apply outcome_written; assumption.
  - rewrite L1. apply (answer_of_congr _ _ _ _ _ _ _ _ _ _ (eq_trans T1 (eq_sym T)) Ga Gb Ga1 Gb1);
      [apply outcome_written; assumption | reflexivity].
Qed.

(** [api_simulate] does write into the configuration: the id of [BTC],
    and [None] for a symbol the map lacks; [api_depth] answers as before. *)
Example simulate_writes_cfg :
  app_cfg (fst (simulate_resolve (depth_app [("BTC", 1%Z)]) "BTCUSDT")) <> depth_cfg /\
  lookup_pair (app_cfg (fst (simulate_resolve app_ll "LL"))) "LL" =
    Ok (Some (0%nat, set_key (set_key pair_ll "a" (set_key leg_btc "market_id" (JNum (inject_Z 1))))
                       "b" (set_key leg_eth "market_id" JNull))) /\
  snd (api_depth (fst (simulate_resolve (depth_app [("BTC", 1%Z)]) "BTCUSDT")) "BTCUSDT" 50 lighter_book aster_book) =
    DLevels (mkLevels [(100, 2)] []) (mkLevels [(99, 1)] []).
Proof. split; [intros H; vm_compute in H; discriminate|]. split; vm_compute; reflexivity. Qed.

(** Witnesses. *)

Lemma api_depth_idempotent_witness :
  api_depth (depth_app [("BTC", 1%Z)]) "BTCUSDT" 50 lighter_book aster_book =
    (fst (api_depth (depth_app [("BTC", 1%Z)]) "BTCUSDT" 50 lighter_book aster_book),
     DLevels (mkLevels [(100, 2)] []) (mkLevels [(99, 1)] [])) /\
  api_depth (fst (api_depth (depth_app [("BTC", 1%Z)]) "BTCUSDT" 50 lighter_book aster_book)) "BTCUSDT" 50
    lighter_book aster_book =
    (fst (api_depth (depth_app [("BTC", 1%Z)]) "BTCUSDT" 50 lighter_book aster_book),
     DLevels (mkLevels [(100, 2)] []) (mkLevels [(99, 1)] [])).
Proof.
  assert (H : api_depth (depth_app [("BTC", 1%Z)]) "BTCUSDT" 50 lighter_book aster_book =
    (fst (api_depth (depth_app [("BTC", 1%Z)]) "BTCUSDT" 50 lighter_book aster_book),
     DLevels (mkLevels [(100, 2)] []) (mkLevels [(99, 1)] []))) by (vm_compute; reflexivity).
  split; [exact H | exact (api_depth_idempotent _ _ _ _ _ _ _ H)].
Defined.

Lemma api_depth_partial_write_witness :
  String.eqb "LL" EmptyString = false /\
  lookup_pair (app_cfg app_ll) "LL" = Ok (Some (0%nat, pair_ll)) /\
  get_key pair_ll "a" = Ok leg_btc /\ get_key pair_ll "b" = Ok leg_eth /\
  resolve_depth_leg (app_lighter_map app_ll) leg_btc = Ok (SetId 1) /\
  resolve_depth_leg (app_lighter_map app_ll) leg_eth = Ok Unresolved /\
  snd (api_depth app_ll "LL" 50 lighter_book aster_book) = DStatus 400 /\
  lookup_pair (app_cfg (fst (api_depth app_ll "LL" 50 lighter_book aster_book))) "LL" =
    Ok (Some (0%nat, set_key pair_ll "a" (set_key leg_btc "market_id" (JNum (inject_Z 1))))).
Proof.
  do 6 (split; [reflexivity|]).
  exact (api_depth_partial_write app_ll "LL" 50 lighter_book aster_book 0 pair_ll leg_btc leg_eth 1
           eq_refl eq_refl eq_refl eq_refl eq_refl eq_refl).
Defined.

End DepthTheory.
