(* ===== verification/Iteration.v ===== *)
(** * One iteration of a pair task with its connector calls

    [Poller.tick] takes the answers of an iteration as input [TickIO].
    Here the iteration of [poll_pair_with_store]
    ([src/arb/runner_reminder.py], lines 84-326) makes those calls: each
    connector method of [Venue] runs on the limiter and on the Lighter
    connector's market cache, both shared by every pair task, and each
    call that takes a token records it.  The venues' answers and the
    clock readings of the limiter calls are the input; the output is the
    tick's result, the shared state after the iteration and the calls
    it made.  Any number of iterations of any tasks interleave through
    that shared state ([run_iterations]). *)

From stdpp Require Import base gmap strings.
From Stdlib Require Import String QArith Lqa ZArith Lia List.
From S2P Require Import Prelude PyJson RateLimiter Venue Signals Poller.
Import ListNotations.

Open Scope py_scope.

Module Iteration.
Import PyJson VenueTypes Limiter Poller.

(** [depth_levels] and [cycle_hours.get("lighter", 8)] of the loop's
    configuration (lines 74, 79). *)
Record FetchCfg := mkFetchCfg {
  depth_levels : Z;
  lighter_cycle_hours : Z
}.

(** The answers the venue of one leg gives during one iteration, and the
    wall-clock readings the leg's calls take. *)
Record LegAnswers := mkAnswers {
  ans_t0 : Z;
  ans_mid : res Json;
  ans_t1 : Z;
  ans_summary : res Json;
  ans_stats : res Json;
  ans_books : res Json;
  ans_funding : res Json;
  ans_rates : res (list Lighter.FundingRate);
  ans_clock_s : Q
}.

(** The state the pair tasks share: the limiter, Lighter's
    [_books_cache], the monotonic-clock readings of the coming limiter
    calls (each with the readings after its sleeps), and the limiter
    calls made so far. *)
Record Env := mkEnv {
  env_lim : RateLimiter;
  env_books : option Json;
  env_clock : list (Q * list Q);
  env_trace : list Req
}.

(** A connector call that takes one token of [ex:ep]: the connector
    method [f] runs on the limiter at the next clock reading.  [None]:
    no reading left, or the call still waiting for its token. *)
Definition call {A} (e : Env) (ex ep : string) (f : RateLimiter -> Q -> list Q -> option (RateLimiter * A))
    : option (A * Env) :=
  match env_clock e with
  | [] => None
  | (now, w) :: cs =>
      match f (env_lim e) now w with
      | None => None
      | Some (l', a) => Some (a, mkEnv l' (env_books e) cs (env_trace e ++ [(ex, ep, 1%Z, now, w)]))
      end
  end.

(** [conn.get_mid_price(symbol=..., market_id=...)] of a leg. *)
Definition fetch_mid (e : Env) (m : Market) (a : LegAnswers) : option (res Q * Env) :=
  if String.eqb (exchange m) "lighter" then
    match market_id m with
    | None => Some (Err ValueError, e)
    | Some id => call e "lighter" "global" (fun l now w => Lighter.get_mid_price l (Some id) now w (ans_mid a))
    end
  else call e "aster" "global" (fun l now w => Aster.get_mid_price l now w (ans_mid a)).

(** [str(ob.get("symbol"))] ([PyJson.py_str_json], as in
    [Lighter.symbol_is]); printing a float, a list or a dict is not
    modelled ([TypeError]). *)
Definition str_symbol (j : Json) : res string :=
  match py_str_json j with
  | Some s => Ok s
  | None => Err TypeError
  end.

(** [mapping[sym] = mid] on a [Dict[str, int]]: the entry of [sym] is
    replaced in place, or appended. *)
Fixpoint dict_set_z (m : list (string * Z)) (k : string) (v : Z) : list (string * Z) :=
  match m with
  | [] => [(k, v)]
  | (k', v') :: r => if String.eqb k' k then (k', v) :: r else (k', v') :: dict_set_z r k v
  end.

(** The loop of [fetch_market_map] (lighter.py lines 70-73) from the
    mapping built so far. *)
Fixpoint mapping_loop (obs : list Json) (mapping : list (string * Z)) : res (list (string * Z)) :=
  match obs with
  | [] => Ok mapping
  | ob :: r =>
      let* sj := dict_get ob "symbol" JNull in
      let* sym := str_symbol sj in
      let* mj := dict_get ob "market_id" JNull in
      let* mid := to_int mj in
      mapping_loop r (dict_set_z mapping sym mid)
  end.

(** [mapping = {}; for ob in books: ...; return mapping] (lines 69-74). *)
Definition market_map_loop (books : Json) : res (list (string * Z)) :=
  let* obs := py_iter books in
  mapping_loop obs [].

(** [fetch_market_map] (lighter.py lines 55-74): one token of
    ["lighter:global"]; the cache is set to the answer's
    ["order_books"] before the mapping loop runs. *)
Definition fetch_market_map (l : RateLimiter) (now : Q) (w : list Q) (resp : res Json)
    : option (RateLimiter * (option Json * res (list (string * Z)))) :=
  match allow l "lighter" "global" 1 now w with
  | None => None
  | Some l' =>
      Some (l', match (let* data := resp in dict_get data "order_books" (JArr [])) with
                | Err ex => (None, Err ex)
                | Ok books => (Some books, market_map_loop books)
                end)
  end.

(** The scan of [get_fees] over the cache (lines 146-156). *)
Definition fees_of_cache (c : option Json) (symbol : string) : res Fees :=
  match c with
  | Some books =>
      if PyJson.truthy books then let* obs := py_iter books in Lighter.fees_scan obs symbol
      else Ok (mkFees None None)
  | None => Ok (mkFees None None)
  end.

(** [LighterConnector.get_fees(symbol)] (lines 142-156): fills the cache
    through [fetch_market_map] when it is [None]; an exception of that
    call propagates. *)
Definition lighter_get_fees (e : Env) (symbol : string) (resp : res Json) : option (res Fees * Env) :=
  match env_books e with
  | Some _ => Some (fees_of_cache (env_books e) symbol, e)
  | None =>
      match call e "lighter" "global" (fun l now w => fetch_market_map l now w resp) with
      | None => None
      | Some ((c, r), e1) =>
          let e2 := mkEnv (env_lim e1) (match c with Some _ => c | None => env_books e1 end)
                      (env_clock e1) (env_trace e1) in
          match r with
          | Err ex => Some (Err ex, e2)
          | Ok _ => Some (fees_of_cache (env_books e2) symbol, e2)
          end
      end
  end.

(** A call the iteration does not make; [tick] never reads it. *)
Definition not_called {A} : res A := Err RuntimeError.

(** The order-book summary, 24h quote volume and fees of a leg (lines
    121-163): both requests of the [asyncio.gather] are made; Lighter's
    fees are read only when both succeeded.  When both fail, the model
    reports the summary's exception (the code reports the first to be
    raised). *)
Definition fetch_extras (fc : FetchCfg) (e : Env) (m : Market) (a : LegAnswers)
    : option ((res OBSummary * res Q * res Fees) * Env) :=
  if String.eqb (exchange m) "lighter" then
    match call e "lighter" "global"
            (fun l now w => Lighter.get_order_book_summary l (depth_levels fc) now w (ans_summary a)) with
    | None => None
    | Some (rs, e1) =>
        let rv := let* st := Lighter.get_24h_stats (ans_stats a) in Ok (quote_volume st) in
        match rs, rv with
        | Ok _, Ok _ =>
            match lighter_get_fees e1 (symbol m) (ans_books a) with
            | None => None
            | Some (rf, e2) => Some ((rs, rv, rf), e2)
            end
        | _, _ => Some ((rs, rv, not_called), e1)
        end
    end
  else
    match call e "aster" "depth"
            (fun l now w => Aster.get_order_book_summary l (depth_levels fc) now w (ans_summary a)) with
    | None => None
    | Some (rs, e1) =>
        match call e1 "aster" "global" (fun l now w => Aster.get_24h_stats l now w (ans_stats a)) with
        | None => None
        | Some (rst, e2) => Some ((rs, (let* st := rst in Ok (quote_volume st)), not_called), e2)
        end
    end.

(** [get_funding_info] of a leg (lines 219-241, inside [try]). *)
Definition fetch_funding (fc : FetchCfg) (e : Env) (m : Market) (a : LegAnswers) : option (res FundingInfo * Env) :=
  if String.eqb (exchange m) "aster" then
    call e "aster" "global" (fun l now w => Aster.get_funding_info l now w (ans_funding a))
  else Some (Lighter.get_funding_info (ans_rates a) (symbol m) (lighter_cycle_hours fc) (ans_clock_s a), e).

(** The [LegIO] of the calls made. *)
Definition leg_io (a : LegAnswers) (mid : res Q) (x : res OBSummary * res Q * res Fees) (f : res FundingInfo)
    : LegIO :=
  let '(s, v, fe) := x in mkLegIO (ans_t0 a) mid (ans_t1 a) s v fe f.

Definition no_extras : res OBSummary * res Q * res Fees := (not_called, not_called, not_called).

Definition extras_ok (cfg : PollCfg) (m : Market) (a : LegAnswers) (mid : res Q)
    (x : res OBSummary * res Q * res Fees) : bool :=
  match leg_extras (aster_fees cfg) m (leg_io a mid x not_called) with Ok _ => true | Err _ => false end.

(** [tick] on the results of the calls made, with the shared state they
    left. *)
Definition finish `{PyMath} (cfg : PollCfg) (p : Pair) (st : PollState) (io : TickIO) (e : Env)
    : option (PollState * TickOut * Env) :=
  let '(st', out) := tick cfg p st io in Some (st', out, e).

(** The venue whose ["global"] bucket the mid-price read of a leg
    draws from, if it takes a token ([fetch_mid]). *)
Definition mid_venue (m : Market) : option string :=
  if String.eqb (exchange m) "lighter" then
    match market_id m with Some _ => Some "lighter"%string | None => None end
  else Some "aster"%string.

Definition opt_eqb (o : option string) (v : string) : bool :=
  match o with Some x => String.eqb x v | None => false end.

(** A pair task whose iterations read a leg on venue [v] with a token. *)
Definition polls (v : string) (p : Pair) : bool :=
  has_conn (exchange (leg_a p)) && has_conn (exchange (leg_b p)) &&
  (opt_eqb (mid_venue (leg_a p)) v || opt_eqb (mid_venue (leg_b p)) v).

(** One iteration of the loop at shared state [e]: the calls in the
    order the code makes them, then [tick] on their results.  [db] is
    the result of [insert_spread]. *)
Definition iterate `{PyMath} (fc : FetchCfg) (cfg : PollCfg) (p : Pair) (st : PollState) (e : Env)
    (aa ab : LegAnswers) (db : res unit) : option (PollState * TickOut * Env) :=
  let io0 := mkTickIO (leg_io aa not_called no_extras not_called) (leg_io ab not_called no_extras not_called) db in
  if negb (has_conn (exchange (leg_a p))) || negb (has_conn (exchange (leg_b p))) then
    finish cfg p st io0 e
  else
  match fetch_mid e (leg_a p) aa with
  | None => None
  | Some (ma, e1) =>
  match fetch_mid e1 (leg_b p) ab with
  | None => None
  | Some (mb, e2) =>
  match ma, mb with
  | Ok _, Ok _ =>
      match fetch_extras fc e2 (leg_a p) aa with
      | None => None
      | Some (xa, e3) =>
      if negb (extras_ok cfg (leg_a p) aa ma xa) then
        finish cfg p st (mkTickIO (leg_io aa ma xa not_called) (leg_io ab mb no_extras not_called) db) e3
      else
      match fetch_extras fc e3 (leg_b p) ab with
      | None => None
      | Some (xb, e4) =>
      match db with
      | Ok _ =>
          if extras_ok cfg (leg_b p) ab mb xb && ingest cfg then
            match fetch_funding fc e4 (leg_a p) aa with
            | None => None
            | Some (fa, e5) =>
            match fetch_funding fc e5 (leg_b p) ab with
            | None => None
            | Some (fb, e6) => finish cfg p st (mkTickIO (leg_io aa ma xa fa) (leg_io ab mb xb fb) db) e6
            end
            end
          else finish cfg p st (mkTickIO (leg_io aa ma xa not_called) (leg_io ab mb xb not_called) db) e4
      | Err _ => finish cfg p st (mkTickIO (leg_io aa ma xa not_called) (leg_io ab mb xb not_called) db) e4
      end
      end
      end
  | _, _ => finish cfg p st (mkTickIO (leg_io aa ma no_extras not_called) (leg_io ab mb no_extras not_called) db) e2
  end
  end
  end.

(** Iterations of any pair tasks in any order on the shared state: each
    step names the pair, its task's state, the answers and the database
    result. *)
Record Step := mkStep {
  step_pair : Pair;
  step_state : PollState;
  step_a : LegAnswers;
  step_b : LegAnswers;
  step_db : res unit
}.

Fixpoint run_iterations `{PyMath} (fc : FetchCfg) (cfg : PollCfg) (e : Env) (steps : list Step)
    : option (list TickOut * Env) :=
  match steps with
  | [] => Some ([], e)
  | s :: ss =>
      match iterate fc cfg (step_pair s) (step_state s) e (step_a s) (step_b s) (step_db s) with
      | None => None
      | Some (_, out, e1) =>
          match run_iterations fc cfg e1 ss with
          | Some (outs, e2) => Some (out :: outs, e2)
          | None => None
          end
      end
  end.

(** Inputs used to run the model: every answer an HTTP error; a pair of
    two Aster legs; a resolved Lighter leg; the limiter of the admin
    configuration ["aster:global"] = (2, 1/s). *)
Definition answers_err : LegAnswers :=
  mkAnswers 0 (Err HTTPError) 0 (Err HTTPError) (Err HTTPError) (Err HTTPError) (Err HTTPError) (Err HTTPError) 0.

Definition aster_pair : Pair := mkPair "BTC" (mkMarket "aster" "BTCUSDT" None) (mkMarket "aster" "BTCUSDT" None).

Definition lighter_leg : Market := mkMarket "lighter" "ETH" (Some 0%Z).

Definition stats_answers : LegAnswers :=
  mkAnswers 0 (Err HTTPError) 0 (Err HTTPError) (Ok (JObj [("order_book_details"%string, JArr [])]))
    (Err HTTPError) (Err HTTPError) (Ok []) 0.

Definition env0 : Env := mkEnv (fst (update empty_limiter admin_cfg 0)) (Some (JArr [])) [(0, []); (0, [])] [].

Definition fetch_cfg0 : FetchCfg := mkFetchCfg 5 8.

End Iteration.

Module IterationTheory.
Import PyJson VenueTypes Bucket Limiter LimiterTheory Poller Iteration.

(** [e'] extends [e] by the calls [tr]: the trace grows by [tr], the
    limiter is the run of [tr] from the limiter of [e], every call
    weighs one token, and a filled Lighter cache keeps its books. *)
Definition advances (e e' : Env) (tr : list Req) : Prop :=
  env_trace e' = env_trace e ++ tr /\
  (exists ids, run_allow (env_lim e) tr = Some (env_lim e', ids)) /\
  Forall (fun r => req_weight r = 1%Z) tr /\
  (forall books, env_books e = Some books -> env_books e' = Some books).

Lemma advances_refl e : advances e e [].
Proof. split; [rewrite app_nil_r; reflexivity|]. split; [exists []; reflexivity|]. split; [constructor | auto]. Qed.

Lemma advances_trans e1 e2 e3 t1 t2 : advances e1 e2 t1 -> advances e2 e3 t2 -> advances e1 e3 (t1 ++ t2).
Proof.
  intros (H1 & (i1 & R1) & W1 & B1) (H2 & (i2 & R2) & W2 & B2). split; [rewrite H2, H1, app_assoc; reflexivity|].
  split; [exists (i1 ++ i2); exact (run_allow_app _ _ _ _ _ _ _ R1 R2)|].
  split; [apply Forall_app; split; assumption | auto].
Qed.

(** Only the limiter, the trace and a filled cache matter to [advances]. *)
Lemma advances_same e e1 e2 tr :
  advances e e1 tr -> env_lim e2 = env_lim e1 -> env_trace e2 = env_trace e1 ->
  (forall books, env_books e = Some books -> env_books e2 = Some books) -> advances e e2 tr.
Proof.
  unfold advances. intros (H1 & (ids & R) & W & _) -> -> B. split; [exact H1|].
  split; [exists ids; exact R|]. split; [exact W | exact B].
Qed.

Lemma count_key_app k t1 t2 : count_key k (t1 ++ t2) = (count_key k t1 + count_key k t2)%nat.
Proof. unfold count_key. rewrite List.filter_app, length_app. reflexivity. Qed.

(** The connector methods that take a token take it from [ex:ep] first. *)
Lemma allow_then {A} l ex ep now w (g : A) l' y :
  (match allow l ex ep 1 now w with None => None | Some l1 => Some (l1, g) end) = Some (l', y) ->
  allow l ex ep 1 now w = Some l'.
Proof. destruct (allow l ex ep 1 now w); [intros H; injection H as <- _; reflexivity | discriminate]. Qed.

Lemma call_advances {A} e ex ep (f : RateLimiter -> Q -> list Q -> option (RateLimiter * A)) x e' :
  (forall l now w l' y, f l now w = Some (l', y) -> allow l ex ep 1 now w = Some l') ->
  call e ex ep f = Some (x, e') ->
  env_books e' = env_books e /\ exists now w, advances e e' [(ex, ep, 1%Z, now, w)].
Proof.
  intros Hf E. unfold call in E. destruct (env_clock e) as [|[now w] cs]; [discriminate|].
  destruct (f (env_lim e) now w) as [[l' y]|] eqn:Ef; [|discriminate]. injection E as _ <-.
  split; [reflexivity|]. exists now, w. split; [reflexivity|].
  destruct (run_allow_single _ _ _ _ _ _ _ (Hf _ _ _ _ _ Ef)) as [id R].
  split; [exists [id]; exact R|]. split; [repeat constructor | auto].
Qed.

(** The tactic for the labels: unfold the connector method and read the
    token it takes. *)
Ltac label_of f := intros ? ? ? ? ? H; unfold f in H; eapply allow_then; exact H.

Lemma fetch_mid_advances e m a r e' :
  fetch_mid e m a = Some (r, e') ->
  env_books e' = env_books e /\
  exists tr, advances e e' tr /\
    (forall v, opt_eqb (mid_venue m) v = true -> count_key (key v "global") tr = 1%nat).
Proof.
  unfold fetch_mid, mid_venue. destruct (String.eqb (exchange m) "lighter") eqn:Hl.
  - destruct (market_id m) as [id|].
    + intros E. destruct (call_advances _ _ _ _ _ _ ltac:(label_of Lighter.get_mid_price) E) as (Hb & now & w & H).
      split; [exact Hb|]. exists [("lighter", "global", 1%Z, now, w)]. split; [exact H|].
      intros v Hv. apply String.eqb_eq in Hv. subst v. unfold count_key. cbn. rewrite String.eqb_refl. reflexivity.
    + intros E. injection E as _ <-. split; [reflexivity|]. exists []. split; [apply advances_refl | discriminate].
  - intros E. destruct (call_advances _ _ _ _ _ _ ltac:(label_of Aster.get_mid_price) E) as (Hb & now & w & H).
    split; [exact Hb|]. exists [("aster", "global", 1%Z, now, w)]. split; [exact H|].
    intros v Hv. apply String.eqb_eq in Hv. subst v. unfold count_key. cbn. rewrite String.eqb_refl. reflexivity.
Qed.

Lemma fetch_market_map_label resp : forall l now w l' y,
  fetch_market_map l now w resp = Some (l', y) -> allow l "lighter" "global" 1 now w = Some l'.
Proof. label_of fetch_market_map. Qed.

Lemma lighter_get_fees_advances e symbol resp r e' :
  lighter_get_fees e symbol resp = Some (r, e') -> exists tr, advances e e' tr.
Proof.
  unfold lighter_get_fees. destruct (env_books e) eqn:Hb.
  - intros E. injection E as _ <-. exists []. apply advances_refl.
  - destruct (call e _ _ _) as [[[c r0] e1]|] eqn:E1; [|discriminate].
    destruct (call_advances _ _ _ _ _ _ (fetch_market_map_label resp) E1) as (_ & now & w & H).
    intros E. exists [("lighter", "global", 1%Z, now, w)].
    destruct r0; injection E as _ <-;
      (eapply advances_same; [exact H | reflexivity | reflexivity | rewrite Hb; discriminate]).
Qed.

Lemma fetch_extras_advances fc e m a x e' :
  fetch_extras fc e m a = Some (x, e') -> exists tr, advances e e' tr.
Proof.
  unfold fetch_extras. destruct (String.eqb (exchange m) "lighter").
  - destruct (call e _ _ _) as [[rs e1]|] eqn:E1; [|discriminate].
    destruct (call_advances _ _ _ _ _ _ ltac:(label_of Lighter.get_order_book_summary) E1) as (_ & now & w & H1).
    destruct rs; [destruct (Lighter.get_24h_stats (ans_stats a)) as [st|]; cbn [res_bind]|].
    + destruct (lighter_get_fees e1 _ _) as [[rf e2]|] eqn:E2; [|discriminate].
      intros E. injection E as _ <-. destruct (lighter_get_fees_advances _ _ _ _ _ E2) as [tr2 H2].
      eexists. exact (advances_trans _ _ _ _ _ H1 H2).
    + intros E. injection E as _ <-. eexists. exact H1.
    + intros E. injection E as _ <-. eexists. exact H1.
  - destruct (call e _ _ _) as [[rs e1]|] eqn:E1; [|discriminate].
    destruct (call_advances _ _ _ _ _ _ ltac:(label_of Aster.get_order_book_summary) E1) as (_ & n1 & w1 & H1).
    destruct (call e1 _ _ _) as [[rst e2]|] eqn:E2; [|discriminate].
    destruct (call_advances _ _ _ _ _ _ ltac:(label_of Aster.get_24h_stats) E2) as (_ & n2 & w2 & H2).
    intros E. injection E as _ <-. eexists. exact (advances_trans _ _ _ _ _ H1 H2).
Qed.

Lemma fetch_funding_advances fc e m a r e' :
  fetch_funding fc e m a = Some (r, e') -> exists tr, advances e e' tr.
Proof.
  unfold fetch_funding. destruct (String.eqb (exchange m) "aster").
  - intros E. destruct (call_advances _ _ _ _ _ _ ltac:(label_of Aster.get_funding_info) E) as (_ & now & w & H).
    eexists. exact H.
  - intros E. injection E as _ <-. exists []. apply advances_refl.
Qed.

Lemma finish_env `{PyMath} cfg p st io e st' out e' :
  finish cfg p st io e = Some (st', out, e') -> e' = e.
Proof. unfold finish. destruct (tick cfg p st io). intros E. injection E as _ _ <-. reflexivity. Qed.

(** Closes an iteration that ends at [finish] without further calls. *)
Ltac fin := let E := fresh "E" in intros E; apply finish_env in E; subst; eexists; apply advances_refl.

(** The calls after both mid-prices. *)
Lemma iterate_tail_advances `{PyMath} fc cfg p st e2 aa ab db ma mb st' out e' :
  match ma, mb with
  | Ok _, Ok _ =>
      match fetch_extras fc e2 (leg_a p) aa with
      | None => None
      | Some (xa, e3) =>
      if negb (extras_ok cfg (leg_a p) aa ma xa) then
        finish cfg p st (mkTickIO (leg_io aa ma xa not_called) (leg_io ab mb no_extras not_called) db) e3
      else
      match fetch_extras fc e3 (leg_b p) ab with
      | None => None
      | Some (xb, e4) =>
      match db with
      | Ok _ =>
          if extras_ok cfg (leg_b p) ab mb xb && ingest cfg then
            match fetch_funding fc e4 (leg_a p) aa with
            | None => None
            | Some (fa, e5) =>
            match fetch_funding fc e5 (leg_b p) ab with
            | None => None
            | Some (fb, e6) => finish cfg p st (mkTickIO (leg_io aa ma xa fa) (leg_io ab mb xb fb) db) e6
            end
            end
          else finish cfg p st (mkTickIO (leg_io aa ma xa not_called) (leg_io ab mb xb not_called) db) e4
      | Err _ => finish cfg p st (mkTickIO (leg_io aa ma xa not_called) (leg_io ab mb xb not_called) db) e4
      end
      end
      end
  | _, _ => finish cfg p st (mkTickIO (leg_io aa ma no_extras not_called) (leg_io ab mb no_extras not_called) db) e2
  end = Some (st', out, e') ->
  exists tr, advances e2 e' tr.
Proof.
  destruct ma, mb; try fin.
  destruct (fetch_extras fc e2 (leg_a p) aa) as [[xa e3]|] eqn:E3; [|discriminate].
  destruct (fetch_extras_advances _ _ _ _ _ _ E3) as [t3 A3].
  destruct (negb _).
  - intros E. apply finish_env in E. subst. eexists. exact A3.
  - destruct (fetch_extras fc e3 (leg_b p) ab) as [[xb e4]|] eqn:E4; [|discriminate].
    destruct (fetch_extras_advances _ _ _ _ _ _ E4) as [t4 A4].
    pose proof (advances_trans _ _ _ _ _ A3 A4) as A34.
    destruct db; [destruct (_ && _)|].
    + destruct (fetch_funding fc e4 (leg_a p) aa) as [[fa e5]|] eqn:E5; [|discriminate].
      destruct (fetch_funding fc e5 (leg_b p) ab) as [[fb e6]|] eqn:E6; [|discriminate].
      destruct (fetch_funding_advances _ _ _ _ _ _ E5) as [t5 A5].
      destruct (fetch_funding_advances _ _ _ _ _ _ E6) as [t6 A6].
      intros E. apply finish_env in E. subst. eexists.
      exact (advances_trans _ _ _ _ _ A34 (advances_trans _ _ _ _ _ A5 A6)).
    + intros E. apply finish_env in E. subst. eexists. exact A34.
    + intros E. apply finish_env in E. subst. eexists. exact A34.
Qed.

(** An iteration makes calls that the limiter serves in order; an
    iteration of a pair that reads a leg of venue [v] with a token calls
    ["v:global"] at least once (its mid-price). *)
Lemma iterate_advances `{PyMath} fc cfg p st e aa ab db st' out e' v :
  iterate fc cfg p st e aa ab db = Some (st', out, e') ->
  exists tr, advances e e' tr /\ (polls v p = true -> (1 <= count_key (key v "global") tr)%nat).
Proof.
  unfold iterate. destruct (negb _ || negb _) eqn:Hc.
  - intros E. apply finish_env in E. subst. exists []. split; [apply advances_refl|].
    unfold polls. destruct (has_conn _), (has_conn _); discriminate.
  - destruct (fetch_mid e (leg_a p) aa) as [[ma e1]|] eqn:E1; [|discriminate].
    destruct (fetch_mid e1 (leg_b p) ab) as [[mb e2]|] eqn:E2; [|discriminate].
    destruct (fetch_mid_advances _ _ _ _ _ E1) as (_ & t1 & A1 & C1).
    destruct (fetch_mid_advances _ _ _ _ _ E2) as (_ & t2 & A2 & C2).
    intros E. destruct (iterate_tail_advances _ _ _ _ _ _ _ _ _ _ _ _ _ E) as [t3 A3].
    exists (t1 ++ t2 ++ t3). split; [exact (advances_trans _ _ _ _ _ A1 (advances_trans _ _ _ _ _ A2 A3))|].
    intros Hp. rewrite !count_key_app. unfold polls in Hp.
    destruct (opt_eqb (mid_venue (leg_a p)) v) eqn:Ea; [rewrite (C1 v Ea); lia|].
    destruct (opt_eqb (mid_venue (leg_b p)) v) eqn:Eb; [rewrite (C2 v Eb); lia|].
    rewrite !andb_false_r in Hp. discriminate.
Qed.

Lemma run_iterations_advances `{PyMath} fc cfg e steps outs e' v :
  run_iterations fc cfg e steps = Some (outs, e') ->
  exists tr, advances e e' tr /\
    (length (List.filter (fun s => polls v (step_pair s)) steps) <= count_key (key v "global") tr)%nat.
Proof.
  revert e outs. induction steps as [|s ss IH]; intros e outs E; cbn in E.
  - injection E as _ <-. exists []. split; [apply advances_refl | cbn; lia].
  - destruct (iterate fc cfg _ _ e _ _ _) as [[[st1 out1] e1]|] eqn:E1; [|discriminate].
    destruct (run_iterations fc cfg e1 ss) as [[outs1 e2]|] eqn:E2; [|discriminate]. injection E as _ <-.
    destruct (iterate_advances _ _ _ _ _ _ _ _ _ _ _ v E1) as (t1 & A1 & C1).
    destruct (IH _ _ E2) as (t2 & A2 & C2).
    exists (t1 ++ t2). split; [exact (advances_trans _ _ _ _ _ A1 A2)|].
    rewrite count_key_app. cbn [List.filter]. destruct (polls v (step_pair s)); cbn [length]; [specialize (C1 eq_refl)|]; lia.
Qed.

(** The calls of a run that extends [e] take from a key that refers to
    a bucket at most its capacity plus its refill over the time elapsed. *)
Lemma advances_bounded e e' tr k id b :
  limiter_wf (env_lim e) -> dict (env_lim e) !! k = Some id ->
  heap (env_lim e) !! id = Some b -> bucket_ok b -> advances e e' tr ->
  exists b', heap (env_lim e') !! id = Some b' /\
    inject_Z (Z.of_nat (count_key k tr)) <= inject_Z (capacity b) + refill_rate b * (last b' - last b).
Proof.
  intros Hwf Hk Hb Hok (_ & (ids & R) & W & _).
  destruct (granted_le _ _ _ _ _ _ Hwf Hb Hok R) as (b' & Hb' & G).
  exists b'. split; [exact Hb'|]. pose proof (granted_ge_count _ _ _ _ _ _ Hwf Hk R W). lra.
Qed.

(** C13: Safety, end to end: over any interleaving of iterations of the
    pair tasks sharing a limiter whose key ["v:global"] refers to a
    bucket, the number of iterations of pairs that read a leg of venue
    [v] with a token is at most that bucket's capacity plus its refill
    rate times the time elapsed: the limiter bounds their polling rate. *)
Theorem polling_bounded `{PyMath} fc cfg e steps outs e' v id b :
  limiter_wf (env_lim e) -> dict (env_lim e) !! key v "global" = Some id ->
  heap (env_lim e) !! id = Some b -> bucket_ok b ->
  run_iterations fc cfg e steps = Some (outs, e') ->
  exists b', heap (env_lim e') !! id = Some b' /\
    inject_Z (Z.of_nat (length (List.filter (fun s => polls v (step_pair s)) steps)))
      <= inject_Z (capacity b) + refill_rate b * (last b' - last b).
Proof.
  intros Hwf Hk Hb Hok E. destruct (run_iterations_advances _ _ _ _ _ _ v E) as (tr & A & C).
  destruct (advances_bounded _ _ _ _ _ _ Hwf Hk Hb Hok A) as (b' & Hb' & G).
  exists b'. split; [exact Hb'|].
  assert (inject_Z (Z.of_nat (length (List.filter (fun s => polls v (step_pair s)) steps)))
          <= inject_Z (Z.of_nat (count_key (key v "global") tr))) by (rewrite <- Zle_Qle; lia).
  lra.
Qed.

(** C19: Code bug (limiter bypass): with its market cache filled, the
    extras of a Lighter leg take one token of ["lighter:global"], for the
    order-book summary, while also using the answer of the 24h-stats
    request; and Lighter's funding read takes none. *)
Theorem lighter_requests_without_token fc e m a x e' r e'' :
  String.eqb (exchange m) "lighter" = true -> env_books e <> None ->
  fetch_extras fc e m a = Some (x, e') ->
  fetch_funding fc e' m a = Some (r, e'') ->
  (exists now w, advances e e' [("lighter", "global", 1%Z, now, w)]) /\
  snd (fst x) = (let* st := Lighter.get_24h_stats (ans_stats a) in Ok (quote_volume st)) /\
  e'' = e' /\ r = Lighter.get_funding_info (ans_rates a) (symbol m) (lighter_cycle_hours fc) (ans_clock_s a).
Proof.
  intros Hl Hc. unfold fetch_extras, fetch_funding. rewrite Hl.
  assert (Ha : String.eqb (exchange m) "aster" = false)
    by (apply String.eqb_eq in Hl; rewrite Hl; reflexivity). rewrite Ha.
  destruct (call e _ _ _) as [[rs e1]|] eqn:E1; [|discriminate].
  destruct (call_advances _ _ _ _ _ _ ltac:(label_of Lighter.get_order_book_summary) E1) as (Hb1 & now & w & H1).
  intros Ex Ef. injection Ef as <- <-. split; [|split; [|split; reflexivity]].
  - exists now, w. destruct rs, (Lighter.get_24h_stats (ans_stats a)); cbn [res_bind] in Ex;
      try (injection Ex as _ <-; exact H1).
    unfold lighter_get_fees in Ex. rewrite Hb1 in Ex. destruct (env_books e); [|contradiction].
    injection Ex as _ <-. exact H1.
  - destruct rs, (Lighter.get_24h_stats (ans_stats a)); cbn [res_bind] in Ex |- *;
      try (injection Ex as <- _; reflexivity).
    unfold lighter_get_fees in Ex. rewrite Hb1 in Ex. destruct (env_books e); [|contradiction].
    injection Ex as <- _. reflexivity.
Qed.

(** Witnesses. *)

Lemma polling_bounded_witness :
  limiter_wf (env_lim env0) /\ dict (env_lim env0) !! key "aster" "global" = Some 1%positive /\
  heap (env_lim env0) !! 1%positive = Some (new_bucket 2 1 0) /\ bucket_ok (new_bucket 2 1 0) /\
  match @run_iterations qmath fetch_cfg0 s1_cfg env0 [mkStep aster_pair s1_state answers_err answers_err (Ok tt)] with
  | Some (outs, e') =>
      count_key (key "aster" "global") (env_trace e') = 2%nat /\
      exists b', heap (env_lim e') !! 1%positive = Some b' /\
        inject_Z (Z.of_nat (length (List.filter (fun s => polls "aster" (step_pair s))
                                      [mkStep aster_pair s1_state answers_err answers_err (Ok tt)])))
          <= inject_Z (capacity (new_bucket 2 1 0)) + refill_rate (new_bucket 2 1 0) * (last b' - last (new_bucket 2 1 0))
  | None => False
  end.
Proof.
  assert (Hwf : limiter_wf (env_lim env0)) by exact (proj1 (update_mono empty_limiter admin_cfg 0 empty_limiter_wf)).
  assert (Hk : dict (env_lim env0) !! key "aster" "global" = Some 1%positive) by (vm_compute; reflexivity).
  assert (Hb : heap (env_lim env0) !! 1%positive = Some (new_bucket 2 1 0)) by (vm_compute; reflexivity).
  assert (Hok : bucket_ok (new_bucket 2 1 0)) by (unfold bucket_ok; vm_compute; repeat split; discriminate).
  split; [exact Hwf|]. split; [exact Hk|]. split; [exact Hb|]. split; [exact Hok|].
  destruct (run_iterations _ _ _ _) as [[outs e']|] eqn:E; [|vm_compute in E; discriminate].
  split; [vm_compute in E; injection E as _ <-; reflexivity|].
  exact (@polling_bounded qmath _ _ _ _ _ _ "aster" _ _ Hwf Hk Hb Hok E).
Defined.

Lemma lighter_requests_without_token_witness :
  String.eqb (exchange lighter_leg) "lighter" = true /\ env_books env0 <> None /\
  match fetch_extras fetch_cfg0 env0 lighter_leg stats_answers with
  | Some (x, e') =>
      match fetch_funding fetch_cfg0 e' lighter_leg stats_answers with
      | Some (r, e'') =>
          (exists now w, advances env0 e' [("lighter", "global", 1%Z, now, w)]) /\
          snd (fst x) = (let* st := Lighter.get_24h_stats (ans_stats stats_answers) in Ok (quote_volume st)) /\
          e'' = e' /\
          r = Lighter.get_funding_info (ans_rates stats_answers) (symbol lighter_leg) (lighter_cycle_hours fetch_cfg0)
                (ans_clock_s stats_answers)
      | None => False
      end
  | None => False
  end.
Proof.
  assert (Hl : String.eqb (exchange lighter_leg) "lighter" = true) by reflexivity.
  assert (Hc : env_books env0 <> None) by discriminate.
  split; [exact Hl|]. split; [exact Hc|].
  destruct (fetch_extras _ _ _ _) as [[x e']|] eqn:E1; [|vm_compute in E1; discriminate].
  destruct (fetch_funding _ e' _ _) as [[r e'']|] eqn:E2.
  - exact (lighter_requests_without_token _ _ _ _ _ _ _ _ Hl Hc E1 E2).
  - unfold fetch_funding in E2. cbn in E2. discriminate.
Defined.

End IterationTheory.
