(* ===== verification/Session.v ===== *)
(** * Connector HTTP sessions: [Connector.session] and [Connector.close]
      of [src/arb/connectors/base.py]

    Each connector keeps one [aiohttp.ClientSession] in [_session],
    created on first use and re-created when it has been closed;
    [close()] closes it.  The Lighter and Aster methods that fetch the
    level lists and the 24h figures open a session of their own with
    [async with aiohttp.ClientSession()], closed when the block exits.
    [session()] has no [await] before its assignment, so the event loop
    runs each of these operations without interleaving: the shared state
    is a sequence of steps.

    The state records the [closed] flag of every session created so
    far (by creation index) and the [_session] of each connector (by
    name).  The theorems: [session()] returns an open session;
    every reachable state keeps each open session reachable from a
    connector's [_session] (no session leaks), by induction on the
    steps; the panel's [on_shutdown] then leaves no session open. *)

From Stdlib Require Import String List Lia Bool Arith.
From S2P Require Import Prelude.
Import ListNotations.

Open Scope string_scope.

Module ConnectorBase.

(** The [closed] flags of the sessions created so far and the
    [_session] of each connector. *)
Record SessState := mkSS {
  closed : list bool;
  current : string -> option nat
}.

(** [session.closed] *)
Definition is_closed (st : SessState) (i : nat) : bool := nth i (closed st) true.

(** [s.closed = True] after [await s.close()]. *)
Fixpoint set_closed (i : nat) (l : list bool) : list bool :=
  match l, i with
  | [], _ => []
  | _ :: r, O => true :: r
  | b :: r, S j => b :: set_closed j r
  end.

(** [self._session = aiohttp.ClientSession()] on the connector [c]. *)
Definition fresh (st : SessState) (c : string) : nat * SessState :=
  let i := length (closed st) in
  (i, mkSS (closed st ++ [false]) (fun c' => if String.eqb c' c then Some i else current st c')).

(** [Connector.session] (lines 23-26). *)
Definition session (st : SessState) (c : string) : nat * SessState :=
  match current st c with
  | None => fresh st c
  | Some i => if is_closed st i then fresh st c else (i, st)
  end.

(** [Connector.close] (lines 28-30): [if self._session and not
    self._session.closed]. *)
Definition close (st : SessState) (c : string) : SessState :=
  match current st c with
  | Some i => if is_closed st i then st else mkSS (set_closed i (closed st)) (current st)
  | None => st
  end.

(** [async with aiohttp.ClientSession() as session: ...]: a session
    created and closed when the block exits, by an exception too. *)
Definition with_session (st : SessState) : SessState :=
  mkSS (closed st ++ [true]) (current st).

(** The connectors' constructors: no session yet. *)
Definition init : SessState := mkSS [] (fun _ => None).

(** [on_shutdown] of [src/arb/panel/server.py] (lines 50-60): after the
    database, the Lighter then the Aster connector is closed. *)
Definition on_shutdown (st : SessState) : SessState := close (close st "lighter") "aster".

Section Steps.
(** The names of the connectors the program builds. *)
Variable conns : list string.

(** One step of the program on the sessions: a call of [session()] or
    [close()] on one of its connectors, or a method with a session of
    its own. *)
Inductive step : SessState -> SessState -> Prop :=
| step_session st c : In c conns -> step st (snd (session st c))
| step_close st c : In c conns -> step st (close st c)
| step_with st : step st (with_session st).

Inductive reachable : SessState -> Prop :=
| reach_init : reachable init
| reach_step st st' : reachable st -> step st st' -> reachable st'.

(** No session leaks: every [_session] is a session created so far and
    belongs to a connector of the program, and every open session is
    the [_session] of a connector. *)
Definition no_leak (st : SessState) : Prop :=
  (forall c i, current st c = Some i -> i < length (closed st) /\ In c conns) /\
  (forall i, i < length (closed st) -> is_closed st i = false -> exists c, current st c = Some i).

End Steps.

(** Every session is closed. *)
Definition all_closed (st : SessState) : Prop := forall i, is_closed st i = true.

(** The panel's two connectors. *)
Definition panel_conns : list string := ["lighter"; "aster"].

End ConnectorBase.

Module ConnectorBaseTheory.
Import ConnectorBase.

Lemma nth_set_closed i j l : nth j (set_closed i l) true = if Nat.eqb j i then true else nth j l true.
Proof.
  revert i j. induction l as [|b l IH]; intros i j.
  - destruct i, j; cbn; [reflexivity..|]. destruct (Nat.eqb j i); reflexivity.
  - destruct i, j; cbn; [reflexivity..|]. apply IH.
Qed.

Lemma length_set_closed i l : length (set_closed i l) = length l.
Proof. revert i. induction l as [|b l IH]; intros [|i]; cbn; auto. Qed.

Lemma nth_snoc (l : list bool) b j :
  nth j (l ++ [b]) true = if Nat.ltb j (length l) then nth j l true else if Nat.eqb j (length l) then b else true.
Proof.
  destruct (Nat.ltb_spec j (length l)); [apply app_nth1; lia|].
  rewrite app_nth2 by lia. destruct (Nat.eqb_spec j (length l)) as [->|].
  - rewrite Nat.sub_diag. reflexivity.
  - destruct (j - length l) as [|k] eqn:E; [lia|]. destruct k; reflexivity.
Qed.

Lemma nth_beyond (l : list bool) j : length l <= j -> nth j l true = true.
Proof. intros H. apply nth_overflow. exact H. Qed.

(** Replacing the [_session] of [c] keeps the invariant when the old one
    is closed: the guard of [session()]. *)
Lemma fresh_no_leak conns st c :
  In c conns -> (forall i, current st c = Some i -> is_closed st i = true) ->
  no_leak conns st -> no_leak conns (snd (fresh st c)).
Proof.
  intros Hc Hold [W O]. unfold no_leak, fresh, is_closed in *; cbn. split.
  - intros c' i. destruct (String.eqb_spec c' c) as [->|]; [intros [= <-]; rewrite length_app; cbn; split; [lia|exact Hc]|].
    intros H. destruct (W c' i H). rewrite length_app. cbn. split; [lia|assumption].
  - intros i Hi. rewrite length_app in Hi. cbn in Hi. rewrite nth_snoc.
    destruct (Nat.ltb_spec i (length (closed st))).
    + intros Hcl. destruct (O i ltac:(assumption) Hcl) as [c' Hc'].
      exists c'. destruct (String.eqb_spec c' c) as [->|]; [|exact Hc'].
      rewrite (Hold i Hc') in Hcl. discriminate.
    + intros _. exists c. rewrite String.eqb_refl. f_equal. lia.
Qed.

Lemma session_no_leak conns st c : In c conns -> no_leak conns st -> no_leak conns (snd (session st c)).
Proof.
  intros Hc Hn. unfold session.
  destruct (current st c) as [i|] eqn:E.
  - destruct (is_closed st i) eqn:Ci; [|exact Hn].
    apply fresh_no_leak; auto. rewrite E. intros j [= <-]. exact Ci.
  - apply fresh_no_leak; auto. rewrite E. discriminate.
Qed.

Lemma close_no_leak conns st c : no_leak conns st -> no_leak conns (close st c).
Proof.
  intros [W O]. unfold close. destruct (current st c) as [i|] eqn:E; [|split; assumption].
  destruct (is_closed st i) eqn:Ci; [split; assumption|]. unfold no_leak, is_closed in *; cbn. split.
  - intros c' j H. rewrite length_set_closed. exact (W c' j H).
  - intros j. rewrite length_set_closed, nth_set_closed.
    destruct (Nat.eqb j i); [discriminate|]. exact (O j).
Qed.

Lemma with_session_no_leak conns st : no_leak conns st -> no_leak conns (with_session st).
Proof.
  intros [W O]. unfold no_leak, with_session, is_closed in *; cbn. split.
  - intros c i H. destruct (W c i H). rewrite length_app. cbn. split; [lia|assumption].
  - intros i Hi. rewrite length_app in Hi. cbn in Hi. rewrite nth_snoc.
    destruct (Nat.ltb_spec i (length (closed st))); [exact (O i ltac:(assumption))|].
    replace i with (length (closed st)) by lia. rewrite Nat.eqb_refl. discriminate.
Qed.

Lemma step_no_leak conns st st' : step conns st st' -> no_leak conns st -> no_leak conns st'.
Proof.
  destruct 1; eauto using session_no_leak, close_no_leak, with_session_no_leak.
Qed.

Lemma init_no_leak conns : no_leak conns init.
Proof. split; cbn; [discriminate | intros i H; lia]. Qed.

Lemma reachable_no_leak conns st : reachable conns st -> no_leak conns st.
Proof. induction 1; eauto using init_no_leak, step_no_leak. Qed.

Lemma close_current st c : current (close st c) = current st.
Proof. unfold close. destruct (current st c); [destruct (is_closed st n)|]; reflexivity. Qed.

Lemma close_length st c : length (closed (close st c)) = length (closed st).
Proof.
  unfold close. destruct (current st c); [destruct (is_closed st n)|]; cbn; rewrite ?length_set_closed; reflexivity.
Qed.

(** [close()] closes the connector's session ... *)
Lemma close_closes st c j : current st c = Some j -> is_closed (close st c) j = true.
Proof.
  unfold close. intros ->. destruct (is_closed st j) eqn:E; [exact E|].
  unfold is_closed; cbn. rewrite nth_set_closed, Nat.eqb_refl. reflexivity.
Qed.

(** ... and reopens none. *)
Lemma close_mono st c j : is_closed st j = true -> is_closed (close st c) j = true.
Proof.
  unfold close. intros H. destruct (current st c) as [i|]; [|exact H].
  destruct (is_closed st i); [exact H|]. unfold is_closed in *; cbn.
  rewrite nth_set_closed. destruct (Nat.eqb j i); auto.
Qed.

(** [session()] returns an open session, which becomes the
    connector's [_session]. *)
Theorem session_returns_open st c :
  is_closed (snd (session st c)) (fst (session st c)) = false /\
  current (snd (session st c)) c = Some (fst (session st c)).
Proof.
  unfold session.
  assert (F : is_closed (snd (fresh st c)) (fst (fresh st c)) = false /\
              current (snd (fresh st c)) c = Some (fst (fresh st c))).
  { unfold fresh, is_closed; cbn. rewrite nth_snoc, Nat.ltb_irrefl, Nat.eqb_refl, String.eqb_refl. split; reflexivity. }
  destruct (current st c) as [i|] eqn:E; [|exact F].
  destruct (is_closed st i) eqn:Ci; [exact F | split; assumption].
Qed.

(** C11: in every state the program reaches, whatever the order of
    [session()], [close()] and the methods with a session of their own,
    every open session is the [_session] of one of the connectors, and
    every [_session] names a session created so far: a session is never
    dropped while open. *)
Theorem no_session_leak conns st : reachable conns st -> no_leak conns st.
Proof. exact (reachable_no_leak conns st). Qed.

(** C12: the panel's [on_shutdown], run in any state its two connectors
    reach, leaves every session closed. *)
Theorem shutdown_closes_all st : reachable panel_conns st -> all_closed (on_shutdown st).
Proof.
  intros R i. destruct (reachable_no_leak _ _ R) as [W O]. unfold on_shutdown.
  destruct (is_closed st i) eqn:Ci; [apply close_mono, close_mono, Ci|].
  destruct (Nat.ltb_spec i (length (closed st))) as [L|L];
    [|apply close_mono, close_mono; unfold is_closed; apply nth_beyond; exact L].
  destruct (O i L Ci) as [c Hc]. destruct (proj2 (W c i Hc)) as [<-|[<-|[]]].
  - apply close_mono, close_closes, Hc.
  - apply close_closes. rewrite close_current. exact Hc.
Qed.

(** A run of the panel: the Lighter connector's session, a method
    with a session of its own, the Aster connector's session, then
    [close()] of Lighter and a new Lighter session. *)
Definition panel_run : SessState :=
  snd (session (close (snd (session (with_session (snd (session init "lighter"))) "aster")) "lighter") "lighter").

Lemma panel_run_reachable : reachable panel_conns panel_run.
Proof.
  unfold panel_run.
  repeat first [ apply reach_init
               | eapply reach_step; [|apply step_session; cbn; tauto]
               | eapply reach_step; [|apply step_close; cbn; tauto]
               | eapply reach_step; [|apply step_with] ].
Qed.

(** Witnesses. *)

Lemma no_session_leak_witness :
  reachable panel_conns panel_run /\ no_leak panel_conns panel_run /\ closed panel_run = [true; true; false; false].
Proof.
  split; [exact panel_run_reachable|].
  split; [exact (no_session_leak panel_conns panel_run panel_run_reachable) | reflexivity].
Defined.

Lemma shutdown_closes_all_witness :
  reachable panel_conns panel_run /\ all_closed (on_shutdown panel_run) /\ closed (on_shutdown panel_run) = [true; true; true; true].
Proof.
  split; [exact panel_run_reachable|].
  split; [exact (shutdown_closes_all panel_run panel_run_reachable) | reflexivity].
Defined.

End ConnectorBaseTheory.
