(* ===== verification/Config.v ===== *)
(** * Configuration and credentials: [src/arb/config.py],
      [src/arb/credentials.py] and the configuration reads of
      [runner_reminder.py]

    [load_config] builds the configuration dictionary from the process
    environment; the only fallible step is [int(os.getenv("DEPTH_LEVELS",
    "5"))].  [_to_int] turns an optional environment string into an
    optional integer and never raises.  The credential getters read the
    [auth] section of a fresh [load_config()] and raise
    [MissingCredentials] when a value is missing.  [build_pairs] and the
    loop settings of [main] read the configuration into the poller's
    [Pair] records and thresholds.  The environment is an association
    list (the first binding of a name wins, as [os.environ] has one). *)

From Stdlib Require Import String QArith ZArith Lia List Bool.
From S2P Require Import Prelude PyJson Signals Venue Poller Panel Runner Iteration.
Import ListNotations.

Open Scope py_scope.
Open Scope string_scope.

Module Config.
Import PyJson VenueTypes Poller.

(** [os.environ] *)
Definition Env := list (string * string).

(** [os.getenv(k)] *)
Definition getenv (env : Env) (k : string) : option string :=
  match find (fun kv => String.eqb (fst kv) k) env with
  | Some (_, v) => Some v
  | None => None
  end.

(** [os.getenv(k, d)] *)
Definition getenv_d (env : Env) (k d : string) : string :=
  match getenv env k with Some v => v | None => d end.

(** A value [os.getenv] returned, stored in the dictionary: a string or
    [None]. *)
Definition env_json (o : option string) : Json :=
  match o with Some s => JStr s | None => JNull end.

(** An [int | None] stored in the dictionary. *)
Definition opt_int_json (o : option Z) : Json :=
  match o with Some z => JNum (inject_Z z) | None => JNull end.

(** [_to_int(val)] (config.py lines 70-74): [None] and the empty string
    give [None]; otherwise [int(val)], whose [ValueError] the [except]
    turns into [None]. *)
Definition _to_int (val : option string) : option Z :=
  match val with
  | Some s => if String.eqb s EmptyString then None else parse_int s
  | None => None
  end.

(** The [auth] section (lines 47-65). *)
Definition auth_section (env : Env) : Json :=
  JObj [("lighter", JObj [("private_key", env_json (getenv env "LIGHTER_API_KEY_PRIVATE_KEY"));
                          ("account_index", opt_int_json (_to_int (getenv env "LIGHTER_ACCOUNT_INDEX")));
                          ("api_key_index", opt_int_json (_to_int (getenv env "LIGHTER_API_KEY_INDEX")))]);
        ("aster", JObj [("user", env_json (getenv env "ASTER_USER"));
                        ("signer", env_json (getenv env "ASTER_SIGNER"));
                        ("ecdsa_private_key", env_json (getenv env "ASTER_ECDSA_PRIVATE_KEY"));
                        ("api_key", env_json (getenv env "ASTER_API_KEY"));
                        ("api_secret", env_json (getenv env "ASTER_API_SECRET"))]);
        ("eth", JObj [("private_key", env_json (getenv env "ETH_PRIVATE_KEY"))])].

(** The configured pairs (lines 20-26). *)
Definition default_pairs : Json :=
  JArr [JObj [("name", JStr "BTCUSDT");
              ("a", JObj [("exchange", JStr "lighter"); ("symbol", JStr "BTC"); ("market_id", JNull)]);
              ("b", JObj [("exchange", JStr "aster"); ("symbol", JStr "BTCUSDT")])]].

(** The dictionary literal of [load_config] (lines 13-66) once the
    [int()] of [DEPTH_LEVELS] has given [depth]. *)
Definition config_dict (env : Env) (depth : Z) : Json :=
  JObj [("lighter_host", JStr (getenv_d env "LIGHTER_HOST" "https://mainnet.zklighter.elliot.ai"));
        ("aster_host", JStr (getenv_d env "ASTER_HOST" "https://fapi.asterdex.com"));
        ("depth_levels", JNum (inject_Z depth));
        ("pairs", default_pairs);
        ("lookback", JNum 60);
        ("ema_window", JNum 30);
        ("enter_z", JNum 2);
        ("exit_z", JNum (1 # 2));
        ("poll_ms", JNum 1000);
        ("stale_ms_threshold", JNum 3000);
        ("skew_ms_threshold", JNum 500);
        ("fees", JObj [("aster", JObj [("maker", JNull); ("taker", JNull)]);
                       ("lighter", JObj [("maker", JNull); ("taker", JNull)])]);
        ("funding", JObj [("cycle_hours", JObj [("aster", JNum 8); ("lighter", JNum 8)]);
                          ("notional_usd", JNum 1000)]);
        ("auth", auth_section env)].

(** [load_config(path)] (lines 7-67): the [path] argument is unused.
    Reading the environment has no effect; the [int()] of
    [DEPTH_LEVELS] is the only step of the literal that raises. *)
Definition load_config (env : Env) : res Json :=
  let* depth := match parse_int (getenv_d env "DEPTH_LEVELS" "5") with
                | Some z => Ok z
                | None => Err ValueError
                end in
  Ok (config_dict env depth).

(** [x is None] *)
Definition is_none (j : Json) : bool :=
  match j with JNull => true | _ => false end.

(** [str(x)] on the values the [auth] section holds: a string is
    itself.  The section holds strings, integers and [None] only, and
    the getters apply [str] to truthy values read from string entries. *)
Definition py_str (j : Json) : res string :=
  match j with JStr s => Ok s | _ => Err TypeError end.

(** [get_lighter_signer_params()] (credentials.py lines 11-23). *)
Definition get_lighter_signer_params (env : Env) : res (string * Z * Z) :=
  let* cfg := load_config env in
  let* auth0 := dict_get cfg "auth" (JObj []) in
  let* auth := dict_get auth0 "lighter" (JObj []) in
  let* pk := dict_get auth "private_key" JNull in
  let* ai := dict_get auth "account_index" JNull in
  let* ki := dict_get auth "api_key_index" JNull in
  if negb (PyJson.truthy pk) || is_none ai || is_none ki then Err MissingCredentials
  else
    let* s := py_str pk in
    let* a := to_int ai in
    let* k := to_int ki in
    Ok (s, a, k).

(** [get_aster_futures_signer()] (credentials.py lines 26-38). *)
Definition get_aster_futures_signer (env : Env) : res (string * string * string) :=
  let* cfg := load_config env in
  let* auth0 := dict_get cfg "auth" (JObj []) in
  let* auth := dict_get auth0 "aster" (JObj []) in
  let* user := dict_get auth "user" JNull in
  let* signer := dict_get auth "signer" JNull in
  let* pk := dict_get auth "ecdsa_private_key" JNull in
  if negb (PyJson.truthy user) || negb (PyJson.truthy signer) || negb (PyJson.truthy pk) then Err MissingCredentials
  else
    let* u := py_str user in
    let* s := py_str signer in
    let* k := py_str pk in
    Ok (u, s, k).

(** ** The configuration reads of [runner_reminder.py]

    The fields of the [Market] and [Pair] records are typed as the
    dataclasses declare them: a configured value of another type
    ([str] for [exchange], [symbol] and [name], [int | None] for
    [market_id]) is outside the model and gives [TypeError]. *)

(** [Optional[int]] *)
Definition as_opt_int (j : Json) : res (option Z) :=
  match j with
  | JNull => Ok None
  | JNum q => if Pos.eqb (Qden q) 1 then Ok (Some (Qnum q)) else Err TypeError
  | _ => Err TypeError
  end.

(** [Market(exchange=a["exchange"], symbol=a.get("symbol"),
    market_id=a.get("market_id"))] (lines 32, 33). *)
Definition market_of (a : Json) : res Market :=
  let* ex := get_key a "exchange" in
  let* sy := dict_get a "symbol" JNull in
  let* mi := dict_get a "market_id" JNull in
  let* ex' := py_str ex in
  let* sy' := py_str sy in
  let* mi' := as_opt_int mi in
  Ok (mkMarket ex' sy' mi').

(** One iteration of [build_pairs] (lines 28-36): [p["a"]], [p["b"]],
    then the [Pair] of [p["name"]] and the two markets. *)
Definition build_pair (p : Json) : res Pair :=
  let* a := get_key p "a" in
  let* b := get_key p "b" in
  let* name := get_key p "name" in
  let* n := py_str name in
  let* ma := market_of a in
  let* mb := market_of b in
  Ok (mkPair n ma mb).

(** [build_pairs(cfg)] (lines 26-37). *)
Definition build_pairs (cfg : Json) : res (list Pair) :=
  let* ps := dict_get cfg "pairs" (JArr []) in
  let* l := py_iter ps in
  map_res build_pair l.

(** [lookback], [enter_z], [exit_z], [poll_ms] of [main] (lines 382-385). *)
Definition main_settings (cfg : Json) : res (Z * Q * Q * Z) :=
  let* lb := dict_get cfg "lookback" (JNum 60) in
  let* lookback := to_int lb in
  let* ez := dict_get cfg "enter_z" (JNum 2) in
  let* enter_z := to_float ez in
  let* xz := dict_get cfg "exit_z" (JNum (1 # 2)) in
  let* exit_z := to_float xz in
  let* pm := dict_get cfg "poll_ms" (JNum 1000) in
  let* poll_ms := to_int pm in
  Ok (lookback, enter_z, exit_z, poll_ms).

(** The locals [poll_pair_with_store] sets before its loop. *)
Record TaskSettings := mkTask {
  ts_cfg : Json;
  ts_depth : Z;
  ts_ema : Ema.EMA;
  ts_fees : Json;
  ts_ingest_url : option string;
  ts_cycle_hours : Json;
  ts_notional : Q;
  ts_stale : Z;
  ts_skew : Z
}.

(** Lines 73-82 of [poll_pair_with_store]: a fresh [load_config()] and
    the reads of it; [EMA(...)] raises [ValueError] on a window below 1.
    These lines run before the loop's [try]: an exception ends the task. *)
Definition task_settings (env : Env) : res TaskSettings :=
  let* cfg := load_config env in
  let* d := dict_get cfg "depth_levels" (JNum 5) in
  let* depth := to_int d in
  let* w := dict_get cfg "ema_window" (JNum 30) in
  let* w' := to_int w in
  let* ema := Ema.init w' in
  let* fees := dict_get cfg "fees" (JObj []) in
  let url := getenv env "PANEL_INGEST_URL" in
  let* fund := dict_get cfg "funding" (JObj []) in
  let* cyc := dict_get fund "cycle_hours" (JObj [("aster", JNum 8); ("lighter", JNum 8)]) in
  let* nu := dict_get fund "notional_usd" (JNum 1000) in
  let* notional := to_float nu in
  let* st := dict_get cfg "stale_ms_threshold" (JNum 3000) in
  let* stale := to_int st in
  let* sk := dict_get cfg "skew_ms_threshold" (JNum 500) in
  let* skew := to_int sk in
  Ok (mkTask cfg depth ema fees url cyc notional stale skew).

(** A configured fee: [None] or a number. *)
Definition opt_num (j : Json) : res (option Q) :=
  match j with
  | JNull => Ok None
  | JNum q => Ok (Some q)
  | _ => Err TypeError
  end.

(** [fees = fees_cfg.get("aster", {}) if isinstance(fees_cfg, dict) else {}],
    [fees.get("maker")], [fees.get("taker")] (lines 144-146, 161-163). *)
Definition aster_fees_of (fees_cfg : Json) : res Fees :=
  let* fees := match fees_cfg with
               | JObj _ => dict_get fees_cfg "aster" (JObj [])
               | _ => Ok (JObj [])
               end in
  let* mk := dict_get fees "maker" JNull in
  let* tk := dict_get fees "taker" JNull in
  let* mk' := opt_num mk in
  let* tk' := opt_num tk in
  Ok (mkFees mk' tk').

(** [if panel_ingest_url:] (line 216) *)
Definition ingest_enabled (url : option string) : bool :=
  match url with Some u => negb (String.eqb u EmptyString) | None => false end.

(** The configuration one iteration of the loop reads from the task's
    locals: [int(cycle_hours.get("lighter", 8))] (lines 226, 237),
    [float(cfg.get("exit_z", 0.5))] and [int(cfg.get("poll_ms", 1000))]
    (line 253), the Aster fees (lines 144-146), with [enter_z], [exit_z]
    the task's arguments.  The locals do not change between iterations,
    so every iteration reads the same values. *)
Definition loop_cfg (ts : TaskSettings) (enter_z exit_z : Q) : res (Iteration.FetchCfg * PollCfg) :=
  let* lc := dict_get (ts_cycle_hours ts) "lighter" (JNum 8) in
  let* cyc := to_int lc in
  let* ez := dict_get (ts_cfg ts) "exit_z" (JNum (1 # 2)) in
  let* cfg_exit := to_float ez in
  let* pm := dict_get (ts_cfg ts) "poll_ms" (JNum 1000) in
  let* cfg_poll := to_int pm in
  let* fees := aster_fees_of (ts_fees ts) in
  Ok (Iteration.mkFetchCfg (ts_depth ts) cyc,
      mkCfg enter_z exit_z (ts_stale ts) (ts_skew ts) fees (ingest_enabled (ts_ingest_url ts))
            (ts_notional ts) cfg_exit cfg_poll).

End Config.

(** ** Specifications *)

Module ConfigSpec.
Import PyJson VenueTypes Poller Config.

(** What the Lighter getter promises: [ValueError] when the
    configuration does not load, otherwise the three values when they
    are set (the key non-empty, the indices integers), and
    [MissingCredentials] when one is not. *)
Definition lighter_signer_spec (env : Env) : res (string * Z * Z) :=
  match parse_int (getenv_d env "DEPTH_LEVELS" "5") with
  | None => Err ValueError
  | Some _ =>
      match getenv env "LIGHTER_API_KEY_PRIVATE_KEY", _to_int (getenv env "LIGHTER_ACCOUNT_INDEX"),
            _to_int (getenv env "LIGHTER_API_KEY_INDEX") with
      | Some pk, Some ai, Some ki => if String.eqb pk EmptyString then Err MissingCredentials else Ok (pk, ai, ki)
      | _, _, _ => Err MissingCredentials
      end
  end.

(** What the Aster getter promises. *)
Definition aster_signer_spec (env : Env) : res (string * string * string) :=
  match parse_int (getenv_d env "DEPTH_LEVELS" "5") with
  | None => Err ValueError
  | Some _ =>
      match getenv env "ASTER_USER", getenv env "ASTER_SIGNER", getenv env "ASTER_ECDSA_PRIVATE_KEY" with
      | Some u, Some s, Some k =>
          if String.eqb u EmptyString || String.eqb s EmptyString || String.eqb k EmptyString
          then Err MissingCredentials else Ok (u, s, k)
      | _, _, _ => Err MissingCredentials
      end
  end.

(** The pair the default configuration monitors. *)
Definition btc_pair : Pair := mkPair "BTCUSDT" (mkMarket "lighter" "BTC" None) (mkMarket "aster" "BTCUSDT" None).

(** The loop configuration a task runs with, from the main settings
    and a depth. *)
Definition default_loop_cfg (env : Env) (depth : Z) : Iteration.FetchCfg * PollCfg :=
  (Iteration.mkFetchCfg depth 8,
   mkCfg 2 (1 # 2) 3000 500 (mkFees None None) (ingest_enabled (getenv env "PANEL_INGEST_URL")) 1000 (1 # 2) 1000).

(** A witness environment. *)
Definition env_creds : Env :=
  [("DEPTH_LEVELS", " 10 "); ("LIGHTER_API_KEY_PRIVATE_KEY", "0xabc"); ("LIGHTER_ACCOUNT_INDEX", "7");
   ("LIGHTER_API_KEY_INDEX", "+2"); ("ASTER_USER", "u"); ("ASTER_SIGNER", "s"); ("ASTER_ECDSA_PRIVATE_KEY", "k");
   ("PANEL_INGEST_URL", "http://localhost:8000/api/ingest/spread")].

Definition env_bad_depth : Env := ("DEPTH_LEVELS", "five") :: env_creds.

End ConfigSpec.

Module ConfigTheory.
Import PyJson VenueTypes Poller Config ConfigSpec.

Lemma parse_int_default : parse_int "5" = Some 5%Z.
Proof. reflexivity. Qed.

Lemma parse_int_empty : parse_int EmptyString = None.
Proof. reflexivity. Qed.

(** [load_config] succeeds exactly when [DEPTH_LEVELS] parses, with the
    dictionary of the parsed depth. *)
Lemma load_config_cases env :
  load_config env = match parse_int (getenv_d env "DEPTH_LEVELS" "5") with
                    | Some d => Ok (config_dict env d)
                    | None => Err ValueError
                    end.
Proof. unfold load_config. destruct (parse_int _); reflexivity. Qed.

Lemma load_config_Ok env cfg :
  load_config env = Ok cfg -> exists d, parse_int (getenv_d env "DEPTH_LEVELS" "5") = Some d /\ cfg = config_dict env d.
Proof. rewrite load_config_cases. destruct (parse_int _); intros H; inversion H; eauto. Qed.

(** Reading the environment into a truthy test: [bool(os.getenv(k))]. *)
Lemma truthy_env_json o :
  PyJson.truthy (env_json o) = match o with Some s => negb (String.eqb s EmptyString) | None => false end.
Proof. destruct o; reflexivity. Qed.

(** [load_config] raises only [ValueError], and exactly when
    [DEPTH_LEVELS] is set to a string [int()] rejects; with the variable
    unset the default ["5"] parses. *)
Theorem load_config_raises env e :
  load_config env = Err e <->
  e = ValueError /\ exists s, getenv env "DEPTH_LEVELS" = Some s /\ parse_int s = None.
Proof.
  rewrite load_config_cases. unfold getenv_d.
  destruct (getenv env "DEPTH_LEVELS") as [s|]; [|rewrite parse_int_default; split; [discriminate | intros [_ [s [H _]]]; discriminate]].
  destruct (parse_int s) eqn:E; split.
  - discriminate.
  - intros [_ [s' [H1 H2]]]. inversion H1; subst. congruence.
  - intros H; inversion H; subst. eauto.
  - intros [-> _]. reflexivity.
Qed.

(** the empty-string guard of [_to_int] is redundant: it is [int()]
    with [None] for an unset variable and for every string [int()]
    rejects, the empty string included. *)
Theorem _to_int_is_int val :
  _to_int val = match val with Some s => parse_int s | None => None end.
Proof.
  destruct val as [s|]; [|reflexivity]. cbn.
  destruct (String.eqb_spec s EmptyString) as [->|]; [exact parse_int_empty | reflexivity].
Qed.

(** C17: the Lighter getter implements its specification: [ValueError]
    whenever [DEPTH_LEVELS] does not parse, even with every credential
    set; otherwise the private key and the two indices when all three
    are set (the key non-empty, the indices strings [int()] accepts),
    and [MissingCredentials] otherwise. *)
Theorem lighter_signer_refines env :
  get_lighter_signer_params env = lighter_signer_spec env.
Proof.
  unfold get_lighter_signer_params, lighter_signer_spec. rewrite load_config_cases.
  destruct (parse_int _) as [d|]; [|reflexivity]. cbn -[_to_int].
  rewrite truthy_env_json.
  destruct (getenv env "LIGHTER_API_KEY_PRIVATE_KEY") as [pk|];
    destruct (_to_int (getenv env "LIGHTER_ACCOUNT_INDEX")) as [ai|];
    destruct (_to_int (getenv env "LIGHTER_API_KEY_INDEX")) as [ki|]; cbn;
    try reflexivity; destruct (String.eqb pk EmptyString); try reflexivity; cbn.
  rewrite !py_int_inject_Z. reflexivity.
Qed.

(** the Aster getter implements its specification. *)
Theorem aster_signer_refines env :
  get_aster_futures_signer env = aster_signer_spec env.
Proof.
  unfold get_aster_futures_signer, aster_signer_spec. rewrite load_config_cases.
  destruct (parse_int _) as [d|]; [|reflexivity]. cbn. rewrite !truthy_env_json.
  destruct (getenv env "ASTER_USER") as [u|]; destruct (getenv env "ASTER_SIGNER") as [s|];
    destruct (getenv env "ASTER_ECDSA_PRIVATE_KEY") as [k|]; cbn; try reflexivity;
    repeat match goal with |- context [String.eqb ?x EmptyString] => destruct (String.eqb x EmptyString) end;
    reflexivity.
Qed.

(** composition of the configuration with the runner: every
    configuration [load_config] returns holds exactly the BTCUSDT pair,
    Lighter [BTC] against Aster [BTCUSDT] with no market id, and after
    [main]'s resolution its Lighter leg has the id the market map gives
    [BTC] (none when the map lacks it) while the Aster leg is unchanged. *)
Theorem configured_pairs env cfg m :
  load_config env = Ok cfg ->
  build_pairs cfg = Ok [btc_pair] /\
  Runner.resolve_pairs m [btc_pair] =
    [mkPair "BTCUSDT" (mkMarket "lighter" "BTC" (Runner.map_get m "BTC")) (mkMarket "aster" "BTCUSDT" None)].
Proof.
  intros H. apply load_config_Ok in H as [d [_ ->]]. split; [reflexivity|].
  unfold Runner.resolve_pairs, Runner.resolve_pair, Runner.resolve_leg. cbn.
  destruct (Runner.map_get m "BTC"); reflexivity.
Qed.

(** Both getters raise [ValueError] with every credential set when
    [DEPTH_LEVELS] is malformed. *)
Example credentials_need_depth :
  get_lighter_signer_params env_creds = Ok ("0xabc", 7%Z, 2%Z) /\
  get_aster_futures_signer env_creds = Ok ("u", "s", "k") /\
  get_lighter_signer_params env_bad_depth = Err ValueError /\
  get_aster_futures_signer env_bad_depth = Err ValueError.
Proof. vm_compute. repeat split. Qed.

(** The panel's startup hook raises the [ValueError] of [load_config]
    when [int()] rejects [DEPTH_LEVELS], after [open_db]: the panel does
    not start, whatever the database and the market map. *)
Lemma panel_start_bad_depth `{Storage.Store.JsonCodec Json} env db now wakes fetched :
  parse_int (getenv_d env "DEPTH_LEVELS" "5") = None ->
  Panel.on_startup db (load_config env) now wakes fetched = Some (Err ValueError).
Proof. intros Hd. unfold Panel.on_startup. rewrite load_config_cases, Hd. reflexivity. Qed.

(** Witnesses. *)

Lemma configured_pairs_witness :
  load_config env_creds = Ok (config_dict env_creds 10) /\
  build_pairs (config_dict env_creds 10) = Ok [btc_pair] /\
  Runner.resolve_pairs [("BTC", 1%Z)] [btc_pair] =
    [mkPair "BTCUSDT" (mkMarket "lighter" "BTC" (Some 1%Z)) (mkMarket "aster" "BTCUSDT" None)].
Proof.
  assert (H : load_config env_creds = Ok (config_dict env_creds 10)) by reflexivity.
  split; [exact H|]. exact (configured_pairs env_creds _ [("BTC", 1%Z)] H).
Defined.

End ConfigTheory.
