(* ===== verification/Main.v ===== *)
(** * The composition root: [main] of [src/arb/runner_reminder.py]
      with the connector constructors it calls

    [main] (lines 365-411) loads the configuration, builds the shared
    [RateLimiter] (tuned from the panel, [Runner.main_limiter]), the two
    connectors ([build_connectors], lines 19-23, over [Connector.__init__]
    of [connectors/base.py] and the subclasses' constructors), the pairs
    and the loop settings ([Config]), discovers the Lighter market ids
    with one [fetch_market_map] call, resolves the pairs
    ([Runner.resolve_pairs]), opens the database ([Store.open_db]),
    creates one [RollingZScore(window=lookback)] per pair and gathers one
    [poll_pair_with_store] task per pair.

    The tasks share the limiter and Lighter's [_books_cache], which the
    discovery call already filled: [Iteration.Env] is that shared state.
    [main_start] is [main] up to the [gather]; [run_tasks] runs the
    gathered tasks, each with its own state, one iteration per turn of
    the event loop in the order the turns give; [main] composes them. *)

From stdpp Require Import base list gmap strings.
From Stdlib Require Import String Ascii QArith Lqa ZArith Lia List.
From S2P Require Import Prelude PyJson Signals RateLimiter Venue Poller Storage Runner Iteration Config.
Import ListNotations.

Open Scope py_scope.

Module Main.
Import PyJson ZScore VenueTypes Limiter Poller Iteration Config.

(** ** Connectors *)

(** The attributes [Connector.__init__] sets (base.py lines 17-21):
    [name], [config or {}] and whether [limiter] is set.  The limiter is
    the one object [main] built, shared by both connectors: its state is
    the [env_lim] of [Iteration.Env].  [_session] is [None]: it is the
    connector's entry of [Session.ConnectorBase.current], empty in
    [Session.ConnectorBase.init]. *)
Record ConnBase := mkConnBase {
  c_name : string;
  c_config : Json;
  c_limited : bool
}.

(** [Connector.__init__(name, config, limiter)]; [None] is [JNull]. *)
Definition connector_init (name : string) (config : Json) (limited : bool) : ConnBase :=
  mkConnBase name (if PyJson.truthy config then config else JObj []) limited.

(** A connector object: the base attributes and the [host] the subclass
    stores. *)
Record Connector := mkConnector {
  c_base : ConnBase;
  c_host : string
}.

(** [LighterConnector.__init__] (lighter.py lines 18-24): the host as
    given.  The SDK clients of lines 21-23 are objects of the [lighter]
    library; [_books_cache] is the [env_books] of [Iteration.Env], [None]
    at first. *)
Definition lighter_init (host : string) (limited : bool) : Connector :=
  mkConnector (connector_init "lighter" JNull limited) host.

Fixpoint drop_slashes (l : list ascii) : list ascii :=
  match l with
  | c :: r => if Ascii.eqb c "/"%char then drop_slashes r else l
  | [] => []
  end.

(** [s.rstrip("/")] *)
Definition rstrip_slash (s : string) : string :=
  string_of_list_ascii (rev (drop_slashes (rev (list_ascii_of_string s)))).

(** [AsterConnector.__init__] (aster.py lines 16-18). *)
Definition aster_init (host : string) (limited : bool) : Connector :=
  mkConnector (connector_init "aster" JNull limited) (rstrip_slash host).

(** [build_connectors(cfg, limiter)] (lines 19-23) with the limiter
    [main] passes.  The hosts are the strings [load_config] reads from
    the environment; another value is outside the model ([TypeError]). *)
Definition build_connectors (cfg : Json) : res (list (string * Connector)) :=
  let* lh := get_key cfg "lighter_host" in
  let* lh' := py_str lh in
  let* ah := get_key cfg "aster_host" in
  let* ah' := py_str ah in
  Ok [("lighter", lighter_init lh' true); ("aster", aster_init ah' true)].

(** ** [main] up to [asyncio.gather] *)

(** Lines 389-392: [await conns["lighter"].fetch_market_map()], one
    token of ["lighter:global"] at the next clock reading.  The cache is
    filled before the mapping loop runs; an exception gives the empty
    map.  [None]: the call is still waiting for its token. *)
Definition discover (e : Iteration.Env) (resp : res Json) : option (list (string * Z) * Iteration.Env) :=
  match call e "lighter" "global" (fun l now w => fetch_market_map l now w resp) with
  | None => None
  | Some ((c, r), e1) =>
      let e2 := mkEnv (env_lim e1) (match c with Some _ => c | None => env_books e1 end)
                  (env_clock e1) (env_trace e1) in
      Some (match r with Ok m => m | Err _ => [] end, e2)
  end.

(** [if admin_url:] (line 370): the panel is asked only when
    [PANEL_ADMIN_URL] is a non-empty string; [admin] is its answer. *)
Definition admin_answer (env : Config.Env) (admin : res (Z * Json)) : option (res (Z * Json)) :=
  match getenv env "PANEL_ADMIN_URL" with
  | Some u => if String.eqb u EmptyString then None else Some admin
  | None => None
  end.

(** What [main] holds when it reaches [asyncio.gather]. *)
Record Startup := mkStartup {
  s_conns : list (string * Connector);
  s_pairs : list Pair;
  s_lookback : Z;
  s_enter_z : Q;
  s_exit_z : Q;
  s_poll_ms : Z;
  s_env : Iteration.Env;
  s_tasks : list (Pair * RollingZScore)
}.

(** [RollingZScore(window=lookback)] for each pair (lines 407-408). *)
Definition make_windows (lookback : Z) (pairs : list Pair) : res (list (Pair * RollingZScore)) :=
  map_res (fun p => let* z := ZScore.init lookback in Ok (p, z)) pairs.

(** [main] up to the [gather] (lines 365-409), on the environment, the
    admin answer, the monotonic clock when the admin limits are applied,
    the clock readings of the limiter calls, the answer to the market-map
    request and the database file.  Gives the database afterwards, which
    [open_db] changed even when a later line raises. *)
Definition main_start (env : Config.Env) (admin : res (Z * Json)) (now : Q) (clock : list (Q * list Q))
    (resp : res Json) (db : Store.Db) : option (Store.Db * res Startup) :=
  match (let* cfg := load_config env in
         let* conns := build_connectors cfg in
         let* pairs := build_pairs cfg in
         let* settings := main_settings cfg in
         Ok (conns, pairs, settings)) with
  | Err e => Some (db, Err e)
  | Ok (conns, pairs, (lookback, enter_z, exit_z, poll_ms)) =>
      match discover (mkEnv (Runner.main_limiter (admin_answer env admin) now) None clock []) resp with
      | None => None
      | Some (m, e1) =>
          let pairs' := Runner.resolve_pairs m pairs in
          let db' := Store.open_db db in
          Some (db', let* zs := make_windows lookback pairs' in
                     Ok (mkStartup conns pairs' lookback enter_z exit_z poll_ms e1 zs))
      end
  end.

(** ** The gathered tasks *)

(** One turn of the event loop: the task that runs its next iteration
    and the answers of that iteration. *)
Record Turn := mkTurn {
  turn_task : nat;
  turn_a : LegAnswers;
  turn_b : LegAnswers
}.

(** The tasks, each its pair and its own state, run on the shared state
    in the order of the turns, each turn with the result of its insert.
    [None]: a turn names no task, or a call waits for its token. *)
Fixpoint run_tasks `{PyMath} (fc : FetchCfg) (cfg : PollCfg) (tasks : list (Pair * PollState)) (e : Iteration.Env)
    (turns : list (Turn * res unit)) : option (list TickOut * list (Pair * PollState) * Iteration.Env) :=
  match turns with
  | [] => Some ([], tasks, e)
  | (t, r) :: ts =>
      match tasks !! turn_task t with
      | None => None
      | Some (p, st) =>
          match iterate fc cfg p st e (turn_a t) (turn_b t) r with
          | None => None
          | Some (st', out, e1) =>
              match run_tasks fc cfg (<[turn_task t := (p, st')]> tasks) e1 ts with
              | None => None
              | Some (outs, tasks', e2) => Some (out :: outs, tasks', e2)
              end
          end
      end
  end.

(** [x.get(k) if ob else None] of an order-book summary, and an
    optional float. *)
Definition ob_field (f : OBSummary -> Q) (o : option OBSummary) : Store.Value :=
  match o with Some ob => Store.VReal (f ob) | None => Store.VNull end.

Definition opt_real (o : option Q) : Store.Value :=
  match o with Some q => Store.VReal q | None => Store.VNull end.

(** The keyword arguments of the [insert_spread] call of
    [poll_pair_with_store] (lines 191-212), with the summaries' fields of
    lines 165-172; the extras it does not pass read [NULL]. *)
Definition sample_extras (s : Sample) : Store.Row :=
  [("ema", Store.VReal (s_ema s)); ("center_dev", Store.VReal (s_center_dev s));
   ("ob_spread_a", ob_field spread_abs (s_ob_a s)); ("ob_spread_b", ob_field spread_abs (s_ob_b s));
   ("ob_spread_pct_a", ob_field spread_pct (s_ob_a s)); ("ob_spread_pct_b", ob_field spread_pct (s_ob_b s));
   ("vol_a", opt_real (s_vol_a s)); ("vol_b", opt_real (s_vol_b s));
   ("depth_qty_a", ob_field depth_qty (s_ob_a s)); ("depth_qty_b", ob_field depth_qty (s_ob_b s));
   ("depth_notional_a", ob_field depth_notional (s_ob_a s));
   ("depth_notional_b", ob_field depth_notional (s_ob_b s));
   ("maker_fee_a", opt_real (maker (s_fees_a s))); ("taker_fee_a", opt_real (taker (s_fees_a s)));
   ("maker_fee_b", opt_real (maker (s_fees_b s))); ("taker_fee_b", opt_real (taker (s_fees_b s)));
   ("age_a_ms", Store.VInt (s_age_a s)); ("age_b_ms", Store.VInt (s_age_b s));
   ("skew_ms", Store.VInt (s_skew s)); ("latency_ms", Store.VInt (s_latency s));
   ("stale", Store.VInt (s_stale s))].

(** [await insert_spread(db, pair.name, ts, ...)] (lines 181-213). *)
Definition store_sample (db : Store.Db) (s : Sample) : res Store.Db :=
  Store.insert_spread db (Store.VText (s_pair s)) (s_ts s) (s_price_a s) (s_price_b s) (s_spread s)
    (s_z s) (s_mean s) (s_std s) (sample_extras s).

(** One iteration on the shared database: the row the iteration
    computes is inserted into [db], and the iteration goes on with the
    insert's result.  The row does not depend on that result, which only
    the lines after the insert read: the iteration is first followed to
    the row it stores when the insert succeeds; an iteration that stores
    no row then never reached the insert. *)
Definition iterate_db `{PyMath} (fc : FetchCfg) (cfg : PollCfg) (p : Pair) (st : PollState) (e : Iteration.Env)
    (aa ab : LegAnswers) (db : Store.Db) : option (PollState * TickOut * Iteration.Env * Store.Db) :=
  match iterate fc cfg p st e aa ab (Ok tt) with
  | None => None
  | Some (st1, out1, e1) =>
      match out_stored out1 with
      | None => Some (st1, out1, e1, db)
      | Some row =>
          match store_sample db row with
          | Ok db' => Some (st1, out1, e1, db')
          | Err ex =>
              match iterate fc cfg p st e aa ab (Err ex) with
              | None => None
              | Some (st2, out2, e2) => Some (st2, out2, e2, db)
              end
          end
      end
  end.

(** The tasks on the shared state and the shared database. *)
Fixpoint run_tasks_db `{PyMath} (fc : FetchCfg) (cfg : PollCfg) (tasks : list (Pair * PollState)) (e : Iteration.Env)
    (db : Store.Db) (turns : list Turn)
    : option (list TickOut * list (Pair * PollState) * Iteration.Env * Store.Db) :=
  match turns with
  | [] => Some ([], tasks, e, db)
  | t :: ts =>
      match tasks !! turn_task t with
      | None => None
      | Some (p, st) =>
          match iterate_db fc cfg p st e (turn_a t) (turn_b t) db with
          | None => None
          | Some (st', out, e1, db1) =>
              match run_tasks_db fc cfg (<[turn_task t := (p, st')]> tasks) e1 db1 ts with
              | None => None
              | Some (outs, tasks', e2, db2) => Some (out :: outs, tasks', e2, db2)
              end
          end
      end
  end.

(** Each task's setup (lines 72-75) on the window [main] gave it: its
    EMA is created there. *)
Definition task_states (ts : TaskSettings) (zs : list (Pair * RollingZScore)) : list (Pair * PollState) :=
  map (fun pz => (fst pz, mkPoll (snd pz) (ts_ema ts))) zs.

(** [main]: the startup, then the tasks on the database [open_db]
    opened.  With no pair, [gather()] returns at once.  The setup of a
    task raises before its loop, and [gather] raises it: the setups read
    a fresh [load_config()] of the same environment, so all of them
    succeed or all raise.  A setup whose loop reads raise in every
    iteration is outside the model ([None]): [load_config] gives none
    (see [ConfigTheory]). *)
Definition main `{PyMath} (env : Config.Env) (admin : res (Z * Json)) (now : Q) (clock : list (Q * list Q))
    (resp : res Json) (db : Store.Db) (turns : list Turn)
    : option (Store.Db * res (list TickOut * list (Pair * PollState) * Iteration.Env)) :=
  match main_start env admin now clock resp db with
  | None => None
  | Some (db', Err e) => Some (db', Err e)
  | Some (db', Ok s) =>
      match s_tasks s with
      | [] => Some (db', Ok ([], [], s_env s))
      | _ :: _ =>
          match task_settings env with
          | Err e => Some (db', Err e)
          | Ok ts =>
              match loop_cfg ts (s_enter_z s) (s_exit_z s) with
              | Err _ => None
              | Ok (fc, pc) =>
                  match run_tasks_db fc pc (task_states ts (s_tasks s)) (s_env s) db' turns with
                  | None => None
                  | Some (outs, tasks', e', db'') => Some (db'', Ok (outs, tasks', e'))
                  end
              end
          end
      end
  end.

End Main.

Module MainSpec.
Import PyJson ZScore Poller Iteration Config ConfigSpec Main.

(** The connectors [main] builds from a loaded configuration. *)
Definition default_conns (env : Config.Env) : list (string * Connector) :=
  [("lighter", lighter_init (getenv_d env "LIGHTER_HOST" "https://mainnet.zklighter.elliot.ai") true);
   ("aster", aster_init (getenv_d env "ASTER_HOST" "https://fapi.asterdex.com") true)].

(** What [main] holds at [gather] once the discovery gave [m] and left
    the shared state [e1]. *)
Definition startup_of (env : Config.Env) (m : list (string * Z)) (e1 : Iteration.Env) : Startup :=
  let p := Runner.resolve_pair m ConfigSpec.btc_pair in
  mkStartup (default_conns env) [p] 60 2 (1 # 2) 1000 e1 [(p, mkRolling 60 [])].

(** A host without trailing slashes: [h'] ends in another character
    and [h] is [h'] followed by slashes only. *)
Definition ends_with_slash (s : string) : bool :=
  match rev (list_ascii_of_string s) with c :: _ => Ascii.eqb c "/"%char | [] => false end.

Definition slashes (k : nat) : string := string_of_list_ascii (repeat "/"%char k).

Definition stripped (h h' : string) : Prop :=
  ends_with_slash h' = false /\ exists k, h = String.append h' (slashes k).

(** The pair of the task a turn names. *)
Definition turn_pair (tasks : list (Pair * PollState)) (t : Turn) : option Pair := fst <$> tasks !! turn_task t.

(** The turns whose task reads a leg of venue [v] with a token. *)
Definition polling_turns (v : string) (tasks : list (Pair * PollState)) (turns : list Turn) : nat :=
  length (List.filter (fun t => match turn_pair tasks t with Some p => Iteration.polls v p | None => false end) turns).

(** The row [insert_spread] appends for a stored sample. *)
Definition sample_row (s : Sample) : Store.Row :=
  Store.inserted_row (Store.VText (s_pair s)) (s_ts s) (s_price_a s) (s_price_b s) (s_spread s)
    (s_z s) (s_mean s) (s_std s) (sample_extras s).

(** The rows of the samples the iterations [outs] stored, in order. *)
Definition stored_rows (outs : list TickOut) : list Store.Row :=
  flat_map (fun o => match out_stored o with Some s => [sample_row s] | None => [] end) outs.

(** Inputs used to run the model: market-map answers, an environment
    that asks the panel, the panel's answer limiting ["lighter:global"]
    to capacity 2 and 1 token/s, and a new database file. *)
Definition book (sym : string) (id : Json) : Json := JObj [("symbol", JStr sym); ("market_id", id)].

Definition books_ok : Json := JObj [("order_books", JArr [book "ETH" (JNum 1); book "BTC" (JNum 0)])].

Definition books_bad : list Json := [book "BTC" (JNum 0); book "SOL" JNull].

Definition env_admin : Config.Env := ("PANEL_ADMIN_URL", "http://localhost:8000/api/admin/config") :: env_creds.

Definition admin_lighter : res (Z * Json) :=
  Ok (200%Z, JObj [("ratelimits", JObj [("lighter", JObj [("global", Limiter.conf_of 2 1)])])]).

Definition db0 : Store.Db := Store.mkDb None [] None.

Definition turn_err : Turn := mkTurn 0 answers_err answers_err.

End MainSpec.

Module MainTheory.
Import PyJson ZScore Bucket Limiter LimiterTheory Poller Iteration IterationTheory Config ConfigSpec ConfigTheory
  Main MainSpec.

Lemma main_limiter_wf adm now : limiter_wf (Runner.main_limiter adm now).
Proof.
  unfold Runner.main_limiter.
  repeat (case_match; try apply empty_limiter_wf); apply update_mono, empty_limiter_wf.
Qed.

(** The discovery makes one call, on ["lighter:global"]. *)
Lemma discover_advances e resp m e1 :
  env_books e = None ->
  discover e resp = Some (m, e1) -> exists now w, advances e e1 [("lighter", "global", 1%Z, now, w)].
Proof.
  intros Hn. unfold discover. destruct (call e _ _ _) as [[[c r] e2]|] eqn:E; [|discriminate].
  intros H. injection H as _ <-.
  destruct (call_advances _ _ _ _ _ _ (fetch_market_map_label resp) E) as (_ & now & w & A).
  exists now, w. eapply advances_same; [exact A | reflexivity | reflexivity | rewrite Hn; discriminate].
Qed.

(** What the discovery leaves: the answer's ["order_books"] in the cache
    and its mapping, or the empty map. *)
Lemma discover_result e resp m e1 :
  discover e resp = Some (m, e1) ->
  match res_bind resp (fun data => dict_get data "order_books" (JArr [])) with
  | Ok books => env_books e1 = Some books /\ m = match market_map_loop books with Ok m' => m' | Err _ => [] end
  | Err _ => env_books e1 = env_books e /\ m = []
  end.
Proof.
  unfold discover, call. destruct (env_clock e) as [|[now w] cs]; [discriminate|].
  unfold fetch_market_map. destruct (allow _ _ _ _ _ _); [|discriminate].
  destruct (res_bind resp _); intros H; injection H as <- <-; cbn; auto.
Qed.

Lemma make_windows_Ok lb ps zs :
  make_windows lb ps = Ok zs -> map fst zs = ps /\ Forall (fun pz => snd pz = mkRolling lb []) zs.
Proof.
  unfold make_windows. revert zs. induction ps as [|p ps IH]; intros zs; cbn [map_res].
  - intros H. injection H as <-. split; [reflexivity | constructor].
  - destruct (ZScore.init lb) as [z|] eqn:Ei; cbn [res_bind]; [|discriminate].
    destruct (map_res _ ps) as [zs'|]; [|discriminate]. intros H. injection H as <-.
    destruct (IH zs' eq_refl) as [H1 H2]. split; [cbn; rewrite H1; reflexivity|].
    constructor; [|exact H2]. unfold ZScore.init in Ei. destruct (lb <=? 1)%Z; [discriminate|].
    injection Ei as <-. reflexivity.
Qed.

(** The steps of [main_start] that reach [gather]. *)
Lemma main_start_inv env admin now clock resp db db' s :
  main_start env admin now clock resp db = Some (db', Ok s) ->
  exists cfg pairs m, load_config env = Ok cfg /\ build_pairs cfg = Ok pairs /\
    discover (mkEnv (Runner.main_limiter (admin_answer env admin) now) None clock []) resp = Some (m, s_env s) /\
    s_pairs s = Runner.resolve_pairs m pairs /\ db' = Store.open_db db /\ map fst (s_tasks s) = s_pairs s.
Proof.
  unfold main_start.
  destruct (load_config env) as [cfg|] eqn:Ec; cbn [res_bind]; [|congruence].
  destruct (build_connectors cfg) as [conns|]; cbn [res_bind]; [|congruence].
  destruct (build_pairs cfg) as [pairs|] eqn:Ep; cbn [res_bind]; [|congruence].
  destruct (main_settings cfg) as [[[[lb ez] xz] pm]|]; cbn [res_bind]; [|congruence].
  destruct (discover _ resp) as [[m e1]|] eqn:Ed; [|congruence].
  destruct (make_windows lb _) as [zs|] eqn:Ez; cbn [res_bind]; [|congruence].
  intros H. injection H as <- <-. cbn. exists cfg, pairs, m.
  repeat split; try assumption. exact (proj1 (make_windows_Ok _ _ _ Ez)).
Qed.

(** The discovery's ["order_books"] are in the shared state at [gather]. *)
Lemma startup_cache env admin now clock data books db db' s :
  main_start env admin now clock (Ok data) db = Some (db', Ok s) ->
  dict_get data "order_books" (JArr []) = Ok books -> env_books (s_env s) = Some books.
Proof.
  intros Hs Hb. destruct (main_start_inv _ _ _ _ _ _ _ _ Hs) as (cfg & pairs & m & _ & _ & Hd & _).
  pose proof (discover_result _ _ _ _ Hd) as R. cbn [res_bind] in R. rewrite Hb in R. exact (proj1 R).
Qed.

(** The loop of [fetch_market_map] raises as soon as it meets a book
    whose [market_id] is [null]: [int(None)]. *)
Lemma mapping_loop_fails obs acc :
  Exists (fun ob => dict_get ob "market_id" JNull = Ok JNull) obs -> exists e, mapping_loop obs acc = Err e.
Proof.
  intros Hx. revert acc. induction Hx as [ob obs Hn | ob obs _ IH]; intros acc; cbn [mapping_loop];
    destruct (dict_get ob "symbol" JNull) as [sj|e]; cbn [res_bind]; eauto;
    destruct (str_symbol sj) as [sym|e]; cbn [res_bind]; eauto.
  - rewrite Hn. cbn. eauto.
  - destruct (dict_get ob "market_id" JNull) as [mj|e]; cbn [res_bind]; eauto.
    destruct (to_int mj) as [mid|e]; cbn [res_bind]; eauto.
Qed.

(** Replacing a task's state keeps the pair of every task. *)
Lemma insert_task_fst (tasks : list (Pair * PollState)) i p st st1 :
  tasks !! i = Some (p, st) -> forall j, fst <$> <[i := (p, st1)]> tasks !! j = fst <$> tasks !! j.
Proof.
  intros H j. destruct (decide (i = j)) as [<-|Hne].
  - rewrite list_lookup_insert_eq, H by (eapply lookup_lt_Some; exact H). reflexivity.
  - rewrite list_lookup_insert_ne by exact Hne. reflexivity.
Qed.

(** The tasks' turns are iterations of [Iteration.run_iterations], each
    of the pair of the task it names, and no task changes its pair. *)
Lemma run_tasks_steps `{PyMath} fc cfg tasks e turns outs tasks' e' :
  run_tasks fc cfg tasks e turns = Some (outs, tasks', e') ->
  (forall i, fst <$> tasks' !! i = fst <$> tasks !! i) /\
  exists steps, run_iterations fc cfg e steps = Some (outs, e') /\
    map (fun s => Some (step_pair s)) steps = map (turn_pair tasks) (map fst turns).
Proof.
  revert tasks e outs. induction turns as [|[t r] ts IH]; intros tasks e outs; cbn [run_tasks].
  - intros E. injection E as <- <- <-. split; [reflexivity|]. exists []. split; reflexivity.
  - destruct (tasks !! turn_task t) as [[p st]|] eqn:Ht; [|discriminate].
    destruct (iterate fc cfg p st e _ _ _) as [[[st1 out] e1]|] eqn:Ei; [|discriminate].
    destruct (run_tasks fc cfg _ e1 ts) as [[[outs1 tasks1] e2]|] eqn:Er; [|discriminate].
    intros E. injection E as <- <- <-. pose proof (insert_task_fst _ _ _ _ st1 Ht) as Hi.
    destruct (IH _ _ _ Er) as (Hf & steps & Hs & Hm).
    split; [intros i; rewrite Hf; apply Hi|].
    exists (mkStep p st (turn_a t) (turn_b t) r :: steps). split; [cbn; rewrite Ei, Hs; reflexivity|].
    cbn [map fst]. unfold turn_pair at 1. rewrite Ht, Hm. f_equal. apply map_ext. intros t'. apply Hi.
Qed.

(** An iteration on the database is an iteration with the result of its
    insert. *)
Lemma iterate_db_run `{PyMath} fc cfg p st e aa ab db st' out e' db' :
  iterate_db fc cfg p st e aa ab db = Some (st', out, e', db') ->
  exists r, iterate fc cfg p st e aa ab r = Some (st', out, e').
Proof.
  unfold iterate_db. destruct (iterate fc cfg p st e aa ab (Ok tt)) as [[[st1 out1] e1]|] eqn:E1; [|discriminate].
  destruct (out_stored out1) as [row|].
  - destruct (store_sample db row) as [db1|ex].
    + intros H1. injection H1 as <- <- <- _. eauto.
    + destruct (iterate fc cfg p st e aa ab (Err ex)) as [[[st2 out2] e2]|] eqn:E2; [|discriminate].
      intros H1. injection H1 as <- <- <- _. eauto.
  - intros H1. injection H1 as <- <- <- _. eauto.
Qed.

(** The tasks on the database are the tasks with the results of their
    inserts. *)
Lemma run_tasks_db_run `{PyMath} fc cfg tasks e db turns outs tasks' e' db' :
  run_tasks_db fc cfg tasks e db turns = Some (outs, tasks', e', db') ->
  exists trs, map fst trs = turns /\ run_tasks fc cfg tasks e trs = Some (outs, tasks', e').
Proof.
  revert tasks e db outs. induction turns as [|t ts IH]; intros tasks e db outs; cbn [run_tasks_db].
  - intros E. injection E as <- <- <- _. exists []. split; reflexivity.
  - destruct (tasks !! turn_task t) as [[p st]|] eqn:Ht; [|discriminate].
    destruct (iterate_db fc cfg p st e _ _ db) as [[[[st1 out] e1] db1]|] eqn:Ei; [|discriminate].
    destruct (run_tasks_db fc cfg _ e1 db1 ts) as [[[[outs1 tasks1] e2] db2]|] eqn:Er; [|discriminate].
    intros E. injection E as <- <- <- <-.
    destruct (iterate_db_run _ _ _ _ _ _ _ _ _ _ _ _ Ei) as [r Hr].
    destruct (IH _ _ _ _ Er) as (trs & Hf & Hs).
    exists ((t, r) :: trs). split; [cbn; rewrite Hf; reflexivity|]. cbn. rewrite Ht, Hr, Hs. reflexivity.
Qed.

Lemma filter_length_map {A B C} (f : A -> C) (g : B -> C) (h : C -> bool) l1 l2 :
  map f l1 = map g l2 -> length (List.filter (fun x => h (f x)) l1) = length (List.filter (fun y => h (g y)) l2).
Proof.
  revert l2. induction l1 as [|x l1 IH]; intros [|y l2] E; try discriminate; [reflexivity|].
  injection E as Exy E. cbn. rewrite Exy. destruct (h (g y)); cbn; rewrite (IH _ E); reflexivity.
Qed.

(** No turn names a task when there is none. *)
Lemma polling_turns_nil v turns : polling_turns v [] turns = 0%nat.
Proof. unfold polling_turns. induction turns as [|t ts IH]; [reflexivity | exact IH]. Qed.

(** The calls of the gathered tasks: at least one ["v:global"] call for
    every turn of a task polling [v]. *)
Lemma run_tasks_advances `{PyMath} fc cfg tasks e turns outs tasks' e' v :
  run_tasks fc cfg tasks e turns = Some (outs, tasks', e') ->
  exists tr, advances e e' tr /\ (polling_turns v tasks' (map fst turns) <= count_key (key v "global") tr)%nat.
Proof.
  intros E. destruct (run_tasks_steps _ _ _ _ _ _ _ _ E) as (Hf & steps & Hs & Hm).
  destruct (run_iterations_advances _ _ _ _ _ _ v Hs) as (tr & A & C). exists tr. split; [exact A|].
  assert (Hm' : map (fun s => Some (step_pair s)) steps = map (turn_pair tasks') (map fst turns))
    by (rewrite Hm; apply map_ext; intros t; unfold turn_pair; rewrite Hf; reflexivity).
  unfold polling_turns. rewrite <- (filter_length_map _ _ (fun o => match o with Some p => polls v p | None => false end) _ _ Hm').
  exact C.
Qed.

(** [main] from [gather] on: the tasks' calls extend the startup's state. *)
Lemma main_advances `{PyMath} env admin now clock resp db turns db' outs tasks' e' v :
  main env admin now clock resp db turns = Some (db', Ok (outs, tasks', e')) ->
  exists db1 s, main_start env admin now clock resp db = Some (db1, Ok s) /\
    exists tr, advances (s_env s) e' tr /\ (polling_turns v tasks' turns <= count_key (key v "global") tr)%nat.
Proof.
  unfold main. destruct (main_start _ _ _ _ _ _) as [[db1 [s|e]]|]; [|discriminate|discriminate].
  intros Hm. exists db1, s. destruct (s_tasks s) as [|z zs].
  - injection Hm as <- <- <- <-. split; [reflexivity|]. exists []. split; [apply advances_refl|].
    rewrite polling_turns_nil. lia.
  - destruct (task_settings env) as [ts|]; [|discriminate].
    destruct (loop_cfg ts _ _) as [[fc pc]|]; [|discriminate].
    destruct (run_tasks_db fc pc _ _ db1 turns) as [[[[outs1 tasks1] e1] db2]|] eqn:Er; [|discriminate].
    injection Hm as <- <- <- <-. split; [reflexivity|].
    destruct (run_tasks_db_run _ _ _ _ _ _ _ _ _ _ Er) as (trs & Hf & Hr).
    rewrite <- Hf. exact (run_tasks_advances _ _ _ _ _ _ _ _ v Hr).
Qed.

(** The database [open_db] leaves has the table and the rows it had. *)
Lemma open_db_table db : exists cs, Store.table (Store.open_db db) = Some cs /\ Store.rows (Store.open_db db) = Store.rows db.
Proof. unfold Store.open_db. destruct (Store.table db) as [cs|] eqn:E; cbn; [exists cs; rewrite E | exists Store.create_cols]; auto. Qed.

(** On an existing table the insert of a sample succeeds and appends its
    row. *)
Lemma store_sample_ok db cs s :
  Store.table db = Some cs ->
  exists cs', store_sample db s = Ok (Store.mkDb (Some (app cs cs')) (app (Store.rows db) [sample_row s]) (Store.admin db)).
Proof.
  intros Ht. destruct (StoreTheory.insert_spread_eq db cs (Store.VText (s_pair s)) (s_ts s) (s_price_a s) (s_price_b s)
    (s_spread s) (s_z s) (s_mean s) (s_std s) (sample_extras s) Ht) as (cs' & E & _).
  exists cs'. exact E.
Qed.

Lemma iterate_db_rows `{PyMath} fc cfg p st e aa ab db cs st' out e' db' :
  Store.table db = Some cs -> iterate_db fc cfg p st e aa ab db = Some (st', out, e', db') ->
  (exists cs', Store.table db' = Some (app cs cs')) /\ Store.rows db' = app (Store.rows db) (stored_rows [out]).
Proof.
  intros Ht. unfold iterate_db. destruct (iterate _ _ _ _ _ _ _ (Ok tt)) as [[[st1 out1] e1]|]; [|discriminate].
  destruct (out_stored out1) as [row|] eqn:Eo.
  - destruct (store_sample_ok db cs row Ht) as [cs' ->]. intros E. injection E as <- <- <- <-.
    split; [eauto|]. cbn. rewrite Eo. reflexivity.
  - intros E. injection E as <- <- <- <-. split; [exists []; rewrite app_nil_r; exact Ht|].
    cbn. rewrite Eo, app_nil_r. reflexivity.
Qed.

Lemma stored_rows_cons o outs : stored_rows (o :: outs) = app (stored_rows [o]) (stored_rows outs).
Proof. unfold stored_rows. cbn [flat_map]. rewrite app_nil_r. reflexivity. Qed.

(** The tasks on an existing table append exactly the rows of the
    samples they store. *)
Lemma run_tasks_db_rows `{PyMath} fc cfg tasks e db cs turns outs tasks' e' db' :
  Store.table db = Some cs -> run_tasks_db fc cfg tasks e db turns = Some (outs, tasks', e', db') ->
  Store.rows db' = app (Store.rows db) (stored_rows outs).
Proof.
  revert tasks e db cs outs. induction turns as [|t ts IH]; intros tasks e db cs outs Ht; cbn [run_tasks_db].
  - intros E. injection E as <- <- <- <-. rewrite app_nil_r. reflexivity.
  - destruct (tasks !! turn_task t) as [[p st]|]; [|discriminate].
    destruct (iterate_db _ _ _ _ _ _ _ db) as [[[[st1 out] e1] db1]|] eqn:Ei; [|discriminate].
    destruct (run_tasks_db _ _ _ e1 db1 ts) as [[[[outs1 tasks1] e2] db2]|] eqn:Er; [|discriminate].
    intros E. injection E as <- <- <- <-.
    destruct (iterate_db_rows _ _ _ _ _ _ _ _ _ _ _ _ _ Ht Ei) as [[cs' Ht1] R1].
    rewrite (IH _ _ _ _ _ Ht1 Er), R1, (stored_rows_cons out outs1), app_assoc. reflexivity.
Qed.

Lemma drop_slashes_spec l :
  exists k, l = app (repeat "/"%char k) (drop_slashes l) /\
    match drop_slashes l with c :: _ => Ascii.eqb c "/"%char = false | [] => True end.
Proof.
  induction l as [|c r (k & E & H)]; [exists O; split; [reflexivity | exact I]|]. cbn [drop_slashes].
  destruct (Ascii.eqb_spec c "/"%char) as [->|Hc].
  - exists (S k). split; [cbn; rewrite <- E; reflexivity | exact H].
  - exists O. split; [reflexivity|]. apply Ascii.eqb_neq. exact Hc.
Qed.

Lemma string_of_list_ascii_app l1 l2 :
  string_of_list_ascii (app l1 l2) = String.append (string_of_list_ascii l1) (string_of_list_ascii l2).
Proof. induction l1 as [|c r IH]; cbn; [reflexivity | rewrite IH; reflexivity]. Qed.

(** [rstrip("/")] leaves the host without trailing slashes. *)
Lemma rstrip_slash_spec h : stripped h (rstrip_slash h).
Proof.
  unfold stripped, rstrip_slash, ends_with_slash.
  destruct (drop_slashes_spec (rev (list_ascii_of_string h))) as (k & E & H).
  rewrite list_ascii_of_string_of_list_ascii, rev_involutive. split.
  - destruct (drop_slashes _) as [|c r]; [reflexivity | exact H].
  - exists k. unfold slashes. rewrite <- string_of_list_ascii_app, <- (rev_repeat k "/"%char), <- rev_app_distr, <- E,
      rev_involutive, string_of_list_ascii_of_string. reflexivity.
Qed.

(** C15: Functional: when [DEPTH_LEVELS] parses and the market-map
    request gets its token, [main] reaches [gather] with the database
    opened and the shared state the discovery left; the pair BTCUSDT
    whose Lighter leg BTC has the id the discovered map gives [BTC] (and
    none when the map lacks it), whose Aster leg BTCUSDT has none; one
    empty window of 60 for it; the settings 60, 2, 0.5 and 1000 ms; the
    Lighter connector on [LIGHTER_HOST] as given and the Aster
    connector on [ASTER_HOST] without its trailing slashes, both named,
    with the config [{}], on the shared limiter. *)
Theorem main_start_spec env admin now clock resp db d m e1 :
  parse_int (getenv_d env "DEPTH_LEVELS" "5") = Some d ->
  discover (mkEnv (Runner.main_limiter (admin_answer env admin) now) None clock []) resp = Some (m, e1) ->
  exists s, main_start env admin now clock resp db = Some (Store.open_db db, Ok s) /\
    s_env s = e1 /\
    s_pairs s = [mkPair "BTCUSDT" (mkMarket "lighter" "BTC" (Runner.map_get m "BTC")) (mkMarket "aster" "BTCUSDT" None)] /\
    s_tasks s = map (fun p => (p, mkRolling 60 [])) (s_pairs s) /\
    (s_lookback s, s_enter_z s, s_exit_z s, s_poll_ms s) = (60%Z, 2, 1 # 2, 1000%Z) /\
    exists cl ca, s_conns s = [("lighter", cl); ("aster", ca)] /\
      c_base cl = mkConnBase "lighter" (JObj []) true /\ c_base ca = mkConnBase "aster" (JObj []) true /\
      c_host cl = getenv_d env "LIGHTER_HOST" "https://mainnet.zklighter.elliot.ai" /\
      stripped (getenv_d env "ASTER_HOST" "https://fapi.asterdex.com") (c_host ca).
Proof.
  intros Hd Hdisc. unfold main_start. rewrite load_config_cases, Hd. cbn -[discover getenv_d Runner.resolve_pair rstrip_slash].
  rewrite Hdisc. eexists. split; [reflexivity|]. cbn -[getenv_d rstrip_slash].
  split; [reflexivity|].
  split; [unfold Runner.resolve_pair, Runner.resolve_leg; cbn; destruct (Runner.map_get m "BTC"); reflexivity|].
  do 2 (split; [reflexivity|]). do 2 eexists. split; [reflexivity|].
  do 3 (split; [reflexivity|]). apply rstrip_slash_spec.
Qed.

(** C16: Composition with the database: every insert of the gathered
    tasks succeeds on the table [open_db] created or kept, and after any
    run the spreads table holds the rows it had followed by exactly the
    rows of the samples the iterations stored, in the order of the
    turns: nothing else is written and no stored sample is lost. *)
Theorem main_stores_samples `{PyMath} env admin now clock resp db turns db' outs tasks' e' :
  main env admin now clock resp db turns = Some (db', Ok (outs, tasks', e')) ->
  Store.rows db' = app (Store.rows db) (stored_rows outs).
Proof.
  unfold main. destruct (main_start _ _ _ _ _ _) as [[db1 [s|e]]|] eqn:Hs; [|discriminate|discriminate].
  destruct (main_start_inv _ _ _ _ _ _ _ _ Hs) as (_ & _ & _ & _ & _ & _ & _ & -> & _).
  destruct (open_db_table db) as (cs & Ht & Hr). destruct (s_tasks s) as [|z zs].
  - intros E. injection E as <- <- <- <-. rewrite Hr, app_nil_r. reflexivity.
  - destruct (task_settings env) as [ts|]; [|discriminate].
    destruct (loop_cfg ts _ _) as [[fc pc]|]; [|discriminate].
    destruct (run_tasks_db fc pc _ _ _ turns) as [[[[outs1 tasks1] e1] db2]|] eqn:Er; [|discriminate].
    intros E. injection E as <- <- <- <-. rewrite <- Hr. exact (run_tasks_db_rows _ _ _ _ _ _ _ _ _ _ _ Ht Er).
Qed.

(** Error: when [int()] rejects [DEPTH_LEVELS], [main] raises
    [ValueError] before any request and leaves the database file as it
    was (no table created), whatever the tasks would have done. *)
Theorem main_bad_depth `{PyMath} env admin now clock resp db turns :
  parse_int (getenv_d env "DEPTH_LEVELS" "5") = None ->
  main env admin now clock resp db turns = Some (db, Err ValueError).
Proof. intros Hd. unfold main, main_start. rewrite load_config_cases, Hd. reflexivity. Qed.

(** C23: Composition through the shared connector: the discovery fills
    Lighter's [_books_cache] for the whole run.  When [main] has run its
    tasks for any number of turns after a market-map answer with
    ["order_books"], the cache still holds those books, so the next fee
    lookup of any task, for any symbol and whatever the venue would
    answer, is served from them without a request, a token or a clock
    reading. *)
Theorem discovery_cache_shared `{PyMath} env admin now clock data books db turns db' outs tasks' e' :
  main env admin now clock (Ok data) db turns = Some (db', Ok (outs, tasks', e')) ->
  dict_get data "order_books" (JArr []) = Ok books ->
  env_books e' = Some books /\
  forall symbol r, lighter_get_fees e' symbol r = Some (fees_of_cache (Some books) symbol, e').
Proof.
  intros Hm Hb. destruct (main_advances _ _ _ _ _ _ _ _ _ _ _ "lighter" Hm) as (db1 & s & Hs & tr & (_ & _ & _ & B) & _).
  assert (Hc : env_books e' = Some books) by exact (B _ (startup_cache _ _ _ _ _ _ _ _ _ Hs Hb)).
  split; [exact Hc|]. intros symbol r. unfold lighter_get_fees. rewrite Hc. reflexivity.
Qed.

(** C24: Spec gap: the discovery is all or nothing.  One order book whose
    [market_id] is [null] makes [fetch_market_map] raise, so [main]
    reaches [gather] with the books cached but with the empty map: the
    BTCUSDT pair keeps its Lighter leg without market id, although the
    cached books give BTC an id, and every mid-price read of that leg
    raises. *)
Theorem discovery_all_or_nothing env admin now clock obs db db' s :
  Exists (fun ob => dict_get ob "market_id" JNull = Ok JNull) obs ->
  main_start env admin now clock (Ok (JObj [("order_books", JArr obs)])) db = Some (db', Ok s) ->
  env_books (s_env s) = Some (JArr obs) /\ s_pairs s = [btc_pair].
Proof.
  intros Hx Hs. destruct (main_start_inv _ _ _ _ _ _ _ _ Hs) as (cfg & pairs & m & Hc & Hp & Hd & Hps & _).
  pose proof (discover_result _ _ _ _ Hd) as R. cbn [res_bind dict_get] in R.
  change (assoc "order_books" [("order_books", JArr obs)]) with (Some (JArr obs)) in R.
  destruct R as [Hb Hm]. split; [exact Hb|].
  unfold market_map_loop in Hm. cbn [py_iter res_bind] in Hm.
  destruct (mapping_loop_fails obs [] Hx) as [e He]. rewrite He in Hm. subst m.
  destruct (configured_pairs env cfg [] Hc) as [Hb' Hr]. rewrite Hp in Hb'. injection Hb' as ->.
  rewrite Hps, Hr. reflexivity.
Qed.

(** C14: Safety of the whole program: when the panel's admin answer gives
    ["lighter:global"] a bucket, [main]'s discovery request and the
    turns of its tasks that read a Lighter mid-price together take at
    most that bucket's capacity plus its refill rate times the time
    elapsed. *)
Theorem main_polling_bounded `{PyMath} env admin now clock resp db turns db' outs tasks' e' id b :
  dict (Runner.main_limiter (admin_answer env admin) now) !! key "lighter" "global" = Some id ->
  heap (Runner.main_limiter (admin_answer env admin) now) !! id = Some b -> bucket_ok b ->
  main env admin now clock resp db turns = Some (db', Ok (outs, tasks', e')) ->
  exists b', heap (env_lim e') !! id = Some b' /\
    inject_Z (Z.of_nat (S (polling_turns "lighter" tasks' turns)))
      <= inject_Z (capacity b) + refill_rate b * (last b' - last b).
Proof.
  intros Hk Hb Hok Hm. destruct (main_advances _ _ _ _ _ _ _ _ _ _ _ "lighter" Hm) as (db1 & s & Hs & tr & A & C).
  destruct (main_start_inv _ _ _ _ _ _ _ _ Hs) as (_ & _ & m & _ & _ & Hd & _).
  destruct (discover_advances (mkEnv _ None clock []) _ _ _ eq_refl Hd) as (n0 & w0 & A0).
  destruct (advances_bounded (mkEnv _ None clock []) _ _ _ _ _ (main_limiter_wf _ _) Hk Hb Hok
              (advances_trans _ _ _ _ _ A0 A)) as (b' & Hb' & G).
  exists b'. split; [exact Hb'|].
  assert (inject_Z (Z.of_nat (S (polling_turns "lighter" tasks' turns)))
          <= inject_Z (Z.of_nat (count_key (key "lighter" "global") ([("lighter", "global", 1%Z, n0, w0)] ++ tr))))
    as H0 by (assert (E1 : count_key (key "lighter" "global") [("lighter", "global", 1%Z, n0, w0)] = 1%nat) by reflexivity;
        rewrite <- Zle_Qle, count_key_app, E1; lia).
  exact (Qle_trans _ _ _ H0 G).
Qed.

(** Witnesses. *)

Lemma main_start_spec_witness :
  parse_int (getenv_d env_creds "DEPTH_LEVELS" "5") = Some 10%Z /\
  match discover (mkEnv (Runner.main_limiter (admin_answer env_creds admin_lighter) 0) None [(0, [])] []) (Ok books_ok) with
  | Some (m, e1) =>
      m = [("ETH", 1%Z); ("BTC", 0%Z)] /\
      exists s, main_start env_creds admin_lighter 0 [(0, [])] (Ok books_ok) db0 = Some (Store.open_db db0, Ok s) /\
        s_pairs s = [mkPair "BTCUSDT" (mkMarket "lighter" "BTC" (Some 0%Z)) (mkMarket "aster" "BTCUSDT" None)]
  | None => False
  end.
Proof.
  assert (Hd : parse_int (getenv_d env_creds "DEPTH_LEVELS" "5") = Some 10%Z) by reflexivity.
  split; [exact Hd|].
  destruct (discover _ (Ok books_ok)) as [[m e1]|] eqn:Hm; [|vm_compute in Hm; discriminate].
  assert (Em : m = [("ETH", 1%Z); ("BTC", 0%Z)]) by (vm_compute in Hm; congruence).
  split; [exact Em|].
  destruct (main_start_spec _ _ _ _ _ db0 _ _ _ Hd Hm) as (s & Hs & _ & Hp & _). exists s.
  split; [exact Hs | rewrite Hp, Em; reflexivity].
Defined.

Lemma main_bad_depth_witness :
  parse_int (getenv_d env_bad_depth "DEPTH_LEVELS" "5") = None /\
  @main qmath env_bad_depth admin_lighter 0 [] (Ok books_ok) db0 [turn_err] = Some (db0, Err ValueError).
Proof.
  assert (Hd : parse_int (getenv_d env_bad_depth "DEPTH_LEVELS" "5") = None) by reflexivity.
  split; [exact Hd | exact (@main_bad_depth qmath _ _ _ _ _ _ _ Hd)].
Defined.

Lemma discovery_cache_shared_witness :
  match @main qmath env_admin admin_lighter 0 [(0, []); (0, []); (0, [])] (Ok books_ok) db0 [turn_err] with
  | Some (db', Ok (outs, tasks', e')) =>
      dict_get books_ok "order_books" (JArr []) = Ok (JArr [book "ETH" (JNum 1); book "BTC" (JNum 0)]) /\
      env_books e' = Some (JArr [book "ETH" (JNum 1); book "BTC" (JNum 0)]) /\
      forall symbol r, lighter_get_fees e' symbol r =
        Some (fees_of_cache (Some (JArr [book "ETH" (JNum 1); book "BTC" (JNum 0)])) symbol, e')
  | _ => False
  end.
Proof.
  assert (Hb : dict_get books_ok "order_books" (JArr []) = Ok (JArr [book "ETH" (JNum 1); book "BTC" (JNum 0)]))
    by reflexivity.
  destruct (main _ _ _ _ _ _ _) as [[db' [[[outs tasks'] e']|e]]|] eqn:Hm; [|vm_compute in Hm; discriminate..].
  split; [exact Hb | exact (@discovery_cache_shared qmath _ _ _ _ _ _ _ _ _ _ _ _ Hm Hb)].
Defined.

Lemma discovery_all_or_nothing_witness :
  Exists (fun ob => dict_get ob "market_id" JNull = Ok JNull) books_bad /\
  match main_start env_creds (Err HTTPError) 0 [(0, [])] (Ok (JObj [("order_books", JArr books_bad)])) db0 with
  | Some (db', Ok s) => env_books (s_env s) = Some (JArr books_bad) /\ s_pairs s = [btc_pair]
  | _ => False
  end.
Proof.
  assert (Hx : Exists (fun ob => dict_get ob "market_id" JNull = Ok JNull) books_bad)
    by (apply Exists_cons_tl, Exists_cons_hd; reflexivity).
  split; [exact Hx|].
  destruct (main_start _ _ _ _ _ _) as [[db' [s|e]]|] eqn:Hs; [|vm_compute in Hs; discriminate..].
  exact (discovery_all_or_nothing _ _ _ _ _ _ _ _ Hx Hs).
Defined.

Lemma main_polling_bounded_witness :
  dict (Runner.main_limiter (admin_answer env_admin admin_lighter) 0) !! key "lighter" "global" = Some 1%positive /\
  heap (Runner.main_limiter (admin_answer env_admin admin_lighter) 0) !! 1%positive = Some (new_bucket 2 1 0) /\
  bucket_ok (new_bucket 2 1 0) /\
  match @main qmath env_admin admin_lighter 0 [(0, []); (0, []); (0, [])] (Ok books_ok) db0 [turn_err] with
  | Some (db', Ok (outs, tasks', e')) =>
      polling_turns "lighter" tasks' [turn_err] = 1%nat /\
      exists b', heap (env_lim e') !! 1%positive = Some b' /\
        inject_Z (Z.of_nat (S (polling_turns "lighter" tasks' [turn_err])))
          <= inject_Z (capacity (new_bucket 2 1 0)) + refill_rate (new_bucket 2 1 0) * (last b' - last (new_bucket 2 1 0))
  | _ => False
  end.
Proof.
  assert (Hk : dict (Runner.main_limiter (admin_answer env_admin admin_lighter) 0) !! key "lighter" "global"
               = Some 1%positive) by (vm_compute; reflexivity).
  assert (Hb : heap (Runner.main_limiter (admin_answer env_admin admin_lighter) 0) !! 1%positive
               = Some (new_bucket 2 1 0)) by (vm_compute; reflexivity).
  assert (Hok : bucket_ok (new_bucket 2 1 0)) by (unfold bucket_ok; vm_compute; repeat split; discriminate).
  split; [exact Hk|]. split; [exact Hb|]. split; [exact Hok|].
  destruct (main _ _ _ _ _ _ _) as [[db' [[[outs tasks'] e']|e]]|] eqn:E; [|vm_compute in E; discriminate..].
  split; [vm_compute in E; injection E as _ _ <- _; reflexivity|].
  exact (@main_polling_bounded qmath _ _ _ _ _ _ _ _ _ _ _ _ _ Hk Hb Hok E).
Defined.

Lemma main_stores_samples_witness :
  match @main qmath env_admin admin_lighter 0 [(0, []); (0, []); (0, [])] (Ok books_ok) db0 [turn_err] with
  | Some (db', Ok (outs, tasks', e')) => Store.rows db' = app (Store.rows db0) (stored_rows outs)
  | _ => False
  end.
Proof.
  destruct (main _ _ _ _ _ _ _) as [[db' [[[outs tasks'] e']|e]]|] eqn:Hm; [|vm_compute in Hm; discriminate..].
  exact (@main_stores_samples qmath _ _ _ _ _ _ _ _ _ _ _ Hm).
Defined.

End MainTheory.
